(** * Workflow-graph core of n8n-flow-maker-rag: validators, quality scorer,
      refinement pipeline and rule-based graph builder.

    The Python sources are embedded shallowly.  A JSON-like [value] type
    stands for the dynamically typed dictionaries the services pass
    around; Python exceptions are made explicit by the [result] monad;
    [uuid.uuid4()] draws from an explicit supply of identifiers.

    Conventions of the embedding:
    - a Python [dict] is an association list in insertion order, looked
      up by its first matching key;
    - strings are byte strings ([Stdlib.Strings.String]); [lower],
      [title] and [split] follow Python's on ASCII text (the letters
      A-Z and a-z, the blanks 9-13, 28-31 and 32).  Python also cases
      and splits at characters outside ASCII, which the model does not:
      the title case and the words of a text enter only the names
      written into a graph (its own, that of a credential), and no
      statement below depends on them;
    - JSON numbers are integers ([Z]); the quotient of two list lengths
      (Python [a / b], a float) is the exact rational [a # b].  Division
      of doubles is correctly rounded and monotone, and every threshold
      used below (0.2 ... 0.9) is further from any other quotient of
      lengths below 10^14 than one unit in the last place, so the
      comparisons agree.  Where a quotient is printed, the roundings of
      the doubles are followed ([double_of], [percent0]);
    - a Python [set] is kept in insertion order.  Python iterates a set
      of strings in an order that changes from run to run, so where the
      code lists the elements of a set the model shows one of the
      possible orders, and nothing below is stated of that order. *)

From Stdlib Require Import ZArith List String Ascii Bool Lia QArith.
From Stdlib Require Import Decimal DecimalString.
From Stdlib Require DecimalNat DecimalFacts.
Import ListNotations.

Set Warnings "-register-all".
Local Close Scope Q_scope.
Local Open Scope string_scope.
Local Open Scope list_scope.

(** String concatenation, kept apart from list concatenation [++]. *)
Infix "+++" := String.append (at level 60, right associativity).

(** ** Python values and exceptions *)

Inductive value : Type :=
| VNone : value
| VBool : bool -> value
| VInt : Z -> value
| VStr : string -> value
| VList : list value -> value
| VDict : list (string * value) -> value.

Definition dict := list (string * value).

Inductive exn : Type :=
| KeyError (key : string)
| TypeError
| AttributeError
| IndexError.

Inductive result (A : Type) : Type :=
| Ok (a : A)
| Raise (e : exn).

Arguments Ok {A} a.
Arguments Raise {A} e.

Definition bind {A B : Type} (m : result A) (f : A -> result B) : result B :=
  match m with
  | Ok a => f a
  | Raise e => Raise e
  end.

Declare Scope py_scope.
Delimit Scope py_scope with py.
Notation "x <- m ;; k" := (bind m (fun x => k))
  (at level 61, m at next level, right associativity) : py_scope.
Notation "' pat <- m ;; k" := (bind m (fun x => match x with pat => k end))
  (at level 61, pat pattern, m at next level, right associativity) : py_scope.
Local Open Scope py_scope.

Definition is_ok {A : Type} (m : result A) : bool :=
  match m with Ok _ => true | Raise _ => false end.

(** [for x in xs: ...] with a body that may raise: the first exception
    aborts the loop. *)
Fixpoint mapM {A B : Type} (f : A -> result B) (xs : list A) : result (list B) :=
  match xs with
  | [] => Ok []
  | x :: tl => y <- f x ;; ys <- mapM f tl ;; Ok (y :: ys)
  end.

Fixpoint foldM {A S : Type} (f : S -> A -> result S) (xs : list A) (s : S)
  : result S :=
  match xs with
  | [] => Ok s
  | x :: tl => s' <- f s x ;; foldM f tl s'
  end.

(** ** Strings *)

Definition contains (needle hay : string) : bool :=
  match String.index 0 needle hay with
  | Some _ => true
  | None => false
  end.

Definition startswith (s p : string) : bool := String.prefix p s.

Definition endswith (s suffix : string) : bool :=
  let n := String.length s in
  let m := String.length suffix in
  if Nat.leb m n then String.eqb (String.substring (n - m) m s) suffix
  else false.

Definition is_upper (c : ascii) : bool :=
  let n := nat_of_ascii c in Nat.leb 65 n && Nat.leb n 90.

Definition is_lower (c : ascii) : bool :=
  let n := nat_of_ascii c in Nat.leb 97 n && Nat.leb n 122.

Definition to_lower (c : ascii) : ascii :=
  if is_upper c then ascii_of_nat (nat_of_ascii c + 32) else c.

Definition to_upper (c : ascii) : ascii :=
  if is_lower c then ascii_of_nat (nat_of_ascii c - 32) else c.

Fixpoint lower (s : string) : string :=
  match s with
  | EmptyString => EmptyString
  | String c tl => String (to_lower c) (lower tl)
  end.

(** [str.title()]: a letter that follows a letter is lowered, any other
    letter is raised. *)
Fixpoint title_from (prev_cased : bool) (s : string) : string :=
  match s with
  | EmptyString => EmptyString
  | String c tl =>
      let cased := is_upper c || is_lower c in
      String (if prev_cased then to_lower c else to_upper c)
             (title_from cased tl)
  end.

Definition title (s : string) : string := title_from false s.

Definition is_space (c : ascii) : bool :=
  let n := nat_of_ascii c in
  Nat.eqb n 32 || (Nat.leb 9 n && Nat.leb n 13) || (Nat.leb 28 n && Nat.leb n 31).

(** [str.split()] without arguments: the maximal runs of non-blank
    characters. *)
Fixpoint split_ws (cur : string) (s : string) : list string :=
  match s with
  | EmptyString => if String.eqb cur "" then [] else [cur]
  | String c tl =>
      if is_space c
      then (if String.eqb cur "" then split_ws "" tl else cur :: split_ws "" tl)
      else split_ws (cur +++ String c "") tl
  end.

Definition split (s : string) : list string := split_ws "" s.

Fixpoint join (sep : string) (xs : list string) : string :=
  match xs with
  | [] => ""
  | [x] => x
  | x :: tl => x +++ sep +++ join sep tl
  end.

Definition str_of_nat (n : nat) : string :=
  NilZero.string_of_uint (Nat.to_uint n).

Definition str_of_Z (z : Z) : string :=
  NilZero.string_of_int (Z.to_int z).

(** ** Dictionaries and the dynamically typed operations used by the code *)

Fixpoint dict_get (d : dict) (k : string) : option value :=
  match d with
  | [] => None
  | (k', v) :: tl => if String.eqb k k' then Some v else dict_get tl k
  end.

Definition dict_has (d : dict) (k : string) : bool :=
  match dict_get d k with Some _ => true | None => false end.

(** [d[k] = v]: an existing key keeps its place, a new key goes last. *)
Fixpoint dict_set (d : dict) (k : string) (v : value) : dict :=
  match d with
  | [] => [(k, v)]
  | (k', v') :: tl =>
      if String.eqb k k' then (k', v) :: tl else (k', v') :: dict_set tl k v
  end.

(** [d.get(k, default)] on a known dictionary. *)
Definition dict_get_default (d : dict) (k : string) (default : value) : value :=
  match dict_get d k with Some v => v | None => default end.

(** [bool(v)]. *)
Definition truthy (v : value) : bool :=
  match v with
  | VNone => false
  | VBool b => b
  | VInt z => negb (Z.eqb z 0)
  | VStr s => negb (String.eqb s "")
  | VList l => match l with [] => false | _ => true end
  | VDict d => match d with [] => false | _ => true end
  end.

(** [v == "s"] for a string literal. *)
Definition eq_str (v : value) (s : string) : bool :=
  match v with
  | VStr s' => String.eqb s' s
  | _ => false
  end.

(** ["s" in v]. *)
Definition py_in (s : string) (v : value) : result bool :=
  match v with
  | VDict d => Ok (dict_has d s)
  | VList l => Ok (existsb (fun x => eq_str x s) l)
  | VStr h => Ok (contains s h)
  | _ => Raise TypeError
  end.

(** [v.get(k, default)]: only dictionaries have the method. *)
Definition py_get (v : value) (k : string) (default : value) : result value :=
  match v with
  | VDict d => Ok (dict_get_default d k default)
  | _ => Raise AttributeError
  end.

(** [v[k]] for a string key. *)
Definition py_getitem (v : value) (k : string) : result value :=
  match v with
  | VDict d =>
      match dict_get d k with
      | Some x => Ok x
      | None => Raise (KeyError k)
      end
  | _ => Raise TypeError
  end.

(** [v[k] = x] for a string key. *)
Definition py_setitem (v : value) (k : string) (x : value) : result value :=
  match v with
  | VDict d => Ok (VDict (dict_set d k x))
  | _ => Raise TypeError
  end.

(** The items visited by [for x in v] (and counted by [len(v)]). *)
Definition py_iter (v : value) : result (list value) :=
  match v with
  | VList l => Ok l
  | VDict d => Ok (map (fun kv => VStr (fst kv)) d)
  | VStr s => Ok (map (fun c => VStr (String c "")) (list_ascii_of_string s))
  | _ => Raise TypeError
  end.

Definition py_len (v : value) : result nat :=
  l <- py_iter v ;; Ok (List.length l).

(** String methods exist on strings only. *)
Definition py_endswith (v : value) (suffix : string) : result bool :=
  match v with
  | VStr s => Ok (endswith s suffix)
  | _ => Raise AttributeError
  end.

Definition py_lower (v : value) : result string :=
  match v with
  | VStr s => Ok (lower s)
  | _ => Raise AttributeError
  end.

Definition py_title (v : value) : result string :=
  match v with
  | VStr s => Ok (title s)
  | _ => Raise AttributeError
  end.

Definition hashable (v : value) : bool :=
  match v with
  | VList _ | VDict _ => false
  | _ => true
  end.

(** [==] on hashable values; [True == 1] and [False == 0] in Python. *)
Definition scalar_eqb (a b : value) : bool :=
  match a, b with
  | VNone, VNone => true
  | VStr x, VStr y => String.eqb x y
  | VInt x, VInt y => Z.eqb x y
  | VBool x, VBool y => Bool.eqb x y
  | VBool x, VInt y | VInt y, VBool x => Z.eqb (if x then 1 else 0) y
  | _, _ => false
  end.

(** Sets of hashable values, kept in insertion order without duplicates. *)
Definition pyset := list value.

Definition set_mem (x : value) (s : pyset) : bool :=
  existsb (scalar_eqb x) s.

Definition set_add (s : pyset) (x : value) : result pyset :=
  if hashable x
  then Ok (if set_mem x s then s else s ++ [x])
  else Raise TypeError.

Definition set_of_list (xs : list value) : result pyset :=
  foldM set_add xs [].

Definition set_diff (a b : pyset) : pyset :=
  filter (fun x => negb (set_mem x b)) a.

(** ** Typed dictionaries with string keys *)

Fixpoint assoc {A : Type} (l : list (string * A)) (k : string) : option A :=
  match l with
  | [] => None
  | (k', a) :: tl => if String.eqb k k' then Some a else assoc tl k
  end.

Definition assoc_has {A : Type} (l : list (string * A)) (k : string) : bool :=
  match assoc l k with Some _ => true | None => false end.

Fixpoint assoc_set {A : Type} (l : list (string * A)) (k : string) (a : A)
  : list (string * A) :=
  match l with
  | [] => [(k, a)]
  | (k', a') :: tl =>
      if String.eqb k k' then (k', a) :: tl else (k', a') :: assoc_set tl k a
  end.

(** [d[k]]. *)
Definition assoc_getitem {A : Type} (l : list (string * A)) (k : string)
  : result A :=
  match assoc l k with
  | Some a => Ok a
  | None => Raise (KeyError k)
  end.

(** ** node_schemas.py: the node type registry and [validate_node] *)

Module NodeSchemas.

(** One entry of [_load_schemas].  A key the entry does not carry reads
    as falsy through [schema.get]: [false] for the two flags, [None] for
    [credential_type].  [optional] and [typical_config] are never read by
    the validators and only [optional] is kept. *)
Record schema : Type := mk_schema {
  required : list string;
  optional : list string;
  requires_credentials : bool;
  credential_type : option string;
  error_handling_recommended : bool
}.

Definition schemas : list (string * schema) :=
  [ ("n8n-nodes-base.httpRequest",
     mk_schema ["method"; "url"]
       ["authentication"; "options"; "bodyParametersJson"; "headerParametersJson"]
       false None true);
    ("@blotato/n8n-nodes-blotato.blotato",
     mk_schema ["resource"] ["operation"; "mediaUrl"; "caption"; "platform"]
       true (Some "blotatoApi") true);
    ("n8n-nodes-base.openAi",
     mk_schema ["resource"; "operation"] ["options"; "prompt"; "model"]
       true (Some "openAiApi") false);
    ("@n8n/n8n-nodes-langchain.agent",
     mk_schema ["promptType"] ["text"; "options"] false None false);
    ("@n8n/n8n-nodes-langchain.chatOpenAi",
     mk_schema [] ["model"; "temperature"; "maxTokens"]
       true (Some "openAiApi") false);
    ("n8n-nodes-base.if",
     mk_schema ["conditions"] ["options"] false None false);
    ("n8n-nodes-base.switch",
     mk_schema ["mode"] ["rules"; "output"] false None false);
    ("n8n-nodes-base.merge",
     mk_schema [] ["mode"; "options"] false None false);
    ("n8n-nodes-base.set",
     mk_schema [] ["values"; "options"] false None false);
    ("n8n-nodes-base.code",
     mk_schema ["mode"] ["jsCode"; "pythonCode"] false None false);
    ("n8n-nodes-base.function",
     mk_schema ["functionCode"] [] false None false);
    ("n8n-nodes-base.googleSheets",
     mk_schema ["resource"; "operation"] ["sheetId"; "range"; "documentId"]
       true (Some "googleSheetsOAuth2Api") true);
    ("n8n-nodes-base.gmail",
     mk_schema ["resource"; "operation"] ["sendTo"; "subject"; "message"]
       true (Some "gmailOAuth2") true);
    ("n8n-nodes-base.slack",
     mk_schema ["resource"; "operation"] ["channel"; "text"; "username"]
       true (Some "slackApi") true);
    ("n8n-nodes-base.postgres",
     mk_schema ["operation"] ["table"; "query"; "columns"]
       true (Some "postgres") true);
    ("n8n-nodes-base.mysql",
     mk_schema ["operation"] ["table"; "query"; "columns"]
       true (Some "mySql") true);
    ("n8n-nodes-base.webhook",
     mk_schema [] ["path"; "httpMethod"; "responseMode"] false None false);
    ("n8n-nodes-base.scheduleTrigger",
     mk_schema [] ["rule"; "triggerTimes"] false None false);
    ("n8n-nodes-base.manualTrigger",
     mk_schema [] [] false None false);
    ("n8n-nodes-base.stickyNote",
     mk_schema [] ["content"; "height"; "width"] false None false);
    ("n8n-nodes-base.wait",
     mk_schema ["resume"] ["amount"; "unit"] false None false);
    ("n8n-nodes-base.errorTrigger",
     mk_schema [] [] false None false);
    ("@n8n/n8n-nodes-langchain.toolHackerNews",
     mk_schema [] ["operation"; "articleId"] false None false);
    ("n8n-nodes-base.perplexity",
     mk_schema ["operation"] ["prompt"; "model"]
       true (Some "perplexityApi") false) ].

(** [self.schemas.get(node_type)]: the key is hashed first, so a list or
    a dictionary raises; a key that is not a string finds nothing. *)
Definition schemas_get (node_type : value) : result (option schema) :=
  match node_type with
  | VStr s => Ok (assoc schemas s)
  | VList _ | VDict _ => Raise TypeError
  | _ => Ok None
  end.

(** The type tag is in the registry. *)
Definition registered (node_type : value) : bool :=
  match schemas_get node_type with
  | Ok (Some _) => true
  | _ => false
  end.

(** [str(v)] inside an f-string, for the hashable values that reach one. *)
Definition py_str (v : value) : string :=
  match v with
  | VNone => "None"
  | VBool true => "True"
  | VBool false => "False"
  | VInt z => str_of_Z z
  | VStr s => s
  | VList _ | VDict _ => ""
  end.

Record node_validation : Type := mk_node_validation {
  valid : bool;
  errors : list string;
  warnings : list string
}.

(** The loop over [schema.get('required', [])]. *)
Definition missing_required (params : value) (req : list string)
  : result (list string) :=
  foldM (fun errs req_param =>
           present <- py_in req_param params ;;
           Ok (if present then errs
               else errs ++ ["Missing required parameter: " +++ req_param]))
        req [].

Definition nonempty {A : Type} (l : list A) : bool :=
  match l with [] => false | _ => true end.

Definition validate_node (node : value) : result node_validation :=
  node_type <- py_get node "type" VNone ;;
  schema <- schemas_get node_type ;;
  match schema with
  | None =>
      Ok (mk_node_validation true []
            ["No schema found for node type: " +++ py_str node_type])
  | Some schema =>
      params <- py_get node "parameters" (VDict []) ;;
      errors1 <- missing_required params (required schema) ;;
      let errors2 :=
        if nonempty (required schema) && negb (truthy params)
        then errors1 ++ ["Parameters object is empty but required parameters are needed"]
        else errors1 in
      errors3 <-
        (if requires_credentials schema then
           has <- py_in "credentials" node ;;
           if negb has then Ok (errors2 ++ ["Missing credentials configuration"])
           else
             match credential_type schema with
             | Some cred_type =>
                 creds <- py_getitem node "credentials" ;;
                 bound <- py_in cred_type creds ;;
                 Ok (if bound then errors2
                     else errors2 ++ ["Missing credential type: " +++ cred_type])
             | None => Ok errors2
             end
         else Ok errors2) ;;
      warnings <-
        (if error_handling_recommended schema then
           a <- py_in "onError" node ;;
           if a then Ok []
           else
             b <- py_in "retryOnFail" node ;;
             Ok (if b then []
                 else ["Error handling recommended but not configured"])
         else Ok []) ;;
      Ok (mk_node_validation (Nat.eqb (List.length errors3) 0) errors3 warnings)
  end.

(** [self.schemas.get(node_type, {})] followed by a [get] on the entry. *)
Definition requires_credentials_of (node_type : value) : result bool :=
  schema <- schemas_get node_type ;;
  Ok (match schema with Some s => requires_credentials s | None => false end).

Definition get_credential_type (node_type : value) : result (option string) :=
  schema <- schemas_get node_type ;;
  Ok (match schema with Some s => credential_type s | None => None end).

Definition needs_error_handling (node_type : value) : result bool :=
  schema <- schemas_get node_type ;;
  Ok (match schema with Some s => error_handling_recommended s | None => false end).

End NodeSchemas.

(** ** config.py: QUALITY_CONFIG *)

Module Config.

Definition min_node_count : list (string * Z) :=
  [("simple", 15%Z); ("standard", 25%Z); ("complex", 35%Z)].
Definition min_quality_score : Z := 80.
Definition min_error_handling_percentage : Q := 3 # 10.
Definition min_sticky_notes : nat := 5.
Definition max_generation_attempts : nat := 3.

End Config.

(** ** quality_validator.py: the seven checks, the score and the feedback *)

Module QualityValidator.

Import NodeSchemas.

Definition sticky_type : string := "n8n-nodes-base.stickyNote".

Definition min_node_count : list (string * Z) :=
  [("simple", 15%Z); ("standard", 25%Z); ("complex", 35%Z)].
Definition min_error_handling_percentage : Q := 3 # 10.
Definition min_sticky_notes : nat := 5.
Definition min_quality_score : Z := 80.

(** [workflow.get('nodes', [])]. *)
Definition get_nodes (workflow : dict) : value :=
  dict_get_default workflow "nodes" (VList []).

(** The float [a / b] of two lengths, [b] positive. *)
Definition ratio (a b : nat) : Q := Z.of_nat a # Pos.of_nat b.

(** [p >= t]. *)
Definition ge (p t : Q) : bool := Qle_bool t p.

(** The integer nearest to [n / d], [d] positive, a tie going to the
    even one. *)
Definition nearest (n d : Z) : Z :=
  let q := (n / d)%Z in
  let r := (n mod d)%Z in
  match (2 * r ?= d)%Z with
  | Gt => (q + 1)%Z
  | Lt => q
  | Eq => if Z.odd q then (q + 1)%Z else q
  end.

(** The double nearest to [n / d] ([n] and [d] positive, far from the
    ends of the exponent range): the pair [(m, e)] stands for
    [m * 2^e], with 53 significant bits in [m] and a tie going to the
    even mantissa. *)
Definition double_of (n d : Z) : Z * Z :=
  if (n <=? 0)%Z then (0, 0)%Z
  else
    let e0 := (Z.log2 n - Z.log2 d - 53)%Z in
    let floor_at e :=
      if (0 <=? e)%Z then (n / (d * 2 ^ e))%Z else ((n * 2 ^ (- e)) / d)%Z in
    let e := if (2 ^ 53 <=? floor_at e0)%Z then (e0 + 1)%Z else e0 in
    (if (0 <=? e)%Z then nearest n (d * 2 ^ e) else nearest (n * 2 ^ (- e)) d,
     e).

(** [f"{p:.0%}"] where [p] is the float [a / b]: the quotient is
    rounded to a double, the double is multiplied by 100 and rounded
    again, and the product is printed to the nearest integer, a tie
    going to the even one. *)
Definition percent0 (a b : nat) : string :=
  let (m, e) := double_of (Z.of_nat a) (Z.of_nat b) in
  let (m', e') :=
    double_of (100 * m * 2 ^ Z.max e 0)%Z (2 ^ Z.max (- e) 0)%Z in
  str_of_Z (if (0 <=? e')%Z then (m' * 2 ^ e')%Z
            else nearest m' (2 ^ (- e'))%Z)
    +++ "%".

(** *** Node count (20 points) *)

Record node_count_result : Type := mk_node_count {
  nc_score : Z;
  nc_max_score : Z;
  nc_node_count : nat;
  nc_required : Z;
  nc_passed : bool;
  nc_message : string
}.

Definition node_count_score (node_count : nat) : Z :=
  if Nat.leb 35 node_count then 20
  else if Nat.leb 25 node_count then 15
  else if Nat.leb 15 node_count then 10
  else if Nat.leb 10 node_count then 5
  else 0.

Definition check_node_count (workflow : dict) (complexity : string)
  : result node_count_result :=
  node_count <- py_len (get_nodes workflow) ;;
  let required :=
    match assoc min_node_count complexity with
    | Some r => r
    | None => 25%Z
    end in
  Ok (mk_node_count (node_count_score node_count) 20 node_count required
        (Z.leb required (Z.of_nat node_count))
        ("Node count: " +++ str_of_nat node_count +++ " (required: "
           +++ str_of_Z required +++ ")")).

(** *** Credentials (15 points) *)

Record credentials_result : Type := mk_credentials {
  cr_score : Z;
  cr_max_score : Z;
  cr_service_nodes : option nat;
  cr_with_credentials : option nat;
  cr_percentage : option Q;
  cr_passed : bool;
  cr_message : string
}.

(** [[n for n in nodes if cond(n)]] with a condition that may raise. *)
Fixpoint filterM {A : Type} (f : A -> result bool) (xs : list A)
  : result (list A) :=
  match xs with
  | [] => Ok []
  | x :: tl =>
      b <- f x ;;
      rest <- filterM f tl ;;
      Ok (if b then x :: rest else rest)
  end.

Definition is_service_node (node : value) : result bool :=
  t <- py_get node "type" (VStr "") ;;
  requires_credentials_of t.

(** The body of the second loop of [_check_credentials]. *)
Definition has_proper_credentials (node : value) : result bool :=
  has <- py_in "credentials" node ;;
  if has then
    t <- py_get node "type" (VStr "") ;;
    cred_type <- get_credential_type t ;;
    match cred_type with
    | Some ct =>
        if negb (String.eqb ct "") then
          creds <- py_getitem node "credentials" ;;
          py_in ct creds
        else Ok false
    | None => Ok false
    end
  else Ok false.

Definition credentials_score (percentage : Q) : Z :=
  if ge percentage 1 then 15
  else if ge percentage (8 # 10) then 12
  else if ge percentage (6 # 10) then 9
  else if ge percentage (4 # 10) then 6
  else 0.

Definition check_credentials (workflow : dict) : result credentials_result :=
  nodes <- py_iter (get_nodes workflow) ;;
  service_nodes <- filterM is_service_node nodes ;;
  if negb (nonempty service_nodes) then
    Ok (mk_credentials 15 15 None None None true
          "No service nodes requiring credentials")
  else
    bound <- filterM has_proper_credentials service_nodes ;;
    let nodes_with_creds := List.length bound in
    let total := List.length service_nodes in
    let percentage := ratio nodes_with_creds total in
    Ok (mk_credentials (credentials_score percentage) 15
          (Some total) (Some nodes_with_creds) (Some percentage)
          (ge percentage (9 # 10))
          (str_of_nat nodes_with_creds +++ "/" +++ str_of_nat total
             +++ " service nodes have credentials")).

(** *** Parameters (15 points) *)

Record parameters_result : Type := mk_parameters {
  pr_score : Z;
  pr_max_score : Z;
  pr_complete_nodes : nat;
  pr_total_nodes : nat;
  pr_percentage : Q;
  pr_passed : bool;
  pr_message : string
}.

(** [n.get('type') != 'n8n-nodes-base.stickyNote']. *)
Definition not_sticky (n : value) : result bool :=
  t <- py_get n "type" VNone ;;
  Ok (negb (eq_str t sticky_type)).

Definition is_sticky (n : value) : result bool :=
  t <- py_get n "type" VNone ;;
  Ok (eq_str t sticky_type).

Definition parameters_score (percentage : Q) : Z :=
  if ge percentage 1 then 15
  else if ge percentage (9 # 10) then 12
  else if ge percentage (8 # 10) then 9
  else 0.

Definition check_parameters (workflow : dict) : result parameters_result :=
  nodes <- py_iter (get_nodes workflow) ;;
  counted <- filterM not_sticky nodes ;;
  let total_nodes := List.length counted in
  complete <- filterM (fun node =>
                sticky <- is_sticky node ;;
                if sticky then Ok false
                else v <- validate_node node ;; Ok (valid v)) nodes ;;
  let complete_params := List.length complete in
  let percentage :=
    if Nat.eqb total_nodes 0 then 1%Q else ratio complete_params total_nodes in
  Ok (mk_parameters (parameters_score percentage) 15 complete_params total_nodes
        percentage (ge percentage (8 # 10))
        (str_of_nat complete_params +++ "/" +++ str_of_nat total_nodes
           +++ " nodes have complete parameters")).

(** *** Error handling (20 points) *)

Record error_handling_result : Type := mk_error_handling {
  eh_score : Z;
  eh_max_score : Z;
  eh_nodes_with_error_handling : option nat;
  eh_total_nodes : option nat;
  eh_percentage : option (nat * nat);
  eh_passed : bool;
  eh_message : string
}.

(** [n.get('type', '').endswith('Trigger')]. *)
Definition is_trigger (n : value) : result bool :=
  t <- py_get n "type" (VStr "") ;;
  py_endswith t "Trigger".

Definition is_processable (n : value) : result bool :=
  trig <- is_trigger n ;;
  if trig then Ok false else not_sticky n.

Definition has_error_handling (node : value) : result bool :=
  a <- py_in "onError" node ;;
  if a then Ok true
  else
    b <- py_in "retryOnFail" node ;;
    if b then Ok true else py_in "continueOnFail" node.

Definition error_handling_score (percentage : Q) : Z :=
  if ge percentage (5 # 10) then 20
  else if ge percentage (4 # 10) then 16
  else if ge percentage (3 # 10) then 12
  else if ge percentage (2 # 10) then 8
  else 0.

Definition check_error_handling (workflow : dict) : result error_handling_result :=
  nodes <- py_iter (get_nodes workflow) ;;
  processable_nodes <- filterM is_processable nodes ;;
  if negb (nonempty processable_nodes) then
    Ok (mk_error_handling 0 20 None None None false "No processable nodes found")
  else
    handled <- filterM has_error_handling processable_nodes ;;
    let nodes_with_errors := List.length handled in
    let total := List.length processable_nodes in
    let percentage := ratio nodes_with_errors total in
    Ok (mk_error_handling (error_handling_score percentage) 20
          (Some nodes_with_errors) (Some total) (Some (nodes_with_errors, total))
          (ge percentage min_error_handling_percentage)
          (str_of_nat nodes_with_errors +++ "/" +++ str_of_nat total
             +++ " nodes have error handling ("
             +++ percent0 nodes_with_errors total +++ ")")).

(** *** Connections (5 points) *)

Record connections_result : Type := mk_connections {
  cn_score : Z;
  cn_max_score : Z;
  cn_passed : bool;
  cn_unconnected_nodes : list value;
  cn_message : string
}.

(** [d.items()]: dictionaries only. *)
Definition py_items (v : value) : result (list (string * value)) :=
  match v with
  | VDict d => Ok d
  | _ => Raise AttributeError
  end.

(** The names put into a set comprehension [{n['name'] for n in nodes if c(n)}]. *)
Definition names_where (cond : value -> result bool) (nodes : list value)
  : result pyset :=
  foldM (fun s n =>
           c <- cond n ;;
           if c then nm <- py_getitem n "name" ;; set_add s nm
           else Ok s)
        nodes [].

(** The four nested loops that collect the targets of all connections. *)
Definition add_targets_of_list (s : pyset) (conn_list : value) : result pyset :=
  conns <- py_iter conn_list ;;
  foldM (fun s conn => t <- py_getitem conn "node" ;; set_add s t) conns s.

Definition add_targets_of_lists (s : pyset) (conn_lists : value) : result pyset :=
  lists <- py_iter conn_lists ;;
  foldM add_targets_of_list lists s.

Definition add_targets_of_data (s : pyset) (conn_data : value) : result pyset :=
  items <- py_items conn_data ;;
  foldM (fun s kv => add_targets_of_lists s (snd kv)) items s.

Definition nodes_with_input (connections : value) : result pyset :=
  items <- py_items connections ;;
  foldM (fun s kv => add_targets_of_data s (snd kv)) items [].

Definition check_connections (workflow : dict) : result connections_result :=
  nodes <- py_iter (get_nodes workflow) ;;
  let connections := dict_get_default workflow "connections" (VDict []) in
  node_names <- names_where (fun _ => Ok true) nodes ;;
  trigger_nodes <- names_where is_trigger nodes ;;
  sticky_notes <- names_where is_sticky nodes ;;
  let nodes_needing_input :=
    set_diff (set_diff node_names trigger_nodes) sticky_notes in
  with_input <- nodes_with_input connections ;;
  let unconnected := set_diff nodes_needing_input with_input in
  let ok := Nat.eqb (List.length unconnected) 0 in
  Ok (mk_connections (if ok then 5 else 0) 5 ok unconnected
        (str_of_nat (List.length with_input) +++ "/"
           +++ str_of_nat (List.length nodes_needing_input)
           +++ " required nodes connected")).

(** *** Documentation (10 points) *)

Record documentation_result : Type := mk_documentation {
  dc_score : Z;
  dc_max_score : Z;
  dc_sticky_note_count : nat;
  dc_required : nat;
  dc_passed : bool;
  dc_message : string
}.

Definition documentation_score (count : nat) : Z :=
  if Nat.leb 8 count then 10
  else if Nat.leb 5 count then 7
  else if Nat.leb 3 count then 4
  else 0.

Definition check_documentation (workflow : dict) : result documentation_result :=
  nodes <- py_iter (get_nodes workflow) ;;
  sticky_notes <- filterM is_sticky nodes ;;
  let count := List.length sticky_notes in
  Ok (mk_documentation (documentation_score count) 10 count min_sticky_notes
        (Nat.leb min_sticky_notes count)
        (str_of_nat count +++ " sticky notes (minimum: "
           +++ str_of_nat min_sticky_notes +++ ")")).

(** *** Flow complexity (15 points) *)

Record flow_complexity_result : Type := mk_flow_complexity {
  fc_score : Z;
  fc_max_score : Z;
  fc_features : list string;
  fc_feature_count : nat;
  fc_passed : bool;
  fc_message : string
}.

(** [any(c(n) for n in nodes)]: stops at the first hit. *)
Fixpoint anyM {A : Type} (f : A -> result bool) (xs : list A) : result bool :=
  match xs with
  | [] => Ok false
  | x :: tl => b <- f x ;; if b then Ok true else anyM f tl
  end.

(** [n['type'] == t]. *)
Definition type_is (t : string) (n : value) : result bool :=
  ty <- py_getitem n "type" ;; Ok (eq_str ty t).

(** [n.get('type') in ['n8n-nodes-base.code', 'n8n-nodes-base.function']]. *)
Definition is_code_node (n : value) : result bool :=
  ty <- py_get n "type" VNone ;;
  Ok (eq_str ty "n8n-nodes-base.code" || eq_str ty "n8n-nodes-base.function").

Definition flow_complexity_score (complexity : string) (feature_count : nat) : Z :=
  if String.eqb complexity "simple" then
    if Nat.leb 2 feature_count then 15
    else if Nat.leb 1 feature_count then 10
    else 5
  else
    if Nat.leb 3 feature_count then 15
    else if Nat.leb 2 feature_count then 10
    else if Nat.leb 1 feature_count then 5
    else 0.

Definition check_flow_complexity (workflow : dict) (complexity : string)
  : result flow_complexity_result :=
  nodes <- py_iter (get_nodes workflow) ;;
  has_if_nodes <- anyM (type_is "n8n-nodes-base.if") nodes ;;
  has_switch_nodes <- anyM (type_is "n8n-nodes-base.switch") nodes ;;
  has_merge_nodes <- anyM (type_is "n8n-nodes-base.merge") nodes ;;
  has_set_nodes <- anyM (type_is "n8n-nodes-base.set") nodes ;;
  has_code_nodes <- anyM is_code_node nodes ;;
  let features :=
    (if has_if_nodes || has_switch_nodes then ["conditional logic"] else [])
    ++ (if has_merge_nodes then ["merging"] else [])
    ++ (if has_set_nodes then ["data transformation"] else [])
    ++ (if has_code_nodes then ["custom logic"] else []) in
  let feature_count := List.length features in
  Ok (mk_flow_complexity (flow_complexity_score complexity feature_count) 15
        features feature_count
        (Nat.leb (if String.eqb complexity "simple" then 1 else 2) feature_count)
        ("Flow features: "
           +++ (if nonempty features then join ", " features else "none"))).

(** *** The overall result *)

Record details : Type := mk_details {
  node_count : node_count_result;
  credentials : credentials_result;
  parameters : parameters_result;
  error_handling : error_handling_result;
  connections : connections_result;
  documentation : documentation_result;
  flow_complexity : flow_complexity_result
}.

Definition calculate_score (results : details) : Z :=
  (nc_score (node_count results) + cr_score (credentials results)
   + pr_score (parameters results) + eh_score (error_handling results)
   + cn_score (connections results) + dc_score (documentation results)
   + fc_score (flow_complexity results))%Z.

Definition get_grade (score : Z) : string :=
  if Z.leb 90 score then "A (Excellent)"
  else if Z.leb 80 score then "B (Good)"
  else if Z.leb 70 score then "C (Acceptable)"
  else if Z.leb 60 score then "D (Needs Improvement)"
  else "F (Poor)".

Record validation_result : Type := mk_validation_result {
  vr_valid : bool;
  vr_score : Z;
  vr_details : details;
  vr_required_score : Z;
  vr_grade : string
}.

Definition validate (workflow : dict) (complexity : string)
  : result validation_result :=
  r1 <- check_node_count workflow complexity ;;
  r2 <- check_credentials workflow ;;
  r3 <- check_parameters workflow ;;
  r4 <- check_error_handling workflow ;;
  r5 <- check_connections workflow ;;
  r6 <- check_documentation workflow ;;
  r7 <- check_flow_complexity workflow complexity ;;
  let results := mk_details r1 r2 r3 r4 r5 r6 r7 in
  let overall_score := calculate_score results in
  Ok (mk_validation_result (Z.leb min_quality_score overall_score) overall_score
        results min_quality_score (get_grade overall_score)).

(** *** Feedback *)

(** [d[k]] on a result dictionary that carries the key only sometimes. *)
Definition field {A : Type} (k : string) (o : option A) : result A :=
  match o with
  | Some a => Ok a
  | None => Raise (KeyError k)
  end.

(** [', '.join(xs)]: every item has to be a string. *)
Definition join_values (sep : string) (xs : list value) : result string :=
  strs <- mapM (fun v => match v with
                         | VStr s => Ok s
                         | _ => Raise TypeError
                         end) xs ;;
  Ok (join sep strs).

Definition generate_feedback (validation_result : validation_result)
  : result (list string) :=
  let details := vr_details validation_result in
  let fb0 : list string := [] in
  let fb1 :=
    if negb (nc_passed (node_count details)) then
      fb0 ++ ["CRITICAL: Workflow has only "
                +++ str_of_nat (nc_node_count (node_count details))
                +++ " nodes. Add more nodes to reach "
                +++ str_of_Z (nc_required (node_count details))
                +++ " nodes minimum."]
    else fb0 in
  fb2 <-
    (if negb (cr_passed (credentials details)) then
       service <- field "service_nodes" (cr_service_nodes (credentials details)) ;;
       withc <- field "with_credentials" (cr_with_credentials (credentials details)) ;;
       Ok (fb1 ++ ["CRITICAL: " +++ str_of_Z (Z.of_nat service - Z.of_nat withc)
                     +++ " service nodes missing credentials configuration."])
     else Ok fb1) ;;
  let fb3 :=
    if negb (pr_passed (parameters details)) then
      fb2 ++ ["CRITICAL: "
                +++ str_of_Z (Z.of_nat (pr_total_nodes (parameters details))
                              - Z.of_nat (pr_complete_nodes (parameters details)))
                +++ " nodes have incomplete or missing parameters."]
    else fb2 in
  fb4 <-
    (if negb (eh_passed (error_handling details)) then
       p <- field "percentage" (eh_percentage (error_handling details)) ;;
       Ok (fb3 ++ ["WARNING: Only " +++ percent0 (fst p) (snd p)
                     +++ " of nodes have error handling. "
                     +++ "Add onError, retryOnFail, or continueOnFail to critical nodes."])
     else Ok fb3) ;;
  fb5 <-
    (if negb (cn_passed (connections details)) then
       let unconnected := cn_unconnected_nodes (connections details) in
       names <- join_values ", " (firstn 3 unconnected) ;;
       Ok (fb4 ++ ["CRITICAL: " +++ str_of_nat (List.length unconnected)
                     +++ " nodes are not connected: " +++ names])
     else Ok fb4) ;;
  let fb6 :=
    if negb (dc_passed (documentation details)) then
      let needed := (Z.of_nat (dc_required (documentation details))
                     - Z.of_nat (dc_sticky_note_count (documentation details)))%Z in
      fb5 ++ ["WARNING: Add " +++ str_of_Z needed
                +++ " more sticky notes to document workflow sections."]
    else fb5 in
  let fb7 :=
    if negb (fc_passed (flow_complexity details)) then
      fb6 ++ ["WARNING: Workflow lacks complexity features. Add IF/Switch nodes for branching, "
                +++ "Merge nodes for parallel paths, or Set nodes for data transformation."]
    else fb6 in
  Ok fb7.

End QualityValidator.

(** ** models/workflow.py and validation_service.py: the structural
       validator of typed workflows *)

Module ValidationService.

Record WorkflowNode : Type := mk_node {
  wn_id : string;
  wn_name : string;
  wn_type : string;
  wn_typeVersion : Z;
  wn_position : list Z;
  wn_parameters : dict;
  wn_credentials : option (list (string * list (string * string)))
}.

Record WorkflowConnection : Type := mk_connection {
  wc_node : string;
  wc_type : string;
  wc_index : Z
}.

Definition conn_data : Type := list (string * list (list WorkflowConnection)).

Record WorkflowJSON : Type := mk_workflow {
  wf_name : string;
  wf_nodes : list WorkflowNode;
  wf_connections : list (string * conn_data);
  wf_active : option bool;
  wf_settings : option dict;
  wf_meta : option dict
}.

Record ValidationError : Type := mk_error {
  ve_type : string;
  ve_message : string;
  ve_nodeId : option string
}.

Record ValidationResult : Type := mk_result {
  isValid : bool;
  errors : list ValidationError;
  warnings : list string
}.

Definition REQUIRED_WORKFLOW_FIELDS : list string :=
  ["name"; "nodes"; "connections"].
Definition REQUIRED_NODE_FIELDS : list string :=
  ["id"; "name"; "type"; "typeVersion"; "position"; "parameters"].
Definition TRIGGER_NODE_TYPES : list string :=
  [ "n8n-nodes-base.manualTrigger"; "n8n-nodes-base.webhook";
    "n8n-nodes-base.scheduleTrigger"; "n8n-nodes-base.cronTrigger" ].

(** [model_dump()]: the fields of a model as a dictionary. *)
Definition dump_option {A : Type} (f : A -> value) (o : option A) : value :=
  match o with Some a => f a | None => VNone end.

Definition dump_credentials (c : list (string * list (string * string))) : value :=
  VDict (map (fun kv =>
                (fst kv, VDict (map (fun p => (fst p, VStr (snd p))) (snd kv)))) c).

Definition node_model_dump (n : WorkflowNode) : dict :=
  [ ("id", VStr (wn_id n)); ("name", VStr (wn_name n)); ("type", VStr (wn_type n));
    ("typeVersion", VInt (wn_typeVersion n));
    ("position", VList (map VInt (wn_position n)));
    ("parameters", VDict (wn_parameters n));
    ("credentials", dump_option dump_credentials (wn_credentials n)) ].

Definition connection_model_dump (c : WorkflowConnection) : value :=
  VDict [("node", VStr (wc_node c)); ("type", VStr (wc_type c));
         ("index", VInt (wc_index c))].

Definition conn_data_dump (d : conn_data) : value :=
  VDict (map (fun kv =>
                (fst kv, VList (map (fun g => VList (map connection_model_dump g))
                                    (snd kv)))) d).

Definition workflow_model_dump (w : WorkflowJSON) : dict :=
  [ ("name", VStr (wf_name w));
    ("nodes", VList (map (fun n => VDict (node_model_dump n)) (wf_nodes w)));
    ("connections",
     VDict (map (fun kv => (fst kv, conn_data_dump (snd kv))) (wf_connections w)));
    ("active", dump_option VBool (wf_active w));
    ("settings", dump_option VDict (wf_settings w));
    ("meta", dump_option VDict (wf_meta w)) ].

Definition is_none (v : value) : bool :=
  match v with VNone => true | _ => false end.

(** [field not in d or d[field] is None]; the subscript is only evaluated
    when the key is present. *)
Definition field_missing (d : dict) (field : string) : result bool :=
  if negb (dict_has d field) then Ok true
  else v <- py_getitem (VDict d) field ;; Ok (is_none v).

Definition validate_structure (workflow : WorkflowJSON)
  : result (list ValidationError) :=
  let workflow_dict := workflow_model_dump workflow in
  errors1 <- foldM (fun errs field =>
                 missing <- field_missing workflow_dict field ;;
                 Ok (if missing
                     then errs ++ [mk_error "structure"
                                     ("Missing required field: " +++ field) None]
                     else errs))
               REQUIRED_WORKFLOW_FIELDS [] ;;
  Ok (if negb (NodeSchemas.nonempty (wf_nodes workflow))
      then errors1 ++ [mk_error "structure"
                         "Workflow must contain at least one node" None]
      else errors1).

(** The checks of one node in [_validate_nodes]. *)
Definition validate_one_node (node : WorkflowNode)
  : result (list ValidationError) :=
  let node_dict := node_model_dump node in
  errors1 <- foldM (fun errs field =>
                 missing <- field_missing node_dict field ;;
                 Ok (if missing
                     then errs ++ [mk_error "node"
                                     ("Node missing required field: " +++ field)
                                     (Some (wn_id node))]
                     else errs))
               REQUIRED_NODE_FIELDS [] ;;
  let errors2 :=
    if negb (Nat.eqb (List.length (wn_position node)) 2)
    then errors1 ++ [mk_error "node" "Node position must be [x, y]"
                       (Some (wn_id node))]
    else errors1 in
  Ok (if negb (startswith (wn_type node) "n8n-nodes-base.")
      then errors2 ++ [mk_error "node"
                         ("Invalid node type format: " +++ wn_type node)
                         (Some (wn_id node))]
      else errors2).

Definition validate_nodes (workflow : WorkflowJSON)
  : result (list ValidationError) :=
  foldM (fun errs node =>
           es <- validate_one_node node ;; Ok (errs ++ es))
        (wf_nodes workflow) [].

Definition name_in (names : list string) (n : string) : bool :=
  existsb (String.eqb n) names.

(** [outputs['main']]. *)
Definition getitem_outputs (outputs : conn_data) (k : string)
  : result (list (list WorkflowConnection)) :=
  match assoc outputs k with
  | Some groups => Ok groups
  | None => Raise (KeyError k)
  end.

Definition has_key (outputs : conn_data) (k : string) : bool :=
  match assoc outputs k with Some _ => true | None => false end.

Definition validate_connections (workflow : WorkflowJSON)
  : result (list ValidationError) :=
  let node_names := map wn_name (wf_nodes workflow) in
  foldM (fun errs item =>
           let source_name := fst item in
           let outputs := snd item in
           if negb (name_in node_names source_name) then
             Ok (errs ++ [mk_error "connection"
                            ("Connection source node not found: " +++ source_name)
                            None])
           else if has_key outputs "main" then
             groups <- getitem_outputs outputs "main" ;;
             Ok (errs ++
                 flat_map (fun output_group =>
                   flat_map (fun connection =>
                     if negb (name_in node_names (wc_node connection))
                     then [mk_error "connection"
                             ("Connection target node not found: "
                                +++ wc_node connection)
                             (Some source_name)]
                     else []) output_group) groups)
           else Ok errs)
        (wf_connections workflow) [].

Definition validate_trigger (workflow : WorkflowJSON) : list string :=
  let has_trigger :=
    existsb (fun node => name_in TRIGGER_NODE_TYPES (wn_type node))
            (wf_nodes workflow) in
  if negb has_trigger
  then ["Workflow does not contain a trigger node. "
          +++ "It may need to be started manually or have a trigger added."]
  else [].

(** The loop of [_validate_unique_names], with the names seen so far. *)
Fixpoint unique_names_loop (seen : list string) (nodes : list WorkflowNode)
  : list ValidationError :=
  match nodes with
  | [] => []
  | node :: tl =>
      (if name_in seen (wn_name node)
       then [mk_error "node" ("Duplicate node name: " +++ wn_name node)
               (Some (wn_id node))]
       else [])
      ++ unique_names_loop (wn_name node :: seen) tl
  end.

Definition validate_unique_names (workflow : WorkflowJSON)
  : list ValidationError :=
  unique_names_loop [] (wf_nodes workflow).

Definition generate_warnings (workflow : WorkflowJSON) : result (list string) :=
  connected_nodes <-
    foldM (fun acc item =>
             let acc1 := acc ++ [fst item] in
             if has_key (snd item) "main" then
               groups <- getitem_outputs (snd item) "main" ;;
               Ok (acc1 ++ flat_map (fun g => map wc_node g) groups)
             else Ok acc1)
          (wf_connections workflow) [] ;;
  let disconnected :=
    filter (fun n => negb (name_in connected_nodes n))
           (map wn_name (wf_nodes workflow)) in
  let warnings1 :=
    if NodeSchemas.nonempty disconnected
    then ["Disconnected nodes found: " +++ join ", " disconnected +++ ". "
            +++ "These nodes will not execute."]
    else [] in
  Ok (if String.eqb (wf_name workflow) "" || String.eqb (wf_name workflow) "My Workflow"
      then warnings1 ++ ["Consider giving the workflow a more descriptive name"]
      else warnings1).

Definition validate_workflow (workflow : WorkflowJSON) : result ValidationResult :=
  e1 <- validate_structure workflow ;;
  e2 <- validate_nodes workflow ;;
  e3 <- validate_connections workflow ;;
  let trigger_warnings := validate_trigger workflow in
  let e4 := validate_unique_names workflow in
  w2 <- generate_warnings workflow ;;
  let errors := e1 ++ e2 ++ e3 ++ e4 in
  Ok (mk_result (Nat.eqb (List.length errors) 0) errors (trigger_warnings ++ w2)).

End ValidationService.

(** ** uuid.uuid4(): an explicit supply of identifiers *)

Definition supply : Type := nat -> string.

Definition uuid4 (s : supply) : string * supply :=
  (s 0, fun n => s (S n)).

(** ** enhanced_workflow_generator.py: repair passes and the refinement loop *)

Module EnhancedWorkflowGenerator.

Import NodeSchemas.

Definition nl : string := String (ascii_of_nat 10) "".

(** A loop whose body updates its item in place and may draw identifiers. *)
Fixpoint mapS {A B : Type} (f : A -> supply -> result (B * supply))
  (xs : list A) (s : supply) : result (list B * supply) :=
  match xs with
  | [] => Ok ([], s)
  | x :: tl =>
      '(y, s1) <- f x s ;;
      '(ys, s2) <- mapS f tl s1 ;;
      Ok (y :: ys, s2)
  end.

(** [for node in nodes: body(node)] where [body] mutates [node].  The
    items of a list are updated where they stand; the keys of a
    dictionary and the characters of a string are visited as well, but
    they are immutable: the body either leaves them alone or raises. *)
Definition for_each_node (body : value -> supply -> result (value * supply))
  (nodes : value) (s : supply) : result (value * supply) :=
  match nodes with
  | VList l => '(l', s') <- mapS body l s ;; Ok (VList l', s')
  | _ =>
      items <- py_iter nodes ;;
      '(_, s') <- mapS body items s ;;
      Ok (nodes, s')
  end.

(** [for node in workflow.get('nodes', []): body(node)] on a workflow that
    may lack the key. *)
Definition update_nodes (body : value -> supply -> result (value * supply))
  (workflow : dict) (s : supply) : result (dict * supply) :=
  match dict_get workflow "nodes" with
  | Some nodes =>
      '(nodes', s') <- for_each_node body nodes s ;;
      Ok (dict_set workflow "nodes" nodes', s')
  | None => Ok (workflow, s)
  end.

(** [if k not in d: d[k] = v]. *)
Definition setdefault (d : dict) (k : string) (v : value) : dict :=
  if dict_has d k then d else dict_set d k v.

(** [if k not in node: node[k] = v] on a node of unknown shape. *)
Definition node_setdefault (node : value) (k : string) (v : value)
  : result value :=
  has <- py_in k node ;;
  if has then Ok node else py_setitem node k v.

Definition fix_node (node : value) (s : supply) : result (value * supply) :=
  has_id <- py_in "id" node ;;
  '(node1, s1) <-
    (if has_id then Ok (node, s)
     else let (u, s') := uuid4 s in
          n <- py_setitem node "id" (VStr u) ;; Ok (n, s')) ;;
  node2 <- node_setdefault node1 "position" (VList [VInt 0; VInt 0]) ;;
  node3 <- node_setdefault node2 "parameters" (VDict []) ;;
  node4 <- node_setdefault node3 "typeVersion" (VInt 1) ;;
  Ok (node4, s1).

Definition fix_structure (workflow : dict) (s : supply) : result (dict * supply) :=
  let w1 := setdefault workflow "name" (VStr "Generated Workflow") in
  let w2 := setdefault w1 "nodes" (VList []) in
  let w3 := setdefault w2 "connections" (VDict []) in
  let w4 := setdefault w3 "active" (VBool false) in
  let w5 := setdefault w4 "settings" (VDict [("executionOrder", VStr "v1")]) in
  update_nodes fix_node w5 s.

(** [_fix_parameters] only reports; it fails when [validate_node] does. *)
Definition fix_parameters (workflow : dict) : result dict :=
  nodes <- py_iter (QualityValidator.get_nodes workflow) ;;
  _ <- mapM validate_node nodes ;;
  Ok workflow.

(** [str.replace(old, new)] for a non-empty [old]. *)
Fixpoint drop (n : nat) (s : string) : string :=
  match n, s with
  | S n', String _ tl => drop n' tl
  | _, _ => s
  end.

Fixpoint replace_fuel (fuel : nat) (old new s : string) : string :=
  match fuel with
  | O => s
  | S fuel' =>
      match s with
      | EmptyString => EmptyString
      | String c tl =>
          if String.prefix old s
          then new +++ replace_fuel fuel' old new (drop (String.length old) s)
          else String c (replace_fuel fuel' old new tl)
      end
  end.

Definition replace (s old new : string) : string :=
  replace_fuel (String.length s) old new s.

Definition get_service_name (node_type : string) : string :=
  let name := replace node_type "n8n-nodes-base." "" in
  let name := replace name "@n8n/n8n-nodes-langchain." "" in
  let name := replace name "@blotato/n8n-nodes-blotato." "" in
  title (replace (replace name "_" " ") "-" " ").

Definition inject_node_credentials (node : value) : result value :=
  node_type <- py_get node "type" (VStr "") ;;
  req <- requires_credentials_of node_type ;;
  if req then
    has <- py_in "credentials" node ;;
    if has then Ok node
    else
      cred_type <- get_credential_type node_type ;;
      match cred_type with
      | Some ct =>
          if String.eqb ct "" then Ok node
          else
            let service_name := get_service_name (py_str node_type) in
            py_setitem node "credentials"
              (VDict [(ct, VDict [("id", VStr "{{CREDENTIAL_ID}}");
                                  ("name", VStr (service_name +++ " account"))])])
      | None => Ok node
      end
  else Ok node.

Definition inject_credentials (workflow : dict) (s : supply)
  : result (dict * supply) :=
  update_nodes (fun n s => n' <- inject_node_credentials n ;; Ok (n', s)) workflow s.

Definition add_node_error_handling (node : value) : result value :=
  node_type <- py_get node "type" (VStr "") ;;
  trig <- py_endswith node_type "Trigger" ;;
  if trig || eq_str node_type QualityValidator.sticky_type then Ok node
  else
    needs <- needs_error_handling node_type ;;
    if needs then
      n1 <- node_setdefault node "onError" (VStr "continueRegularOutput") ;;
      n2 <- node_setdefault n1 "retryOnFail" (VBool true) ;;
      node_setdefault n2 "maxTries" (VInt 3)
    else Ok node.

Definition add_error_handling (workflow : dict) (s : supply)
  : result (dict * supply) :=
  update_nodes (fun n s => n' <- add_node_error_handling n ;; Ok (n', s)) workflow s.

(** *** Documentation *)

Record section : Type := mk_section {
  sec_title : string;
  sec_description : string;
  sec_position : value
}.

Definition is_conditional (n : value) : result bool :=
  t <- py_get n "type" VNone ;;
  Ok (eq_str t "n8n-nodes-base.if" || eq_str t "n8n-nodes-base.switch").

Definition is_ai_node (n : value) : result bool :=
  t <- py_get n "type" (VStr "") ;;
  l <- py_lower t ;;
  if contains "ai" l then Ok true
  else
    t' <- py_get n "type" (VStr "") ;;
    l' <- py_lower t' ;;
    Ok (contains "openai" l').

Definition is_merge (n : value) : result bool :=
  t <- py_get n "type" VNone ;;
  Ok (eq_str t "n8n-nodes-base.merge").

Definition is_output_node (n : value) : result bool :=
  QualityValidator.anyM
    (fun word =>
       nm <- py_get n "name" (VStr "") ;;
       l <- py_lower nm ;;
       Ok (contains word l))
    ["post"; "send"; "save"; "create"].

(** [xs[0].get('position', default)] guarded by [if xs]. *)
Definition section_of (found : list value) (title description : string)
  (default : value) : result (list section) :=
  match found with
  | [] => Ok []
  | first :: _ =>
      p <- py_get first "position" default ;;
      Ok [mk_section title description p]
  end.

Definition pos (x y : Z) : value := VList [VInt x; VInt y].

Definition identify_workflow_sections (workflow : dict) : result (list section) :=
  nodes <- py_iter (QualityValidator.get_nodes workflow) ;;
  triggers <- QualityValidator.filterM QualityValidator.is_trigger nodes ;;
  s1 <- section_of triggers "Workflow Trigger"
          "Initiates the workflow execution" (pos 0 0) ;;
  conditionals <- QualityValidator.filterM is_conditional nodes ;;
  s2 <- section_of conditionals "Conditional Logic"
          "Routes data based on conditions" (pos 220 0) ;;
  ai_nodes <- QualityValidator.filterM is_ai_node nodes ;;
  s3 <- section_of ai_nodes "AI Processing"
          "AI-powered content generation" (pos 440 0) ;;
  merges <- QualityValidator.filterM is_merge nodes ;;
  s4 <- section_of merges "Merge Results"
          "Combines parallel execution paths" (pos 660 0) ;;
  output_nodes <- QualityValidator.filterM is_output_node nodes ;;
  s5 <- section_of output_nodes "Output Actions"
          "Final workflow outputs" (pos 880 0) ;;
  let sections := s1 ++ s2 ++ s3 ++ s4 ++ s5 in
  Ok (if Nat.ltb (List.length sections) 3
      then sections ++ [mk_section "Data Processing"
                          "Transform and prepare data" (pos 440 300)]
      else sections).

(** [position[i] - d]. *)
Definition coordinate_minus (position : value) (i : nat) (d : Z) : result value :=
  match position with
  | VList l =>
      match nth_error l i with
      | Some (VInt z) => Ok (VInt (z - d))
      | Some (VBool b) => Ok (VInt ((if b then 1 else 0) - d))
      | Some _ => Raise TypeError
      | None => Raise IndexError
      end
  | VStr str =>
      if Nat.ltb i (String.length str) then Raise TypeError else Raise IndexError
  | VDict _ => Raise (KeyError (str_of_nat i))
  | _ => Raise TypeError
  end.

Definition create_sticky_note (sec : section) (index : nat) (s : supply)
  : result (value * supply) :=
  x <- coordinate_minus (sec_position sec) 0 200 ;;
  y <- coordinate_minus (sec_position sec) 1 150 ;;
  let (u, s') := uuid4 s in
  Ok (VDict [ ("id", VStr u);
              ("name", VStr ("Note " +++ str_of_nat (index + 1)));
              ("type", VStr "n8n-nodes-base.stickyNote");
              ("typeVersion", VInt 1);
              ("position", VList [x; y]);
              ("parameters",
               VDict [ ("content",
                        VStr ("## " +++ sec_title sec +++ nl +++ nl
                                +++ sec_description sec));
                       ("height", VInt 160);
                       ("width", VInt 240) ]) ],
      s').

(** [nodes.append(x)]: lists only. *)
Definition py_append (nodes : value) (x : value) : result value :=
  match nodes with
  | VList l => Ok (VList (l ++ [x]))
  | _ => Raise AttributeError
  end.

(** The loop over [enumerate(sections[:notes_needed])]. *)
Fixpoint append_notes (sections : list section) (i : nat) (nodes : value)
  (s : supply) : result (value * supply) :=
  match sections with
  | [] => Ok (nodes, s)
  | sec :: tl =>
      '(sticky, s1) <- create_sticky_note sec i s ;;
      nodes1 <- py_append nodes sticky ;;
      append_notes tl (S i) nodes1 s1
  end.

Definition target_notes (complexity : string) : nat :=
  if String.eqb complexity "complex" then 8 else Config.min_sticky_notes.

Definition add_documentation (workflow : dict) (complexity : string) (s : supply)
  : result (dict * supply) :=
  let nodes := QualityValidator.get_nodes workflow in
  items <- py_iter nodes ;;
  existing_notes <- QualityValidator.filterM QualityValidator.is_sticky items ;;
  let notes_needed := target_notes complexity - List.length existing_notes in
  if Nat.ltb 0 notes_needed then
    sections <- identify_workflow_sections workflow ;;
    '(nodes', s') <- append_notes (firstn notes_needed sections) 0 nodes s ;;
    Ok (if dict_has workflow "nodes" then dict_set workflow "nodes" nodes'
        else workflow, s')
  else Ok (workflow, s).

Definition validate_connections (workflow : dict) : dict :=
  setdefault workflow "connections" (VDict []).

Definition validate_and_refine (workflow : dict) (complexity : string)
  (s : supply) : result (dict * supply) :=
  '(w2, s2) <- fix_structure workflow s ;;
  w3 <- fix_parameters w2 ;;
  '(w4, s4) <- inject_credentials w3 s2 ;;
  '(w5, s5) <- add_error_handling w4 s4 ;;
  '(w6, s6) <- add_documentation w5 complexity s5 ;;
  Ok (validate_connections w6, s6).

(** *** The refinement loop *)

Definition update_prompt_with_feedback (prompt : string) (feedback : list string)
  : string :=
  let feedback_str := join nl (map (fun fb => "  - " +++ fb) feedback) in
  prompt +++ nl +++ nl +++ "PREVIOUS ATTEMPT FEEDBACK (MUST FIX):" +++ nl
    +++ feedback_str +++ nl +++ nl
    +++ "CRITICAL: Address ALL feedback points above in this generation." +++ nl.

(** What [generate] returns: the dictionary of the early [return] when
    the threshold is met, or the one after the loop, which carries a
    [warning] and no quality details. *)
Inductive outcome : Type :=
| ThresholdMet (workflow : dict) (quality_score : Z)
    (quality_details : QualityValidator.validation_result) (attempt : nat)
| BestAttempt (workflow : option dict) (quality_score : Z)
    (warning : string) (attempts : nat).

(** The calls a run makes, in order: requests to the synthesis
    collaborator, repairs, scorings. *)
Inductive event : Type :=
| Requested (prompt : string)
| Refined
| Scored (score : Z).

Section Generate.

(** [_generate_workflow]: the synthesis collaborator, asked for the
    [n]-th time with a prompt, answers a dictionary or nothing.  An
    exception inside the call is caught there and answers nothing. *)
Variable generate_workflow : nat -> string -> option dict.

Variable complexity : string.

Definition max_attempts : nat := Config.max_generation_attempts.

(** The body of [for attempt in range(max_attempts)], [remaining] turns
    before the loop ends. *)
Fixpoint attempts (remaining attempt : nat) (prompt : string)
  (best_workflow : option dict) (best_score : Z) (s : supply)
  (log : list event) : result (outcome * list event) :=
  match remaining with
  | O =>
      Ok (BestAttempt best_workflow best_score
            "Workflow may not meet all quality standards" max_attempts, log)
  | S remaining' =>
      let log1 := log ++ [Requested prompt] in
      match generate_workflow attempt prompt with
      | None =>
          attempts remaining' (S attempt) prompt best_workflow best_score s log1
      | Some raw_workflow =>
          if negb (truthy (VDict raw_workflow)) then
            attempts remaining' (S attempt) prompt best_workflow best_score s log1
          else
            '(refined_workflow, s') <-
              validate_and_refine raw_workflow complexity s ;;
            quality_result <-
              QualityValidator.validate refined_workflow complexity ;;
            let score := QualityValidator.vr_score quality_result in
            let log2 := log1 ++ [Refined; Scored score] in
            let better := Z.ltb best_score score in
            let best_score' := if better then score else best_score in
            let best_workflow' :=
              if better then Some refined_workflow else best_workflow in
            if QualityValidator.vr_valid quality_result
               && Z.leb Config.min_quality_score score
            then Ok (ThresholdMet refined_workflow score quality_result
                       (attempt + 1), log2)
            else
              prompt' <-
                (if Nat.ltb attempt (max_attempts - 1) then
                   feedback <- QualityValidator.generate_feedback quality_result ;;
                   Ok (update_prompt_with_feedback prompt feedback)
                 else Ok prompt) ;;
              attempts remaining' (S attempt) prompt' best_workflow' best_score'
                s' log2
      end
  end.

(** [generate], from the first prompt on: [_build_context_from_experts]
    and [_build_generation_prompt] format it from the template store. *)
Definition generate (prompt : string) (s : supply)
  : result (outcome * list event) :=
  attempts max_attempts 0 prompt None 0 s [].

End Generate.

End EnhancedWorkflowGenerator.

(** ** workflow_generator.py: the rule-based graph builder *)

Module WorkflowGenerator.

Definition position_x : Z := 240.
Definition position_y : Z := 300.
Definition spacing_x : Z := 220.
Definition spacing_y : Z := 150.

(** The node dictionaries the builder writes all have this shape;
    [webhookId] and [credentials] are the two keys only some carry. *)
Record node : Type := mk_node {
  id : string;
  name : string;
  type : string;
  typeVersion : Z;
  position : Z * Z;
  webhookId : option string;
  parameters : value;
  credentials : option value
}.

Record conn : Type := mk_conn {
  c_node : string;
  c_type : string;
  c_index : Z
}.

(** [{"main": [[...], ...]}] and the map from source names to it. *)
Definition conn_data : Type := list (string * list (list conn)).
Definition connections : Type := list (string * conn_data).

Record meta : Type := mk_meta {
  generatedBy : string;
  version : string;
  m_complexity : Z;
  nodeCount : nat
}.

Record workflow : Type := mk_workflow {
  w_name : string;
  w_nodes : list node;
  w_connections : connections;
  w_active : bool;
  w_settings : value;
  w_meta : meta
}.

(** [requirements.get(k)]. *)
Definition req (requirements : dict) (k : string) : value :=
  dict_get_default requirements k VNone.

Definition flag (requirements : dict) (k : string) : bool :=
  truthy (req requirements k).

(** [complexity += v]. *)
Definition add_int (c : Z) (v : value) : result Z :=
  match v with
  | VInt z => Ok (c + z)%Z
  | VBool b => Ok (c + (if b then 1 else 0))%Z
  | _ => Raise TypeError
  end.

(** [if cond: complexity += k]. *)
Definition bump (b : bool) (k : Z) (c : Z) : Z := if b then (c + k)%Z else c.

Definition calculate_complexity (requirements : dict) : result Z :=
  let c := 1%Z in
  let c := bump (eq_str (req requirements "trigger") "webhook") 1 c in
  let c := bump (flag requirements "needs_auth") 1 c in
  let c := bump (flag requirements "needs_validation") 2 c in
  let c := bump (flag requirements "needs_duplicate_check") 2 c in
  let c := bump (flag requirements "needs_transformation") 1 c in
  let c := bump (flag requirements "needs_scoring") 2 c in
  let c := bump (flag requirements "has_branching") 2 c in
  let c := bump (flag requirements "has_loops") 3 c in
  let c := bump (flag requirements "needs_error_handling") 2 c in
  let c := bump (flag requirements "needs_retry_logic") 2 c in
  let num_outputs := dict_get_default requirements "num_outputs" (VInt 1) in
  c' <- add_int c num_outputs ;;
  Ok (Z.min c' 10).

(** *** Connections *)

Fixpoint update_nth {A : Type} (i : nat) (f : A -> A) (l : list A) : list A :=
  match l, i with
  | [], _ => []
  | x :: tl, O => f x :: tl
  | x :: tl, S i' => x :: update_nth i' f tl
  end.

(** [while len(l) <= output_index: l.append([])]. *)
Definition pad_outputs (l : list (list conn)) (output_index : nat)
  : list (list conn) :=
  l ++ repeat [] (S output_index - List.length l).

Definition connect_nodes (cs : connections) (from_node to_node : node)
  (output_index : nat) : result connections :=
  let from_name := name from_node in
  let to_name := name to_node in
  let cs1 :=
    if assoc_has cs from_name then cs
    else assoc_set cs from_name [("main", [[]])] in
  data <- assoc_getitem cs1 from_name ;;
  main <- assoc_getitem data "main" ;;
  let main1 := pad_outputs main output_index in
  let main2 :=
    update_nth output_index (fun l => l ++ [mk_conn to_name "main" 0]) main1 in
  Ok (assoc_set cs1 from_name (assoc_set data "main" main2)).

(** The innermost loop of [_merge_connections], over
    [enumerate(conn_list)]. *)
Fixpoint merge_lists (target : list (list conn)) (i : nat)
  (conn_list : list (list conn)) : list (list conn) :=
  match conn_list with
  | [] => target
  | c :: tl =>
      let target' :=
        if Nat.leb (List.length target) i then target ++ [c]
        else update_nth i (fun l => l ++ c) target in
      merge_lists target' (S i) tl
  end.

Definition merge_data (target : conn_data) (source : conn_data) : conn_data :=
  fold_left (fun t item =>
               match assoc t (fst item) with
               | None => assoc_set t (fst item) (snd item)
               | Some l => assoc_set t (fst item) (merge_lists l 0 (snd item))
               end)
            source target.

Definition merge_connections (target source : connections) : connections :=
  fold_left (fun t item =>
               match assoc t (fst item) with
               | None => assoc_set t (fst item) (snd item)
               | Some d => assoc_set t (fst item) (merge_data d (snd item))
               end)
            source target.

(** *** The canned nodes *)

Definition right_of (p : Z * Z) : Z * Z := (fst p + spacing_x, snd p)%Z.

Definition cred (kind id_ name_ : string) : option value :=
  Some (VDict [(kind, VDict [("id", VStr id_); ("name", VStr name_)])]).

Definition create_trigger_node (requirements : dict) (position : Z * Z)
  (s : supply) : node * (Z * Z) * supply :=
  let trigger_type := dict_get_default requirements "trigger" (VStr "webhook") in
  let (node_id, s1) := uuid4 s in
  let '(nd, s2) :=
    if eq_str trigger_type "webhook" then
      let (wid, s2) := uuid4 s1 in
      (mk_node node_id "Webhook Trigger" "n8n-nodes-base.webhook" 1 position
         (Some wid)
         (VDict [ ("httpMethod", VStr "POST");
                  ("path", dict_get_default requirements "webhook_path"
                             (VStr "workflow-trigger"));
                  ("responseMode", VStr "onReceived");
                  ("options", VDict []) ])
         None, s2)
    else if eq_str trigger_type "schedule" then
      let schedule_freq :=
        dict_get_default requirements "schedule_frequency" (VStr "hour") in
      (mk_node node_id "Schedule Trigger" "n8n-nodes-base.scheduleTrigger" 1
         position None
         (VDict [("rule",
                  VDict [("interval", VList [VDict [("field", schedule_freq)]])])])
         None, s1)
    else if eq_str trigger_type "email" then
      (mk_node node_id "Email Trigger" "n8n-nodes-base.emailReadImap" 1
         position None
         (VDict [ ("mailbox", VStr "INBOX");
                  ("options", VDict [("allowUnauthorizedCerts", VBool false)]) ])
         (cred "imap" "1" "IMAP Account (to be configured)"), s1)
    else
      (mk_node node_id "Manual Trigger" "n8n-nodes-base.manualTrigger" 1
         position None (VDict []) None, s1) in
  (nd, right_of position, s2).

Definition auth_function_code : string :=
  "// Validate API key from header
const providedKey = $input.item.json.headers?.['x-api-key'] || 
                     $input.item.json.headers?.['authorization']?.replace('Bearer ', '');

// Get valid keys from environment variable
const validKeys = (process.env.VALID_API_KEYS || 'your-api-key-here').split(',');

if (!validKeys.includes(providedKey)) {
  throw new Error('Invalid or missing API key');
}

return {
  ...$input.item.json,
  authenticated: true,
  timestamp: new Date().toISOString()
};".

Definition function_node (node_id name_ : string) (position : Z * Z)
  (code : string) : node :=
  mk_node node_id name_ "n8n-nodes-base.function" 1 position None
    (VDict [("functionCode", VStr code)]) None.

Definition create_auth_node (position : Z * Z) (s : supply)
  : node * (Z * Z) * supply :=
  let (u, s1) := uuid4 s in
  (function_node u "Validate API Key" position auth_function_code,
   right_of position, s1).

Definition validate_function_code : string :=
  "// Comprehensive data validation
const item = $input.item.json;
const errors = [];

// Required fields
const requiredFields = ['email', 'name'];
for (const field of requiredFields) {
  if (!item[field] || String(item[field]).trim() === '') {
    errors.push(`Missing required field: ${field}`);
  }
}

// Email format validation
if (item.email && !/^[^\s@]+@[^\s@]+\.[^\s@]+$/.test(item.email)) {
  errors.push('Invalid email format');
}

// Phone validation (if provided)
if (item.phone && item.phone.trim() && !/^[\d\s\-\+\(\)]+$/.test(item.phone)) {
  errors.push('Invalid phone format');
}

return {
  ...item,
  validation: {
    is_valid: errors.length === 0,
    errors: errors,
    validated_at: new Date().toISOString()
  }
};".

Definition log_validation_error_code : string :=
  "console.error('Validation failed:', $json.validation.errors);
return {
  error_type: 'validation_failed',
  data: $json,
  errors: $json.validation.errors,
  timestamp: new Date().toISOString()
};".

(** [_create_validation_flow]: the nodes, their connections, the next
    position, the success node and the error node. *)
Definition create_validation_flow (position : Z * Z) (s : supply)
  : result (list node * connections * (Z * Z) * node * node * supply) :=
  let (u1, s1) := uuid4 s in
  let validate_node := function_node u1 "Validate Data" position
                         validate_function_code in
  let position1 := right_of position in
  let (u2, s2) := uuid4 s1 in
  let if_node :=
    mk_node u2 "Is Valid?" "n8n-nodes-base.if" 1 position1 None
      (VDict [("conditions",
               VDict [("boolean",
                       VList [VDict [("value1", VStr "={{$json.validation.is_valid}}");
                                     ("value2", VBool true)]])])])
      None in
  cs1 <- connect_nodes [] validate_node if_node 0 ;;
  let error_position :=
    (fst position1 + spacing_x, snd position1 + spacing_y)%Z in
  let (u3, s3) := uuid4 s2 in
  let error_node := function_node u3 "Log Validation Error" error_position
                      log_validation_error_code in
  let if_name := name if_node in
  let cs2 :=
    if assoc_has cs1 if_name then cs1
    else assoc_set cs1 if_name [("main", [[]; []])] in
  data <- assoc_getitem cs2 if_name ;;
  main <- assoc_getitem data "main" ;;
  main' <- (if Nat.ltb 1 (List.length main)
            then Ok (update_nth 1 (fun _ => [mk_conn (name error_node) "main" 0]) main)
            else Raise IndexError) ;;
  let cs3 := assoc_set cs2 if_name (assoc_set data "main" main') in
  Ok ([validate_node; if_node; error_node], cs3, right_of position1,
      if_node, error_node, s3).

(** [database = requirements.get("database", "postgres")], then used in
    an f-string and through [database.title()]. *)
Definition database_of (requirements : dict) : result (string * string) :=
  let database := dict_get_default requirements "database" (VStr "postgres") in
  t <- py_title database ;;
  Ok (NodeSchemas.py_str database, t).

Definition create_duplicate_check_flow (requirements : dict) (position : Z * Z)
  (s : supply) : result (list node * connections * (Z * Z) * node * supply) :=
  let (u1, s1) := uuid4 s in
  '(database, titled) <- database_of requirements ;;
  let check_node :=
    mk_node u1 "Check for Duplicates" ("n8n-nodes-base." +++ database) 1
      position None
      (VDict [ ("operation", VStr "executeQuery");
               ("query", VStr "SELECT id FROM records WHERE email = $1 LIMIT 1");
               ("additionalFields",
                VDict [("queryParameters", VStr "={{$json.email}}")]) ])
      (cred database "1" (titled +++ " Database (to be configured)")) in
  let position1 := right_of position in
  let (u2, s2) := uuid4 s1 in
  let if_node :=
    mk_node u2 "Is New Record?" "n8n-nodes-base.if" 1 position1 None
      (VDict [("conditions",
               VDict [("number",
                       VList [VDict [("value1", VStr "={{$json.length || 0}}");
                                     ("operation", VStr "equal");
                                     ("value2", VInt 0)]])])])
      None in
  cs <- connect_nodes [] check_node if_node 0 ;;
  Ok ([check_node; if_node], cs, right_of position1, if_node, s2).

Definition scoring_function_code : string :=
  "// Scoring algorithm
const item = $input.item.json;
let score = 0;

// Company size scoring
if (item.company_size) {
  if (item.company_size > 1000) score += 40;
  else if (item.company_size > 100) score += 30;
  else if (item.company_size > 10) score += 20;
  else score += 10;
}

// Budget scoring
if (item.budget) {
  if (item.budget > 100000) score += 30;
  else if (item.budget > 10000) score += 20;
  else if (item.budget > 1000) score += 10;
}

// Industry scoring
const highValueIndustries = ['technology', 'finance', 'healthcare'];
if (highValueIndustries.includes(item.industry?.toLowerCase())) {
  score += 15;
}

// Determine priority
let priority = 'low';
if (score >= 80) priority = 'high';
else if (score >= 50) priority = 'medium';

return {
  ...item,
  score: score,
  priority: priority,
  scored_at: new Date().toISOString()
};".

Definition create_scoring_node (position : Z * Z) (s : supply)
  : node * (Z * Z) * supply :=
  let (u, s1) := uuid4 s in
  (function_node u "Calculate Score" position scoring_function_code,
   right_of position, s1).

Definition switch_rule (value2 output : Z) : value :=
  VDict [ ("value1", VStr "={{$json.score}}");
          ("operation", VStr "largerEqual");
          ("value2", VInt value2);
          ("output", VInt output) ].

Definition priority_node (node_id name_ : string) (position : Z * Z)
  (level speed : string) : node :=
  mk_node node_id name_ "n8n-nodes-base.set" 1 position None
    (VDict [("values",
             VDict [("string",
                     VList [ VDict [("name", VStr "priority_level");
                                    ("value", VStr level)];
                             VDict [("name", VStr "processing_speed");
                                    ("value", VStr speed)] ])])])
    None.

Definition create_branching_flow (requirements : dict) (position : Z * Z)
  (s : supply) : result (list node * connections * (Z * Z) * node * supply) :=
  let (u1, s1) := uuid4 s in
  let switch_node :=
    mk_node u1 "Route by Priority" "n8n-nodes-base.switch" 1 position None
      (VDict [ ("mode", VStr "rules");
               ("rules", VDict [("rules", VList [switch_rule 80 0; switch_rule 50 1])]);
               ("fallbackOutput", VInt 2) ])
      None in
  let high_pos := (fst position + spacing_x, snd position - spacing_y)%Z in
  let (u2, s2) := uuid4 s1 in
  let high_node :=
    priority_node u2 "High Priority Processing" high_pos "high" "immediate" in
  let med_pos := (fst position + spacing_x, snd position)%Z in
  let (u3, s3) := uuid4 s2 in
  let med_node :=
    priority_node u3 "Medium Priority Processing" med_pos "medium" "standard" in
  let low_pos := (fst position + spacing_x, snd position + spacing_y)%Z in
  let (u4, s4) := uuid4 s3 in
  let low_node :=
    priority_node u4 "Low Priority Processing" low_pos "low" "batched" in
  let cs0 : connections :=
    assoc_set [] (name switch_node)
      [("main", [ [mk_conn (name high_node) "main" 0];
                  [mk_conn (name med_node) "main" 0];
                  [mk_conn (name low_node) "main" 0] ])] in
  let merge_pos := (fst position + spacing_x * 2, snd position)%Z in
  let (u5, s5) := uuid4 s4 in
  let merge_node :=
    mk_node u5 "Merge Paths" "n8n-nodes-base.merge" 1 merge_pos None
      (VDict [("mode", VStr "append")]) None in
  cs1 <- connect_nodes cs0 high_node merge_node 0 ;;
  cs2 <- connect_nodes cs1 med_node merge_node 0 ;;
  cs3 <- connect_nodes cs2 low_node merge_node 0 ;;
  Ok ([switch_node; high_node; med_node; low_node; merge_node], cs3,
      (fst merge_pos + spacing_x, snd position)%Z, merge_node, s5).

(** [outputs[0]]. *)
Definition first_item (outputs : value) : result value :=
  match outputs with
  | VList (x :: _) => Ok x
  | VList [] => Raise IndexError
  | VStr (String c _) => Ok (VStr (String c ""))
  | VStr EmptyString => Raise IndexError
  | VDict _ => Raise (KeyError "0")
  | _ => Raise TypeError
  end.

Definition create_action_nodes (requirements : dict) (position : Z * Z)
  (s : supply) : result (node * connections * (Z * Z) * supply) :=
  let outputs := dict_get_default requirements "outputs" (VList [VStr "email"]) in
  primary_output <-
    (if truthy outputs then first_item outputs else Ok (VStr "email")) ;;
  let (u, s1) := uuid4 s in
  nd <-
    (if eq_str primary_output "email" then
       Ok (mk_node u "Send Email" "n8n-nodes-base.gmail" 1 position None
             (VDict [ ("resource", VStr "message");
                      ("operation", VStr "send");
                      ("sendTo", VStr "={{$json.email}}");
                      ("subject", VStr "={{$json.subject || 'Workflow Notification'}}");
                      ("message", VStr "={{$json.body || $json.message}}") ])
             (cred "gmailOAuth2" "1" "Gmail account (to be configured)"))
     else if eq_str primary_output "slack" then
       Ok (mk_node u "Post to Slack" "n8n-nodes-base.slack" 1 position None
             (VDict [ ("resource", VStr "message");
                      ("operation", VStr "post");
                      ("channel", VStr "#general");
                      ("text", VStr "={{$json.message}}") ])
             (cred "slackApi" "2" "Slack API (to be configured)"))
     else if eq_str primary_output "database" then
       '(database, titled) <- database_of requirements ;;
       Ok (mk_node u "Save to Database" ("n8n-nodes-base." +++ database) 1
             position None
             (VDict [ ("operation", VStr "insert");
                      ("table", VStr "workflow_results") ])
             (cred database "1" (titled +++ " (to be configured)")))
     else
       Ok (mk_node u "Send to Webhook" "n8n-nodes-base.httpRequest" 1 position
             None
             (VDict [ ("method", VStr "POST");
                      ("url", VStr "={{$json.webhook_url}}");
                      ("options", VDict []) ])
             None)) ;;
  Ok (nd, [], right_of position, s1).

Definition create_logging_node (requirements : dict) (position : Z * Z)
  (s : supply) : result (node * (Z * Z) * supply) :=
  '(database, titled) <- database_of requirements ;;
  let (u, s1) := uuid4 s in
  Ok (mk_node u "Log to Database" ("n8n-nodes-base." +++ database) 1 position
        None
        (VDict [ ("operation", VStr "insert");
                 ("table", VStr "workflow_logs");
                 ("columns", VStr "workflow_id,execution_id,data,timestamp");
                 ("additionalFields", VDict []) ])
        (cred database "1" (titled +++ " (to be configured)")),
      right_of position, s1).

Definition notify_slack_text : string :=
  "✅ Workflow completed successfully for: {{$json.name || $json.email}}".

Definition create_notification_nodes (requirements : dict) (position : Z * Z)
  (s : supply) : result (list node * connections * (Z * Z) * supply) :=
  let outputs := dict_get_default requirements "outputs" (VList []) in
  slack <- py_in "slack" outputs ;;
  wanted <-
    (if slack then Ok true
     else
       l <- py_lower (dict_get_default requirements "needs_notification" (VStr "")) ;;
       Ok (contains "notification" l)) ;;
  if wanted then
    let (u, s1) := uuid4 s in
    Ok ([ mk_node u "Notify Slack" "n8n-nodes-base.slack" 1 position None
            (VDict [ ("resource", VStr "message");
                     ("operation", VStr "post");
                     ("channel", VStr "#notifications");
                     ("text", VStr notify_slack_text) ])
            (cred "slackApi" "2" "Slack API (to be configured)") ],
        [], right_of position, s1)
  else Ok ([], [], right_of position, s).

Definition log_error_function_code : string :=
  "const error = $input.item.json;
return {
  workflow_id: $workflow.id,
  execution_id: $execution.id,
  node_name: error.node?.name,
  error_message: error.error?.message,
  error_stack: error.error?.stack,
  timestamp: new Date().toISOString(),
  input_data: error.itemIndex !== undefined ? 
    $input.all()[error.itemIndex]?.json : null
};".

Definition alert_subject : string := "🚨 Workflow Error Alert".

Definition create_error_workflow (requirements : dict) (s : supply)
  : result (list node * connections * supply) :=
  let (u1, s1) := uuid4 s in
  let error_trigger :=
    mk_node u1 "Error Trigger" "n8n-nodes-base.errorTrigger" 1
      (position_x, position_y + 400)%Z None (VDict []) None in
  let (u2, s2) := uuid4 s1 in
  let log_error :=
    function_node u2 "Log Error Details"
      (position_x + spacing_x, position_y + 400)%Z log_error_function_code in
  cs1 <- connect_nodes [] error_trigger log_error 0 ;;
  if flag requirements "needs_error_alerts" then
    let (u3, s3) := uuid4 s2 in
    let alert_node :=
      mk_node u3 "Alert Admin" "n8n-nodes-base.gmail" 1
        (position_x + spacing_x * 2, position_y + 400)%Z None
        (VDict [ ("resource", VStr "message");
                 ("operation", VStr "send");
                 ("sendTo", VStr "admin@company.com");
                 ("subject", VStr alert_subject);
                 ("message",
                  VStr "Error in workflow {{$json.workflow_id}}: {{$json.error_message}}") ])
        (cred "gmailOAuth2" "1" "Gmail account (to be configured)") in
    cs2 <- connect_nodes cs1 log_error alert_node 0 ;;
    Ok ([error_trigger; log_error; alert_node], cs2, s3)
  else Ok ([error_trigger; log_error], cs1, s2).

(** [conversation], when given, is read for its [initial_request] only. *)
Definition generate_workflow_name (requirements : dict)
  (conversation : option string) : result string :=
  match conversation with
  | Some request =>
      let words := firstn 5 (split request) in
      Ok (title (join " " words) +++ " Workflow")
  | None =>
      let trigger := dict_get_default requirements "trigger" (VStr "workflow") in
      action <- first_item (dict_get_default requirements "outputs"
                              (VList [VStr "processing"])) ;;
      t <- py_title trigger ;;
      a <- py_title action ;;
      Ok (t +++ " to " +++ a +++ " Workflow")
  end.

(** *** [generate] *)

(** The local variables of [generate] between two numbered steps. *)
Record build : Type := mk_build {
  b_nodes : list node;
  b_connections : connections;
  b_position : Z * Z;
  b_last_node : node;
  b_supply : supply
}.

(** 1. Add trigger node. *)
Definition step_trigger (requirements : dict) (s : supply) : build :=
  let '(trigger_node, position, s1) :=
    create_trigger_node requirements (position_x, position_y) s in
  mk_build [trigger_node] [] position trigger_node s1.

(** 2. Add authentication if needed. *)
Definition step_auth (requirements : dict) (b : build) : result build :=
  if flag requirements "needs_auth" then
    let '(auth_node, position, s1) :=
      create_auth_node (b_position b) (b_supply b) in
    cs <- connect_nodes (b_connections b) (b_last_node b) auth_node 0 ;;
    Ok (mk_build (b_nodes b ++ [auth_node]) cs position auth_node s1)
  else Ok b.

(** [nodes[0]]. *)
Definition first_node (nodes : list node) : result node :=
  match nodes with
  | n :: _ => Ok n
  | [] => Raise IndexError
  end.

(** 3. Add data validation flow. *)
Definition step_validation (requirements : dict) (b : build) : result build :=
  if flag requirements "needs_validation" then
    '(validation_nodes, validation_conns, position, success_node, _, s1) <-
      create_validation_flow (b_position b) (b_supply b) ;;
    let cs1 := merge_connections (b_connections b) validation_conns in
    first <- first_node validation_nodes ;;
    cs2 <- connect_nodes cs1 (b_last_node b) first 0 ;;
    Ok (mk_build (b_nodes b ++ validation_nodes) cs2 position success_node s1)
  else Ok b.

(** 4. Add duplicate check. *)
Definition step_duplicate_check (requirements : dict) (b : build) : result build :=
  if flag requirements "needs_duplicate_check" then
    '(dup_nodes, dup_conns, position, new_node, s1) <-
      create_duplicate_check_flow requirements (b_position b) (b_supply b) ;;
    let cs1 := merge_connections (b_connections b) dup_conns in
    first <- first_node dup_nodes ;;
    cs2 <- connect_nodes cs1 (b_last_node b) first 0 ;;
    Ok (mk_build (b_nodes b ++ dup_nodes) cs2 position new_node s1)
  else Ok b.

(** 5. Add data transformation/scoring. *)
Definition step_scoring (requirements : dict) (b : build) : result build :=
  if flag requirements "needs_scoring" then
    let '(scoring_node, position, s1) :=
      create_scoring_node (b_position b) (b_supply b) in
    cs <- connect_nodes (b_connections b) (b_last_node b) scoring_node 0 ;;
    Ok (mk_build (b_nodes b ++ [scoring_node]) cs position scoring_node s1)
  else Ok b.

(** 6. Add branching logic if needed. *)
Definition step_branching (requirements : dict) (complexity : Z) (b : build)
  : result build :=
  if flag requirements "has_branching" || Z.ltb 6 complexity then
    '(branch_nodes, branch_conns, position, merge_node, s1) <-
      create_branching_flow requirements (b_position b) (b_supply b) ;;
    let cs1 := merge_connections (b_connections b) branch_conns in
    first <- first_node branch_nodes ;;
    cs2 <- connect_nodes cs1 (b_last_node b) first 0 ;;
    Ok (mk_build (b_nodes b ++ branch_nodes) cs2 position merge_node s1)
  else Ok b.

(** 7. Add action nodes (outputs). *)
Definition step_action (requirements : dict) (b : build) : result build :=
  '(action_nodes, action_conns, position, s1) <-
    create_action_nodes requirements (b_position b) (b_supply b) ;;
  let cs1 := merge_connections (b_connections b) action_conns in
  cs2 <- connect_nodes cs1 (b_last_node b) action_nodes 0 ;;
  Ok (mk_build (b_nodes b ++ [action_nodes]) cs2 position action_nodes s1).

(** 8. Add logging if needed. *)
Definition step_logging (requirements : dict) (complexity : Z) (b : build)
  : result build :=
  if flag requirements "needs_logging" || Z.ltb 5 complexity then
    '(log_node, position, s1) <-
      create_logging_node requirements (b_position b) (b_supply b) ;;
    cs <- connect_nodes (b_connections b) (b_last_node b) log_node 0 ;;
    Ok (mk_build (b_nodes b ++ [log_node]) cs position log_node s1)
  else Ok b.

(** 9. Add notification nodes. *)
Definition step_notification (requirements : dict) (b : build) : result build :=
  if flag requirements "needs_notification" then
    '(notif_nodes, notif_conns, position, s1) <-
      create_notification_nodes requirements (b_position b) (b_supply b) ;;
    let cs1 := merge_connections (b_connections b) notif_conns in
    first <- first_node notif_nodes ;;
    cs2 <- connect_nodes cs1 (b_last_node b) first 0 ;;
    Ok (mk_build (b_nodes b ++ notif_nodes) cs2 position (b_last_node b) s1)
  else Ok b.

(** 10. Add error handling workflow. *)
Definition step_error_handling (requirements : dict) (b : build) : result build :=
  if flag requirements "needs_error_handling" then
    '(error_nodes, error_conns, s1) <-
      create_error_workflow requirements (b_supply b) ;;
    Ok (mk_build (b_nodes b ++ error_nodes)
          (merge_connections (b_connections b) error_conns)
          (b_position b) (b_last_node b) s1)
  else Ok b.

Definition generate (requirements : dict) (conversation : option string)
  (s : supply) : result (workflow * supply) :=
  complexity <- calculate_complexity requirements ;;
  let b1 := step_trigger requirements s in
  b2 <- step_auth requirements b1 ;;
  b3 <- step_validation requirements b2 ;;
  b4 <- step_duplicate_check requirements b3 ;;
  b5 <- step_scoring requirements b4 ;;
  b6 <- step_branching requirements complexity b5 ;;
  b7 <- step_action requirements b6 ;;
  b8 <- step_logging requirements complexity b7 ;;
  b9 <- step_notification requirements b8 ;;
  b10 <- step_error_handling requirements b9 ;;
  workflow_name <- generate_workflow_name requirements conversation ;;
  Ok (mk_workflow workflow_name (b_nodes b10) (b_connections b10) false
        (VDict [("executionOrder", VStr "v1")])
        (mk_meta "n8n-flow-generator" "2.0" complexity
           (List.length (b_nodes b10))),
      b_supply b10).

(** The graph with every drawn identifier blanked. *)
Definition erase_node (n : node) : node :=
  mk_node "" (name n) (type n) (typeVersion n) (position n)
    (option_map (fun _ => "") (webhookId n)) (parameters n) (credentials n).

Definition erase_ids (w : workflow) : workflow :=
  mk_workflow (w_name w) (map erase_node (w_nodes w)) (w_connections w)
    (w_active w) (w_settings w) (w_meta w).

(** The names at both ends of every connection. *)
Definition targets_of (d : conn_data) : list string :=
  flat_map (fun kv => flat_map (fun l => map c_node l) (snd kv)) d.

Definition endpoints (cs : connections) : list string :=
  flat_map (fun kv => fst kv :: targets_of (snd kv)) cs.

End WorkflowGenerator.

(** ** routers/generate.py and routers/conversation.py: a builder graph
       read as a [WorkflowJSON]

    The routers hand the dictionary a generator returned to the
    constructor of [WorkflowJSON], as keyword arguments, and the model
    to [validate_workflow].  On the dictionaries the builder writes, the
    model keeps the fields models/workflow.py declares ([webhookId] is
    not one of them) and refuses a field that has not the declared
    type. *)

Module Routers.

Fixpoint mapO {A B : Type} (f : A -> option B) (l : list A) : option (list B) :=
  match l with
  | [] => Some []
  | x :: tl =>
      match f x, mapO f tl with
      | Some y, Some ys => Some (y :: ys)
      | _, _ => None
      end
  end.

(** An entry of a [Dict[str, str]]. *)
Definition str_entry (kv : string * value) : option (string * string) :=
  match snd kv with
  | VStr s => Some (fst kv, s)
  | _ => None
  end.

(** [credentials: Optional[Dict[str, Dict[str, str]]]]. *)
Definition credentials_model (v : value)
  : option (list (string * list (string * string))) :=
  match v with
  | VDict bag =>
      mapO (fun kv =>
              match snd kv with
              | VDict reference =>
                  match mapO str_entry reference with
                  | Some r => Some (fst kv, r)
                  | None => None
                  end
              | _ => None
              end) bag
  | _ => None
  end.

(** [WorkflowNode]: [position: List[int]], [parameters: Dict[str, Any]]. *)
Definition node_model (n : WorkflowGenerator.node)
  : option ValidationService.WorkflowNode :=
  match WorkflowGenerator.parameters n with
  | VDict p =>
      let mk := ValidationService.mk_node
                  (WorkflowGenerator.id n) (WorkflowGenerator.name n)
                  (WorkflowGenerator.type n) (WorkflowGenerator.typeVersion n)
                  [fst (WorkflowGenerator.position n);
                   snd (WorkflowGenerator.position n)] p in
      match WorkflowGenerator.credentials n with
      | None => Some (mk None)
      | Some c =>
          match credentials_model c with
          | Some c' => Some (mk (Some c'))
          | None => None
          end
      end
  | _ => None
  end.

Definition connection_model (c : WorkflowGenerator.conn)
  : ValidationService.WorkflowConnection :=
  ValidationService.mk_connection (WorkflowGenerator.c_node c)
    (WorkflowGenerator.c_type c) (WorkflowGenerator.c_index c).

Definition conn_data_model (d : WorkflowGenerator.conn_data)
  : ValidationService.conn_data :=
  map (fun kv => (fst kv, map (map connection_model) (snd kv))) d.

(** [meta: Optional[Dict[str, Any]]]. *)
Definition meta_model (m : WorkflowGenerator.meta) : dict :=
  [ ("generatedBy", VStr (WorkflowGenerator.generatedBy m));
    ("version", VStr (WorkflowGenerator.version m));
    ("complexity", VInt (WorkflowGenerator.m_complexity m));
    ("nodeCount", VInt (Z.of_nat (WorkflowGenerator.nodeCount m))) ].

(** The constructor of [WorkflowJSON] on the builder's dictionary. *)
Definition workflow_model (w : WorkflowGenerator.workflow)
  : option ValidationService.WorkflowJSON :=
  match mapO node_model (WorkflowGenerator.w_nodes w),
        WorkflowGenerator.w_settings w with
  | Some nodes, VDict settings =>
      Some (ValidationService.mk_workflow (WorkflowGenerator.w_name w) nodes
              (map (fun kv => (fst kv, conn_data_model (snd kv)))
                   (WorkflowGenerator.w_connections w))
              (Some (WorkflowGenerator.w_active w)) (Some settings)
              (Some (meta_model (WorkflowGenerator.w_meta w))))
  | _, _ => None
  end.

End Routers.

(** * Properties of the core *)

(** ** Vocabulary of the statements and the inputs of the scenarios *)

(** A supply whose draws are pairwise distinct, as those of [uuid4] are. *)
Definition ids : supply := fun n => "uuid-" +++ str_of_nat n.


Definition node_count_feedback_5_of_15 : string :=
  "CRITICAL: Workflow has only 5 nodes. Add more nodes to reach 15 nodes minimum.".

Definition plain_node (name type : string) : value :=
  VDict [("name", VStr name); ("type", VStr type)].

(** Five nodes, none of them connected, scored at the lightest tier. *)
Definition five_nodes : dict :=
  [("nodes", VList [ plain_node "Start" "n8n-nodes-base.manualTrigger";
                     plain_node "Prepare" "n8n-nodes-base.set";
                     plain_node "Check" "n8n-nodes-base.if";
                     plain_node "Call" "n8n-nodes-base.httpRequest";
                     plain_node "Done" "n8n-nodes-base.set" ])].

(** A workflow whose only node has no [type], and one whose only node has
    no [name]. *)
Definition untyped_node_workflow : dict :=
  [("nodes", VList [VDict [("name", VStr "A")]])].

Definition unnamed_node_workflow : dict :=
  [("nodes", VList [VDict [("type", VStr "n8n-nodes-base.set")]])].

(** A candidate that still scores nothing once repaired: one service node
    with an empty credential bag and no parameters. *)
Definition zero_score_candidate : dict :=
  [("nodes", VList [VDict [ ("name", VStr "A");
                            ("type", VStr "n8n-nodes-base.openAi");
                            ("credentials", VDict []) ]])].

Definition is_scored (e : EnhancedWorkflowGenerator.event) : bool :=
  match e with
  | EnhancedWorkflowGenerator.Scored _ => true
  | _ => false
  end.

Definition is_request (e : EnhancedWorkflowGenerator.event) : bool :=
  match e with
  | EnhancedWorkflowGenerator.Requested _ => true
  | _ => false
  end.

Definition exhausted_warning : string :=
  "Workflow may not meet all quality standards".

(** Adding the binding [cred_type -> ref] to a node: into its credential
    bag when it has one, into a new bag otherwise. *)
Definition bind_credential (node : dict) (cred_type : string) (ref : value)
  : dict :=
  match dict_get node "credentials" with
  | Some (VDict bag) =>
      dict_set node "credentials" (VDict (dict_set bag cred_type ref))
  | _ => dict_set node "credentials" (VDict [(cred_type, ref)])
  end.

(** Two service nodes, the second one unbound, and a reference to bind. *)
Definition gmail_unbound : dict :=
  [ ("name", VStr "Send Email"); ("type", VStr "n8n-nodes-base.gmail");
    ("parameters", VDict [("resource", VStr "message"); ("operation", VStr "send")]) ].

Definition slack_bound : value :=
  VDict [ ("name", VStr "Post to Slack"); ("type", VStr "n8n-nodes-base.slack");
          ("credentials", VDict [("slackApi", VDict [("id", VStr "2")])]) ].

Definition two_services : dict :=
  [ ("name", VStr "Notify");
    ("nodes", VList ([slack_bound] ++ VDict gmail_unbound :: [])) ].

Definition gmail_schema : NodeSchemas.schema :=
  NodeSchemas.mk_schema ["resource"; "operation"] ["sendTo"; "subject"; "message"]
    true (Some "gmailOAuth2") true.

Definition gmail_reference : value :=
  VDict [("id", VStr "1"); ("name", VStr "Gmail account")].

(** The two findings [_validate_nodes] can attach to a typed node. *)
Definition position_error (n : ValidationService.WorkflowNode)
  : ValidationService.ValidationError :=
  ValidationService.mk_error "node" "Node position must be [x, y]"
    (Some (ValidationService.wn_id n)).

Definition type_format_error (n : ValidationService.WorkflowNode)
  : ValidationService.ValidationError :=
  ValidationService.mk_error "node"
    ("Invalid node type format: " +++ ValidationService.wn_type n)
    (Some (ValidationService.wn_id n)).

(** A well-formed node of a given type, and the workflow made of it. *)
Definition node_of_type (type : string) : ValidationService.WorkflowNode :=
  ValidationService.mk_node "1" "Model" type 1 [240%Z; 300%Z]
    [("model", VStr "gpt-4")] None.

Definition one_node_workflow (type : string) : ValidationService.WorkflowJSON :=
  ValidationService.mk_workflow "Ask the model" [node_of_type type] []
    (Some false) (Some []) None.

(** A type tag the registry does not list. *)
Definition unlisted_type : string := "@n8n/n8n-nodes-langchain.openAi".

(** The same tag under the prefix the structural validator asks for. *)
Definition unlisted_base_type : string := "n8n-nodes-base.airtable".

(** *** Fully populated graphs *)

Definition has_all (d : dict) (keys : list string) : bool :=
  forallb (dict_has d) keys.

Definition nonempty_dict (v : option value) : bool :=
  match v with
  | Some (VDict (_ :: _)) => true
  | _ => false
  end.

(** The credential bag holds the kind the schema asks for. *)
Definition credentials_bound (d : dict) (sch : NodeSchemas.schema) : bool :=
  if NodeSchemas.requires_credentials sch then
    match dict_get d "credentials", NodeSchemas.credential_type sch with
    | Some (VDict bag), Some ct => dict_has bag ct
    | _, _ => false
    end
  else true.

(** The error policy is there where the schema recommends one and the
    repair pass would look. *)
Definition error_policy_set (d : dict) (t : string) (sch : NodeSchemas.schema)
  : bool :=
  if NodeSchemas.error_handling_recommended sch
     && negb (endswith t "Trigger")
     && negb (String.eqb t QualityValidator.sticky_type)
  then has_all d ["onError"; "retryOnFail"; "maxTries"]
  else true.

(** A node with id, position, version, non-empty parameters, a string
    type tag, and the credential binding and the error policy its type
    asks for. *)
Definition node_populated (n : value) : bool :=
  match n with
  | VDict d =>
      has_all d ["id"; "position"; "typeVersion"]
      && nonempty_dict (dict_get d "parameters")
      && match dict_get d "type" with
         | Some (VStr t) =>
             match assoc NodeSchemas.schemas t with
             | Some sch => credentials_bound d sch && error_policy_set d t sch
             | None => true
             end
         | _ => false
         end
  | _ => false
  end.

Definition is_sticky_node (n : value) : bool :=
  match n with
  | VDict d => eq_str (dict_get_default d "type" VNone) QualityValidator.sticky_type
  | _ => false
  end.

(** A workflow with its top-level fields, populated nodes and at least
    [min_notes] annotation nodes. *)
Definition populated (min_notes : nat) (w : dict) : bool :=
  has_all w ["name"; "nodes"; "connections"; "active"; "settings"]
  && match dict_get w "nodes" with
     | Some (VList l) =>
         forallb node_populated l
         && Nat.leb min_notes (List.length (filter is_sticky_node l))
     | _ => false
     end.

(** Every node that needs an incoming connection has one. *)
Definition connected (w : dict) : bool :=
  match QualityValidator.check_connections w with
  | Ok r => QualityValidator.cn_passed r
  | Raise _ => false
  end.

Definition note (i : string) (x : Z) : value :=
  VDict [ ("id", VStr ("note-" +++ i)); ("name", VStr ("Note " +++ i));
          ("type", VStr "n8n-nodes-base.stickyNote"); ("typeVersion", VInt 1);
          ("position", VList [VInt x; VInt 100]);
          ("parameters", VDict [("content", VStr "## Section")]) ].

(** A trigger, a transformation and a bound, error-handled service node
    in a chain, documented by five annotation nodes. *)
Definition documented_workflow : dict :=
  [ ("name", VStr "Daily digest");
    ("nodes",
     VList [ VDict [ ("id", VStr "a"); ("name", VStr "Every morning");
                     ("type", VStr "n8n-nodes-base.scheduleTrigger");
                     ("typeVersion", VInt 1);
                     ("position", VList [VInt 240; VInt 300]);
                     ("parameters", VDict [("rule", VDict [("interval", VList [])])]) ];
             VDict [ ("id", VStr "b"); ("name", VStr "Prepare digest");
                     ("type", VStr "n8n-nodes-base.set");
                     ("typeVersion", VInt 1);
                     ("position", VList [VInt 460; VInt 300]);
                     ("parameters", VDict [("values", VDict [])]) ];
             VDict [ ("id", VStr "c"); ("name", VStr "Post to Slack");
                     ("type", VStr "n8n-nodes-base.slack");
                     ("typeVersion", VInt 1);
                     ("position", VList [VInt 680; VInt 300]);
                     ("parameters", VDict [ ("resource", VStr "message");
                                            ("operation", VStr "post") ]);
                     ("credentials",
                      VDict [("slackApi", VDict [ ("id", VStr "2");
                                                  ("name", VStr "Slack account") ])]);
                     ("onError", VStr "continueRegularOutput");
                     ("retryOnFail", VBool true);
                     ("maxTries", VInt 3) ];
             note "1" 40; note "2" 260; note "3" 480; note "4" 700; note "5" 920 ]);
    ("connections",
     VDict [ ("Every morning",
              VDict [("main", VList [VList [VDict [ ("node", VStr "Prepare digest");
                                                     ("type", VStr "main");
                                                     ("index", VInt 0) ]]])]);
             ("Prepare digest",
              VDict [("main", VList [VList [VDict [ ("node", VStr "Post to Slack");
                                                     ("type", VStr "main");
                                                     ("index", VInt 0) ]]])]) ]);
    ("active", VBool false);
    ("settings", VDict [("executionOrder", VStr "v1")]) ].

(** *** The graph builder *)

Definition names (ns : list WorkflowGenerator.node) : list string :=
  map WorkflowGenerator.name ns.

(** The targets listed under one connection type. *)
Definition group_targets (l : list (list WorkflowGenerator.conn)) : list string :=
  flat_map (fun g => map WorkflowGenerator.c_node g) l.

(** The display names each step of [generate] can give out. *)
Definition trigger_names : list string :=
  ["Webhook Trigger"; "Schedule Trigger"; "Email Trigger"; "Manual Trigger"].
Definition auth_names : list string := ["Validate API Key"].
Definition validation_names : list string :=
  ["Validate Data"; "Is Valid?"; "Log Validation Error"].
Definition duplicate_names : list string :=
  ["Check for Duplicates"; "Is New Record?"].
Definition scoring_names : list string := ["Calculate Score"].
Definition branching_names : list string :=
  [ "Route by Priority"; "High Priority Processing"; "Medium Priority Processing";
    "Low Priority Processing"; "Merge Paths" ].
Definition action_names : list string :=
  ["Send Email"; "Post to Slack"; "Save to Database"; "Send to Webhook"].
Definition logging_names : list string := ["Log to Database"].
Definition notification_names : list string := ["Notify Slack"].
Definition error_names : list string :=
  ["Error Trigger"; "Log Error Details"; "Alert Admin"].

(** What holds of the local variables of [generate] after each step, the
    names given out so far being drawn from [pool]. *)
Record build_invariant (pool : list string) (b : WorkflowGenerator.build)
  : Prop := {
  inv_nodup : NoDup (names (WorkflowGenerator.b_nodes b));
  inv_pool : incl (names (WorkflowGenerator.b_nodes b)) pool;
  inv_closed :
    incl (WorkflowGenerator.endpoints (WorkflowGenerator.b_connections b))
         (names (WorkflowGenerator.b_nodes b));
  inv_last :
    In (WorkflowGenerator.name (WorkflowGenerator.b_last_node b))
       (names (WorkflowGenerator.b_nodes b))
}.

Definition disjoint (a b : list string) : Prop :=
  forall x, In x a -> ~ In x b.

Definition result_map {A B : Type} (f : A -> B) (r : result A) : result B :=
  match r with
  | Ok a => Ok (f a)
  | Raise e => Raise e
  end.

(** The local variables of [generate] with the drawn identifiers blanked
    and the supply left out. *)
Definition erase_build (b : WorkflowGenerator.build)
  : list WorkflowGenerator.node * WorkflowGenerator.connections * (Z * Z)
    * WorkflowGenerator.node :=
  (map WorkflowGenerator.erase_node (WorkflowGenerator.b_nodes b),
   WorkflowGenerator.b_connections b,
   WorkflowGenerator.b_position b,
   WorkflowGenerator.erase_node (WorkflowGenerator.b_last_node b)).

(** A requirements record that switches every step on. *)
Definition full_requirements : dict :=
  [ ("trigger", VStr "webhook"); ("needs_auth", VBool true);
    ("needs_validation", VBool true); ("needs_duplicate_check", VBool true);
    ("needs_scoring", VBool true); ("has_branching", VBool true);
    ("needs_logging", VBool true); ("needs_notification", VStr "notification");
    ("needs_error_handling", VBool true); ("needs_error_alerts", VBool true);
    ("outputs", VList [VStr "slack"]) ].

(** Membership, inclusion, disjointness and absence of duplicates for
    lists of literal names, by computation. *)
Fixpoint mem_string (x : string) (l : list string) : bool :=
  match l with
  | [] => false
  | y :: tl => String.eqb x y || mem_string x tl
  end.

Definition inclb (a b : list string) : bool :=
  forallb (fun x => mem_string x b) a.

Definition disjointb (a b : list string) : bool :=
  forallb (fun x => negb (mem_string x b)) a.

Fixpoint nodupb (l : list string) : bool :=
  match l with
  | [] => true
  | x :: tl => negb (mem_string x tl) && nodupb tl
  end.

(** The names given out up to and including each step. *)
Definition pool2 : list string := trigger_names ++ auth_names.
Definition pool3 : list string := pool2 ++ validation_names.
Definition pool4 : list string := pool3 ++ duplicate_names.
Definition pool5 : list string := pool4 ++ scoring_names.
Definition pool6 : list string := pool5 ++ branching_names.
Definition pool7 : list string := pool6 ++ action_names.
Definition pool8 : list string := pool7 ++ logging_names.
Definition pool9 : list string := pool8 ++ notification_names.
Definition pool10 : list string := pool9 ++ error_names.

(** ** Vocabulary of the further properties *)

(** *** The structural validator *)

Definition node_names (w : ValidationService.WorkflowJSON) : list string :=
  map ValidationService.wn_name (ValidationService.wf_nodes w).

(** Every source of a connection and every target listed under [main]
    names a node of the workflow. *)
Definition connections_resolved (w : ValidationService.WorkflowJSON) : Prop :=
  forall source outputs,
    In (source, outputs) (ValidationService.wf_connections w) ->
    In source (node_names w) /\
    forall groups group c,
      assoc outputs "main" = Some groups ->
      In group groups -> In c group ->
      In (ValidationService.wc_node c) (node_names w).

(** The shape [_validate_nodes] asks of a node. *)
Definition node_well_shaped (n : ValidationService.WorkflowNode) : Prop :=
  List.length (ValidationService.wn_position n) = 2
  /\ startswith (ValidationService.wn_type n) "n8n-nodes-base." = true.

(** The findings of one entry of [connections]. *)
Definition connection_findings (names : list string)
  (item : string * ValidationService.conn_data)
  : list ValidationService.ValidationError :=
  if negb (ValidationService.name_in names (fst item)) then
    [ValidationService.mk_error "connection"
       ("Connection source node not found: " +++ fst item) None]
  else
    match assoc (snd item) "main" with
    | Some groups =>
        flat_map (fun group =>
          flat_map (fun c =>
            if negb (ValidationService.name_in names (ValidationService.wc_node c))
            then [ValidationService.mk_error "connection"
                    ("Connection target node not found: "
                       +++ ValidationService.wc_node c)
                    (Some (fst item))]
            else []) group) groups
    | None => []
    end.

(** A chain of two nodes whose source also lists a target of a kind that
    is not checked. *)
Definition two_node_workflow : ValidationService.WorkflowJSON :=
  ValidationService.mk_workflow "Chain"
    [ ValidationService.mk_node "1" "Start" "n8n-nodes-base.manualTrigger" 1
        [240%Z; 300%Z] [] None;
      ValidationService.mk_node "2" "Model" "n8n-nodes-base.set" 1
        [460%Z; 300%Z] [("values", VDict [])] None ]
    [ ("Start",
       [ ("main", [[ValidationService.mk_connection "Model" "main" 0]]);
         ("ai_tool", [[ValidationService.mk_connection "Nowhere" "ai_tool" 0]]) ]) ]
    (Some false) (Some []) None.

(** *** Node schemas *)

(** The node binds the credential kind its schema asks for. *)
Definition credential_bound (d : dict) (sch : NodeSchemas.schema) : Prop :=
  NodeSchemas.requires_credentials sch = true ->
  exists bag,
    dict_get d "credentials" = Some (VDict bag) /\
    forall ct, NodeSchemas.credential_type sch = Some ct -> dict_has bag ct = true.

Definition gmail_complete : dict :=
  [ ("name", VStr "Send Email"); ("type", VStr "n8n-nodes-base.gmail");
    ("parameters", VDict [("resource", VStr "message"); ("operation", VStr "send")]);
    ("credentials", VDict [("gmailOAuth2", gmail_reference)]) ].

(** *** The quality scorer *)

Definition failed (passed : bool) : nat := if passed then 0 else 1.

(** The number of checks that did not pass. *)
Definition failed_checks (d : QualityValidator.details) : nat :=
  failed (QualityValidator.nc_passed (QualityValidator.node_count d))
  + failed (QualityValidator.cr_passed (QualityValidator.credentials d))
  + failed (QualityValidator.pr_passed (QualityValidator.parameters d))
  + failed (QualityValidator.eh_passed (QualityValidator.error_handling d))
  + failed (QualityValidator.cn_passed (QualityValidator.connections d))
  + failed (QualityValidator.dc_passed (QualityValidator.documentation d))
  + failed (QualityValidator.fc_passed (QualityValidator.flow_complexity d)).

(** A candidate without any node. *)
Definition empty_candidate : dict := [("nodes", VList [])].

(** A workflow made of a trigger and an annotation node only. *)
Definition trigger_and_note : dict :=
  [("nodes", VList [ plain_node "Start" "n8n-nodes-base.manualTrigger";
                     plain_node "Note" "n8n-nodes-base.stickyNote" ])].

(** *** The refinement loop *)

(** The scores a run logged, in order. *)
Definition scores (log : list EnhancedWorkflowGenerator.event) : list Z :=
  flat_map (fun e => match e with
                     | EnhancedWorkflowGenerator.Scored z => [z]
                     | _ => []
                     end) log.

Definition requests (log : list EnhancedWorkflowGenerator.event) : nat :=
  List.length (filter is_request log).

Definition is_refined (e : EnhancedWorkflowGenerator.event) : bool :=
  match e with
  | EnhancedWorkflowGenerator.Refined => true
  | _ => false
  end.

(** The greatest of a starting value and the scores of a list. *)
Definition best_of (start : Z) (l : list Z) : Z := fold_left Z.max l start.

(** A collaborator that answers every request with the same candidate. *)
Definition constant_collaborator (candidate : dict) (n : nat) (prompt : string)
  : option dict := Some candidate.

(** *** The repair sequence *)

Definition workflow_keys : list string :=
  ["name"; "nodes"; "connections"; "active"; "settings"].

Definition node_keys : list string :=
  ["id"; "position"; "parameters"; "typeVersion"].

Definition error_policy_keys : list string :=
  ["onError"; "retryOnFail"; "maxTries"].

(** The fields the repair passes may add to a node. *)
Definition repair_keys : list string :=
  node_keys ++ ["credentials"] ++ error_policy_keys.

(** [d'] is [d] with some missing fields among [keys] filled in: every
    other field, and every field [d] had, reads as before. *)
Definition fills (keys : list string) (d d' : dict) : Prop :=
  forall k,
    dict_get d' k = dict_get d k \/ (In k keys /\ dict_get d k = None).

Definition node_fills (keys : list string) (n n' : value) : Prop :=
  exists d d', n = VDict d /\ n' = VDict d' /\ fills keys d d'.

(** What the passes leave behind on a node: the four structural fields,
    a string type tag (or none), a credential entry where the registry
    asks for credentials and the error policy where it recommends one. *)
Definition repaired_node (n : value) : bool :=
  match n with
  | VDict d =>
      has_all d node_keys
      && match dict_get_default d "type" (VStr "") with
         | VStr t =>
             match assoc NodeSchemas.schemas t with
             | Some sch =>
                 (if NodeSchemas.requires_credentials sch
                  then dict_has d "credentials" else true)
                 && error_policy_set d t sch
             | None => true
             end
         | _ => false
         end
  | _ => false
  end.

Definition sticky_count (l : list value) : nat :=
  List.length (filter is_sticky_node l).

(** A candidate as a collaborator may return it: two bare nodes. *)
Definition bare_candidate : dict :=
  [("nodes", VList [ VDict [ ("name", VStr "Start");
                             ("type", VStr "n8n-nodes-base.webhook") ];
                     VDict [ ("name", VStr "Ask");
                             ("type", VStr "n8n-nodes-base.openAi") ] ])].

(** *** The graph builder *)

(** A node the typed model accepts, with a type tag under
    [n8n-nodes-base.]. *)
Definition builder_node_ok (n : WorkflowGenerator.node) : bool :=
  startswith (WorkflowGenerator.type n) "n8n-nodes-base."
  && match Routers.node_model n with
     | Some _ => true
     | None => false
     end.

(** A step appended between [lo] and [hi] nodes, all of them accepted. *)
Definition grown_by (lo hi : nat) (b b' : WorkflowGenerator.build) : Prop :=
  exists new,
    WorkflowGenerator.b_nodes b' = WorkflowGenerator.b_nodes b ++ new
    /\ forallb builder_node_ok new = true
    /\ lo <= List.length new <= hi.

(** Requirements that ask for a notification with a flag. *)
Definition notify_flag_requirements : dict :=
  [ ("trigger", VStr "webhook"); ("needs_notification", VBool true) ].

(** The least requirements. *)
Definition no_requirements : dict := [].

(** The output lists of a source before a connection is added: those
    under [main] of its entry, one empty list when it has no entry. *)
Definition outputs_of (cs : WorkflowGenerator.connections) (source : string)
  : list (list WorkflowGenerator.conn) :=
  match assoc cs source with
  | Some data =>
      match assoc data "main" with
      | Some main => main
      | None => []
      end
  | None => [[]]
  end.

Definition other_kinds (cs : WorkflowGenerator.connections) (source kind : string)
  : option (list (list WorkflowGenerator.conn)) :=
  match assoc cs source with
  | Some data => assoc data kind
  | None => None
  end.

Definition named (n : string) : WorkflowGenerator.node :=
  WorkflowGenerator.mk_node "" n "n8n-nodes-base.set" 1 (0, 0)%Z None
    (VDict []) None.

(** Requirements whose list of outputs is empty. *)
Definition no_output_requirements : dict := [("outputs", VList [])].

(** Requirements with a schedule, a check for duplicates and two
    outputs. *)
Definition two_output_requirements : dict :=
  [ ("trigger", VStr "schedule"); ("needs_duplicate_check", VBool true);
    ("outputs", VList [VStr "slack"; VStr "database"]) ].

(** The prompts a run sent, in order. *)
Definition prompts (log : list EnhancedWorkflowGenerator.event) : list string :=
  flat_map (fun e => match e with
                     | EnhancedWorkflowGenerator.Requested p => [p]
                     | _ => []
                     end) log.

(** Each prompt of the list begins with the one before it, the first
    with [p]. *)
Fixpoint each_extends (p : string) (l : list string) : Prop :=
  match l with
  | [] => True
  | q :: tl => startswith q p = true /\ each_extends q tl
  end.

(** The names the connections link: every source, and every target
    listed under [main]. *)
Definition linked_names (w : ValidationService.WorkflowJSON) : list string :=
  flat_map (fun item =>
              fst item
              :: match assoc (snd item) "main" with
                 | Some groups =>
                     flat_map (fun g => map ValidationService.wc_node g) groups
                 | None => []
                 end)
           (ValidationService.wf_connections w).

(** Two maps merged key by key: a key of one side keeps its entry, a key
    of both gets the two entries combined. *)
Definition merged {A : Type} (combine : A -> A -> A) (a b : option A)
  : option A :=
  match a, b with
  | None, x => x
  | Some x, None => Some x
  | Some x, Some y => Some (combine x y)
  end.

Definition keys {A : Type} (l : list (string * A)) : list string := map fst l.

(** *** Identifiers *)

(** A supply that never gives the same identifier twice. *)
Definition fresh (s : supply) : Prop := forall i j, s i = s j -> i = j.

(** After a step of the builder: the supply left is [s] from its [k]-th
    identifier on, and the nodes so far carry distinct earlier ones. *)
Definition drawn (s : supply) (k : nat) (b : WorkflowGenerator.build) : Prop :=
  (forall n, WorkflowGenerator.b_supply b n = s (k + n))
  /\ exists js,
       map WorkflowGenerator.id (WorkflowGenerator.b_nodes b) = map s js
       /\ NoDup js
       /\ forall j, In j js -> j < k.

(** A step that appended nodes carrying the next [m] identifiers. *)
Definition draws (m : nat) (b b' : WorkflowGenerator.build) : Prop :=
  exists new,
    WorkflowGenerator.b_nodes b' = WorkflowGenerator.b_nodes b ++ new
    /\ map WorkflowGenerator.id new
       = map (WorkflowGenerator.b_supply b) (seq 0 m)
    /\ forall n, WorkflowGenerator.b_supply b' n
                 = WorkflowGenerator.b_supply b (m + n).

(** Values that cannot be asked whether they hold a key: [None],
    booleans and numbers. *)
Definition not_a_container (v : value) : bool :=
  match v with
  | VNone | VBool _ | VInt _ => true
  | _ => false
  end.

(** A candidate whose node has [parameters: null]. *)
Definition null_parameters_candidate : dict :=
  [("nodes", VList [VDict [ ("name", VStr "Ask");
                            ("type", VStr "n8n-nodes-base.openAi");
                            ("parameters", VNone) ]])].

(** *** What the structural validator reports *)

Definition no_nodes_error : ValidationService.ValidationError :=
  ValidationService.mk_error "structure"
    "Workflow must contain at least one node" None.

Definition source_error (source : string) : ValidationService.ValidationError :=
  ValidationService.mk_error "connection"
    ("Connection source node not found: " +++ source) None.

Definition target_error (source : string)
  (c : ValidationService.WorkflowConnection)
  : ValidationService.ValidationError :=
  ValidationService.mk_error "connection"
    ("Connection target node not found: " +++ ValidationService.wc_node c)
    (Some source).

Definition duplicate_error (n : ValidationService.WorkflowNode)
  : ValidationService.ValidationError :=
  ValidationService.mk_error "node"
    ("Duplicate node name: " +++ ValidationService.wn_name n)
    (Some (ValidationService.wn_id n)).

(** The defects of a workflow and the error that reports each: no node
    at all; a position that is not a pair; a type tag outside
    [n8n-nodes-base.]; a connection from a name that is no node; a
    target under [main], of a source that is a node, that is no node;
    a node whose name an earlier node has. *)
Inductive finding (w : ValidationService.WorkflowJSON)
  : ValidationService.ValidationError -> Prop :=
| no_nodes :
    ValidationService.wf_nodes w = [] -> finding w no_nodes_error
| bad_position (n : ValidationService.WorkflowNode) :
    In n (ValidationService.wf_nodes w) ->
    List.length (ValidationService.wn_position n) <> 2 ->
    finding w (position_error n)
| bad_type (n : ValidationService.WorkflowNode) :
    In n (ValidationService.wf_nodes w) ->
    startswith (ValidationService.wn_type n) "n8n-nodes-base." = false ->
    finding w (type_format_error n)
| unknown_source (source : string) (outputs : ValidationService.conn_data) :
    In (source, outputs) (ValidationService.wf_connections w) ->
    ~ In source (node_names w) ->
    finding w (source_error source)
| unknown_target (source : string) (outputs : ValidationService.conn_data)
    (groups : list (list ValidationService.WorkflowConnection))
    (group : list ValidationService.WorkflowConnection)
    (c : ValidationService.WorkflowConnection) :
    In (source, outputs) (ValidationService.wf_connections w) ->
    In source (node_names w) ->
    assoc outputs "main" = Some groups ->
    In group groups -> In c group ->
    ~ In (ValidationService.wc_node c) (node_names w) ->
    finding w (target_error source c)
| duplicate_name (before : list ValidationService.WorkflowNode)
    (n : ValidationService.WorkflowNode)
    (after : list ValidationService.WorkflowNode) :
    ValidationService.wf_nodes w = before ++ n :: after ->
    In (ValidationService.wn_name n) (map ValidationService.wn_name before) ->
    finding w (duplicate_error n).

Definition trigger_warning : string :=
  "Workflow does not contain a trigger node. "
    +++ "It may need to be started manually or have a trigger added.".

(** The names of the nodes no connection links, in the order of the
    nodes. *)
Definition unlinked (w : ValidationService.WorkflowJSON) : list string :=
  filter (fun n => negb (ValidationService.name_in (linked_names w) n))
         (node_names w).

Definition disconnected_warning (w : ValidationService.WorkflowJSON) : string :=
  "Disconnected nodes found: " +++ join ", " (unlinked w) +++ ". "
    +++ "These nodes will not execute.".

Definition name_warning : string :=
  "Consider giving the workflow a more descriptive name".

(** What is absent from a workflow and the warning that reports it: a
    node of a trigger type; a link to some node; a name of its own. *)
Inductive warning (w : ValidationService.WorkflowJSON) : string -> Prop :=
| no_trigger :
    (forall n, In n (ValidationService.wf_nodes w) ->
               ~ In (ValidationService.wn_type n)
                    ValidationService.TRIGGER_NODE_TYPES) ->
    warning w trigger_warning
| disconnected (n : ValidationService.WorkflowNode) :
    In n (ValidationService.wf_nodes w) ->
    ~ In (ValidationService.wn_name n) (linked_names w) ->
    warning w (disconnected_warning w)
| unnamed_workflow :
    ValidationService.wf_name w = ""
    \/ ValidationService.wf_name w = "My Workflow" ->
    warning w name_warning.

(** A workflow with one of each defect: a node with a one-coordinate
    position and a type tag outside the prefix, a second node of the
    same name, a connection from a name that is no node and one to a
    name that is no node. *)
Definition defective_workflow : ValidationService.WorkflowJSON :=
  ValidationService.mk_workflow ""
    [ ValidationService.mk_node "1" "A" "custom.thing" 1 [240%Z] [] None;
      ValidationService.mk_node "2" "A" "n8n-nodes-base.set" 1
        [460%Z; 300%Z] [] None ]
    [ ("Ghost", [("main", [])]);
      ("A", [("main", [[ValidationService.mk_connection "Nowhere" "main" 0]])]) ]
    (Some false) (Some []) None.

(** *** The conversation and the name of the graph *)

(** A graph without its name. *)
Definition unnamed (w : WorkflowGenerator.workflow)
  : list WorkflowGenerator.node * WorkflowGenerator.connections * bool
    * value * WorkflowGenerator.meta :=
  (WorkflowGenerator.w_nodes w, WorkflowGenerator.w_connections w,
   WorkflowGenerator.w_active w, WorkflowGenerator.w_settings w,
   WorkflowGenerator.w_meta w).

(** A run of the builder without the name of its graph: the rest of the
    graph and the supply left, or the exception. *)
Definition anonymous (r : result (WorkflowGenerator.workflow * supply))
  : result (list WorkflowGenerator.node * WorkflowGenerator.connections * bool
            * value * WorkflowGenerator.meta * supply) :=
  result_map (fun p => (unnamed (fst p), snd p)) r.

(** The requirements can name a graph: [trigger], or its default, is a
    string, and [outputs], or its default, has a first item that is a
    string. *)
Definition nameable (requirements : dict) : bool :=
  match dict_get_default requirements "trigger" (VStr "workflow"),
        WorkflowGenerator.first_item
          (dict_get_default requirements "outputs" (VList [VStr "processing"]))
  with
  | VStr _, Ok (VStr _) => true
  | _, _ => false
  end.

(** ** The error monad *)

Lemma bind_ok_inv {A B : Type} (m : result A) (f : A -> result B) (b : B) :
  bind m f = Ok b -> exists a, m = Ok a /\ f a = Ok b.
Proof.
  destruct m as [a | e]; simpl; intros H.
  - exists a. split; [reflexivity | exact H].
  - discriminate H.
Qed.


Ltac bind_inv_as H a Ha :=
  apply bind_ok_inv in H; destruct H as (a & Ha & H).

(** ** Node-count sufficiency *)






(** The feedback of the five-node scenario, in full.  Three of the four
    unconnected names are listed, in the order the set gives them. *)
Example five_nodes_feedback :
  exists listed,
    (vr <- QualityValidator.validate five_nodes "simple" ;;
     QualityValidator.generate_feedback vr)%py
    = Ok [ node_count_feedback_5_of_15;
           "CRITICAL: 2 nodes have incomplete or missing parameters.";
           "WARNING: Only 0% of nodes have error handling. Add onError, retryOnFail, or continueOnFail to critical nodes.";
           "CRITICAL: 4 nodes are not connected: " +++ listed;
           "WARNING: Add 5 more sticky notes to document workflow sections." ].
Proof. eexists. vm_compute. reflexivity. Qed.

(** ** The scorer on nodes without [type] or [name] *)

(** C2.  The scorer does raise: a node without [type] makes the
    flow-complexity check fail with [KeyError('type')], a node without
    [name] makes the connection check fail with [KeyError('name')], and
    [validate] returns no result object in either case. *)
Theorem validate_raises_on_missing_field :
  QualityValidator.validate untyped_node_workflow "standard"
    = Raise (KeyError "type") /\
  QualityValidator.check_flow_complexity untyped_node_workflow "standard"
    = Raise (KeyError "type") /\
  QualityValidator.validate unnamed_node_workflow "standard"
    = Raise (KeyError "name") /\
  QualityValidator.check_connections unnamed_node_workflow
    = Raise (KeyError "name").
Proof. repeat split; reflexivity. Qed.

(** ** The refinement loop *)

Section Loop.

Variable generate_workflow : nat -> string -> option dict.
Variable complexity : string.

(** A collaborator that never answers uses up the turns that are left and
    leaves the best candidate as it was. *)
Lemma attempts_without_candidate :
  (forall n p, generate_workflow n p = None) ->
  forall remaining attempt prompt best_workflow best_score s log,
    EnhancedWorkflowGenerator.attempts generate_workflow complexity
      remaining attempt prompt best_workflow best_score s log
    = Ok (EnhancedWorkflowGenerator.BestAttempt best_workflow best_score
            exhausted_warning EnhancedWorkflowGenerator.max_attempts,
          log ++ repeat (EnhancedWorkflowGenerator.Requested prompt) remaining).
Proof.
  intros Hnone remaining.
  induction remaining as [| remaining IH]; intros attempt prompt bw bs s log.
  - simpl. rewrite app_nil_r. reflexivity.
  - cbn [EnhancedWorkflowGenerator.attempts]. rewrite Hnone.
    rewrite IH. rewrite <- app_assoc. reflexivity.
Qed.

(** A repaired candidate that is valid and reaches the threshold ends the
    run at once: nothing is requested after it. *)
Lemma attempts_accepts (remaining attempt : nat) (prompt : string)
  (best_workflow : option dict) (best_score : Z) (s s' : supply)
  (log : list EnhancedWorkflowGenerator.event) (raw refined : dict)
  (q : QualityValidator.validation_result) :
  generate_workflow attempt prompt = Some raw ->
  truthy (VDict raw) = true ->
  EnhancedWorkflowGenerator.validate_and_refine raw complexity s
  = Ok (refined, s') ->
  QualityValidator.validate refined complexity = Ok q ->
  QualityValidator.vr_valid q = true ->
  (Config.min_quality_score <= QualityValidator.vr_score q)%Z ->
  EnhancedWorkflowGenerator.attempts generate_workflow complexity
    (S remaining) attempt prompt best_workflow best_score s log
  = Ok (EnhancedWorkflowGenerator.ThresholdMet refined
          (QualityValidator.vr_score q) q (attempt + 1),
        (log ++ [EnhancedWorkflowGenerator.Requested prompt])
          ++ [ EnhancedWorkflowGenerator.Refined;
               EnhancedWorkflowGenerator.Scored (QualityValidator.vr_score q) ]).
Proof.
  intros Hraw Htruthy Hrefine Hq Hvalid Hscore.
  cbn [EnhancedWorkflowGenerator.attempts].
  rewrite Hraw, Htruthy. cbn [negb]. rewrite Hrefine. cbn [bind].
  rewrite Hq. cbn [bind]. rewrite Hvalid.
  apply Z.leb_le in Hscore. rewrite Hscore. reflexivity.
Qed.

End Loop.

(** C5.  When the synthesis collaborator answers nothing to every
    request, [generate] spends its whole budget of 3 attempts on requests
    alone (no repair, no scoring), and returns no graph, the attempt
    count 3, the score 0 and the warning instead of quality details. *)
Theorem generate_without_candidates :
  forall (generate_workflow : nat -> string -> option dict)
         (complexity prompt : string) (s : supply),
    (forall n p, generate_workflow n p = None) ->
    EnhancedWorkflowGenerator.generate generate_workflow complexity prompt s
    = Ok (EnhancedWorkflowGenerator.BestAttempt None 0 exhausted_warning 3,
          [ EnhancedWorkflowGenerator.Requested prompt;
            EnhancedWorkflowGenerator.Requested prompt;
            EnhancedWorkflowGenerator.Requested prompt ]).
Proof.
  intros generate_workflow complexity prompt s Hnone.
  unfold EnhancedWorkflowGenerator.generate.
  rewrite (attempts_without_candidate generate_workflow complexity Hnone).
  reflexivity.
Qed.

Lemma generate_without_candidates_witness :
  EnhancedWorkflowGenerator.generate (fun _ _ => None) "standard" "prompt" ids
  = Ok (EnhancedWorkflowGenerator.BestAttempt None 0 exhausted_warning 3,
        [ EnhancedWorkflowGenerator.Requested "prompt";
          EnhancedWorkflowGenerator.Requested "prompt";
          EnhancedWorkflowGenerator.Requested "prompt" ]).
Proof.
  apply (generate_without_candidates (fun _ _ => None) "standard" "prompt" ids).
  intros n p. reflexivity.
Defined.

(** C6.  Three candidates that each score 0 once repaired: the loop
    repairs and scores all three, yet it returns no graph at all, because
    the best score starts at 0 and only a strictly greater score replaces
    it. *)
Theorem generate_drops_zero_score_candidates :
  exists (refined : dict) (s' : supply) (log : list EnhancedWorkflowGenerator.event),
    EnhancedWorkflowGenerator.validate_and_refine zero_score_candidate
      "standard" ids = Ok (refined, s') /\
    option_map QualityValidator.vr_score
      (match QualityValidator.validate refined "standard" with
       | Ok vr => Some vr
       | Raise _ => None
       end) = Some 0%Z /\
    EnhancedWorkflowGenerator.generate (fun _ _ => Some zero_score_candidate)
      "standard" "prompt" ids
    = Ok (EnhancedWorkflowGenerator.BestAttempt None 0 exhausted_warning 3, log) /\
    filter is_scored log
    = [ EnhancedWorkflowGenerator.Scored 0; EnhancedWorkflowGenerator.Scored 0;
        EnhancedWorkflowGenerator.Scored 0 ] /\
    List.length (filter is_request log) = 3.
Proof.
  eexists. eexists. eexists.
  split; [vm_compute; reflexivity |].
  split; [vm_compute; reflexivity |].
  split; [vm_compute; reflexivity |].
  split; vm_compute; reflexivity.
Qed.

(** ** Dictionaries *)

Lemma dict_get_set_same (d : dict) (k : string) (v : value) :
  dict_get (dict_set d k v) k = Some v.
Proof.
  induction d as [| [k' v'] d IH]; simpl.
  - rewrite String.eqb_refl. reflexivity.
  - destruct (String.eqb k k') eqn:E; simpl; rewrite E; [reflexivity | exact IH].
Qed.

Lemma dict_get_set_other (d : dict) (k k' : string) (v : value) :
  k' <> k -> dict_get (dict_set d k v) k' = dict_get d k'.
Proof.
  intros Hne. induction d as [| [k0 v0] d IH]; simpl.
  - destruct (String.eqb_spec k' k); [contradiction | reflexivity].
  - destruct (String.eqb_spec k k0) as [-> | Hk]; simpl.
    + destruct (String.eqb_spec k' k0); [contradiction | reflexivity].
    + destruct (String.eqb k' k0); [reflexivity | exact IH].
Qed.

Lemma dict_set_same (d : dict) (k : string) (v : value) :
  dict_get d k = Some v -> dict_set d k v = d.
Proof.
  induction d as [| [k' v'] d IH]; simpl; [discriminate |].
  destruct (String.eqb k k') eqn:E; intros H.
  - injection H as ->. reflexivity.
  - rewrite IH by exact H. reflexivity.
Qed.

Lemma dict_has_set_same (d : dict) (k : string) (v : value) :
  dict_has (dict_set d k v) k = true.
Proof. unfold dict_has. rewrite dict_get_set_same. reflexivity. Qed.

(** ** Scoring of credentials *)

Lemma filterM_app {A : Type} (f : A -> result bool) (xs ys : list A) :
  QualityValidator.filterM f (xs ++ ys)
  = (rx <- QualityValidator.filterM f xs ;;
     ry <- QualityValidator.filterM f ys ;;
     Ok (rx ++ ry))%py.
Proof.
  induction xs as [| x xs IH]; simpl.
  - destruct (QualityValidator.filterM f ys); reflexivity.
  - destruct (f x) as [b | e]; simpl; [| reflexivity].
    rewrite IH. destruct (QualityValidator.filterM f xs); simpl; [| reflexivity].
    destruct (QualityValidator.filterM f ys); simpl; [| reflexivity].
    destruct b; reflexivity.
Qed.

Lemma ge_trans (p q t : Q) :
  Qle p q -> QualityValidator.ge p t = true -> QualityValidator.ge q t = true.
Proof.
  unfold QualityValidator.ge. rewrite !Qle_bool_iff. intros Hpq Htp.
  eapply Qle_trans; eassumption.
Qed.

Lemma credentials_score_mono (p q : Q) :
  Qle p q ->
  (QualityValidator.credentials_score p <= QualityValidator.credentials_score q)%Z.
Proof.
  intros Hpq. unfold QualityValidator.credentials_score.
  destruct (QualityValidator.ge p 1) eqn:E1;
    [rewrite (ge_trans p q _ Hpq E1); lia |].
  destruct (QualityValidator.ge p (8 # 10)) eqn:E2;
    [rewrite (ge_trans p q _ Hpq E2); destruct (QualityValidator.ge q 1); lia |].
  destruct (QualityValidator.ge p (6 # 10)) eqn:E3;
    [rewrite (ge_trans p q _ Hpq E3);
     destruct (QualityValidator.ge q 1); destruct (QualityValidator.ge q (8 # 10));
     lia |].
  destruct (QualityValidator.ge p (4 # 10)) eqn:E4;
    [rewrite (ge_trans p q _ Hpq E4) |];
    destruct (QualityValidator.ge q 1); destruct (QualityValidator.ge q (8 # 10));
    destruct (QualityValidator.ge q (6 # 10));
    try destruct (QualityValidator.ge q (4 # 10)); lia.
Qed.

Lemma ratio_le (a b c : nat) :
  (a <= b)%nat -> Qle (QualityValidator.ratio a c) (QualityValidator.ratio b c).
Proof.
  intros H. unfold QualityValidator.ratio, Qle. simpl. nia.
Qed.

(** Every credential kind of the registry is a non-empty string. *)
Lemma credential_type_nonempty (t ct : string) (sch : NodeSchemas.schema) :
  assoc NodeSchemas.schemas t = Some sch ->
  NodeSchemas.credential_type sch = Some ct ->
  String.eqb ct "" = false.
Proof.
  intros H. unfold NodeSchemas.schemas in H. cbn [assoc] in H.
  repeat match type of H with
         | (if ?b then _ else _) = _ =>
             destruct b;
             [ injection H as <-; cbn; intros E; try discriminate E;
               injection E as <-; reflexivity | ]
         end.
  discriminate H.
Qed.

Lemma bind_credential_type (node : dict) (ct : string) (ref : value) :
  dict_get (bind_credential node ct ref) "type" = dict_get node "type".
Proof.
  unfold bind_credential.
  destruct (dict_get node "credentials") as [[| | | | | bag] |];
    apply dict_get_set_other; discriminate.
Qed.

Lemma bind_credential_bound (node : dict) (ct : string) (ref : value) :
  exists bag, dict_get (bind_credential node ct ref) "credentials"
              = Some (VDict bag) /\ dict_has bag ct = true.
Proof.
  unfold bind_credential.
  destruct (dict_get node "credentials") as [[| | | | | bag] |];
    rewrite dict_get_set_same; eexists; (split; [reflexivity |]);
    try apply dict_has_set_same;
    unfold dict_has; simpl; rewrite String.eqb_refl; reflexivity.
Qed.

Section BoundNode.

Variables (node : dict) (t ct : string) (sch : NodeSchemas.schema) (ref : value).
Hypothesis Htype : dict_get node "type" = Some (VStr t).
Hypothesis Hsch : assoc NodeSchemas.schemas t = Some sch.
Hypothesis Hreq : NodeSchemas.requires_credentials sch = true.
Hypothesis Hct : NodeSchemas.credential_type sch = Some ct.

Lemma is_service_node_registered (d : dict) :
  dict_get d "type" = Some (VStr t) ->
  QualityValidator.is_service_node (VDict d) = Ok true.
Proof.
  intros Hd. unfold QualityValidator.is_service_node, py_get, dict_get_default.
  rewrite Hd. cbn [bind]. unfold NodeSchemas.requires_credentials_of.
  cbn [NodeSchemas.schemas_get bind]. rewrite Hsch, Hreq. reflexivity.
Qed.

Lemma has_proper_credentials_bound :
  QualityValidator.has_proper_credentials (VDict (bind_credential node ct ref))
  = Ok true.
Proof.
  destruct (bind_credential_bound node ct ref) as (bag & Hbag & Hhas).
  unfold QualityValidator.has_proper_credentials, py_in, dict_has.
  rewrite Hbag. cbn [bind]. unfold py_get, dict_get_default.
  rewrite bind_credential_type, Htype. cbn [bind].
  unfold NodeSchemas.get_credential_type.
  cbn [NodeSchemas.schemas_get bind]. rewrite Hsch, Hct.
  rewrite (credential_type_nonempty t ct sch Hsch Hct). cbn [negb].
  unfold py_getitem. rewrite Hbag. cbn [bind]. fold (dict_has bag ct).
  rewrite Hhas. reflexivity.
Qed.

End BoundNode.

(** C8.  Binding the credential kind its type expects to a service node
    that lacked it, the rest of the workflow unchanged, adds one to the
    count of correctly bound service nodes and never lowers the
    credential-completeness score. *)
Theorem credential_binding_never_lowers_score :
  forall (workflow : dict) (pre post : list value) (node : dict)
         (t ct : string) (sch : NodeSchemas.schema) (ref : value)
         (r : QualityValidator.credentials_result),
    QualityValidator.get_nodes workflow = VList (pre ++ VDict node :: post) ->
    dict_get node "type" = Some (VStr t) ->
    assoc NodeSchemas.schemas t = Some sch ->
    NodeSchemas.requires_credentials sch = true ->
    NodeSchemas.credential_type sch = Some ct ->
    QualityValidator.has_proper_credentials (VDict node) = Ok false ->
    QualityValidator.check_credentials workflow = Ok r ->
    exists r',
      QualityValidator.check_credentials
        (dict_set workflow "nodes"
           (VList (pre ++ VDict (bind_credential node ct ref) :: post)))
      = Ok r' /\
      (QualityValidator.cr_score r <= QualityValidator.cr_score r')%Z /\
      QualityValidator.cr_service_nodes r' = QualityValidator.cr_service_nodes r /\
      QualityValidator.cr_with_credentials r'
      = option_map S (QualityValidator.cr_with_credentials r).
Proof.
  intros workflow pre post node t ct sch ref r Hnodes Htype Hsch Hreq Hct Hun Hr.
  unfold QualityValidator.check_credentials in *.
  unfold QualityValidator.get_nodes in *. unfold dict_get_default at 1.
  rewrite dict_get_set_same. rewrite Hnodes in Hr. cbn [py_iter bind] in *.
  rewrite filterM_app in *. cbn [QualityValidator.filterM] in *.
  rewrite (is_service_node_registered t sch Hsch Hreq node Htype) in Hr.
  rewrite (is_service_node_registered t sch Hsch Hreq _
             (eq_trans (bind_credential_type node ct ref) Htype)).
  cbn [bind] in *.
  destruct (QualityValidator.filterM QualityValidator.is_service_node pre)
    as [sp | e]; [| discriminate Hr].
  destruct (QualityValidator.filterM QualityValidator.is_service_node post)
    as [spost | e]; [| discriminate Hr].
  cbn [bind] in *.
  assert (Hne : forall x, NodeSchemas.nonempty (sp ++ x :: spost) = true).
  { intros x. destruct sp; reflexivity. }
  rewrite Hne in *. cbn [negb] in *.
  rewrite filterM_app in *. cbn [QualityValidator.filterM] in *.
  rewrite Hun in Hr.
  rewrite (has_proper_credentials_bound node t ct sch ref Htype Hsch Hct).
  destruct (QualityValidator.filterM QualityValidator.has_proper_credentials sp)
    as [bp | e]; [| discriminate Hr].
  destruct (QualityValidator.filterM QualityValidator.has_proper_credentials spost)
    as [bpost | e]; [| discriminate Hr].
  cbn [bind] in *. injection Hr as <-.
  eexists. split; [reflexivity |].
  cbn [QualityValidator.cr_score QualityValidator.cr_service_nodes
         QualityValidator.cr_with_credentials option_map].
  rewrite !length_app. cbn [List.length].
  split; [| split].
  - apply credentials_score_mono, ratio_le. lia.
  - reflexivity.
  - f_equal. lia.
Qed.

Lemma credential_binding_never_lowers_score_witness :
  exists r',
    QualityValidator.check_credentials
      (dict_set two_services "nodes"
         (VList ([slack_bound]
                 ++ VDict (bind_credential gmail_unbound "gmailOAuth2" gmail_reference)
                 :: [])))
    = Ok r' /\
    (6 <= QualityValidator.cr_score r')%Z /\
    QualityValidator.cr_service_nodes r' = Some 2 /\
    QualityValidator.cr_with_credentials r' = Some 2.
Proof.
  destruct (credential_binding_never_lowers_score two_services [slack_bound] []
              gmail_unbound "n8n-nodes-base.gmail" "gmailOAuth2" gmail_schema
              gmail_reference
              (QualityValidator.mk_credentials 6 15 (Some 2) (Some 1)
                 (Some (QualityValidator.ratio 1 2)) false
                 "1/2 service nodes have credentials")
              eq_refl eq_refl eq_refl eq_refl eq_refl eq_refl eq_refl)
    as (r' & Hr' & Hscore & Hsvc & Hcount).
  exists r'. split; [exact Hr' |]. split; [exact Hscore |].
  split; [exact Hsvc | exact Hcount].
Defined.

(** ** The structural validator *)

Lemma foldM_total {A S : Type} (f : S -> A -> result S) :
  (forall s x, exists s', f s x = Ok s') ->
  forall xs s, exists r, foldM f xs s = Ok r.
Proof.
  intros Hf xs. induction xs as [| x xs IH]; intros s; simpl.
  - exists s. reflexivity.
  - destruct (Hf s x) as (s' & ->). simpl. apply IH.
Qed.

(** The dumped fields of a typed node are all present and none is
    [None], so the required-field loop finds nothing: what is left are
    the position finding and the type-format finding. *)
Lemma validate_one_node_findings (n : ValidationService.WorkflowNode) :
  ValidationService.validate_one_node n
  = Ok ((if Nat.eqb (List.length (ValidationService.wn_position n)) 2
         then [] else [position_error n])
        ++ (if startswith (ValidationService.wn_type n) "n8n-nodes-base."
            then [] else [type_format_error n])).
Proof.
  unfold ValidationService.validate_one_node.
  cbn [ValidationService.node_model_dump ValidationService.REQUIRED_NODE_FIELDS
       foldM ValidationService.field_missing dict_has dict_get py_getitem
       String.eqb Ascii.eqb Bool.eqb negb bind ValidationService.is_none app].
  destruct (Nat.eqb _ 2); destruct (startswith _ _); reflexivity.
Qed.

(** [outputs['main']] is only evaluated under [if 'main' in outputs]. *)
Lemma getitem_outputs_guarded (outputs : ValidationService.conn_data) (k : string) :
  ValidationService.has_key outputs k = true ->
  exists groups, ValidationService.getitem_outputs outputs k = Ok groups.
Proof.
  unfold ValidationService.has_key, ValidationService.getitem_outputs.
  destruct (assoc outputs k) as [groups |]; [| discriminate].
  intros _. exists groups. reflexivity.
Qed.

Lemma generate_warnings_total (w : ValidationService.WorkflowJSON) :
  exists ws, ValidationService.generate_warnings w = Ok ws.
Proof.
  unfold ValidationService.generate_warnings.
  match goal with
  | |- context [foldM ?f ?l ?s0] =>
      assert (Hf : forall s x, exists s', f s x = Ok s');
      [| destruct (foldM_total f Hf l s0) as (connected & ->)]
  end.
  - intros s item. cbv beta.
    destruct (ValidationService.has_key (snd item) "main") eqn:E;
      [| eexists; reflexivity].
    destruct (getitem_outputs_guarded _ _ E) as (groups & ->). cbn [bind].
    eexists. reflexivity.
  - cbn [bind]. eexists. reflexivity.
Qed.

(** ** Node types outside the registry *)

(** C1, as the code has it.  [validate_node] answers a type tag outside
    the registry with one warning and no error.  The structural
    validator never consults the registry: a node adds the finding
    "Invalid node type format" exactly when its tag lacks the prefix
    [n8n-nodes-base.], so an unlisted tag with the prefix adds no error
    and a tag without it adds one, listed or not. *)
Theorem unlisted_type_findings :
  (forall node t : value,
     py_get node "type" VNone = Ok t ->
     NodeSchemas.schemas_get t = Ok None ->
     NodeSchemas.validate_node node
     = Ok (NodeSchemas.mk_node_validation true []
             ["No schema found for node type: " +++ NodeSchemas.py_str t]))
  /\
  (forall n : ValidationService.WorkflowNode,
     ValidationService.validate_one_node n
     = Ok ((if Nat.eqb (List.length (ValidationService.wn_position n)) 2
            then [] else [position_error n])
           ++ (if startswith (ValidationService.wn_type n) "n8n-nodes-base."
               then [] else [type_format_error n]))).
Proof.
  split.
  - intros node t Ht Hs. unfold NodeSchemas.validate_node.
    rewrite Ht. cbn [bind]. rewrite Hs. reflexivity.
  - exact validate_one_node_findings.
Qed.

Lemma unlisted_type_findings_witness :
  NodeSchemas.validate_node
    (VDict [("name", VStr "Model"); ("type", VStr unlisted_type)])
  = Ok (NodeSchemas.mk_node_validation true []
          ["No schema found for node type: @n8n/n8n-nodes-langchain.openAi"])
  /\ ValidationService.validate_one_node (node_of_type unlisted_base_type) = Ok [].
Proof.
  split.
  - exact (proj1 unlisted_type_findings
             (VDict [("name", VStr "Model"); ("type", VStr unlisted_type)])
             (VStr unlisted_type) eq_refl eq_refl).
  - exact (proj2 unlisted_type_findings (node_of_type unlisted_base_type)).
Defined.

(** C1, as stated, fails: a well-formed workflow whose only node carries
    a type tag outside the registry is judged invalid by the structural
    validator, with the type as the only finding; under a listed base
    type the same workflow is valid. *)
Lemma unlisted_type_invalidates_workflow :
  NodeSchemas.registered (VStr unlisted_type) = false /\
  (exists r,
     ValidationService.validate_workflow (one_node_workflow unlisted_type) = Ok r /\
     ValidationService.isValid r = false /\
     ValidationService.errors r = [type_format_error (node_of_type unlisted_type)]) /\
  (exists r,
     ValidationService.validate_workflow (one_node_workflow "n8n-nodes-base.set")
     = Ok r /\
     ValidationService.isValid r = true).
Proof.
  split; [reflexivity |].
  split; eexists; (split; [vm_compute; reflexivity |]); split; reflexivity.
Qed.

(** ** Repair of a fully populated graph *)

Lemma mapS_id {A : Type} (f : A -> supply -> result (A * supply)) (l : list A) :
  (forall x, In x l -> forall s, f x s = Ok (x, s)) ->
  forall s, EnhancedWorkflowGenerator.mapS f l s = Ok (l, s).
Proof.
  induction l as [| x l IH]; intros Hf s; simpl; [reflexivity |].
  rewrite (Hf x (or_introl eq_refl)). cbn [bind].
  rewrite IH by (intros y Hy; apply Hf; right; exact Hy). reflexivity.
Qed.

Lemma mapM_total {A B : Type} (f : A -> result B) (l : list A) :
  (forall x, In x l -> exists y, f x = Ok y) ->
  exists ys, mapM f l = Ok ys.
Proof.
  induction l as [| x l IH]; intros Hf; simpl; [eexists; reflexivity |].
  destruct (Hf x (or_introl eq_refl)) as (y & ->). cbn [bind].
  destruct IH as (ys & ->); [intros z Hz; apply Hf; right; exact Hz |].
  eexists. reflexivity.
Qed.

Lemma has_all_cons (d : dict) (k : string) (ks : list string) :
  has_all d (k :: ks) = true -> dict_has d k = true /\ has_all d ks = true.
Proof. unfold has_all. simpl. apply andb_prop. Qed.

Lemma setdefault_present (d : dict) (k : string) (v : value) :
  dict_has d k = true -> EnhancedWorkflowGenerator.setdefault d k v = d.
Proof. unfold EnhancedWorkflowGenerator.setdefault. intros ->. reflexivity. Qed.

Lemma node_setdefault_present (d : dict) (k : string) (v : value) :
  dict_has d k = true ->
  EnhancedWorkflowGenerator.node_setdefault (VDict d) k v = Ok (VDict d).
Proof.
  unfold EnhancedWorkflowGenerator.node_setdefault. simpl. intros ->. reflexivity.
Qed.

(** What [node_populated] says about a node, one fact at a time. *)
Record populated_node (n : value) (d : dict) (t : string) : Prop := {
  pn_dict : n = VDict d;
  pn_keys : has_all d ["id"; "position"; "typeVersion"] = true;
  pn_parameters : exists p, dict_get d "parameters" = Some (VDict p);
  pn_type : dict_get d "type" = Some (VStr t);
  pn_credentials :
    forall sch, assoc NodeSchemas.schemas t = Some sch ->
                credentials_bound d sch = true;
  pn_policy :
    forall sch, assoc NodeSchemas.schemas t = Some sch ->
                error_policy_set d t sch = true
}.

Lemma node_populated_inv (n : value) :
  node_populated n = true -> exists d t, populated_node n d t.
Proof.
  destruct n as [| | | | | d]; try discriminate. unfold node_populated.
  intros H. apply andb_prop in H. destruct H as (H & Ht).
  apply andb_prop in H. destruct H as (Hk & Hp).
  destruct (dict_get d "type") as [[| | | t | |] |] eqn:Et; try discriminate.
  exists d, t. split; try reflexivity; try assumption.
  - destruct (dict_get d "parameters") as [[| | | | | p] |]; try discriminate.
    exists p. reflexivity.
  - intros sch Hs. rewrite Hs in Ht. apply andb_prop in Ht. apply Ht.
  - intros sch Hs. rewrite Hs in Ht. apply andb_prop in Ht. apply Ht.
Qed.

Section PopulatedNode.

Variables (n : value) (d : dict) (t : string).
Hypothesis Hn : populated_node n d t.

Lemma populated_has (k : string) :
  In k ["id"; "position"; "typeVersion"] -> dict_has d k = true.
Proof.
  intros Hk. pose proof (pn_keys n d t Hn) as H. unfold has_all in H.
  rewrite forallb_forall in H. apply H. exact Hk.
Qed.

Lemma populated_has_parameters : dict_has d "parameters" = true.
Proof.
  destruct (pn_parameters n d t Hn) as (p & Hp). unfold dict_has.
  rewrite Hp. reflexivity.
Qed.

Lemma fix_node_populated (s : supply) :
  EnhancedWorkflowGenerator.fix_node n s = Ok (n, s).
Proof.
  rewrite (pn_dict n d t Hn). unfold EnhancedWorkflowGenerator.fix_node.
  cbn [py_in bind]. rewrite (populated_has "id") by (simpl; tauto).
  cbn [bind].
  rewrite (node_setdefault_present d "position") by
    (apply populated_has; simpl; tauto).
  cbn [bind].
  rewrite (node_setdefault_present d "parameters") by
    apply populated_has_parameters.
  cbn [bind].
  rewrite (node_setdefault_present d "typeVersion") by
    (apply populated_has; simpl; tauto).
  reflexivity.
Qed.

Lemma missing_required_total (p : dict) (required : list string) :
  exists es, NodeSchemas.missing_required (VDict p) required = Ok es.
Proof.
  unfold NodeSchemas.missing_required. apply foldM_total.
  intros s x. cbn [py_in bind]. eexists. reflexivity.
Qed.

Lemma validate_node_populated :
  exists v, NodeSchemas.validate_node n = Ok v.
Proof.
  rewrite (pn_dict n d t Hn). unfold NodeSchemas.validate_node.
  unfold py_get, dict_get_default. rewrite (pn_type n d t Hn).
  cbn [bind NodeSchemas.schemas_get].
  destruct (assoc NodeSchemas.schemas t) as [sch |] eqn:Es;
    [| eexists; reflexivity].
  destruct (pn_parameters n d t Hn) as (p & ->).
  destruct (missing_required_total p (NodeSchemas.required sch)) as (es & ->).
  cbn [bind].
  pose proof (pn_credentials n d t Hn sch Es) as Hc.
  unfold credentials_bound in Hc. cbv zeta.
  match goal with
  | |- context [if ?c then es ++ ?x else es] =>
      generalize (if c then es ++ x else es)
  end.
  intros errs.
  assert (Hthird :
            exists e3,
              (if NodeSchemas.requires_credentials sch
               then has <- py_in "credentials" (VDict d) ;;
                    if negb has
                    then Ok (errs ++ ["Missing credentials configuration"])
                    else match NodeSchemas.credential_type sch with
                         | Some cred_type =>
                             creds <- py_getitem (VDict d) "credentials" ;;
                             bound <- py_in cred_type creds ;;
                             Ok (if bound then errs
                                 else errs ++ ["Missing credential type: "
                                                 +++ cred_type])
                         | None => Ok errs
                         end
               else Ok errs)%py = Ok e3).
  { destruct (NodeSchemas.requires_credentials sch);
      [| eexists; reflexivity].
    destruct (dict_get d "credentials") as [[| | | | | bag] |] eqn:Ec;
      try discriminate Hc.
    destruct (NodeSchemas.credential_type sch) as [ct |]; [| discriminate Hc].
    cbn [py_in bind]. unfold dict_has at 1. rewrite Ec. cbn [negb bind].
    unfold py_getitem. rewrite Ec. cbn [bind py_in].
    eexists. reflexivity. }
  destruct Hthird as (e3 & ->). cbn [bind].
  destruct (NodeSchemas.error_handling_recommended sch);
    cbn [py_in bind]; [| eexists; reflexivity].
  destruct (dict_has d "onError"); cbn [bind]; eexists; reflexivity.
Qed.

Lemma inject_credentials_populated :
  EnhancedWorkflowGenerator.inject_node_credentials n = Ok n.
Proof.
  rewrite (pn_dict n d t Hn).
  unfold EnhancedWorkflowGenerator.inject_node_credentials.
  unfold py_get, dict_get_default. rewrite (pn_type n d t Hn). cbn [bind].
  unfold NodeSchemas.requires_credentials_of. cbn [NodeSchemas.schemas_get bind].
  destruct (assoc NodeSchemas.schemas t) as [sch |] eqn:Es; [| reflexivity].
  pose proof (pn_credentials n d t Hn sch Es) as Hc.
  unfold credentials_bound in Hc.
  destruct (NodeSchemas.requires_credentials sch); [| reflexivity].
  destruct (dict_get d "credentials") as [c |] eqn:Ec; [| discriminate Hc].
  cbn [py_in bind]. unfold dict_has. rewrite Ec. reflexivity.
Qed.

Lemma add_error_handling_populated :
  EnhancedWorkflowGenerator.add_node_error_handling n = Ok n.
Proof.
  rewrite (pn_dict n d t Hn).
  unfold EnhancedWorkflowGenerator.add_node_error_handling.
  unfold py_get, dict_get_default. rewrite (pn_type n d t Hn).
  cbn [bind py_endswith eq_str].
  destruct (endswith t "Trigger") eqn:Et; [reflexivity |].
  destruct (String.eqb t QualityValidator.sticky_type) eqn:Est; [reflexivity |].
  cbn [orb]. unfold NodeSchemas.needs_error_handling.
  cbn [NodeSchemas.schemas_get bind].
  destruct (assoc NodeSchemas.schemas t) as [sch |] eqn:Es; [| reflexivity].
  pose proof (pn_policy n d t Hn sch Es) as Hp.
  unfold error_policy_set in Hp. rewrite Et, Est in Hp.
  destruct (NodeSchemas.error_handling_recommended sch); [| reflexivity].
  cbn [andb negb] in Hp.
  apply has_all_cons in Hp. destruct Hp as (H1 & Hp).
  apply has_all_cons in Hp. destruct Hp as (H2 & Hp).
  apply has_all_cons in Hp. destruct Hp as (H3 & _).
  rewrite (node_setdefault_present d "onError") by exact H1. cbn [bind].
  rewrite (node_setdefault_present d "retryOnFail") by exact H2. cbn [bind].
  apply node_setdefault_present. exact H3.
Qed.

Lemma is_sticky_populated :
  QualityValidator.is_sticky n = Ok (is_sticky_node n).
Proof. rewrite (pn_dict n d t Hn). reflexivity. Qed.

End PopulatedNode.

Lemma filterM_pure {A : Type} (f : A -> result bool) (g : A -> bool)
  (l : list A) :
  (forall x, In x l -> f x = Ok (g x)) ->
  QualityValidator.filterM f l = Ok (filter g l).
Proof.
  induction l as [| x l IH]; intros Hf; simpl; [reflexivity |].
  rewrite (Hf x (or_introl eq_refl)). cbn [bind].
  rewrite IH by (intros y Hy; apply Hf; right; exact Hy). cbn [bind].
  destruct (g x); reflexivity.
Qed.

(** Runs a body that needs no identifier over the nodes of a workflow
    whose nodes it leaves alone. *)
Lemma update_nodes_id (body : value -> supply -> result (value * supply))
  (w : dict) (l : list value) :
  dict_get w "nodes" = Some (VList l) ->
  (forall x, In x l -> forall s, body x s = Ok (x, s)) ->
  forall s, EnhancedWorkflowGenerator.update_nodes body w s = Ok (w, s).
Proof.
  intros Hw Hb s. unfold EnhancedWorkflowGenerator.update_nodes. rewrite Hw.
  cbn [EnhancedWorkflowGenerator.for_each_node].
  rewrite (mapS_id body l Hb). cbn [bind].
  rewrite (dict_set_same w "nodes" _ Hw). reflexivity.
Qed.

(** C3, as the code has it.  A workflow that carries its top-level
    fields, whose nodes are fully populated, and that holds at least the
    number of annotation nodes the repair pass aims at for the tier (5,
    and 8 at the tier [complex]) is returned unchanged by the repair
    sequence, which draws no identifier: repairing it again changes
    nothing. *)
Theorem repair_of_populated_graph :
  forall (w : dict) (complexity : string) (s : supply),
    populated (EnhancedWorkflowGenerator.target_notes complexity) w = true ->
    EnhancedWorkflowGenerator.validate_and_refine w complexity s = Ok (w, s).
Proof.
  intros w complexity s H. unfold populated in H.
  apply andb_prop in H. destruct H as (Hkeys & H).
  destruct (dict_get w "nodes") as [[| | | | l |] |] eqn:Hnodes;
    try discriminate H.
  apply andb_prop in H. destruct H as (Hall & Hnotes).
  rewrite forallb_forall in Hall.
  assert (Hnode : forall x, In x l -> exists d t, populated_node x d t).
  { intros x Hx. apply node_populated_inv, Hall, Hx. }
  apply has_all_cons in Hkeys. destruct Hkeys as (K1 & Hkeys).
  apply has_all_cons in Hkeys. destruct Hkeys as (K2 & Hkeys).
  apply has_all_cons in Hkeys. destruct Hkeys as (K3 & Hkeys).
  apply has_all_cons in Hkeys. destruct Hkeys as (K4 & Hkeys).
  apply has_all_cons in Hkeys. destruct Hkeys as (K5 & _).
  unfold EnhancedWorkflowGenerator.validate_and_refine.
  (* Stage 2 *)
  unfold EnhancedWorkflowGenerator.fix_structure.
  rewrite (setdefault_present w "name") by exact K1.
  rewrite (setdefault_present w "nodes") by exact K2.
  rewrite (setdefault_present w "connections") by exact K3.
  rewrite (setdefault_present w "active") by exact K4.
  rewrite (setdefault_present w "settings") by exact K5.
  rewrite (update_nodes_id _ w l Hnodes).
  2:{ intros x Hx s0. destruct (Hnode x Hx) as (d & t & Hp).
      exact (fix_node_populated x d t Hp s0). }
  cbn [bind].
  (* Stage 3 *)
  unfold EnhancedWorkflowGenerator.fix_parameters, QualityValidator.get_nodes,
    dict_get_default.
  rewrite Hnodes. cbn [py_iter bind].
  destruct (mapM_total NodeSchemas.validate_node l) as (vs & ->).
  { intros x Hx. destruct (Hnode x Hx) as (d & t & Hp).
    exact (validate_node_populated x d t Hp). }
  cbn [bind].
  (* Stage 4 *)
  unfold EnhancedWorkflowGenerator.inject_credentials.
  rewrite (update_nodes_id _ w l Hnodes).
  2:{ intros x Hx s0. destruct (Hnode x Hx) as (d & t & Hp).
      rewrite (inject_credentials_populated x d t Hp). reflexivity. }
  cbn [bind].
  (* Stage 5 *)
  unfold EnhancedWorkflowGenerator.add_error_handling.
  rewrite (update_nodes_id _ w l Hnodes).
  2:{ intros x Hx s0. destruct (Hnode x Hx) as (d & t & Hp).
      rewrite (add_error_handling_populated x d t Hp). reflexivity. }
  cbn [bind].
  (* Stage 6 *)
  unfold EnhancedWorkflowGenerator.add_documentation, QualityValidator.get_nodes,
    dict_get_default.
  rewrite Hnodes. cbn [py_iter bind].
  rewrite (filterM_pure QualityValidator.is_sticky is_sticky_node l).
  2:{ intros x Hx. destruct (Hnode x Hx) as (d & t & Hp).
      exact (is_sticky_populated x d t Hp). }
  cbn [bind]. apply Nat.leb_le in Hnotes.
  replace (EnhancedWorkflowGenerator.target_notes complexity
           - List.length (filter is_sticky_node l))%nat with 0%nat by lia.
  cbn [Nat.ltb Nat.leb bind].
  (* Stage 7 *)
  unfold EnhancedWorkflowGenerator.validate_connections.
  rewrite (setdefault_present w "connections") by exact K3. reflexivity.
Qed.

Lemma repair_of_populated_graph_witness :
  EnhancedWorkflowGenerator.validate_and_refine documented_workflow "standard" ids
  = Ok (documented_workflow, ids).
Proof.
  apply (repair_of_populated_graph documented_workflow "standard" ids).
  vm_compute. reflexivity.
Defined.

(** C3, as stated, fails at the tier [complex]: the workflow below is
    fully populated and fully connected and holds the documented minimum
    of 5 annotation nodes, yet the repair pass appends three more
    annotation nodes to it. *)
Lemma repair_changes_populated_graph :
  populated Config.min_sticky_notes documented_workflow = true /\
  connected documented_workflow = true /\
  py_len (QualityValidator.get_nodes documented_workflow) = Ok 8 /\
  exists w' s',
    EnhancedWorkflowGenerator.validate_and_refine documented_workflow "complex" ids
    = Ok (w', s') /\
    py_len (QualityValidator.get_nodes w') = Ok 11 /\
    w' <> documented_workflow.
Proof.
  split; [vm_compute; reflexivity |].
  split; [vm_compute; reflexivity |].
  split; [vm_compute; reflexivity |].
  eexists. eexists. split; [vm_compute; reflexivity |].
  split; [vm_compute; reflexivity |].
  intros E. apply (f_equal (fun w => py_len (QualityValidator.get_nodes w))) in E.
  vm_compute in E. discriminate E.
Qed.

(** ** Connections of the graph builder *)

Lemma incl_app_l {A : Type} (a b c : list A) : incl a b -> incl a (b ++ c).
Proof. intros H x Hx. apply in_or_app. left. apply H, Hx. Qed.

Lemma incl_app_r {A : Type} (a b c : list A) : incl a c -> incl a (b ++ c).
Proof. intros H x Hx. apply in_or_app. right. apply H, Hx. Qed.

Lemma assoc_in_targets {A : Type} (f : A -> list string)
  (l : list (string * A)) (k : string) (a : A) :
  assoc l k = Some a -> incl (f a) (flat_map (fun kv => f (snd kv)) l).
Proof.
  induction l as [| [k' a'] l IH]; simpl; [discriminate |].
  destruct (String.eqb k k').
  - intros [= ->]. apply incl_appl, incl_refl.
  - intros H. apply incl_appr, IH, H.
Qed.

Lemma assoc_set_targets {A : Type} (f : A -> list string)
  (l : list (string * A)) (k : string) (a : A) :
  incl (flat_map (fun kv => f (snd kv)) (assoc_set l k a))
       (f a ++ flat_map (fun kv => f (snd kv)) l).
Proof.
  induction l as [| [k' a'] l IH]; simpl.
  - rewrite app_nil_r. apply incl_refl.
  - destruct (String.eqb k k'); simpl.
    + intros x Hx. apply in_app_or in Hx. apply in_or_app.
      destruct Hx as [Hx | Hx]; [left; exact Hx |].
      right. apply in_or_app. right. exact Hx.
    + intros x Hx. apply in_app_or in Hx.
      destruct Hx as [Hx | Hx].
      * apply in_or_app. right. apply in_or_app. left. exact Hx.
      * apply IH in Hx. apply in_app_or in Hx. apply in_or_app.
        destruct Hx as [Hx | Hx]; [left; exact Hx |].
        right. apply in_or_app. right. exact Hx.
Qed.

Lemma targets_of_eq (d : WorkflowGenerator.conn_data) :
  WorkflowGenerator.targets_of d = flat_map (fun kv => group_targets (snd kv)) d.
Proof. reflexivity. Qed.

Lemma endpoints_assoc (cs : WorkflowGenerator.connections) (k : string)
  (d : WorkflowGenerator.conn_data) :
  assoc cs k = Some d ->
  In k (WorkflowGenerator.endpoints cs) /\
  incl (WorkflowGenerator.targets_of d) (WorkflowGenerator.endpoints cs).
Proof.
  induction cs as [| [k' d'] cs IH]; simpl; [discriminate |].
  destruct (String.eqb_spec k k') as [-> | Hne].
  - intros [= ->]. split; [left; reflexivity |].
    intros x Hx. right. apply in_or_app. left. exact Hx.
  - intros H. destruct (IH H) as (Hin & Hincl). split.
    + right. apply in_or_app. right. exact Hin.
    + intros x Hx. right. apply in_or_app. right. apply Hincl, Hx.
Qed.

Lemma endpoints_assoc_set (cs : WorkflowGenerator.connections) (k : string)
  (d : WorkflowGenerator.conn_data) :
  incl (WorkflowGenerator.endpoints (assoc_set cs k d))
       (k :: WorkflowGenerator.targets_of d ++ WorkflowGenerator.endpoints cs).
Proof.
  induction cs as [| [k' d'] cs IH]; simpl.
  - rewrite !app_nil_r. apply incl_refl.
  - destruct (String.eqb_spec k k') as [-> | Hne]; simpl.
    + intros x [Hx | Hx]; [left; exact Hx |]. right.
      apply in_app_or in Hx. apply in_or_app.
      destruct Hx as [Hx | Hx]; [left; exact Hx |].
      right. right. apply in_or_app. right. exact Hx.
    + intros x [Hx | Hx].
      * right. apply in_or_app. right. left. exact Hx.
      * apply in_app_or in Hx. destruct Hx as [Hx | Hx].
        -- right. apply in_or_app. right. right. apply in_or_app. left. exact Hx.
        -- apply IH in Hx. destruct Hx as [Hx | Hx]; [left; exact Hx |].
           right. apply in_app_or in Hx. apply in_or_app.
           destruct Hx as [Hx | Hx]; [left; exact Hx |].
           right. right. apply in_or_app. right. exact Hx.
Qed.

Lemma group_targets_app (a b : list (list WorkflowGenerator.conn)) :
  group_targets (a ++ b) = group_targets a ++ group_targets b.
Proof. unfold group_targets. apply flat_map_app. Qed.

Lemma group_targets_repeat_nil (n : nat) :
  group_targets (repeat [] n) = [].
Proof. induction n as [| n IH]; simpl; [reflexivity | exact IH]. Qed.

Lemma group_targets_update_nth (i : nat) (extra : list WorkflowGenerator.conn)
  (l : list (list WorkflowGenerator.conn)) :
  incl (group_targets (WorkflowGenerator.update_nth i (fun g => g ++ extra) l))
       (group_targets l ++ map WorkflowGenerator.c_node extra).
Proof.
  revert i. induction l as [| g l IH]; intros i; simpl.
  - intros x Hx. destruct i; contradiction.
  - destruct i as [| i]; simpl.
    + rewrite map_app. intros x Hx. rewrite <- !app_assoc in Hx.
      apply in_app_or in Hx. destruct Hx as [Hx | Hx].
      * apply in_or_app. left. apply in_or_app. left. exact Hx.
      * apply in_app_or in Hx. destruct Hx as [Hx | Hx].
        -- apply in_or_app. right. exact Hx.
        -- apply in_or_app. left. apply in_or_app. right. exact Hx.
    + intros x Hx. apply in_app_or in Hx. destruct Hx as [Hx | Hx].
      * apply in_or_app. left. apply in_or_app. left. exact Hx.
      * apply IH in Hx. apply in_app_or in Hx. apply in_or_app.
        destruct Hx as [Hx | Hx]; [| right; exact Hx].
        left. apply in_or_app. right. exact Hx.
Qed.

(** A new connection mentions its two ends and what was there before. *)
Lemma connect_nodes_endpoints (cs cs' : WorkflowGenerator.connections)
  (from_node to_node : WorkflowGenerator.node) (i : nat) :
  WorkflowGenerator.connect_nodes cs from_node to_node i = Ok cs' ->
  incl (WorkflowGenerator.endpoints cs')
       (WorkflowGenerator.name from_node :: WorkflowGenerator.name to_node
          :: WorkflowGenerator.endpoints cs).
Proof.
  unfold WorkflowGenerator.connect_nodes. intros H.
  set (cs1 := if assoc_has cs (WorkflowGenerator.name from_node) then cs
              else assoc_set cs (WorkflowGenerator.name from_node)
                     [("main", [[]])]) in *.
  assert (H1 : incl (WorkflowGenerator.endpoints cs1)
                 (WorkflowGenerator.name from_node :: WorkflowGenerator.endpoints cs)).
  { subst cs1. destruct (assoc_has cs _).
    - apply incl_tl, incl_refl.
    - intros x Hx. apply endpoints_assoc_set in Hx. simpl in Hx. exact Hx. }
  bind_inv_as H data Hdata. bind_inv_as H main Hmain. injection H as <-.
  unfold assoc_getitem in Hdata, Hmain.
  destruct (assoc cs1 _) as [data' |] eqn:Ed; [| discriminate Hdata].
  injection Hdata as ->.
  destruct (assoc data "main") as [main' |] eqn:Em; [| discriminate Hmain].
  injection Hmain as ->.
  destruct (endpoints_assoc cs1 _ data Ed) as (_ & Hdata).
  pose proof (assoc_in_targets group_targets data "main" main Em) as Hm.
  intros x Hx. apply endpoints_assoc_set in Hx.
  destruct Hx as [Hx | Hx]; [left; exact Hx |].
  apply in_app_or in Hx. destruct Hx as [Hx | Hx].
  - rewrite targets_of_eq in Hx.
    apply (assoc_set_targets group_targets) in Hx.
    apply in_app_or in Hx. destruct Hx as [Hx | Hx].
    + apply group_targets_update_nth in Hx. apply in_app_or in Hx.
      destruct Hx as [Hx | Hx].
      * unfold WorkflowGenerator.pad_outputs in Hx.
        rewrite group_targets_app, group_targets_repeat_nil, app_nil_r in Hx.
        apply Hm in Hx. rewrite <- targets_of_eq in Hx. apply Hdata in Hx.
        apply H1 in Hx. destruct Hx as [Hx | Hx]; [left; exact Hx |].
        right. right. exact Hx.
      * simpl in Hx. destruct Hx as [Hx | []]. right. left. exact Hx.
    + rewrite <- targets_of_eq in Hx. apply Hdata in Hx.
      apply H1 in Hx. destruct Hx as [Hx | Hx]; [left; exact Hx |].
      right. right. exact Hx.
  - apply H1 in Hx. destruct Hx as [Hx | Hx]; [left; exact Hx |].
    right. right. exact Hx.
Qed.

Lemma merge_lists_targets (conn_list target : list (list WorkflowGenerator.conn))
  (i : nat) :
  incl (group_targets (WorkflowGenerator.merge_lists target i conn_list))
       (group_targets target ++ group_targets conn_list).
Proof.
  revert target i. induction conn_list as [| c tl IH]; intros target i; simpl.
  - rewrite app_nil_r. apply incl_refl.
  - intros x Hx. apply IH in Hx. apply in_app_or in Hx.
    destruct Hx as [Hx | Hx].
    + destruct (Nat.leb _ i).
      * rewrite group_targets_app in Hx. simpl in Hx. rewrite app_nil_r in Hx.
        apply in_app_or in Hx. apply in_or_app.
        destruct Hx as [Hx | Hx]; [left; exact Hx |].
        right. apply in_or_app. left. exact Hx.
      * apply group_targets_update_nth in Hx. apply in_app_or in Hx.
        apply in_or_app. destruct Hx as [Hx | Hx]; [left; exact Hx |].
        right. apply in_or_app. left. exact Hx.
    + apply in_or_app. right. apply in_or_app. right. exact Hx.
Qed.

Lemma merge_data_targets (source target : WorkflowGenerator.conn_data) :
  incl (WorkflowGenerator.targets_of (WorkflowGenerator.merge_data target source))
       (WorkflowGenerator.targets_of target ++ WorkflowGenerator.targets_of source).
Proof.
  unfold WorkflowGenerator.merge_data.
  revert target. induction source as [| [k l] tl IH]; intros target; simpl.
  - rewrite app_nil_r. apply incl_refl.
  - intros x Hx. apply IH in Hx. apply in_app_or in Hx.
    destruct Hx as [Hx | Hx].
    + simpl in Hx. destruct (assoc target k) as [l0 |] eqn:E.
      * rewrite targets_of_eq in Hx.
        apply (assoc_set_targets group_targets) in Hx.
        apply in_app_or in Hx. destruct Hx as [Hx | Hx].
        -- apply merge_lists_targets in Hx. apply in_app_or in Hx.
           destruct Hx as [Hx | Hx].
           ++ apply in_or_app. left.
              apply (assoc_in_targets group_targets target k l0 E). exact Hx.
           ++ apply in_or_app. right. apply in_or_app. left. exact Hx.
        -- apply in_or_app. left. exact Hx.
      * rewrite targets_of_eq in Hx.
        apply (assoc_set_targets group_targets) in Hx.
        apply in_app_or in Hx. destruct Hx as [Hx | Hx].
        -- apply in_or_app. right. apply in_or_app. left. exact Hx.
        -- apply in_or_app. left. exact Hx.
    + apply in_or_app. right. apply in_or_app. right. exact Hx.
Qed.

(** Merging brings in no name that neither side mentions. *)
Lemma merge_connections_endpoints (source target : WorkflowGenerator.connections) :
  incl (WorkflowGenerator.endpoints
          (WorkflowGenerator.merge_connections target source))
       (WorkflowGenerator.endpoints target ++ WorkflowGenerator.endpoints source).
Proof.
  unfold WorkflowGenerator.merge_connections.
  revert target. induction source as [| [k d] tl IH]; intros target;
    cbn [fold_left].
  - rewrite app_nil_r. apply incl_refl.
  - intros x Hx. apply IH in Hx. apply in_app_or in Hx.
    cbn [WorkflowGenerator.endpoints flat_map fst snd].
    destruct Hx as [Hx | Hx].
    + cbn [fst snd] in Hx. destruct (assoc target k) as [d0 |] eqn:E.
      * apply endpoints_assoc_set in Hx.
        destruct (endpoints_assoc target k d0 E) as (Hk & Hd0).
        destruct Hx as [Hx | Hx]; [subst x; apply in_or_app; left; exact Hk |].
        apply in_app_or in Hx. destruct Hx as [Hx | Hx].
        -- apply merge_data_targets in Hx. apply in_app_or in Hx.
           destruct Hx as [Hx | Hx].
           ++ apply in_or_app. left. apply Hd0, Hx.
           ++ apply in_or_app. right. right. apply in_or_app. left. exact Hx.
        -- apply in_or_app. left. exact Hx.
      * apply endpoints_assoc_set in Hx.
        destruct Hx as [Hx | Hx];
          [subst x; apply in_or_app; right; left; reflexivity |].
        apply in_app_or in Hx. destruct Hx as [Hx | Hx].
        -- apply in_or_app. right. right. apply in_or_app. left. exact Hx.
        -- apply in_or_app. left. exact Hx.
    + apply in_or_app. right. right. apply in_or_app. right. exact Hx.
Qed.

(** ** The invariant of [generate] *)

Lemma names_app (a b : list WorkflowGenerator.node) :
  names (a ++ b) = names a ++ names b.
Proof. apply map_app. Qed.

Lemma invariant_weaken (pool extra : list string) (b : WorkflowGenerator.build) :
  build_invariant pool b -> build_invariant (pool ++ extra) b.
Proof.
  intros [H1 H2 H3 H4]. split; try assumption. apply incl_app_l, H2.
Qed.

(** A step that appends [new] nodes, named apart from everything given
    out before, and whose connections stay among the nodes. *)
Lemma invariant_extend (pool extra : list string) (b : WorkflowGenerator.build)
  (new : list WorkflowGenerator.node) (cs : WorkflowGenerator.connections)
  (position : Z * Z) (last : WorkflowGenerator.node) (s : supply) :
  build_invariant pool b ->
  NoDup (names new) ->
  incl (names new) extra ->
  disjoint pool extra ->
  incl (WorkflowGenerator.endpoints cs)
       (names (WorkflowGenerator.b_nodes b) ++ names new) ->
  In (WorkflowGenerator.name last)
     (names (WorkflowGenerator.b_nodes b) ++ names new) ->
  build_invariant (pool ++ extra)
    (WorkflowGenerator.mk_build (WorkflowGenerator.b_nodes b ++ new) cs
       position last s).
Proof.
  intros [H1 H2 H3 H4] Hnd Hin Hdis Hcs Hlast.
  split; cbn [WorkflowGenerator.b_nodes WorkflowGenerator.b_connections
                WorkflowGenerator.b_last_node]; rewrite names_app.
  - apply NoDup_app; [exact H1 | exact Hnd |].
    intros x Hx Hx'. apply (Hdis x); [apply H2, Hx | apply Hin, Hx'].
  - intros x Hx. apply in_app_or in Hx. apply in_or_app.
    destruct Hx as [Hx | Hx]; [left; apply H2, Hx | right; apply Hin, Hx].
  - exact Hcs.
  - exact Hlast.
Qed.

Lemma mem_string_In (x : string) (l : list string) :
  mem_string x l = true <-> In x l.
Proof.
  induction l as [| y l IH]; simpl; [split; [discriminate | tauto] |].
  rewrite orb_true_iff, IH. destruct (String.eqb_spec x y) as [-> | Hne].
  - tauto.
  - split; intros [H | H]; try discriminate; try tauto.
    symmetry in H. contradiction.
Qed.

Lemma inclb_sound (a b : list string) : inclb a b = true -> incl a b.
Proof.
  unfold inclb. rewrite forallb_forall. intros H x Hx.
  apply mem_string_In, H, Hx.
Qed.

Lemma disjointb_sound (a b : list string) :
  disjointb a b = true -> disjoint a b.
Proof.
  unfold disjointb. rewrite forallb_forall. intros H x Hx Hb.
  apply mem_string_In in Hb. specialize (H x Hx). rewrite Hb in H.
  discriminate H.
Qed.

Lemma nodupb_sound (l : list string) : nodupb l = true -> NoDup l.
Proof.
  induction l as [| x l IH]; simpl; intros H; [constructor |].
  apply andb_prop in H. destruct H as (Hx & Hl). constructor.
  - intros Hin. apply mem_string_In in Hin. rewrite Hin in Hx. discriminate Hx.
  - apply IH, Hl.
Qed.

Lemma connect_nodes_closed (cs cs' : WorkflowGenerator.connections)
  (a b : WorkflowGenerator.node) (i : nat) (U : list string) :
  WorkflowGenerator.connect_nodes cs a b i = Ok cs' ->
  incl (WorkflowGenerator.endpoints cs) U ->
  In (WorkflowGenerator.name a) U ->
  In (WorkflowGenerator.name b) U ->
  incl (WorkflowGenerator.endpoints cs') U.
Proof.
  intros H Hcs Ha Hb x Hx. apply (connect_nodes_endpoints _ _ _ _ _ H) in Hx.
  destruct Hx as [<- | [<- | Hx]]; [exact Ha | exact Hb | apply Hcs, Hx].
Qed.

Lemma merge_connections_closed (target source : WorkflowGenerator.connections)
  (U : list string) :
  incl (WorkflowGenerator.endpoints target) U ->
  incl (WorkflowGenerator.endpoints source) U ->
  incl (WorkflowGenerator.endpoints
          (WorkflowGenerator.merge_connections target source)) U.
Proof.
  intros Ht Hs x Hx. apply merge_connections_endpoints in Hx.
  apply in_app_or in Hx. destruct Hx as [Hx | Hx]; [apply Ht | apply Hs]; exact Hx.
Qed.

Lemma step_trigger_invariant (requirements : dict) (s : supply) :
  build_invariant trigger_names (WorkflowGenerator.step_trigger requirements s).
Proof.
  unfold WorkflowGenerator.step_trigger, WorkflowGenerator.create_trigger_node.
  cbn [uuid4].
  destruct (eq_str _ "webhook"); [| destruct (eq_str _ "schedule");
                                    [| destruct (eq_str _ "email")]];
    cbn [uuid4]; split; cbn; try (apply nodupb_sound; reflexivity);
    try (apply inclb_sound; reflexivity); try (apply incl_nil_l); tauto.
Qed.

(** Unfolds the connections a canned sub-graph builds among its own
    nodes, whose names are literals. *)
Tactic Notation "run_canned" "in" hyp(H) :=
  cbn [uuid4 WorkflowGenerator.connect_nodes WorkflowGenerator.function_node
       WorkflowGenerator.priority_node
       WorkflowGenerator.name assoc_has assoc assoc_set assoc_getitem bind
       String.eqb Ascii.eqb Bool.eqb WorkflowGenerator.pad_outputs List.length
       Nat.sub repeat app WorkflowGenerator.update_nth Nat.ltb Nat.leb
       WorkflowGenerator.first_node] in H.

Ltac run_canned :=
  cbn [uuid4 WorkflowGenerator.connect_nodes WorkflowGenerator.function_node
       WorkflowGenerator.priority_node
       WorkflowGenerator.name assoc_has assoc assoc_set assoc_getitem bind
       String.eqb Ascii.eqb Bool.eqb WorkflowGenerator.pad_outputs List.length
       Nat.sub repeat app WorkflowGenerator.update_nth Nat.ltb Nat.leb
       WorkflowGenerator.first_node].

Section Steps.

Variable requirements : dict.
Variables (pool : list string) (b b' : WorkflowGenerator.build).
Hypothesis Hinv : build_invariant pool b.

Lemma step_auth_invariant :
  disjoint pool auth_names ->
  WorkflowGenerator.step_auth requirements b = Ok b' ->
  build_invariant (pool ++ auth_names) b'.
Proof.
  intros Hdis. unfold WorkflowGenerator.step_auth.
  destruct (WorkflowGenerator.flag requirements "needs_auth");
    [| intros [= <-]; apply invariant_weaken, Hinv].
  unfold WorkflowGenerator.create_auth_node. cbn [uuid4]. intros H.
  bind_inv_as H cs Hcs. injection H as <-.
  apply invariant_extend; try assumption.
  - apply nodupb_sound. reflexivity.
  - apply inclb_sound. reflexivity.
  - eapply connect_nodes_closed; [exact Hcs | | |].
    + apply incl_app_l, (inv_closed _ _ Hinv).
    + apply in_or_app. left. apply (inv_last _ _ Hinv).
    + apply in_or_app. right. left. reflexivity.
  - apply in_or_app. right. left. reflexivity.
Qed.

(** The tail shared by the steps that merge a canned sub-graph and then
    connect the last node to its first node. *)
Lemma merged_step_invariant (extra : list string)
  (new : list WorkflowGenerator.node) (conns cs : WorkflowGenerator.connections)
  (first last : WorkflowGenerator.node) (position : Z * Z) (s : supply) :
  disjoint pool extra ->
  nodupb (names new) = true ->
  inclb (names new) extra = true ->
  inclb (WorkflowGenerator.endpoints conns) (names new) = true ->
  In (WorkflowGenerator.name first) (names new) ->
  In (WorkflowGenerator.name last)
     (names (WorkflowGenerator.b_nodes b) ++ names new) ->
  WorkflowGenerator.connect_nodes
    (WorkflowGenerator.merge_connections (WorkflowGenerator.b_connections b) conns)
    (WorkflowGenerator.b_last_node b) first 0 = Ok cs ->
  build_invariant (pool ++ extra)
    (WorkflowGenerator.mk_build (WorkflowGenerator.b_nodes b ++ new) cs
       position last s).
Proof.
  intros Hdis Hnd Hin Hconns Hfirst Hlast Hcs.
  apply invariant_extend; try assumption.
  - apply nodupb_sound, Hnd.
  - apply inclb_sound, Hin.
  - eapply connect_nodes_closed; [exact Hcs | | |].
    + apply merge_connections_closed.
      * apply incl_app_l, (inv_closed _ _ Hinv).
      * apply incl_app_r, inclb_sound, Hconns.
    + apply in_or_app. left. apply (inv_last _ _ Hinv).
    + apply in_or_app. right. exact Hfirst.
Qed.

Lemma step_validation_invariant :
  disjoint pool validation_names ->
  WorkflowGenerator.step_validation requirements b = Ok b' ->
  build_invariant (pool ++ validation_names) b'.
Proof.
  intros Hdis. unfold WorkflowGenerator.step_validation.
  destruct (WorkflowGenerator.flag requirements "needs_validation");
    [| intros [= <-]; apply invariant_weaken, Hinv].
  unfold WorkflowGenerator.create_validation_flow. cbn [uuid4].
  cbn [WorkflowGenerator.connect_nodes WorkflowGenerator.function_node
       WorkflowGenerator.name assoc_has assoc assoc_set assoc_getitem bind
       String.eqb Ascii.eqb Bool.eqb WorkflowGenerator.pad_outputs List.length
       Nat.sub repeat app WorkflowGenerator.update_nth Nat.ltb Nat.leb
       WorkflowGenerator.first_node].
  intros H. bind_inv_as H cs Hcs. injection H as <-.
  eapply merged_step_invariant; try exact Hcs; try exact Hdis;
    try reflexivity.
  - left. reflexivity.
  - apply in_or_app. right. right. left. reflexivity.
Qed.

Lemma step_duplicate_check_invariant :
  disjoint pool duplicate_names ->
  WorkflowGenerator.step_duplicate_check requirements b = Ok b' ->
  build_invariant (pool ++ duplicate_names) b'.
Proof.
  intros Hdis. unfold WorkflowGenerator.step_duplicate_check.
  destruct (WorkflowGenerator.flag requirements "needs_duplicate_check");
    [| intros [= <-]; apply invariant_weaken, Hinv].
  unfold WorkflowGenerator.create_duplicate_check_flow. cbn [uuid4].
  destruct (WorkflowGenerator.database_of requirements) as [[database titled] | e];
    [| discriminate].
  run_canned.
  intros H. bind_inv_as H cs Hcs. injection H as <-.
  eapply merged_step_invariant; try exact Hcs; try exact Hdis;
    try reflexivity.
  - left. reflexivity.
  - apply in_or_app. right. right. left. reflexivity.
Qed.

Lemma step_scoring_invariant :
  disjoint pool scoring_names ->
  WorkflowGenerator.step_scoring requirements b = Ok b' ->
  build_invariant (pool ++ scoring_names) b'.
Proof.
  intros Hdis. unfold WorkflowGenerator.step_scoring.
  destruct (WorkflowGenerator.flag requirements "needs_scoring");
    [| intros [= <-]; apply invariant_weaken, Hinv].
  unfold WorkflowGenerator.create_scoring_node. cbn [uuid4]. intros H.
  bind_inv_as H cs Hcs. injection H as <-.
  apply invariant_extend; try assumption.
  - apply nodupb_sound. reflexivity.
  - apply inclb_sound. reflexivity.
  - eapply connect_nodes_closed; [exact Hcs | | |].
    + apply incl_app_l, (inv_closed _ _ Hinv).
    + apply in_or_app. left. apply (inv_last _ _ Hinv).
    + apply in_or_app. right. left. reflexivity.
  - apply in_or_app. right. left. reflexivity.
Qed.

Lemma step_branching_invariant (complexity : Z) :
  disjoint pool branching_names ->
  WorkflowGenerator.step_branching requirements complexity b = Ok b' ->
  build_invariant (pool ++ branching_names) b'.
Proof.
  intros Hdis. unfold WorkflowGenerator.step_branching.
  destruct (WorkflowGenerator.flag requirements "has_branching"
            || Z.ltb 6 complexity);
    [| intros [= <-]; apply invariant_weaken, Hinv].
  unfold WorkflowGenerator.create_branching_flow. run_canned.
  intros H. bind_inv_as H cs Hcs. injection H as <-.
  eapply merged_step_invariant; try exact Hcs; try exact Hdis;
    try reflexivity.
  - left. reflexivity.
  - apply in_or_app. right. do 4 right. left. reflexivity.
Qed.

Lemma step_action_invariant :
  disjoint pool action_names ->
  WorkflowGenerator.step_action requirements b = Ok b' ->
  build_invariant (pool ++ action_names) b'.
Proof.
  intros Hdis. unfold WorkflowGenerator.step_action. intros H.
  bind_inv_as H created Hcreated.
  destruct created as [[[action_node action_conns] position] s1].
  bind_inv_as H cs Hcs. injection H as <-.
  unfold WorkflowGenerator.create_action_nodes in Hcreated.
  bind_inv_as Hcreated primary Hprimary. cbn [uuid4] in Hcreated.
  bind_inv_as Hcreated nd Hnd. injection Hcreated as <- <- <- <-.
  assert (Hname : In (WorkflowGenerator.name nd) action_names).
  { destruct (eq_str primary "email"); [injection Hnd as <-; simpl; tauto |].
    destruct (eq_str primary "slack"); [injection Hnd as <-; simpl; tauto |].
    destruct (eq_str primary "database"); [| injection Hnd as <-; simpl; tauto].
    destruct (WorkflowGenerator.database_of requirements) as [[database titled] | e];
      [| discriminate Hnd].
    cbn [bind] in Hnd. injection Hnd as <-. simpl. tauto. }
  eapply (merged_step_invariant action_names [nd] [] cs nd nd);
    try exact Hcs; try exact Hdis.
  - reflexivity.
  - unfold inclb. cbn [names map forallb].
    rewrite (proj2 (mem_string_In _ _) Hname). reflexivity.
  - reflexivity.
  - left. reflexivity.
  - apply in_or_app. right. left. reflexivity.
Qed.

Lemma step_logging_invariant (complexity : Z) :
  disjoint pool logging_names ->
  WorkflowGenerator.step_logging requirements complexity b = Ok b' ->
  build_invariant (pool ++ logging_names) b'.
Proof.
  intros Hdis. unfold WorkflowGenerator.step_logging.
  destruct (WorkflowGenerator.flag requirements "needs_logging"
            || Z.ltb 5 complexity);
    [| intros [= <-]; apply invariant_weaken, Hinv].
  unfold WorkflowGenerator.create_logging_node.
  destruct (WorkflowGenerator.database_of requirements) as [[database titled] | e];
    [| discriminate].
  cbn [uuid4 bind]. intros H.
  bind_inv_as H cs Hcs. injection H as <-.
  apply invariant_extend; try assumption.
  - apply nodupb_sound. reflexivity.
  - apply inclb_sound. reflexivity.
  - eapply connect_nodes_closed; [exact Hcs | | |].
    + apply incl_app_l, (inv_closed _ _ Hinv).
    + apply in_or_app. left. apply (inv_last _ _ Hinv).
    + apply in_or_app. right. left. reflexivity.
  - apply in_or_app. right. left. reflexivity.
Qed.

Lemma step_notification_invariant :
  disjoint pool notification_names ->
  WorkflowGenerator.step_notification requirements b = Ok b' ->
  build_invariant (pool ++ notification_names) b'.
Proof.
  intros Hdis. unfold WorkflowGenerator.step_notification.
  destruct (WorkflowGenerator.flag requirements "needs_notification");
    [| intros [= <-]; apply invariant_weaken, Hinv].
  unfold WorkflowGenerator.create_notification_nodes. intros H.
  bind_inv_as H created Hcreated.
  destruct created as [[[notif_nodes notif_conns] position] s1].
  bind_inv_as H nd0 Hfirst. bind_inv_as H cs Hcs. injection H as <-.
  bind_inv_as Hcreated slack Hslack. bind_inv_as Hcreated wanted Hwanted.
  destruct wanted; cbn [uuid4] in Hcreated; injection Hcreated as <- <- <- <-;
    [| discriminate Hfirst].
  injection Hfirst as <-.
  eapply merged_step_invariant; try exact Hcs; try exact Hdis;
    try reflexivity.
  - left. reflexivity.
  - apply in_or_app. left. apply (inv_last _ _ Hinv).
Qed.

Lemma step_error_handling_invariant :
  disjoint pool error_names ->
  WorkflowGenerator.step_error_handling requirements b = Ok b' ->
  build_invariant (pool ++ error_names) b'.
Proof.
  intros Hdis. unfold WorkflowGenerator.step_error_handling.
  destruct (WorkflowGenerator.flag requirements "needs_error_handling");
    [| intros [= <-]; apply invariant_weaken, Hinv].
  intros H. bind_inv_as H created Hcreated.
  destruct created as [[error_nodes error_conns] s1]. injection H as <-.
  unfold WorkflowGenerator.create_error_workflow in Hcreated.
  run_canned in Hcreated.
  destruct (WorkflowGenerator.flag requirements "needs_error_alerts");
    run_canned in Hcreated; injection Hcreated as <- <- <-;
    (apply invariant_extend; try assumption;
     [ apply nodupb_sound; reflexivity
     | apply inclb_sound; reflexivity
     | apply merge_connections_closed;
       [ apply incl_app_l, (inv_closed _ _ Hinv)
       | apply incl_app_r, inclb_sound; reflexivity ]
     | apply in_or_app; left; apply (inv_last _ _ Hinv) ]).
Qed.

End Steps.

(** C10.  Every graph [generate] returns has pairwise distinct node
    names, and both ends of each of its connections name a node of the
    graph. *)
Theorem generated_graph_is_well_formed :
  forall (requirements : dict) (conversation : option string) (s s' : supply)
         (w : WorkflowGenerator.workflow),
    WorkflowGenerator.generate requirements conversation s = Ok (w, s') ->
    NoDup (names (WorkflowGenerator.w_nodes w)) /\
    (forall x,
       In x (WorkflowGenerator.endpoints (WorkflowGenerator.w_connections w)) ->
       In x (names (WorkflowGenerator.w_nodes w))).
Proof.
  intros requirements conversation s s' w H.
  unfold WorkflowGenerator.generate in H.
  bind_inv_as H complexity Hc.
  bind_inv_as H b2 H2. bind_inv_as H b3 H3. bind_inv_as H b4 H4.
  bind_inv_as H b5 H5. bind_inv_as H b6 H6. bind_inv_as H b7 H7.
  bind_inv_as H b8 H8. bind_inv_as H b9 H9. bind_inv_as H b10 H10.
  bind_inv_as H workflow_name Hname. injection H as <- <-.
  pose proof (step_trigger_invariant requirements s) as I1.
  pose proof (step_auth_invariant requirements _ _ _ I1
                (disjointb_sound trigger_names auth_names eq_refl) H2) as I2.
  pose proof (step_validation_invariant requirements _ _ _ I2
                (disjointb_sound pool2 validation_names eq_refl) H3) as I3.
  pose proof (step_duplicate_check_invariant requirements _ _ _ I3
                (disjointb_sound pool3 duplicate_names eq_refl) H4) as I4.
  pose proof (step_scoring_invariant requirements _ _ _ I4
                (disjointb_sound pool4 scoring_names eq_refl) H5) as I5.
  pose proof (step_branching_invariant requirements _ _ _ I5 complexity
                (disjointb_sound pool5 branching_names eq_refl) H6) as I6.
  pose proof (step_action_invariant requirements _ _ _ I6
                (disjointb_sound pool6 action_names eq_refl) H7) as I7.
  pose proof (step_logging_invariant requirements _ _ _ I7 complexity
                (disjointb_sound pool7 logging_names eq_refl) H8) as I8.
  pose proof (step_notification_invariant requirements _ _ _ I8
                (disjointb_sound pool8 notification_names eq_refl) H9) as I9.
  pose proof (step_error_handling_invariant requirements _ _ _ I9
                (disjointb_sound pool9 error_names eq_refl) H10) as I10.
  cbn [WorkflowGenerator.w_nodes WorkflowGenerator.w_connections].
  split; [exact (inv_nodup _ _ I10) | exact (inv_closed _ _ I10)].
Qed.

Lemma generated_graph_is_well_formed_witness :
  exists w s',
    WorkflowGenerator.generate full_requirements None ids = Ok (w, s') /\
    List.length (WorkflowGenerator.w_nodes w) = 19 /\
    NoDup (names (WorkflowGenerator.w_nodes w)) /\
    (forall x,
       In x (WorkflowGenerator.endpoints (WorkflowGenerator.w_connections w)) ->
       In x (names (WorkflowGenerator.w_nodes w))).
Proof.
  eexists. eexists. split; [vm_compute; reflexivity |].
  split; [reflexivity |].
  eapply (generated_graph_is_well_formed full_requirements None ids).
  vm_compute. reflexivity.
Defined.

(** ** The graph builder and the identifiers it draws *)

Lemma connect_nodes_by_name (cs : WorkflowGenerator.connections)
  (a a' b b' : WorkflowGenerator.node) (i : nat) :
  WorkflowGenerator.erase_node a = WorkflowGenerator.erase_node a' ->
  WorkflowGenerator.erase_node b = WorkflowGenerator.erase_node b' ->
  WorkflowGenerator.connect_nodes cs a b i
  = WorkflowGenerator.connect_nodes cs a' b' i.
Proof.
  intros Ha Hb. unfold WorkflowGenerator.connect_nodes.
  apply (f_equal WorkflowGenerator.name) in Ha.
  apply (f_equal WorkflowGenerator.name) in Hb.
  cbn [WorkflowGenerator.erase_node WorkflowGenerator.name] in Ha, Hb.
  rewrite Ha, Hb. reflexivity.
Qed.

Lemma erase_build_extend (n1 n2 new1 new2 : list WorkflowGenerator.node)
  (cs : WorkflowGenerator.connections) (position : Z * Z)
  (last1 last2 : WorkflowGenerator.node) (s1 s2 : supply) :
  map WorkflowGenerator.erase_node n1 = map WorkflowGenerator.erase_node n2 ->
  map WorkflowGenerator.erase_node new1 = map WorkflowGenerator.erase_node new2 ->
  WorkflowGenerator.erase_node last1 = WorkflowGenerator.erase_node last2 ->
  erase_build (WorkflowGenerator.mk_build (n1 ++ new1) cs position last1 s1)
  = erase_build (WorkflowGenerator.mk_build (n2 ++ new2) cs position last2 s2).
Proof.
  intros Hn Hnew Hlast. unfold erase_build.
  cbn [WorkflowGenerator.b_nodes WorkflowGenerator.b_connections
       WorkflowGenerator.b_position WorkflowGenerator.b_last_node].
  rewrite !map_app, Hn, Hnew, Hlast. reflexivity.
Qed.

(** Two runs that agree up to identifiers before a step agree up to
    identifiers after it. *)
Lemma bind_erased {A B : Type} (g : A -> B)
  (r1 r2 : result WorkflowGenerator.build)
  (k1 k2 : WorkflowGenerator.build -> result A) :
  result_map erase_build r1 = result_map erase_build r2 ->
  (forall b1 b2, erase_build b1 = erase_build b2 ->
                 result_map g (k1 b1) = result_map g (k2 b2)) ->
  result_map g (bind r1 k1) = result_map g (bind r2 k2).
Proof.
  intros Hr Hk. destruct r1 as [b1 | e1]; destruct r2 as [b2 | e2];
    cbn [result_map bind] in *; try discriminate Hr.
  - apply Hk. congruence.
  - congruence.
Qed.

Lemma step_trigger_erased (requirements : dict) (s1 s2 : supply) :
  erase_build (WorkflowGenerator.step_trigger requirements s1)
  = erase_build (WorkflowGenerator.step_trigger requirements s2).
Proof.
  unfold WorkflowGenerator.step_trigger, WorkflowGenerator.create_trigger_node.
  cbn [uuid4].
  destruct (eq_str _ "webhook"); [| destruct (eq_str _ "schedule");
                                    [| destruct (eq_str _ "email")]];
    reflexivity.
Qed.

Section ErasedSteps.

Variable requirements : dict.
Variables b1 b2 : WorkflowGenerator.build.
Hypothesis Hb : erase_build b1 = erase_build b2.

Lemma erased_nodes :
  map WorkflowGenerator.erase_node (WorkflowGenerator.b_nodes b1)
  = map WorkflowGenerator.erase_node (WorkflowGenerator.b_nodes b2).
Proof. exact (f_equal (fun t => fst (fst (fst t))) Hb). Qed.

Lemma erased_connections :
  WorkflowGenerator.b_connections b1 = WorkflowGenerator.b_connections b2.
Proof. exact (f_equal (fun t => snd (fst (fst t))) Hb). Qed.

Lemma erased_position :
  WorkflowGenerator.b_position b1 = WorkflowGenerator.b_position b2.
Proof. exact (f_equal (fun t => snd (fst t)) Hb). Qed.

Lemma erased_last :
  WorkflowGenerator.erase_node (WorkflowGenerator.b_last_node b1)
  = WorkflowGenerator.erase_node (WorkflowGenerator.b_last_node b2).
Proof. exact (f_equal (fun t => snd t) Hb). Qed.

(** Closes a step once both runs are unfolded: the connection made from
    the last node is the same, and what is appended differs in
    identifiers only. *)
Ltac same_step :=
  rewrite ?erased_connections, ?erased_position;
  match goal with
  | |- context [WorkflowGenerator.connect_nodes ?cs
                  (WorkflowGenerator.b_last_node b1) ?n1 ?i] =>
      match goal with
      | |- context [WorkflowGenerator.connect_nodes cs
                      (WorkflowGenerator.b_last_node b2) ?n2 i] =>
          rewrite (connect_nodes_by_name cs (WorkflowGenerator.b_last_node b1)
                     (WorkflowGenerator.b_last_node b2) n1 n2 i erased_last
                     eq_refl)
      end
  end;
  match goal with
  | |- context [WorkflowGenerator.connect_nodes ?cs ?a ?b ?i] =>
      destruct (WorkflowGenerator.connect_nodes cs a b i);
      cbn [bind result_map]; [| reflexivity]
  end;
  f_equal; apply erase_build_extend;
  [exact erased_nodes | reflexivity | try reflexivity; exact erased_last].

Lemma step_auth_erased :
  result_map erase_build (WorkflowGenerator.step_auth requirements b1)
  = result_map erase_build (WorkflowGenerator.step_auth requirements b2).
Proof.
  unfold WorkflowGenerator.step_auth.
  destruct (WorkflowGenerator.flag requirements "needs_auth");
    [| cbn [result_map]; f_equal; exact Hb].
  unfold WorkflowGenerator.create_auth_node. cbn [uuid4]. same_step.
Qed.

Lemma step_validation_erased :
  result_map erase_build (WorkflowGenerator.step_validation requirements b1)
  = result_map erase_build (WorkflowGenerator.step_validation requirements b2).
Proof.
  unfold WorkflowGenerator.step_validation.
  destruct (WorkflowGenerator.flag requirements "needs_validation");
    [| cbn [result_map]; f_equal; exact Hb].
  unfold WorkflowGenerator.create_validation_flow. run_canned. same_step.
Qed.

Lemma step_duplicate_check_erased :
  result_map erase_build (WorkflowGenerator.step_duplicate_check requirements b1)
  = result_map erase_build (WorkflowGenerator.step_duplicate_check requirements b2).
Proof.
  unfold WorkflowGenerator.step_duplicate_check.
  destruct (WorkflowGenerator.flag requirements "needs_duplicate_check");
    [| cbn [result_map]; f_equal; exact Hb].
  unfold WorkflowGenerator.create_duplicate_check_flow. cbn [uuid4].
  destruct (WorkflowGenerator.database_of requirements) as [[database titled] | e];
    [| reflexivity].
  run_canned. same_step.
Qed.

Lemma step_scoring_erased :
  result_map erase_build (WorkflowGenerator.step_scoring requirements b1)
  = result_map erase_build (WorkflowGenerator.step_scoring requirements b2).
Proof.
  unfold WorkflowGenerator.step_scoring.
  destruct (WorkflowGenerator.flag requirements "needs_scoring");
    [| cbn [result_map]; f_equal; exact Hb].
  unfold WorkflowGenerator.create_scoring_node. cbn [uuid4]. same_step.
Qed.

Lemma step_branching_erased (complexity : Z) :
  result_map erase_build
    (WorkflowGenerator.step_branching requirements complexity b1)
  = result_map erase_build
      (WorkflowGenerator.step_branching requirements complexity b2).
Proof.
  unfold WorkflowGenerator.step_branching.
  destruct (WorkflowGenerator.flag requirements "has_branching"
            || Z.ltb 6 complexity);
    [| cbn [result_map]; f_equal; exact Hb].
  unfold WorkflowGenerator.create_branching_flow. run_canned. same_step.
Qed.

Lemma step_action_erased :
  result_map erase_build (WorkflowGenerator.step_action requirements b1)
  = result_map erase_build (WorkflowGenerator.step_action requirements b2).
Proof.
  unfold WorkflowGenerator.step_action, WorkflowGenerator.create_action_nodes.
  destruct (if truthy _ then _ else _) as [primary | e]; [| reflexivity].
  cbn [bind uuid4].
  destruct (eq_str primary "email"); [cbn [bind]; same_step |].
  destruct (eq_str primary "slack"); [cbn [bind]; same_step |].
  destruct (eq_str primary "database"); [| cbn [bind]; same_step].
  destruct (WorkflowGenerator.database_of requirements) as [[database titled] | e];
    [| reflexivity].
  cbn [bind]. same_step.
Qed.

Lemma step_logging_erased (complexity : Z) :
  result_map erase_build
    (WorkflowGenerator.step_logging requirements complexity b1)
  = result_map erase_build
      (WorkflowGenerator.step_logging requirements complexity b2).
Proof.
  unfold WorkflowGenerator.step_logging.
  destruct (WorkflowGenerator.flag requirements "needs_logging"
            || Z.ltb 5 complexity);
    [| cbn [result_map]; f_equal; exact Hb].
  unfold WorkflowGenerator.create_logging_node.
  destruct (WorkflowGenerator.database_of requirements) as [[database titled] | e];
    [| reflexivity].
  cbn [bind uuid4]. same_step.
Qed.

Lemma step_notification_erased :
  result_map erase_build (WorkflowGenerator.step_notification requirements b1)
  = result_map erase_build (WorkflowGenerator.step_notification requirements b2).
Proof.
  unfold WorkflowGenerator.step_notification.
  destruct (WorkflowGenerator.flag requirements "needs_notification");
    [| cbn [result_map]; f_equal; exact Hb].
  unfold WorkflowGenerator.create_notification_nodes.
  destruct (py_in "slack" _) as [slack | e]; [| reflexivity]. cbn [bind].
  destruct (if slack then _ else _) as [wanted | e]; [| reflexivity].
  cbn [bind]. destruct wanted; cbn [uuid4 bind WorkflowGenerator.first_node];
    [| reflexivity].
  same_step.
Qed.

Lemma step_error_handling_erased :
  result_map erase_build (WorkflowGenerator.step_error_handling requirements b1)
  = result_map erase_build (WorkflowGenerator.step_error_handling requirements b2).
Proof.
  unfold WorkflowGenerator.step_error_handling.
  destruct (WorkflowGenerator.flag requirements "needs_error_handling");
    [| cbn [result_map]; f_equal; exact Hb].
  unfold WorkflowGenerator.create_error_workflow. run_canned.
  destruct (WorkflowGenerator.flag requirements "needs_error_alerts");
    run_canned; cbn [result_map]; f_equal;
    rewrite erased_connections, erased_position;
    apply erase_build_extend;
    [exact erased_nodes | reflexivity | exact erased_last
    | exact erased_nodes | reflexivity | exact erased_last].
Qed.

End ErasedSteps.

(** C4, as the code has it.  Two invocations of [generate] on the same
    requirements record and the same conversation, whatever identifiers
    [uuid4] hands out to each, fail alike or return graphs that agree in
    everything but the drawn identifiers (the node ids and the webhook
    id): the same names, types, versions, positions, parameters,
    credentials, connections, settings and meta data. *)
Theorem generate_deterministic_up_to_ids :
  forall (requirements : dict) (conversation : option string) (s1 s2 : supply),
    result_map (fun r => WorkflowGenerator.erase_ids (fst r))
      (WorkflowGenerator.generate requirements conversation s1)
    = result_map (fun r => WorkflowGenerator.erase_ids (fst r))
        (WorkflowGenerator.generate requirements conversation s2).
Proof.
  intros requirements conversation s1 s2. unfold WorkflowGenerator.generate.
  destruct (WorkflowGenerator.calculate_complexity requirements)
    as [complexity | e]; [| reflexivity].
  cbn [bind].
  apply bind_erased;
    [apply step_auth_erased, step_trigger_erased | intros a2 b2 E2].
  apply bind_erased;
    [apply step_validation_erased, E2 | intros a3 b3 E3].
  apply bind_erased;
    [apply step_duplicate_check_erased, E3 | intros a4 b4 E4].
  apply bind_erased;
    [apply step_scoring_erased, E4 | intros a5 b5 E5].
  apply bind_erased;
    [apply step_branching_erased, E5 | intros a6 b6 E6].
  apply bind_erased;
    [apply step_action_erased, E6 | intros a7 b7 E7].
  apply bind_erased;
    [apply step_logging_erased, E7 | intros a8 b8 E8].
  apply bind_erased;
    [apply step_notification_erased, E8 | intros a9 b9 E9].
  apply bind_erased;
    [apply step_error_handling_erased, E9 | intros a10 b10 E10].
  destruct (WorkflowGenerator.generate_workflow_name requirements conversation)
    as [workflow_name | e]; [| reflexivity].
  cbn [bind result_map fst]. unfold WorkflowGenerator.erase_ids.
  cbn [WorkflowGenerator.w_name WorkflowGenerator.w_nodes
       WorkflowGenerator.w_connections WorkflowGenerator.w_active
       WorkflowGenerator.w_settings WorkflowGenerator.w_meta].
  rewrite (erased_nodes a10 b10 E10), (erased_connections a10 b10 E10).
  replace (List.length (WorkflowGenerator.b_nodes a10))
    with (List.length (WorkflowGenerator.b_nodes b10)); [reflexivity |].
  rewrite <- (length_map WorkflowGenerator.erase_node (WorkflowGenerator.b_nodes b10)).
  rewrite <- (erased_nodes a10 b10 E10). apply length_map.
Qed.

(** C4, as stated, fails: two invocations in a row on the empty
    requirements record draw different identifiers, so the graphs they
    return differ (in their node ids), though in nothing else. *)
Lemma generate_twice_differs :
  exists w1 st1 w2 st2,
    WorkflowGenerator.generate [] None ids = Ok (w1, st1) /\
    WorkflowGenerator.generate [] None st1 = Ok (w2, st2) /\
    map WorkflowGenerator.id (WorkflowGenerator.w_nodes w1) = ["uuid-0"; "uuid-2"] /\
    map WorkflowGenerator.id (WorkflowGenerator.w_nodes w2) = ["uuid-3"; "uuid-5"] /\
    w1 <> w2 /\
    WorkflowGenerator.erase_ids w1 = WorkflowGenerator.erase_ids w2.
Proof.
  eexists. eexists. eexists. eexists.
  split; [vm_compute; reflexivity |].
  split; [vm_compute; reflexivity |].
  split; [vm_compute; reflexivity |].
  split; [vm_compute; reflexivity |].
  split; [| vm_compute; reflexivity].
  intros E.
  apply (f_equal (fun w => map WorkflowGenerator.id (WorkflowGenerator.w_nodes w)))
    in E.
  vm_compute in E. discriminate E.
Qed.

(** * Further properties *)

(** ** The structural validator: what it accepts *)

Lemma name_in_In (names : list string) (n : string) :
  ValidationService.name_in names n = true <-> In n names.
Proof.
  unfold ValidationService.name_in. rewrite existsb_exists. split.
  - intros (x & Hx & E). apply String.eqb_eq in E. subst x. exact Hx.
  - intros H. exists n. split; [exact H | apply String.eqb_refl].
Qed.

Lemma name_in_false (names : list string) (n : string) :
  ValidationService.name_in names n = false <-> ~ In n names.
Proof.
  rewrite <- name_in_In. destruct (ValidationService.name_in names n).
  - split; [discriminate | intros H; exfalso; apply H; reflexivity].
  - split; [intros _; discriminate | reflexivity].
Qed.

Lemma unique_names_loop_nil (nodes : list ValidationService.WorkflowNode)
  (seen : list string) :
  ValidationService.unique_names_loop seen nodes = [] <->
  NoDup (map ValidationService.wn_name nodes) /\
  (forall n, In n (map ValidationService.wn_name nodes) -> ~ In n seen).
Proof.
  revert seen. induction nodes as [| node tl IH]; intros seen; simpl.
  - split; [intros _; split; [constructor | intros n []] | reflexivity].
  - split.
    + intros H. apply app_eq_nil in H. destruct H as (Hhd & Htl).
      apply IH in Htl. destruct Htl as (Hnd & Hseen).
      assert (Hfresh : ~ In (ValidationService.wn_name node) seen).
      { apply name_in_false.
        destruct (ValidationService.name_in seen _); [discriminate Hhd | reflexivity]. }
      split.
      * constructor; [| exact Hnd]. intros Hin.
        apply (Hseen _ Hin). left. reflexivity.
      * intros n [<- | Hn]; [exact Hfresh |].
        intros Hs. apply (Hseen n Hn). right. exact Hs.
    + intros (Hnd & Hseen). inversion Hnd as [| x l Hx Hl]; subst.
      assert (Hfresh : ValidationService.name_in seen
                         (ValidationService.wn_name node) = false).
      { apply name_in_false. apply Hseen. left. reflexivity. }
      rewrite Hfresh. simpl. apply IH. split; [exact Hl |].
      intros n Hn [<- | Hs]; [exact (Hx Hn) |].
      apply (Hseen n); [right; exact Hn | exact Hs].
Qed.

Lemma unique_names_iff_helper (w : ValidationService.WorkflowJSON) :
  ValidationService.validate_unique_names w = [] <-> NoDup (node_names w).
Proof.
  unfold ValidationService.validate_unique_names, node_names.
  rewrite unique_names_loop_nil. split; [intros (H & _); exact H |].
  intros H. split; [exact H | intros n _ []].
Qed.

(** X1.  [_validate_unique_names] reports no finding exactly when the
    display names of the nodes are pairwise distinct. *)
Theorem unique_names_iff_nodup :
  forall w : ValidationService.WorkflowJSON,
    ValidationService.validate_unique_names w = [] <-> NoDup (node_names w).
Proof. exact unique_names_iff_helper. Qed.

Lemma foldM_app_findings {A E : Type} (f : A -> list E)
  (g : list E -> A -> result (list E)) (xs : list A) :
  (forall acc x, g acc x = Ok (acc ++ f x)) ->
  forall acc, foldM g xs acc = Ok (acc ++ flat_map f xs).
Proof.
  intros Hg. induction xs as [| x xs IH]; intros acc; simpl.
  - rewrite app_nil_r. reflexivity.
  - rewrite Hg. cbn [bind]. rewrite IH, <- app_assoc. reflexivity.
Qed.

(** The loop of [_validate_connections], entry by entry. *)
Lemma validate_connections_findings (w : ValidationService.WorkflowJSON) :
  ValidationService.validate_connections w
  = Ok (flat_map (connection_findings (node_names w))
          (ValidationService.wf_connections w)).
Proof.
  unfold ValidationService.validate_connections.
  rewrite (foldM_app_findings (connection_findings (node_names w))).
  - reflexivity.
  - intros acc item. unfold connection_findings. fold (node_names w).
    destruct (negb (ValidationService.name_in (node_names w) (fst item)));
      [reflexivity |].
    unfold ValidationService.has_key, ValidationService.getitem_outputs.
    destruct (assoc (snd item) "main") as [groups |]; cbn [bind];
      [reflexivity | rewrite app_nil_r; reflexivity].
Qed.

Lemma flat_map_nil {A B : Type} (f : A -> list B) (l : list A) :
  flat_map f l = [] <-> forall x, In x l -> f x = [].
Proof.
  induction l as [| a l IH]; simpl.
  - split; [intros _ x [] | reflexivity].
  - split.
    + intros H. apply app_eq_nil in H. destruct H as (Ha & Hl).
      intros x [<- | Hx]; [exact Ha | apply IH; assumption].
    + intros H. rewrite (H a (or_introl eq_refl)). simpl.
      apply IH. intros x Hx. apply H. right. exact Hx.
Qed.

Lemma connection_findings_nil (names : list string)
  (item : string * ValidationService.conn_data) :
  connection_findings names item = [] <->
  In (fst item) names /\
  forall groups group c,
    assoc (snd item) "main" = Some groups ->
    In group groups -> In c group ->
    In (ValidationService.wc_node c) names.
Proof.
  unfold connection_findings.
  destruct (ValidationService.name_in names (fst item)) eqn:Esrc; cbn [negb].
  - apply name_in_In in Esrc.
    destruct (assoc (snd item) "main") as [groups |].
    + rewrite flat_map_nil. split.
      * intros H. split; [exact Esrc |].
        intros groups' group c [= <-] Hg Hc.
        specialize (H group Hg). rewrite flat_map_nil in H.
        specialize (H c Hc).
        destruct (ValidationService.name_in names (ValidationService.wc_node c))
          eqn:Et; [apply name_in_In, Et | discriminate H].
      * intros (_ & H) group Hg. rewrite flat_map_nil. intros c Hc.
        rewrite (proj2 (name_in_In _ _) (H groups group c eq_refl Hg Hc)).
        reflexivity.
    + split; [intros _; split; [exact Esrc | discriminate] | reflexivity].
  - split; [discriminate |]. intros (H & _).
    apply name_in_In in H. congruence.
Qed.

Lemma connections_valid_iff_helper (w : ValidationService.WorkflowJSON) :
  ValidationService.validate_connections w = Ok [] <-> connections_resolved w.
Proof.
  rewrite validate_connections_findings. split.
  - intros [= H]. rewrite flat_map_nil in H.
    intros source outputs Hin.
    apply (connection_findings_nil (node_names w) (source, outputs)).
    apply H, Hin.
  - intros H. f_equal. apply flat_map_nil. intros [source outputs] Hin.
    apply connection_findings_nil. apply H, Hin.
Qed.

(** X2.  [_validate_connections] reports no finding exactly when every
    source name and every target listed under [main] names a node; what
    is listed under another connection type is not looked at. *)
Theorem connections_valid_iff_resolved :
  forall w : ValidationService.WorkflowJSON,
    ValidationService.validate_connections w = Ok [] <-> connections_resolved w.
Proof. exact connections_valid_iff_helper. Qed.

Lemma validate_structure_findings (w : ValidationService.WorkflowJSON) :
  ValidationService.validate_structure w
  = Ok (if NodeSchemas.nonempty (ValidationService.wf_nodes w) then []
        else [ValidationService.mk_error "structure"
                "Workflow must contain at least one node" None]).
Proof.
  unfold ValidationService.validate_structure. cbn.
  destruct (ValidationService.wf_nodes w); reflexivity.
Qed.

Lemma validate_nodes_findings (w : ValidationService.WorkflowJSON) :
  ValidationService.validate_nodes w
  = Ok (flat_map
          (fun n =>
             (if Nat.eqb (List.length (ValidationService.wn_position n)) 2
              then [] else [position_error n])
             ++ (if startswith (ValidationService.wn_type n) "n8n-nodes-base."
                 then [] else [type_format_error n]))
          (ValidationService.wf_nodes w)).
Proof.
  unfold ValidationService.validate_nodes.
  rewrite (foldM_app_findings
             (fun n =>
                (if Nat.eqb (List.length (ValidationService.wn_position n)) 2
                 then [] else [position_error n])
                ++ (if startswith (ValidationService.wn_type n) "n8n-nodes-base."
                    then [] else [type_format_error n]))).
  - reflexivity.
  - intros acc n. rewrite validate_one_node_findings. reflexivity.
Qed.

Lemma length_zero_nil {A : Type} (l : list A) :
  Nat.eqb (List.length l) 0 = true <-> l = [].
Proof. destruct l; simpl; split; congruence. Qed.

(** X3.  [validate_workflow] judges a workflow valid exactly when it has
    a node, every node has a two-coordinate position and a type tag
    under [n8n-nodes-base.], the node names are pairwise distinct, and
    the connections resolve; warnings play no part. *)
Theorem valid_iff_well_formed :
  forall w : ValidationService.WorkflowJSON,
    (exists r, ValidationService.validate_workflow w = Ok r
               /\ ValidationService.isValid r = true)
    <->
    (ValidationService.wf_nodes w <> []
     /\ (forall n, In n (ValidationService.wf_nodes w) -> node_well_shaped n)
     /\ NoDup (node_names w)
     /\ connections_resolved w).
Proof.
  intros w. unfold ValidationService.validate_workflow.
  rewrite validate_structure_findings, validate_nodes_findings,
    validate_connections_findings.
  destruct (generate_warnings_total w) as (ws & ->). cbn [bind].
  split.
  - intros (r & [= <-] & Hvalid). cbn [ValidationService.isValid] in Hvalid.
    apply length_zero_nil in Hvalid.
    apply app_eq_nil in Hvalid. destruct Hvalid as (H1 & Hvalid).
    apply app_eq_nil in Hvalid. destruct Hvalid as (H2 & Hvalid).
    apply app_eq_nil in Hvalid. destruct Hvalid as (H3 & H4).
    split; [| split; [| split]].
    + intros E. rewrite E in H1. discriminate H1.
    + intros n Hn. rewrite flat_map_nil in H2. specialize (H2 n Hn).
      apply app_eq_nil in H2. destruct H2 as (Hp & Ht). split.
      * destruct (Nat.eqb_spec (List.length (ValidationService.wn_position n)) 2);
          [assumption | discriminate Hp].
      * destruct (startswith _ _); [reflexivity | discriminate Ht].
    + apply unique_names_iff_helper, H4.
    + apply connections_valid_iff_helper. rewrite validate_connections_findings.
      rewrite H3. reflexivity.
  - intros (Hne & Hshape & Hnd & Hres). eexists. split; [reflexivity |].
    cbn [ValidationService.isValid]. apply length_zero_nil.
    replace (if NodeSchemas.nonempty (ValidationService.wf_nodes w) then _ else _)
      with (@nil ValidationService.ValidationError)
      by (destruct (ValidationService.wf_nodes w); [congruence | reflexivity]).
    rewrite (proj2 (flat_map_nil _ _)).
    2:{ intros n Hn. destruct (Hshape n Hn) as (Hp & Ht).
        rewrite Hp, Ht. reflexivity. }
    apply connections_valid_iff_helper in Hres.
    rewrite validate_connections_findings in Hres. injection Hres as ->.
    apply unique_names_iff_helper in Hnd. rewrite Hnd. reflexivity.
Qed.

Lemma valid_iff_well_formed_witness :
  exists r, ValidationService.validate_workflow two_node_workflow = Ok r
            /\ ValidationService.isValid r = true.
Proof.
  apply (proj2 (valid_iff_well_formed two_node_workflow)).
  split; [discriminate |]. split; [| split].
  - intros n [<- | [<- | []]]; split; reflexivity.
  - apply nodupb_sound. reflexivity.
  - intros source outputs [[= <- <-] | []]. split; [left; reflexivity |].
    intros groups group c [= <-] [<- | []] [<- | []]. right. left. reflexivity.
Defined.

(** ** Node schemas: what [validate_node] accepts *)

Lemma missing_required_findings (p : dict) (required : list string) :
  NodeSchemas.missing_required (VDict p) required
  = Ok (flat_map (fun k => if dict_has p k then []
                           else ["Missing required parameter: " +++ k])
                 required).
Proof.
  unfold NodeSchemas.missing_required.
  rewrite (foldM_app_findings
             (fun k => if dict_has p k then []
                       else ["Missing required parameter: " +++ k])).
  - reflexivity.
  - intros acc k. cbn [py_in bind]. destruct (dict_has p k);
      [rewrite app_nil_r |]; reflexivity.
Qed.

Lemma dict_has_nonempty (p : dict) (k : string) :
  dict_has p k = true -> truthy (VDict p) = true.
Proof. destruct p; [discriminate | reflexivity]. Qed.

(** X4.  For a node of a registered type whose parameters are a
    dictionary (or absent) and whose credentials, if any, are a
    dictionary, [validate_node] returns, and it judges the node valid
    exactly when every required parameter is present and, where the type
    requires credentials, the credential kind of the type is bound;
    warnings do not count. *)
Theorem validate_node_valid_iff :
  forall (d p : dict) (t : string) (sch : NodeSchemas.schema),
    dict_get d "type" = Some (VStr t) ->
    assoc NodeSchemas.schemas t = Some sch ->
    dict_get_default d "parameters" (VDict []) = VDict p ->
    (dict_get d "credentials" = None
     \/ exists bag, dict_get d "credentials" = Some (VDict bag)) ->
    exists v,
      NodeSchemas.validate_node (VDict d) = Ok v /\
      (NodeSchemas.valid v = true <->
       (forall k, In k (NodeSchemas.required sch) -> dict_has p k = true)
       /\ credential_bound d sch).
Proof.
  intros d p t sch Ht Hs Hp Hc. unfold NodeSchemas.validate_node.
  unfold py_get at 1. unfold dict_get_default at 1. rewrite Ht.
  cbn [bind NodeSchemas.schemas_get]. rewrite Hs.
  unfold py_get. rewrite Hp. cbn [bind].
  rewrite missing_required_findings. cbn [bind]. cbv zeta.
  set (errors1 := flat_map _ (NodeSchemas.required sch)).
  match goal with
  | |- context [if ?c then errors1 ++ ?x else errors1] =>
      set (errors2 := if c then errors1 ++ x else errors1)
  end.
  assert (H1 : errors1 = [] <->
               forall k, In k (NodeSchemas.required sch) -> dict_has p k = true).
  { subst errors1. rewrite flat_map_nil. split; intros H k Hk.
    - specialize (H k Hk). destruct (dict_has p k); [reflexivity | discriminate H].
    - rewrite (H k Hk). reflexivity. }
  assert (H2 : errors2 = [] <-> errors1 = []).
  { subst errors2. split.
    - destruct (_ && _); [| tauto]. intros H. apply app_eq_nil in H. tauto.
    - intros E. destruct (NodeSchemas.required sch) as [| k req] eqn:Er;
        [rewrite E; reflexivity |].
      assert (Hk : dict_has p k = true)
        by (apply (proj1 H1 E); left; reflexivity).
      rewrite (dict_has_nonempty p k Hk). cbn [negb andb NodeSchemas.nonempty].
      exact E. }
  cbn [py_in bind].
  set (W := if NodeSchemas.error_handling_recommended sch then _ else _).
  assert (Hw : exists ws, W = Ok ws).
  { subst W. destruct (NodeSchemas.error_handling_recommended sch);
      [destruct (dict_has d "onError") |]; eexists; reflexivity. }
  destruct Hw as (ws & Hw). clearbody W. subst W.
  unfold credential_bound.
  destruct (NodeSchemas.requires_credentials sch) eqn:Ereq.
  - unfold dict_has at 1.
    destruct Hc as [Hc | (bag & Hc)]; rewrite Hc; cbn [negb bind].
    + eexists. split; [reflexivity |]. cbn [NodeSchemas.valid].
      rewrite length_zero_nil. split.
      * intros E. apply app_eq_nil in E. destruct E as (_ & E). discriminate E.
      * intros (_ & H). destruct (H eq_refl) as (bag & Hbag & _). discriminate Hbag.
    + destruct (NodeSchemas.credential_type sch) as [ct |] eqn:Ect.
      * unfold py_getitem. rewrite Hc. cbn [bind py_in].
        eexists. split; [reflexivity |]. cbn [NodeSchemas.valid].
        rewrite length_zero_nil. split.
        -- intros E. destruct (dict_has bag ct) eqn:Eb.
           ++ split; [apply H1, H2, E |]. intros _. exists bag.
              split; [reflexivity |]. intros ct' [= <-]. exact Eb.
           ++ apply app_eq_nil in E. destruct E as (_ & E). discriminate E.
        -- intros (Hreq & H). destruct (H eq_refl) as (bag' & [= <-] & Hb).
           rewrite (Hb ct eq_refl). apply H2, H1, Hreq.
      * eexists. split; [reflexivity |]. cbn [NodeSchemas.valid].
        rewrite length_zero_nil, H2, H1. split.
        -- intros H. split; [exact H |]. intros _. exists bag.
           split; [reflexivity | discriminate].
        -- tauto.
  - eexists. split; [reflexivity |]. cbn [NodeSchemas.valid].
    rewrite length_zero_nil, H2, H1. split.
    + intros H. split; [exact H | discriminate].
    + tauto.
Qed.

Lemma validate_node_valid_iff_witness :
  exists v,
    NodeSchemas.validate_node (VDict gmail_complete) = Ok v /\
    (NodeSchemas.valid v = true <->
     (forall k, In k ["resource"; "operation"] ->
                dict_has [("resource", VStr "message"); ("operation", VStr "send")] k
                = true)
     /\ credential_bound gmail_complete gmail_schema).
Proof.
  exact (validate_node_valid_iff gmail_complete
           [("resource", VStr "message"); ("operation", VStr "send")]
           "n8n-nodes-base.gmail" gmail_schema eq_refl eq_refl eq_refl
           (or_intror (ex_intro _ [("gmailOAuth2", gmail_reference)] eq_refl))).
Defined.

(** ** The quality scorer: range of the score *)

Lemma node_count_score_range (n : nat) :
  (0 <= QualityValidator.node_count_score n <= 20)%Z.
Proof.
  unfold QualityValidator.node_count_score.
  repeat match goal with |- context [if ?b then _ else _] => destruct b end; lia.
Qed.

Lemma credentials_score_range (p : Q) :
  (0 <= QualityValidator.credentials_score p <= 15)%Z.
Proof.
  unfold QualityValidator.credentials_score.
  repeat match goal with |- context [if ?b then _ else _] => destruct b end; lia.
Qed.

Lemma parameters_score_range (p : Q) :
  (0 <= QualityValidator.parameters_score p <= 15)%Z.
Proof.
  unfold QualityValidator.parameters_score.
  repeat match goal with |- context [if ?b then _ else _] => destruct b end; lia.
Qed.

Lemma error_handling_score_range (p : Q) :
  (0 <= QualityValidator.error_handling_score p <= 20)%Z.
Proof.
  unfold QualityValidator.error_handling_score.
  repeat match goal with |- context [if ?b then _ else _] => destruct b end; lia.
Qed.

Lemma documentation_score_range (n : nat) :
  (0 <= QualityValidator.documentation_score n <= 10)%Z.
Proof.
  unfold QualityValidator.documentation_score.
  repeat match goal with |- context [if ?b then _ else _] => destruct b end; lia.
Qed.

Lemma flow_complexity_score_range (c : string) (n : nat) :
  (0 <= QualityValidator.flow_complexity_score c n <= 15)%Z.
Proof.
  unfold QualityValidator.flow_complexity_score.
  repeat match goal with |- context [if ?b then _ else _] => destruct b end; lia.
Qed.

Section CheckRanges.

Variable workflow : dict.
Variable complexity : string.

Lemma check_node_count_range (r : QualityValidator.node_count_result) :
  QualityValidator.check_node_count workflow complexity = Ok r ->
  (0 <= QualityValidator.nc_score r <= 20)%Z.
Proof.
  unfold QualityValidator.check_node_count. intros H. bind_inv_as H n Hn.
  injection H as <-. apply node_count_score_range.
Qed.

Lemma check_credentials_range (r : QualityValidator.credentials_result) :
  QualityValidator.check_credentials workflow = Ok r ->
  (0 <= QualityValidator.cr_score r <= 15)%Z.
Proof.
  unfold QualityValidator.check_credentials. intros H. bind_inv_as H nodes Hn.
  bind_inv_as H service Hs. destruct (negb _).
  - injection H as <-. simpl. lia.
  - bind_inv_as H bound Hb. injection H as <-. apply credentials_score_range.
Qed.

Lemma check_parameters_range (r : QualityValidator.parameters_result) :
  QualityValidator.check_parameters workflow = Ok r ->
  (0 <= QualityValidator.pr_score r <= 15)%Z.
Proof.
  unfold QualityValidator.check_parameters. intros H. bind_inv_as H nodes Hn.
  bind_inv_as H counted Hc. bind_inv_as H complete Hk.
  injection H as <-. apply parameters_score_range.
Qed.

Lemma check_error_handling_range (r : QualityValidator.error_handling_result) :
  QualityValidator.check_error_handling workflow = Ok r ->
  (0 <= QualityValidator.eh_score r <= 20)%Z.
Proof.
  unfold QualityValidator.check_error_handling. intros H.
  bind_inv_as H nodes Hn. bind_inv_as H processable Hp. destruct (negb _).
  - injection H as <-. simpl. lia.
  - bind_inv_as H handled Hh. injection H as <-.
    apply error_handling_score_range.
Qed.

Lemma check_connections_range (r : QualityValidator.connections_result) :
  QualityValidator.check_connections workflow = Ok r ->
  (0 <= QualityValidator.cn_score r <= 5)%Z.
Proof.
  unfold QualityValidator.check_connections. intros H.
  bind_inv_as H nodes Hn. bind_inv_as H nms Hnames.
  bind_inv_as H triggers Ht. bind_inv_as H stickies Hs.
  bind_inv_as H inputs Hi. injection H as <-.
  cbn [QualityValidator.cn_score]. destruct (Nat.eqb _ 0); lia.
Qed.

Lemma check_documentation_range (r : QualityValidator.documentation_result) :
  QualityValidator.check_documentation workflow = Ok r ->
  (0 <= QualityValidator.dc_score r <= 10)%Z.
Proof.
  unfold QualityValidator.check_documentation. intros H.
  bind_inv_as H nodes Hn. bind_inv_as H notes Hs. injection H as <-.
  apply documentation_score_range.
Qed.

Lemma check_flow_complexity_range (r : QualityValidator.flow_complexity_result) :
  QualityValidator.check_flow_complexity workflow complexity = Ok r ->
  (0 <= QualityValidator.fc_score r <= 15)%Z.
Proof.
  unfold QualityValidator.check_flow_complexity. intros H.
  bind_inv_as H nodes Hn. bind_inv_as H b1 H1. bind_inv_as H b2 H2.
  bind_inv_as H b3 H3. bind_inv_as H b4 H4. bind_inv_as H b5 H5.
  injection H as <-. apply flow_complexity_score_range.
Qed.

End CheckRanges.

(** X5.  Whenever [validate] returns, every check scores between 0 and
    its own maximum (20, 15, 15, 20, 5, 10, 15), the overall score is
    their sum and lies between 0 and 100, and the result is flagged
    valid exactly when the score is at least 80. *)
Theorem validate_score_range :
  forall (workflow : dict) (complexity : string)
         (r : QualityValidator.validation_result),
    QualityValidator.validate workflow complexity = Ok r ->
    let d := QualityValidator.vr_details r in
    (0 <= QualityValidator.nc_score (QualityValidator.node_count d) <= 20)%Z /\
    (0 <= QualityValidator.cr_score (QualityValidator.credentials d) <= 15)%Z /\
    (0 <= QualityValidator.pr_score (QualityValidator.parameters d) <= 15)%Z /\
    (0 <= QualityValidator.eh_score (QualityValidator.error_handling d) <= 20)%Z /\
    (0 <= QualityValidator.cn_score (QualityValidator.connections d) <= 5)%Z /\
    (0 <= QualityValidator.dc_score (QualityValidator.documentation d) <= 10)%Z /\
    (0 <= QualityValidator.fc_score (QualityValidator.flow_complexity d) <= 15)%Z /\
    QualityValidator.vr_score r = QualityValidator.calculate_score d /\
    (0 <= QualityValidator.vr_score r <= 100)%Z /\
    (QualityValidator.vr_valid r = true <-> (80 <= QualityValidator.vr_score r)%Z).
Proof.
  intros workflow complexity r H. unfold QualityValidator.validate in H.
  bind_inv_as H r1 H1. bind_inv_as H r2 H2. bind_inv_as H r3 H3.
  bind_inv_as H r4 H4. bind_inv_as H r5 H5. bind_inv_as H r6 H6.
  bind_inv_as H r7 H7. injection H as <-.
  apply check_node_count_range in H1. apply check_credentials_range in H2.
  apply check_parameters_range in H3. apply check_error_handling_range in H4.
  apply check_connections_range in H5. apply check_documentation_range in H6.
  apply check_flow_complexity_range in H7.
  cbn [QualityValidator.vr_details QualityValidator.vr_score
       QualityValidator.vr_valid QualityValidator.node_count
       QualityValidator.credentials QualityValidator.parameters
       QualityValidator.error_handling QualityValidator.connections
       QualityValidator.documentation QualityValidator.flow_complexity].
  unfold QualityValidator.calculate_score, QualityValidator.min_quality_score.
  cbn [QualityValidator.node_count
       QualityValidator.credentials QualityValidator.parameters
       QualityValidator.error_handling QualityValidator.connections
       QualityValidator.documentation QualityValidator.flow_complexity].
  repeat split; try lia; try reflexivity.
Qed.

Lemma validate_score_range_witness :
  exists r,
    QualityValidator.validate five_nodes "simple" = Ok r /\
    (0 <= QualityValidator.vr_score r <= 100)%Z.
Proof.
  destruct (QualityValidator.validate five_nodes "simple") as [r | e] eqn:E;
    [| vm_compute in E; discriminate E].
  exists r. split; [reflexivity |].
  apply (validate_score_range five_nodes "simple" r E).
Defined.

(** ** The quality scorer: feedback *)

Lemma length_snoc_if {A : Type} (c : bool) (l : list A) (x : A) :
  List.length (if c then l ++ [x] else l) = List.length l + failed (negb c).
Proof.
  destruct c; cbn [negb failed]; [rewrite length_app; reflexivity | lia].
Qed.

(** X6.  Whenever [generate_feedback] returns, it holds exactly one line
    for each check that did not pass. *)
Theorem feedback_one_line_per_failed_check :
  forall (vr : QualityValidator.validation_result) (fb : list string),
    QualityValidator.generate_feedback vr = Ok fb ->
    List.length fb = failed_checks (QualityValidator.vr_details vr).
Proof.
  intros vr fb H. unfold QualityValidator.generate_feedback in H.
  set (d := QualityValidator.vr_details vr) in *. cbv zeta in H.
  match type of H with
  | context [if negb (QualityValidator.nc_passed ?n) then [] ++ ?x else []] =>
      set (fb1 := if negb (QualityValidator.nc_passed n) then [] ++ x else [])
        in H;
      assert (E1 : List.length fb1 = failed (QualityValidator.nc_passed n))
        by (subst fb1; destruct (QualityValidator.nc_passed n); reflexivity);
      clearbody fb1
  end.
  bind_inv_as H fb2 H2. bind_inv_as H fb4 H4. bind_inv_as H fb5 H5.
  injection H as <-.
  assert (E2 : List.length fb2
               = List.length fb1
                 + failed (QualityValidator.cr_passed (QualityValidator.credentials d))).
  { destruct (QualityValidator.cr_passed (QualityValidator.credentials d));
      cbn [negb] in H2.
    - injection H2 as <-. cbn [failed]. lia.
    - bind_inv_as H2 x Hx. bind_inv_as H2 y Hy. injection H2 as <-.
      rewrite length_app. cbn [List.length failed]. lia. }
  assert (E4 : List.length fb4
               = List.length fb2
                 + failed (QualityValidator.pr_passed (QualityValidator.parameters d))
                 + failed (QualityValidator.eh_passed
                             (QualityValidator.error_handling d))).
  { destruct (QualityValidator.eh_passed (QualityValidator.error_handling d));
      cbn [negb] in H4.
    - injection H4 as <-. rewrite length_snoc_if, negb_involutive.
      cbn [failed]. lia.
    - bind_inv_as H4 x Hx. injection H4 as <-.
      rewrite length_app, length_snoc_if, negb_involutive.
      cbn [List.length failed]. lia. }
  assert (E5 : List.length fb5
               = List.length fb4
                 + failed (QualityValidator.cn_passed (QualityValidator.connections d))).
  { destruct (QualityValidator.cn_passed (QualityValidator.connections d));
      cbn [negb] in H5.
    - injection H5 as <-. cbn [failed]. lia.
    - bind_inv_as H5 x Hx. injection H5 as <-. rewrite length_app.
      cbn [List.length failed]. lia. }
  rewrite !length_snoc_if, !negb_involutive. unfold failed_checks.
  fold d. lia.
Qed.

Lemma feedback_one_line_per_failed_check_witness :
  exists vr fb,
    QualityValidator.validate five_nodes "simple" = Ok vr /\
    QualityValidator.generate_feedback vr = Ok fb /\
    List.length fb = 5 /\
    failed_checks (QualityValidator.vr_details vr) = 5.
Proof.
  destruct (QualityValidator.validate five_nodes "simple") as [vr | e] eqn:E;
    [| vm_compute in E; discriminate E].
  destruct (QualityValidator.generate_feedback vr) as [fb | e] eqn:F;
    [| vm_compute in E; injection E as <-; vm_compute in F; discriminate F].
  exists vr, fb. split; [reflexivity |]. split; [exact F |].
  pose proof (feedback_one_line_per_failed_check vr fb F) as H.
  vm_compute in E. injection E as <-. split; [| vm_compute; reflexivity].
  rewrite H. vm_compute. reflexivity.
Defined.

Section NoProcessableNodes.

Variables (workflow : dict) (complexity : string).
Variable nodes : list value.
Hypothesis Hnodes : py_iter (QualityValidator.get_nodes workflow) = Ok nodes.
Hypothesis Hnone :
  QualityValidator.filterM QualityValidator.is_processable nodes = Ok [].

Lemma check_error_handling_without_nodes :
  QualityValidator.check_error_handling workflow
  = Ok (QualityValidator.mk_error_handling 0 20 None None None false
          "No processable nodes found").
Proof.
  unfold QualityValidator.check_error_handling. rewrite Hnodes. cbn [bind].
  rewrite Hnone. reflexivity.
Qed.

(** With no processable node the error-handling result has no
    [percentage], and the feedback line that formats it fails. *)
Lemma generate_feedback_without_nodes (vr : QualityValidator.validation_result) :
  QualityValidator.validate workflow complexity = Ok vr ->
  QualityValidator.generate_feedback vr = Raise (KeyError "percentage").
Proof.
  intros H. unfold QualityValidator.validate in H.
  bind_inv_as H r1 H1. bind_inv_as H r2 H2. bind_inv_as H r3 H3.
  bind_inv_as H r4 H4. bind_inv_as H r5 H5. bind_inv_as H r6 H6.
  bind_inv_as H r7 H7. injection H as <-.
  rewrite check_error_handling_without_nodes in H4. injection H4 as <-.
  unfold QualityValidator.generate_feedback.
  cbn [QualityValidator.vr_details QualityValidator.credentials
       QualityValidator.error_handling QualityValidator.eh_passed
       QualityValidator.eh_percentage].
  assert (Hcr : QualityValidator.cr_passed r2 = true \/
                exists a b, QualityValidator.cr_service_nodes r2 = Some a /\
                            QualityValidator.cr_with_credentials r2 = Some b).
  { unfold QualityValidator.check_credentials in H2.
    bind_inv_as H2 ns Hns. bind_inv_as H2 service Hs. destruct (negb _).
    - injection H2 as <-. left. reflexivity.
    - bind_inv_as H2 bound Hb. injection H2 as <-. right.
      eexists. eexists. split; reflexivity. }
  destruct Hcr as [-> | (a & b & -> & ->)].
  - reflexivity.
  - destruct (negb (QualityValidator.cr_passed r2)); reflexivity.
Qed.

End NoProcessableNodes.

(** X7.  For a workflow without processable nodes (none at all, or only
    triggers and annotation nodes) [validate] omits [percentage] from
    the error-handling result, and [generate_feedback] on that result
    raises [KeyError('percentage')] instead of returning feedback. *)
Theorem feedback_raises_without_processable_nodes :
  forall (workflow : dict) (complexity : string) (nodes : list value)
         (vr : QualityValidator.validation_result),
    py_iter (QualityValidator.get_nodes workflow) = Ok nodes ->
    QualityValidator.filterM QualityValidator.is_processable nodes = Ok [] ->
    QualityValidator.validate workflow complexity = Ok vr ->
    QualityValidator.eh_percentage
      (QualityValidator.error_handling (QualityValidator.vr_details vr)) = None
    /\ QualityValidator.generate_feedback vr = Raise (KeyError "percentage").
Proof.
  intros workflow complexity nodes vr Hnodes Hnone Hv. split.
  - unfold QualityValidator.validate in Hv.
    bind_inv_as Hv r1 H1. bind_inv_as Hv r2 H2. bind_inv_as Hv r3 H3.
    bind_inv_as Hv r4 H4. bind_inv_as Hv r5 H5. bind_inv_as Hv r6 H6.
    bind_inv_as Hv r7 H7. injection Hv as <-.
    rewrite (check_error_handling_without_nodes workflow nodes Hnodes Hnone) in H4.
    injection H4 as <-. reflexivity.
  - exact (generate_feedback_without_nodes workflow complexity nodes Hnodes
             Hnone vr Hv).
Qed.

Lemma feedback_raises_without_processable_nodes_witness :
  exists vr,
    QualityValidator.validate trigger_and_note "standard" = Ok vr /\
    QualityValidator.generate_feedback vr = Raise (KeyError "percentage").
Proof.
  destruct (QualityValidator.validate trigger_and_note "standard")
    as [vr | e] eqn:E; [| vm_compute in E; discriminate E].
  exists vr. split; [reflexivity |].
  apply (feedback_raises_without_processable_nodes trigger_and_note "standard"
           [ plain_node "Start" "n8n-nodes-base.manualTrigger";
             plain_node "Note" "n8n-nodes-base.stickyNote" ] vr
           eq_refl eq_refl E).
Defined.

(** X8.  The refinement loop does not catch that failure: when the first
    candidate, once repaired, has no processable node and scores below
    the threshold, [generate] raises [KeyError('percentage')] while it
    prepares the feedback for the second attempt. *)
Theorem generate_raises_without_processable_nodes :
  forall (generate_workflow : nat -> string -> option dict)
         (complexity prompt : string) (s s' : supply)
         (raw refined : dict) (nodes : list value)
         (q : QualityValidator.validation_result),
    generate_workflow 0 prompt = Some raw ->
    truthy (VDict raw) = true ->
    EnhancedWorkflowGenerator.validate_and_refine raw complexity s
    = Ok (refined, s') ->
    py_iter (QualityValidator.get_nodes refined) = Ok nodes ->
    QualityValidator.filterM QualityValidator.is_processable nodes = Ok [] ->
    QualityValidator.validate refined complexity = Ok q ->
    (QualityValidator.vr_score q < 80)%Z ->
    EnhancedWorkflowGenerator.generate generate_workflow complexity prompt s
    = Raise (KeyError "percentage").
Proof.
  intros generate_workflow complexity prompt s s' raw refined nodes q
    Hraw Htruthy Hrefine Hnodes Hnone Hq Hscore.
  unfold EnhancedWorkflowGenerator.generate, EnhancedWorkflowGenerator.max_attempts.
  cbn [Config.max_generation_attempts EnhancedWorkflowGenerator.attempts].
  rewrite Hraw, Htruthy. cbn [negb]. rewrite Hrefine. cbn [bind].
  rewrite Hq. cbn [bind].
  replace (Z.leb Config.min_quality_score (QualityValidator.vr_score q))
    with false by (symmetry; apply Z.leb_gt; exact Hscore).
  rewrite andb_false_r.
  cbn [Nat.ltb Nat.leb Nat.sub].
  rewrite (generate_feedback_without_nodes refined complexity nodes Hnodes
             Hnone q Hq).
  reflexivity.
Qed.

Lemma generate_raises_without_processable_nodes_witness :
  EnhancedWorkflowGenerator.generate (fun _ _ => Some empty_candidate)
    "standard" "prompt" ids
  = Raise (KeyError "percentage").
Proof.
  destruct (EnhancedWorkflowGenerator.validate_and_refine empty_candidate
              "standard" ids) as [[refined s'] | e] eqn:R;
    [| vm_compute in R; discriminate R].
  destruct (QualityValidator.validate refined "standard") as [q | e] eqn:V;
    [| vm_compute in R; injection R as <- <-; vm_compute in V; discriminate V].
  destruct (py_iter (QualityValidator.get_nodes refined)) as [nodes | e] eqn:N;
    [| vm_compute in R; injection R as <- <-; vm_compute in N; discriminate N].
  apply (generate_raises_without_processable_nodes
           (fun _ _ => Some empty_candidate) "standard" "prompt" ids s'
           empty_candidate refined nodes q eq_refl eq_refl R N).
  - vm_compute in R. injection R as <- <-. vm_compute in N. injection N as <-.
    vm_compute. reflexivity.
  - exact V.
  - vm_compute in R. injection R as <- <-. vm_compute in V. injection V as <-.
    vm_compute. reflexivity.
Defined.

(** ** The refinement loop: budget and outcome *)

Lemma requests_app (a b : list EnhancedWorkflowGenerator.event) :
  requests (a ++ b) = requests a + requests b.
Proof. unfold requests. rewrite filter_app, length_app. reflexivity. Qed.

Lemma scores_app (a b : list EnhancedWorkflowGenerator.event) :
  scores (a ++ b) = scores a ++ scores b.
Proof. unfold scores. apply flat_map_app. Qed.

Lemma best_of_app (start : Z) (a b : list Z) :
  best_of start (a ++ b) = best_of (best_of start a) b.
Proof. unfold best_of. apply fold_left_app. Qed.

Lemma best_of_ge (l : list Z) (start : Z) : (start <= best_of start l)%Z.
Proof.
  revert start. induction l as [| x l IH]; intros start; simpl; [lia |].
  specialize (IH (Z.max start x)). unfold best_of in *. simpl. lia.
Qed.

Lemma best_of_lt (bound : Z) (l : list Z) (start : Z) :
  (start < bound)%Z -> Forall (fun x => (x < bound)%Z) l ->
  (best_of start l < bound)%Z.
Proof.
  revert start. induction l as [| x l IH]; intros start Hs Hl; simpl;
    [exact Hs |].
  inversion Hl; subst. apply IH; [lia | assumption].
Qed.

Lemma validate_valid_leb (workflow : dict) (complexity : string)
  (r : QualityValidator.validation_result) :
  QualityValidator.validate workflow complexity = Ok r ->
  QualityValidator.vr_valid r
  = Z.leb QualityValidator.min_quality_score (QualityValidator.vr_score r).
Proof.
  intros H. unfold QualityValidator.validate in H.
  bind_inv_as H r1 H1. bind_inv_as H r2 H2. bind_inv_as H r3 H3.
  bind_inv_as H r4 H4. bind_inv_as H r5 H5. bind_inv_as H r6 H6.
  bind_inv_as H r7 H7. injection H as <-. reflexivity.
Qed.

Lemma scores_step (prompt : string) (z : Z)
  (ext : list EnhancedWorkflowGenerator.event) :
  scores (EnhancedWorkflowGenerator.Requested prompt
          :: EnhancedWorkflowGenerator.Refined
          :: EnhancedWorkflowGenerator.Scored z :: ext)
  = z :: scores ext.
Proof. reflexivity. Qed.

Section LoopFacts.

Variable generate_workflow : nat -> string -> option dict.
Variable complexity : string.

(** What one run of the loop adds to the log and to the best candidate,
    from any state of its local variables. *)
Lemma attempts_outcome :
  forall remaining attempt prompt best_workflow best_score s log o log',
    EnhancedWorkflowGenerator.attempts generate_workflow complexity
      remaining attempt prompt best_workflow best_score s log = Ok (o, log') ->
    exists ext,
      log' = log ++ ext /\
      List.length (filter is_refined ext) = List.length (scores ext) /\
      List.length (scores ext) <= requests ext /\
      match o with
      | EnhancedWorkflowGenerator.ThresholdMet w sc q k =>
          attempt < k <= attempt + remaining /\
          requests ext = k - attempt /\
          sc = QualityValidator.vr_score q /\
          QualityValidator.vr_valid q = true /\
          (Config.min_quality_score <= sc)%Z /\
          last (scores ext) 0%Z = sc
      | EnhancedWorkflowGenerator.BestAttempt w sc _ n =>
          n = EnhancedWorkflowGenerator.max_attempts /\
          requests ext = remaining /\
          sc = best_of best_score (scores ext) /\
          Forall (fun x => (x < Config.min_quality_score)%Z) (scores ext) /\
          ((sc = best_score /\ w = best_workflow) \/
           ((best_score < sc)%Z /\ exists g, w = Some g))
      end.
Proof.
  induction remaining as [| remaining IH];
    intros attempt prompt bw bs s log o log' H.
  - cbn [EnhancedWorkflowGenerator.attempts] in H. injection H as <- <-.
    exists []. rewrite app_nil_r. repeat split; try reflexivity.
    + constructor.
    + left. split; reflexivity.
  - cbn [EnhancedWorkflowGenerator.attempts] in H.
    assert (Hskip :
              EnhancedWorkflowGenerator.attempts generate_workflow complexity
                remaining (S attempt) prompt bw bs s
                (log ++ [EnhancedWorkflowGenerator.Requested prompt])
              = Ok (o, log') ->
              exists ext,
                log' = log ++ ext /\
                List.length (filter is_refined ext) = List.length (scores ext) /\
                List.length (scores ext) <= requests ext /\
                match o with
                | EnhancedWorkflowGenerator.ThresholdMet w sc q k =>
                    attempt < k <= attempt + S remaining /\
                    requests ext = k - attempt /\
                    sc = QualityValidator.vr_score q /\
                    QualityValidator.vr_valid q = true /\
                    (Config.min_quality_score <= sc)%Z /\
                    last (scores ext) 0%Z = sc
                | EnhancedWorkflowGenerator.BestAttempt w sc _ n =>
                    n = EnhancedWorkflowGenerator.max_attempts /\
                    requests ext = S remaining /\
                    sc = best_of bs (scores ext) /\
                    Forall (fun x => (x < Config.min_quality_score)%Z)
                           (scores ext) /\
                    ((sc = bs /\ w = bw) \/
                     ((bs < sc)%Z /\ exists g, w = Some g))
                end).
    { intros H'. apply IH in H'. destruct H' as (ext & -> & Hr & Hle & Ho).
      exists (EnhancedWorkflowGenerator.Requested prompt :: ext).
      split; [rewrite <- app_assoc; reflexivity |].
      split; [exact Hr |]. split; [unfold requests in *; simpl; lia |].
      destruct o as [w sc q k | w sc wn n].
      - destruct Ho as (Hk & Hreq & Hrest). split; [lia |].
        split; [unfold requests in *; simpl; lia | exact Hrest].
      - destruct Ho as (Hn & Hreq & Hrest). split; [exact Hn |].
        split; [unfold requests in *; simpl; lia | exact Hrest]. }
    destruct (generate_workflow attempt prompt) as [raw |]; [| exact (Hskip H)].
    destruct (negb (truthy (VDict raw))); [exact (Hskip H) |]. clear Hskip.
    bind_inv_as H refined Hrefine. destruct refined as [refined s'].
    bind_inv_as H q Hq.
    destruct (QualityValidator.vr_valid q
              && Z.leb Config.min_quality_score (QualityValidator.vr_score q))
      eqn:Eaccept.
    + injection H as <- <-. apply andb_prop in Eaccept.
      destruct Eaccept as (Hvalid & Hscore). apply Z.leb_le in Hscore.
      exists [ EnhancedWorkflowGenerator.Requested prompt;
               EnhancedWorkflowGenerator.Refined;
               EnhancedWorkflowGenerator.Scored (QualityValidator.vr_score q) ].
      split; [rewrite <- app_assoc; reflexivity |].
      split; [reflexivity |]. split; [unfold requests; simpl; lia |].
      split; [lia |]. split; [unfold requests; simpl; lia |].
      repeat split; assumption.
    + bind_inv_as H prompt' Hprompt. apply IH in H.
      destruct H as (ext & -> & Hr & Hle & Ho).
      assert (Hlow : (QualityValidator.vr_score q < Config.min_quality_score)%Z).
      { rewrite (validate_valid_leb _ _ _ Hq) in Eaccept.
        apply andb_false_iff in Eaccept.
        unfold Config.min_quality_score,
          QualityValidator.min_quality_score in *.
        destruct Eaccept as [E | E]; apply Z.leb_gt in E; exact E. }
      exists (EnhancedWorkflowGenerator.Requested prompt
              :: EnhancedWorkflowGenerator.Refined
              :: EnhancedWorkflowGenerator.Scored (QualityValidator.vr_score q)
              :: ext).
      split; [rewrite <- !app_assoc; reflexivity |].
      split; [simpl; lia |]. split; [unfold requests in *; simpl; lia |].
      destruct o as [w sc q' k | w sc wn n].
      * destruct Ho as (Hk & Hreq & Hsc & Hvalid & Hmin & Hlast).
        split; [lia |]. split; [unfold requests in *; simpl; lia |].
        split; [exact Hsc |]. split; [exact Hvalid |]. split; [exact Hmin |].
        rewrite scores_step.
        destruct (scores ext) as [| z zs] eqn:Es.
        -- simpl in Hlast. subst sc.
           unfold Config.min_quality_score in Hmin. lia.
        -- exact Hlast.
      * destruct Ho as (Hn & Hreq & Hsc & Hall & Hbest).
        split; [exact Hn |]. split; [unfold requests in *; simpl; lia |].
        rewrite scores_step.
        split.
        -- rewrite Hsc. unfold best_of. cbn [fold_left]. f_equal.
           destruct (Z.ltb_spec bs (QualityValidator.vr_score q)); lia.
        -- split; [constructor; assumption |].
           pose proof (best_of_ge (scores ext)
                         (if Z.ltb bs (QualityValidator.vr_score q)
                          then QualityValidator.vr_score q else bs)) as Hge.
           rewrite <- Hsc in Hge.
           destruct (Z.ltb_spec bs (QualityValidator.vr_score q)) as [L | L].
           ++ right. split; [lia |].
              destruct Hbest as [(_ & ->) | (_ & g & ->)]; eexists; reflexivity.
           ++ destruct Hbest as [(E1 & E2) | (L' & g)];
                [left; split; assumption | right; split; [lia | exact g]].
Qed.

End LoopFacts.

(** X9.  Whatever the collaborator answers, a run of [generate] that
    returns has asked it at most three times; it refined and scored each
    candidate it kept, and no more than it asked for.  An accepted run
    reports the attempt at which it stopped asking (between 1 and 3); a
    run that accepts nothing has asked exactly three times. *)
Theorem generate_request_budget :
  forall (generate_workflow : nat -> string -> option dict)
         (complexity prompt : string) (s : supply)
         (o : EnhancedWorkflowGenerator.outcome)
         (log : list EnhancedWorkflowGenerator.event),
    EnhancedWorkflowGenerator.generate generate_workflow complexity prompt s
    = Ok (o, log) ->
    requests log <= 3 /\
    List.length (filter is_refined log) = List.length (scores log) /\
    List.length (scores log) <= requests log /\
    match o with
    | EnhancedWorkflowGenerator.ThresholdMet _ _ _ k =>
        1 <= k <= 3 /\ requests log = k
    | EnhancedWorkflowGenerator.BestAttempt _ _ _ n =>
        n = 3 /\ requests log = 3
    end.
Proof.
  intros gw complexity prompt s o log H.
  unfold EnhancedWorkflowGenerator.generate in H.
  apply attempts_outcome in H. destruct H as (ext & -> & Hr & Hle & Ho).
  change ([] ++ ext) with ext.
  unfold EnhancedWorkflowGenerator.max_attempts,
    Config.max_generation_attempts in *.
  destruct o as [w sc q k | w sc wn n].
  - destruct Ho as (Hk & Hreq & _). repeat split; try assumption; lia.
  - destruct Ho as (Hn & Hreq & _). repeat split; try assumption; lia.
Qed.

Lemma generate_request_budget_witness :
  exists o log,
    EnhancedWorkflowGenerator.generate (constant_collaborator documented_workflow)
      "simple" "prompt" ids = Ok (o, log) /\
    requests log <= 3.
Proof.
  destruct (EnhancedWorkflowGenerator.generate
              (constant_collaborator documented_workflow) "simple" "prompt" ids)
    as [[o log] | e] eqn:E; [| vm_compute in E; discriminate E].
  exists o, log. split; [reflexivity |].
  apply (generate_request_budget _ _ _ _ o log E).
Defined.

(** X10.  What a run of [generate] returns.  An accepted candidate carries
    its own score, which is at least 80 and is the last one logged.  A
    best attempt carries the greatest score logged, or 0 when nothing was
    scored; that score and every logged score are below 80, and a
    workflow is returned exactly when some candidate scored above 0. *)
Theorem generate_outcome_scores :
  forall (generate_workflow : nat -> string -> option dict)
         (complexity prompt : string) (s : supply)
         (o : EnhancedWorkflowGenerator.outcome)
         (log : list EnhancedWorkflowGenerator.event),
    EnhancedWorkflowGenerator.generate generate_workflow complexity prompt s
    = Ok (o, log) ->
    match o with
    | EnhancedWorkflowGenerator.ThresholdMet _ sc q _ =>
        sc = QualityValidator.vr_score q /\
        QualityValidator.vr_valid q = true /\
        (80 <= sc)%Z /\
        last (scores log) 0%Z = sc
    | EnhancedWorkflowGenerator.BestAttempt w sc _ _ =>
        sc = best_of 0 (scores log) /\
        (0 <= sc < 80)%Z /\
        Forall (fun x => (x < 80)%Z) (scores log) /\
        (w = None <-> sc = 0%Z)
    end.
Proof.
  intros gw complexity prompt s o log H.
  unfold EnhancedWorkflowGenerator.generate in H.
  apply attempts_outcome in H. destruct H as (ext & -> & _ & _ & Ho).
  change ([] ++ ext) with ext. unfold Config.min_quality_score in Ho.
  destruct o as [w sc q k | w sc wn n].
  - destruct Ho as (_ & _ & Hsc & Hvalid & Hmin & Hlast).
    repeat split; assumption.
  - destruct Ho as (_ & _ & Hsc & Hall & Hbest).
    split; [exact Hsc |].
    split; [split; [rewrite Hsc; apply best_of_ge
                   | rewrite Hsc; apply best_of_lt; [lia | exact Hall]] |].
    split; [exact Hall |].
    destruct Hbest as [(E1 & E2) | (L & g & E)].
    + split; intros _; assumption.
    + split; intros E'; [rewrite E in E'; discriminate E' | lia].
Qed.

Lemma generate_outcome_scores_witness :
  exists w sc wn n log,
    EnhancedWorkflowGenerator.generate (constant_collaborator documented_workflow)
      "simple" "prompt" ids
    = Ok (EnhancedWorkflowGenerator.BestAttempt w sc wn n, log) /\
    sc = best_of 0 (scores log) /\ (0 <= sc < 80)%Z.
Proof.
  destruct (EnhancedWorkflowGenerator.generate
              (constant_collaborator documented_workflow) "simple" "prompt" ids)
    as [[[w sc q k | w sc wn n] log] | e] eqn:E;
    [vm_compute in E; discriminate E | | vm_compute in E; discriminate E].
  exists w, sc, wn, n, log. split; [reflexivity |].
  pose proof (generate_outcome_scores _ _ _ _ _ log E) as (H1 & H2 & _).
  split; assumption.
Defined.

(** ** The repair sequence *)

Lemma dict_has_false (d : dict) (k : string) :
  dict_has d k = false -> dict_get d k = None.
Proof. unfold dict_has. destruct (dict_get d k); [discriminate | reflexivity]. Qed.

Lemma dict_has_true (d : dict) (k : string) :
  dict_has d k = true -> exists v, dict_get d k = Some v.
Proof.
  unfold dict_has. destruct (dict_get d k) as [v |]; [| discriminate].
  intros _. exists v. reflexivity.
Qed.

Lemma dict_has_set_mono (d : dict) (k k' : string) (v : value) :
  dict_has d k' = true -> dict_has (dict_set d k v) k' = true.
Proof.
  intros H. destruct (String.eqb_spec k' k) as [-> | N].
  - apply dict_has_set_same.
  - unfold dict_has in *. rewrite dict_get_set_other by exact N. exact H.
Qed.

Lemma has_all_set_mono (d : dict) (k : string) (v : value) (ks : list string) :
  has_all d ks = true -> has_all (dict_set d k v) ks = true.
Proof.
  unfold has_all. rewrite !forallb_forall. intros H x Hx.
  apply dict_has_set_mono, H, Hx.
Qed.

Lemma fills_refl (keys : list string) (d : dict) : fills keys d d.
Proof. intros k. left. reflexivity. Qed.

Lemma fills_trans (keys : list string) (d1 d2 d3 : dict) :
  fills keys d1 d2 -> fills keys d2 d3 -> fills keys d1 d3.
Proof.
  intros H12 H23 k. destruct (H23 k) as [E | (Hk & E)];
    destruct (H12 k) as [E' | (Hk' & E')].
  - left. congruence.
  - right. split; assumption.
  - right. split; [exact Hk | congruence].
  - right. split; assumption.
Qed.

Lemma fills_weaken (keys keys' : list string) (d d' : dict) :
  incl keys keys' -> fills keys d d' -> fills keys' d d'.
Proof.
  intros Hi H k. destruct (H k) as [E | (Hk & E)]; [left; exact E |].
  right. split; [apply Hi, Hk | exact E].
Qed.

Lemma fills_set (keys : list string) (d : dict) (k : string) (v : value) :
  In k keys -> dict_has d k = false -> fills keys d (dict_set d k v).
Proof.
  intros Hk Hd k'. destruct (String.eqb_spec k' k) as [-> | N].
  - right. split; [exact Hk | apply dict_has_false, Hd].
  - left. apply dict_get_set_other, N.
Qed.

Lemma fills_has (keys : list string) (d d' : dict) (k : string) :
  fills keys d d' -> dict_has d k = true -> dict_has d' k = true.
Proof.
  intros H Hk. unfold dict_has in *. destruct (H k) as [-> | (_ & E)];
    [exact Hk | rewrite E in Hk; discriminate Hk].
Qed.

Lemma fills_has_all (keys : list string) (d d' : dict) (ks : list string) :
  fills keys d d' -> has_all d ks = true -> has_all d' ks = true.
Proof.
  unfold has_all. rewrite !forallb_forall. intros H Hks x Hx.
  apply (fills_has keys d d' x H), Hks, Hx.
Qed.

Lemma fills_other (keys : list string) (d d' : dict) (k : string) :
  fills keys d d' -> ~ In k keys -> dict_get d' k = dict_get d k.
Proof.
  intros H Hk. destruct (H k) as [E | (Hin & _)]; [exact E | contradiction].
Qed.

Lemma setdefault_fills (keys : list string) (d : dict) (k : string) (v : value) :
  In k keys ->
  fills keys d (EnhancedWorkflowGenerator.setdefault d k v)
  /\ dict_has (EnhancedWorkflowGenerator.setdefault d k v) k = true.
Proof.
  intros Hk. unfold EnhancedWorkflowGenerator.setdefault.
  destruct (dict_has d k) eqn:E.
  - split; [apply fills_refl | exact E].
  - split; [apply fills_set; assumption | apply dict_has_set_same].
Qed.

Lemma node_setdefault_fills (keys : list string) (d : dict) (k : string)
  (v n' : value) :
  In k keys ->
  EnhancedWorkflowGenerator.node_setdefault (VDict d) k v = Ok n' ->
  exists d', n' = VDict d' /\ fills keys d d' /\ dict_has d' k = true.
Proof.
  intros Hk H. unfold EnhancedWorkflowGenerator.node_setdefault in H.
  cbn [py_in bind py_setitem] in H. destruct (dict_has d k) eqn:E;
    injection H as <-.
  - exists d. repeat split; [apply fills_refl | exact E].
  - exists (dict_set d k v).
    repeat split; [apply fills_set; assumption | apply dict_has_set_same].
Qed.

Lemma fix_node_dict (d : dict) (s s' : supply) (n' : value) :
  EnhancedWorkflowGenerator.fix_node (VDict d) s = Ok (n', s') ->
  exists d', n' = VDict d' /\ fills node_keys d d'
             /\ has_all d' node_keys = true.
Proof.
  intros H. unfold EnhancedWorkflowGenerator.fix_node in H.
  cbn [py_in bind] in H. bind_inv_as H p1 H1. destruct p1 as [n1 s1].
  assert (F1 : exists d1, n1 = VDict d1 /\ fills node_keys d d1
                          /\ dict_has d1 "id" = true).
  { destruct (dict_has d "id") eqn:E.
    - injection H1 as <- <-. exists d. repeat split; [apply fills_refl | exact E].
    - destruct (uuid4 s) as [u su]. cbn [py_setitem bind] in H1.
      injection H1 as <- <-. exists (dict_set d "id" (VStr u)).
      repeat split; [| apply dict_has_set_same].
      apply fills_set; [simpl; tauto | exact E]. }
  destruct F1 as (d1 & -> & F1 & P1).
  bind_inv_as H n2 H2.
  apply (node_setdefault_fills node_keys) in H2; [| simpl; tauto].
  destruct H2 as (d2 & -> & F2 & P2).
  bind_inv_as H n3 H3.
  apply (node_setdefault_fills node_keys) in H3; [| simpl; tauto].
  destruct H3 as (d3 & -> & F3 & P3).
  bind_inv_as H n4 H4.
  apply (node_setdefault_fills node_keys) in H4; [| simpl; tauto].
  destruct H4 as (d4 & -> & F4 & P4).
  injection H as <- <-. exists d4. split; [reflexivity |]. split.
  - eapply fills_trans; [| exact F4]. eapply fills_trans; [| exact F3].
    eapply fills_trans; [exact F1 | exact F2].
  - unfold has_all, node_keys. cbn [forallb].
    rewrite P4.
    rewrite (fills_has _ _ _ _ F4 P3).
    rewrite (fills_has _ _ _ _ F4 (fills_has _ _ _ _ F3 P2)).
    rewrite (fills_has _ _ _ _ F4
               (fills_has _ _ _ _ F3 (fills_has _ _ _ _ F2 P1))).
    reflexivity.
Qed.

Lemma py_setitem_dict (n n' : value) (k : string) (v : value) :
  py_setitem n k v = Ok n' -> exists d, n = VDict d.
Proof.
  destruct n as [| b | z | str | l | d]; try discriminate.
  intros _. exists d. reflexivity.
Qed.

Lemma node_setdefault_other (n n' : value) (k : string) (v : value) :
  (forall d, n <> VDict d) ->
  EnhancedWorkflowGenerator.node_setdefault n k v = Ok n' -> n' = n.
Proof.
  intros Hn H. unfold EnhancedWorkflowGenerator.node_setdefault in H.
  bind_inv_as H has Hhas. destruct has; [injection H as <-; reflexivity |].
  apply py_setitem_dict in H. destruct H as (d & ->).
  exfalso. exact (Hn d eq_refl).
Qed.

(** On anything but a dictionary the structural pass returns its node as
    it was, or raises. *)
Lemma fix_node_other (n n' : value) (s s' : supply) :
  (forall d, n <> VDict d) ->
  EnhancedWorkflowGenerator.fix_node n s = Ok (n', s') -> n' = n.
Proof.
  intros Hn H. unfold EnhancedWorkflowGenerator.fix_node in H.
  bind_inv_as H has_id Hid. bind_inv_as H p1 H1. destruct p1 as [n1 s1].
  assert (E1 : n1 = n).
  { destruct has_id; [injection H1 as <- <-; reflexivity |].
    destruct (uuid4 s) as [u su]. bind_inv_as H1 x Hx.
    apply py_setitem_dict in Hx. destruct Hx as (d & ->).
    exfalso. exact (Hn d eq_refl). }
  subst n1. bind_inv_as H n2 H2. apply node_setdefault_other in H2; [| exact Hn].
  subst n2. bind_inv_as H n3 H3. apply node_setdefault_other in H3; [| exact Hn].
  subst n3. bind_inv_as H n4 H4. apply node_setdefault_other in H4; [| exact Hn].
  subst n4. injection H as <- <-. reflexivity.
Qed.

Lemma mapS_Forall2 {A B : Type} (R : A -> B -> Prop)
  (f : A -> supply -> result (B * supply)) :
  (forall x s y s', f x s = Ok (y, s') -> R x y) ->
  forall l s l' s',
    EnhancedWorkflowGenerator.mapS f l s = Ok (l', s') -> Forall2 R l l'.
Proof.
  intros Hf. induction l as [| x l IH]; intros s l' s' H; simpl in H.
  - injection H as <- <-. constructor.
  - bind_inv_as H p Hp. destruct p as [y s1].
    bind_inv_as H q Hq. destruct q as [ys s2]. injection H as <- <-.
    constructor; [exact (Hf _ _ _ _ Hp) | exact (IH _ _ _ Hq)].
Qed.

Lemma update_nodes_has (body : value -> supply -> result (value * supply))
  (w w' : dict) (s s' : supply) :
  EnhancedWorkflowGenerator.update_nodes body w s = Ok (w', s') ->
  (forall ks, has_all w ks = true -> has_all w' ks = true)
  /\ (forall k, k <> "nodes" -> dict_get w' k = dict_get w k).
Proof.
  unfold EnhancedWorkflowGenerator.update_nodes. intros H.
  destruct (dict_get w "nodes") as [nodes |].
  - bind_inv_as H p Hp. destruct p as [nodes' s1]. injection H as <- <-.
    split; [intros ks; apply has_all_set_mono |].
    intros k N. apply dict_get_set_other, N.
  - injection H as <- <-. split; [intros ks Hks; exact Hks | reflexivity].
Qed.

Lemma update_nodes_list (body : value -> supply -> result (value * supply))
  (w w' : dict) (s s' : supply) (l' : list value) :
  EnhancedWorkflowGenerator.update_nodes body w s = Ok (w', s') ->
  dict_has w "nodes" = true ->
  dict_get w' "nodes" = Some (VList l') ->
  exists l,
    dict_get w "nodes" = Some (VList l)
    /\ EnhancedWorkflowGenerator.mapS body l s = Ok (l', s')
    /\ w' = dict_set w "nodes" (VList l').
Proof.
  unfold EnhancedWorkflowGenerator.update_nodes. intros H Hhas Hget.
  apply dict_has_true in Hhas. destruct Hhas as (nodes & E). rewrite E in H.
  bind_inv_as H p Hp. destruct p as [nodes' s1]. injection H as <- <-.
  rewrite dict_get_set_same in Hget. injection Hget as ->.
  unfold EnhancedWorkflowGenerator.for_each_node in Hp.
  destruct nodes as [| b | z | str | l | d];
    try (cbn in Hp; discriminate Hp).
  - bind_inv_as Hp items Hi. bind_inv_as Hp q Hq. destruct q.
    discriminate Hp.
  - bind_inv_as Hp q Hq. destruct q as [l0 s0]. injection Hp as <- <-.
    exists l. split; [exact E |]. split; [exact Hq | reflexivity].
  - bind_inv_as Hp items Hi. bind_inv_as Hp q Hq. destruct q.
    discriminate Hp.
Qed.

Lemma requires_credential_type (t : string) (sch : NodeSchemas.schema) :
  assoc NodeSchemas.schemas t = Some sch ->
  NodeSchemas.requires_credentials sch = true ->
  exists ct, NodeSchemas.credential_type sch = Some ct.
Proof.
  intros H. unfold NodeSchemas.schemas in H. cbn [assoc] in H.
  repeat match type of H with
         | (if ?b then _ else _) = _ =>
             destruct b;
             [ injection H as <-; cbn; intros E; try discriminate E;
               eexists; reflexivity | ]
         end.
  discriminate H.
Qed.

(** The credential pass on one node. *)
Lemma inject_node_credentials_post (n n' : value) :
  EnhancedWorkflowGenerator.inject_node_credentials n = Ok n' ->
  exists d d',
    n = VDict d /\ n' = VDict d' /\ fills ["credentials"] d d' /\
    forall t sch,
      dict_get_default d' "type" (VStr "") = VStr t ->
      assoc NodeSchemas.schemas t = Some sch ->
      NodeSchemas.requires_credentials sch = true ->
      dict_has d' "credentials" = true.
Proof.
  intros H. unfold EnhancedWorkflowGenerator.inject_node_credentials in H.
  destruct n as [| b | z | str | l | d]; try discriminate H.
  cbn [py_get bind] in H.
  remember (dict_get_default d "type" (VStr "")) as ty eqn:Ety.
  bind_inv_as H req Hreq. destruct req.
  - cbn [py_in bind] in H. destruct (dict_has d "credentials") eqn:Ehas.
    + injection H as <-. exists d, d.
      repeat split; [apply fills_refl | intros; exact Ehas].
    + bind_inv_as H ct Hct.
      unfold NodeSchemas.requires_credentials_of in Hreq.
      unfold NodeSchemas.get_credential_type in Hct.
      destruct ty as [| b | z | t | l | d0]; try discriminate Hreq.
      cbn [NodeSchemas.schemas_get bind] in Hreq, Hct.
      destruct (assoc NodeSchemas.schemas t) as [sch |] eqn:Ea;
        [| discriminate Hreq].
      injection Hreq as Hreq. injection Hct as <-.
      destruct (requires_credential_type t sch Ea Hreq) as (ct & Ect).
      rewrite Ect in H. rewrite (credential_type_nonempty t ct sch Ea Ect) in H.
      cbn [py_setitem] in H. injection H as <-.
      eexists d, _. split; [reflexivity |]. split; [reflexivity |].
      split; [apply fills_set; [simpl; tauto | exact Ehas] |].
      intros. apply dict_has_set_same.
  - injection H as <-. exists d, d.
    repeat split; [apply fills_refl |].
    intros t sch Ht Ha Hr. rewrite Ht in Ety. subst ty.
    unfold NodeSchemas.requires_credentials_of in Hreq.
    cbn [NodeSchemas.schemas_get bind] in Hreq. rewrite Ha in Hreq.
    injection Hreq as Hreq. congruence.
Qed.

(** The error-policy pass on one node. *)
Lemma add_node_error_handling_post (n n' : value) :
  EnhancedWorkflowGenerator.add_node_error_handling n = Ok n' ->
  exists d d' t,
    n = VDict d /\ n' = VDict d' /\ fills error_policy_keys d d' /\
    dict_get_default d "type" (VStr "") = VStr t /\
    forall sch,
      assoc NodeSchemas.schemas t = Some sch ->
      error_policy_set d' t sch = true.
Proof.
  intros H. unfold EnhancedWorkflowGenerator.add_node_error_handling in H.
  destruct n as [| b | z | str | l | d]; try discriminate H.
  cbn [py_get bind] in H.
  remember (dict_get_default d "type" (VStr "")) as ty eqn:Ety.
  bind_inv_as H trig Htrig.
  destruct ty as [| b | z | t | l | d0]; try discriminate Htrig.
  cbn [py_endswith] in Htrig. injection Htrig as <-.
  change (eq_str (VStr t) QualityValidator.sticky_type)
    with (String.eqb t QualityValidator.sticky_type) in H.
  destruct (endswith t "Trigger" || String.eqb t QualityValidator.sticky_type)
    eqn:Eskip.
  - injection H as <-. exists d, d, t.
    split; [reflexivity |]. split; [reflexivity |].
    split; [apply fills_refl |]. split; [symmetry; exact Ety |].
    intros sch _. unfold error_policy_set.
    apply orb_true_iff in Eskip. destruct Eskip as [-> | ->];
      rewrite ?andb_false_r; reflexivity.
  - bind_inv_as H needs Hneeds.
    unfold NodeSchemas.needs_error_handling in Hneeds.
    change (NodeSchemas.schemas_get (VStr t))
      with (Ok (A:=option NodeSchemas.schema) (assoc NodeSchemas.schemas t))
      in Hneeds.
    destruct (assoc NodeSchemas.schemas t) as [sch0 |] eqn:Ea;
      unfold bind in Hneeds; cbv beta iota in Hneeds; injection Hneeds as <-.
    + destruct (NodeSchemas.error_handling_recommended sch0) eqn:Er.
      * bind_inv_as H n1 H1.
        apply (node_setdefault_fills error_policy_keys) in H1; [| simpl; tauto].
        destruct H1 as (d1 & -> & F1 & P1).
        bind_inv_as H n2 H2.
        apply (node_setdefault_fills error_policy_keys) in H2; [| simpl; tauto].
        destruct H2 as (d2 & -> & F2 & P2).
        apply (node_setdefault_fills error_policy_keys) in H; [| simpl; tauto].
        destruct H as (d3 & -> & F3 & P3).
        exists d, d3, t. split; [reflexivity |]. split; [reflexivity |].
        split; [eapply fills_trans; [eapply fills_trans |]; eassumption |].
        split; [symmetry; exact Ety |].
        intros sch _. unfold error_policy_set.
        destruct (_ && _ && _); [| reflexivity].
        unfold has_all. cbn [forallb]. rewrite P3.
        rewrite (fills_has _ _ _ _ F3 P2).
        rewrite (fills_has _ _ _ _ F3 (fills_has _ _ _ _ F2 P1)).
        reflexivity.
      * injection H as <-. exists d, d, t.
        split; [reflexivity |]. split; [reflexivity |].
        split; [apply fills_refl |]. split; [symmetry; exact Ety |].
        intros sch Hs. rewrite Ea in Hs. injection Hs as <-.
        unfold error_policy_set.
        rewrite Er. reflexivity.
    + injection H as <-. exists d, d, t.
      split; [reflexivity |]. split; [reflexivity |].
      split; [apply fills_refl |]. split; [symmetry; exact Ety |].
      intros sch Hs. rewrite Ea in Hs. discriminate Hs.
Qed.

(** *** Annotation nodes *)

Lemma filterM_is_sticky (l ex : list value) :
  QualityValidator.filterM QualityValidator.is_sticky l = Ok ex ->
  ex = filter is_sticky_node l.
Proof.
  revert ex. induction l as [| x l IH]; intros ex H; simpl in H.
  - injection H as <-. reflexivity.
  - bind_inv_as H b Hb. bind_inv_as H rest Hrest. injection H as <-.
    rewrite (IH rest Hrest).
    destruct x as [| b0 | z | str | l0 | d]; try discriminate Hb.
    cbn in Hb. injection Hb as <-. reflexivity.
Qed.

Lemma section_of_length (found : list value) (title description : string)
  (default : value) (l : list EnhancedWorkflowGenerator.section) :
  EnhancedWorkflowGenerator.section_of found title description default = Ok l ->
  List.length l <= 1.
Proof.
  destruct found as [| x tl]; simpl; intros H.
  - injection H as <-. simpl. lia.
  - bind_inv_as H p Hp. injection H as <-. simpl. lia.
Qed.

Lemma identify_workflow_sections_length (w : dict)
  (secs : list EnhancedWorkflowGenerator.section) :
  EnhancedWorkflowGenerator.identify_workflow_sections w = Ok secs ->
  1 <= List.length secs <= 5.
Proof.
  intros H. unfold EnhancedWorkflowGenerator.identify_workflow_sections in H.
  bind_inv_as H nodes Hnodes.
  bind_inv_as H f1 Hf1. bind_inv_as H s1 Hs1. apply section_of_length in Hs1.
  bind_inv_as H f2 Hf2. bind_inv_as H s2 Hs2. apply section_of_length in Hs2.
  bind_inv_as H f3 Hf3. bind_inv_as H s3 Hs3. apply section_of_length in Hs3.
  bind_inv_as H f4 Hf4. bind_inv_as H s4 Hs4. apply section_of_length in Hs4.
  bind_inv_as H f5 Hf5. bind_inv_as H s5 Hs5. apply section_of_length in Hs5.
  injection H as <-.
  destruct (Nat.ltb_spec (List.length (s1 ++ s2 ++ s3 ++ s4 ++ s5)) 3) as [L | L];
    rewrite ?length_app in *; cbn [List.length]; lia.
Qed.

Lemma create_sticky_note_post (sec : EnhancedWorkflowGenerator.section)
  (i : nat) (s s' : supply) (n : value) :
  EnhancedWorkflowGenerator.create_sticky_note sec i s = Ok (n, s') ->
  is_sticky_node n = true /\ repaired_node n = true.
Proof.
  intros H. unfold EnhancedWorkflowGenerator.create_sticky_note in H.
  bind_inv_as H x Hx. bind_inv_as H y Hy. destruct (uuid4 s) as [u su].
  injection H as <- <-. split; reflexivity.
Qed.

Lemma append_notes_list (secs : list EnhancedWorkflowGenerator.section) :
  forall (i : nat) (l : list value) (s s' : supply) (nodes' : value),
    EnhancedWorkflowGenerator.append_notes secs i (VList l) s = Ok (nodes', s') ->
    exists notes,
      nodes' = VList (l ++ notes)
      /\ List.length notes = List.length secs
      /\ Forall (fun n => is_sticky_node n = true /\ repaired_node n = true) notes.
Proof.
  induction secs as [| sec secs IH]; intros i l s s' nodes' H; simpl in H.
  - injection H as <- <-. exists []. rewrite app_nil_r.
    repeat split. constructor.
  - bind_inv_as H p Hp. destruct p as [sticky s1].
    cbn [EnhancedWorkflowGenerator.py_append bind] in H.
    apply IH in H. destruct H as (notes & -> & Hlen & Hall).
    exists (sticky :: notes). rewrite <- app_assoc. split; [reflexivity |].
    split; [simpl; lia |].
    constructor; [exact (create_sticky_note_post _ _ _ _ _ Hp) | exact Hall].
Qed.

Lemma append_notes_needs_list (sec : EnhancedWorkflowGenerator.section)
  (secs : list EnhancedWorkflowGenerator.section) (i : nat) (nodes : value)
  (s : supply) (r : value * supply) :
  EnhancedWorkflowGenerator.append_notes (sec :: secs) i nodes s = Ok r ->
  exists l, nodes = VList l.
Proof.
  simpl. intros H. bind_inv_as H p Hp. destruct p as [sticky s1].
  bind_inv_as H nodes1 H1.
  destruct nodes as [| b | z | str | l | d]; try discriminate H1.
  exists l. reflexivity.
Qed.

Lemma target_notes_positive (complexity : string) :
  5 <= EnhancedWorkflowGenerator.target_notes complexity <= 8.
Proof.
  unfold EnhancedWorkflowGenerator.target_notes, Config.min_sticky_notes.
  destruct (String.eqb complexity "complex"); lia.
Qed.

Lemma filterM_is_sticky_not_dict (x : value) (l ex : list value) :
  (forall d, x <> VDict d) ->
  QualityValidator.filterM QualityValidator.is_sticky (x :: l) <> Ok ex.
Proof.
  intros Hx H. simpl in H. bind_inv_as H b Hb.
  destruct x as [| b0 | z | str | l0 | d]; try discriminate Hb.
  exact (Hx d eq_refl).
Qed.

(** The documentation pass: it needs a list of nodes, and appends
    annotation nodes to it, one for each section it identified, up to
    the number that is missing. *)
Lemma add_documentation_notes (w w' : dict) (complexity : string)
  (s s' : supply) :
  EnhancedWorkflowGenerator.add_documentation w complexity s = Ok (w', s') ->
  dict_has w "nodes" = true ->
  exists l notes sections,
    dict_get w "nodes" = Some (VList l)
    /\ w' = dict_set w "nodes" (VList (l ++ notes))
    /\ 1 <= sections <= 5
    /\ List.length notes
       = Nat.min (EnhancedWorkflowGenerator.target_notes complexity
                  - sticky_count l) sections
    /\ Forall (fun n => is_sticky_node n = true /\ repaired_node n = true) notes.
Proof.
  intros H Hhas. apply dict_has_true in Hhas. destruct Hhas as (nodes & Eget).
  unfold EnhancedWorkflowGenerator.add_documentation in H.
  assert (Enodes : QualityValidator.get_nodes w = nodes).
  { unfold QualityValidator.get_nodes, dict_get_default. rewrite Eget.
    reflexivity. }
  rewrite Enodes in H. cbv zeta in H.
  bind_inv_as H items Hitems. bind_inv_as H existing Hex.
  pose proof (target_notes_positive complexity) as Ht.
  assert (Hl : exists l, nodes = VList l).
  { destruct (Nat.ltb_spec 0
                (EnhancedWorkflowGenerator.target_notes complexity
                 - List.length existing)) as [L | L].
    - bind_inv_as H secs Hsecs. bind_inv_as H p Hp.
      apply identify_workflow_sections_length in Hsecs.
      destruct secs as [| sec secs]; [simpl in Hsecs; lia |].
      destruct (EnhancedWorkflowGenerator.target_notes complexity
                - List.length existing) as [| k]; [lia |].
      cbn [firstn] in Hp. eapply append_notes_needs_list. exact Hp.
    - destruct nodes as [| b | z | str | l | d]; try discriminate Hitems.
      + cbn [py_iter] in Hitems. injection Hitems as <-.
        destruct (list_ascii_of_string str) as [| c cs].
        * simpl in Hex. injection Hex as <-. simpl in L. lia.
        * exfalso. cbn [map] in Hex.
          eapply filterM_is_sticky_not_dict; [| exact Hex].
          intros d. discriminate.
      + exists l. reflexivity.
      + cbn [py_iter] in Hitems. injection Hitems as <-.
        destruct d as [| kv d].
        * simpl in Hex. injection Hex as <-. simpl in L. lia.
        * exfalso. cbn [map] in Hex.
          eapply filterM_is_sticky_not_dict; [| exact Hex].
          intros d0. discriminate. }
  destruct Hl as (l & ->). cbn [py_iter] in Hitems. injection Hitems as <-.
  apply filterM_is_sticky in Hex. subst existing. fold (sticky_count l) in H.
  exists l.
  destruct (Nat.ltb_spec 0
              (EnhancedWorkflowGenerator.target_notes complexity
               - sticky_count l)) as [L | L].
  - bind_inv_as H secs Hsecs. bind_inv_as H p Hp. destruct p as [nodes' s1].
    unfold dict_has in H. rewrite Eget in H. injection H as <- <-.
    apply identify_workflow_sections_length in Hsecs.
    apply append_notes_list in Hp. destruct Hp as (notes & -> & Hlen & Hall).
    exists notes, (List.length secs). split; [exact Eget |].
    split; [reflexivity |]. split; [exact Hsecs |].
    split; [rewrite Hlen; apply length_firstn | exact Hall].
  - injection H as <- <-. exists [], 1. split; [exact Eget |].
    rewrite app_nil_r. split; [symmetry; apply dict_set_same, Eget |].
    split; [lia |]. split; [simpl; lia | constructor].
Qed.

(** *** The whole sequence *)

Lemma setdefault_get_same (d : dict) (k : string) (v : value) :
  dict_get (EnhancedWorkflowGenerator.setdefault d k v) k
  = Some (dict_get_default d k v).
Proof.
  unfold EnhancedWorkflowGenerator.setdefault, dict_has, dict_get_default.
  destruct (dict_get d k) as [x |] eqn:E; [exact E | apply dict_get_set_same].
Qed.

Lemma setdefault_get_other (d : dict) (k k' : string) (v : value) :
  k' <> k ->
  dict_get (EnhancedWorkflowGenerator.setdefault d k v) k' = dict_get d k'.
Proof.
  intros N. unfold EnhancedWorkflowGenerator.setdefault.
  destruct (dict_has d k); [reflexivity | apply dict_get_set_other, N].
Qed.

Lemma Forall2_chain3 {A B C D : Type} (R1 : A -> B -> Prop)
  (R2 : B -> C -> Prop) (R3 : C -> D -> Prop) (Q : A -> D -> Prop) :
  (forall a b c d, R1 a b -> R2 b c -> R3 c d -> Q a d) ->
  forall la lb lc ld,
    Forall2 R1 la lb -> Forall2 R2 lb lc -> Forall2 R3 lc ld ->
    Forall2 Q la ld.
Proof.
  intros HQ la lb lc ld H1. revert lc ld.
  induction H1 as [| a b la lb Hab _ IH]; intros lc ld H2 H3.
  - inversion H2; subst. inversion H3; subst. constructor.
  - inversion H2 as [| b' c lb' lc' Hbc H2' ]; subst.
    inversion H3 as [| c' d lc'' ld' Hcd H3' ]; subst.
    constructor; [exact (HQ _ _ _ _ Hab Hbc Hcd) | exact (IH _ _ H2' H3')].
Qed.

(** One node through the three passes that touch it. *)
Lemma node_through_passes (a b c e : value) (s1 s1' : supply) :
  EnhancedWorkflowGenerator.fix_node a s1 = Ok (b, s1') ->
  EnhancedWorkflowGenerator.inject_node_credentials b = Ok c ->
  EnhancedWorkflowGenerator.add_node_error_handling c = Ok e ->
  node_fills repair_keys a e /\ repaired_node e = true.
Proof.
  intros H1 H2 H3.
  apply inject_node_credentials_post in H2.
  destruct H2 as (d2 & d4 & -> & -> & F2 & Hcred).
  apply add_node_error_handling_post in H3.
  destruct H3 as (d4' & d5 & t & E4 & -> & F3 & Htype & Hpolicy).
  injection E4 as <-.
  assert (Ha : exists d0, a = VDict d0 /\ fills node_keys d0 d2
                          /\ has_all d2 node_keys = true).
  { destruct a as [| x | z | str | l | d0].
    1-5: apply fix_node_other in H1; [discriminate H1 | intros d; discriminate].
    apply fix_node_dict in H1. destruct H1 as (d' & E & F & K).
    injection E as <-. exists d0. repeat split; assumption. }
  destruct Ha as (d0 & -> & F1 & K1).
  assert (Etype : dict_get_default d5 "type" (VStr "") = VStr t).
  { rewrite <- Htype. unfold dict_get_default.
    rewrite (fills_other _ _ _ "type" F3); [reflexivity |].
    unfold error_policy_keys. simpl. intros [E | [E | [E | []]]];
      discriminate E. }
  split.
  - exists d0, d5. split; [reflexivity |]. split; [reflexivity |].
    apply fills_trans with (d2 := d4);
      [apply fills_trans with (d2 := d2) |].
    + eapply fills_weaken; [| exact F1]. unfold repair_keys.
      apply incl_appl, incl_refl.
    + eapply fills_weaken; [| exact F2]. unfold repair_keys.
      apply incl_appr, incl_appl, incl_refl.
    + eapply fills_weaken; [| exact F3]. unfold repair_keys.
      apply incl_appr, incl_appr, incl_refl.
  - unfold repaired_node.
    rewrite (fills_has_all _ _ _ _ F3 (fills_has_all _ _ _ _ F2 K1)).
    rewrite Etype. cbn [andb].
    destruct (assoc NodeSchemas.schemas t) as [sch |] eqn:Ea; [| reflexivity].
    rewrite (Hpolicy sch eq_refl), andb_true_r.
    destruct (NodeSchemas.requires_credentials sch) eqn:Er; [| reflexivity].
    apply (fills_has _ _ _ _ F3). apply (Hcred t sch); [| exact Ea | exact Er].
    rewrite <- Htype. reflexivity.
Qed.

Lemma sticky_fills (keys : list string) (n n' : value) :
  ~ In "type" keys -> node_fills keys n n' ->
  is_sticky_node n' = is_sticky_node n.
Proof.
  intros Hk (d & d' & -> & -> & F). unfold is_sticky_node, dict_get_default.
  rewrite (fills_other _ _ _ "type" F Hk). reflexivity.
Qed.

Lemma sticky_count_fills (keys : list string) (l l' : list value) :
  ~ In "type" keys -> Forall2 (node_fills keys) l l' ->
  sticky_count l' = sticky_count l.
Proof.
  intros Hk H. unfold sticky_count.
  induction H as [| x y l l' Hxy _ IH]; [reflexivity |].
  cbn [filter]. rewrite (sticky_fills keys x y Hk Hxy).
  destruct (is_sticky_node x); cbn [List.length]; rewrite IH; reflexivity.
Qed.

Lemma sticky_count_notes (l notes : list value) :
  Forall (fun n => is_sticky_node n = true) notes ->
  sticky_count (l ++ notes) = sticky_count l + List.length notes.
Proof.
  intros H. unfold sticky_count. rewrite filter_app, length_app. f_equal.
  induction H as [| x notes Hx _ IH]; [reflexivity |].
  cbn [filter]. rewrite Hx. cbn [List.length]. rewrite IH. reflexivity.
Qed.

Lemma type_not_repair_key : ~ In "type" repair_keys.
Proof.
  unfold repair_keys, node_keys, error_policy_keys. simpl.
  intros H. repeat (destruct H as [H | H]; [discriminate H |]). exact H.
Qed.

(** What a run of the repair sequence that returns has done. *)
Lemma repair_decomposition (raw w' : dict) (complexity : string)
  (s s' : supply) :
  EnhancedWorkflowGenerator.validate_and_refine raw complexity s = Ok (w', s') ->
  exists l l0 notes sections,
    QualityValidator.get_nodes raw = VList l /\
    dict_get w' "nodes" = Some (VList (l0 ++ notes)) /\
    Forall2 (fun n n' => node_fills repair_keys n n' /\ repaired_node n' = true)
            l l0 /\
    1 <= sections <= 5 /\
    List.length notes
    = Nat.min (EnhancedWorkflowGenerator.target_notes complexity
               - sticky_count l0) sections /\
    Forall (fun n => is_sticky_node n = true /\ repaired_node n = true) notes /\
    has_all w' workflow_keys = true /\
    forall k, k <> "nodes" ->
              dict_get w' k = dict_get raw k
              \/ (In k workflow_keys /\ dict_get raw k = None).
Proof.
  intros H. unfold EnhancedWorkflowGenerator.validate_and_refine in H.
  bind_inv_as H p2 H2. destruct p2 as [w2 s2].
  bind_inv_as H w3 H3.
  bind_inv_as H p4 H4. destruct p4 as [w4 s4].
  bind_inv_as H p5 H5. destruct p5 as [w5 s5].
  bind_inv_as H p6 H6. destruct p6 as [w6 s6].
  injection H as <- <-.
  unfold EnhancedWorkflowGenerator.fix_parameters in H3.
  bind_inv_as H3 items Hitems. bind_inv_as H3 reports Hreports.
  injection H3 as <-.
  unfold EnhancedWorkflowGenerator.fix_structure in H2. cbv zeta in H2.
  match type of H2 with
  | EnhancedWorkflowGenerator.update_nodes _ ?w _ = _ => set (w0 := w) in H2
  end.
  assert (F0 : fills workflow_keys raw w0).
  { subst w0.
    repeat (eapply fills_trans;
            [| apply setdefault_fills; unfold workflow_keys; simpl; tauto]).
    apply fills_refl. }
  assert (N0 : dict_get w0 "nodes" = Some (QualityValidator.get_nodes raw)).
  { subst w0.
    rewrite !setdefault_get_other by discriminate.
    rewrite setdefault_get_same.
    unfold dict_get_default, QualityValidator.get_nodes, dict_get_default.
    rewrite setdefault_get_other by discriminate. reflexivity. }
  assert (K0 : has_all w0 workflow_keys = true).
  { subst w0. unfold has_all, workflow_keys. cbn [forallb].
    unfold dict_has.
    rewrite !setdefault_get_other by discriminate. rewrite setdefault_get_same.
    rewrite !setdefault_get_other by discriminate. rewrite setdefault_get_same.
    rewrite !setdefault_get_other by discriminate. rewrite setdefault_get_same.
    rewrite !setdefault_get_other by discriminate. rewrite setdefault_get_same.
    rewrite setdefault_get_same. reflexivity. }
  clearbody w0.
  unfold EnhancedWorkflowGenerator.inject_credentials in H4.
  unfold EnhancedWorkflowGenerator.add_error_handling in H5.
  destruct (update_nodes_has _ _ _ _ _ H2) as (K2 & O2).
  destruct (update_nodes_has _ _ _ _ _ H4) as (K4 & O4).
  destruct (update_nodes_has _ _ _ _ _ H5) as (K5 & O5).
  pose proof (K5 _ (K4 _ (K2 _ K0))) as Kw5.
  assert (Hn : forall w, has_all w workflow_keys = true ->
                         dict_has w "nodes" = true).
  { intros w Hw. unfold has_all, workflow_keys in Hw. cbn [forallb] in Hw.
    apply andb_prop in Hw. destruct Hw as (_ & Hw).
    apply andb_prop in Hw. exact (proj1 Hw). }
  destruct (add_documentation_notes _ _ _ _ _ H6 (Hn _ Kw5))
    as (l5 & notes & sections & E5 & -> & Hsec & Hlen & Hnotes).
  destruct (update_nodes_list _ _ _ _ _ _ H5 (Hn _ (K4 _ (K2 _ K0))) E5)
    as (l4 & E4 & M5 & _).
  destruct (update_nodes_list _ _ _ _ _ _ H4 (Hn _ (K2 _ K0)) E4)
    as (l2 & E2 & M4 & _).
  destruct (update_nodes_list _ _ _ _ _ _ H2 (Hn _ K0) E2)
    as (l & E0 & M2 & _).
  rewrite N0 in E0. injection E0 as E0.
  exists l, l5, notes, sections.
  split; [exact E0 |].
  assert (Kw6 : has_all (dict_set w5 "nodes" (VList (l5 ++ notes)))
                        workflow_keys = true)
    by (apply has_all_set_mono, Kw5).
  assert (Ew' : EnhancedWorkflowGenerator.validate_connections
                  (dict_set w5 "nodes" (VList (l5 ++ notes)))
                = dict_set w5 "nodes" (VList (l5 ++ notes))).
  { unfold EnhancedWorkflowGenerator.validate_connections.
    apply setdefault_present.
    unfold has_all, workflow_keys in Kw6. cbn [forallb] in Kw6.
    apply andb_prop in Kw6. destruct Kw6 as (_ & Kw6).
    apply andb_prop in Kw6. destruct Kw6 as (_ & Kw6).
    apply andb_prop in Kw6. exact (proj1 Kw6). }
  rewrite Ew'.
  split; [apply dict_get_set_same |].
  split.
  { apply (Forall2_chain3
             (fun a b => exists s1 s1',
                  EnhancedWorkflowGenerator.fix_node a s1 = Ok (b, s1'))
             (fun b c =>
                EnhancedWorkflowGenerator.inject_node_credentials b = Ok c)
             (fun c e =>
                EnhancedWorkflowGenerator.add_node_error_handling c = Ok e)
             _ (fun a b c e '(ex_intro _ s1 (ex_intro _ s1' Hf)) Hi He =>
                  node_through_passes a b c e s1 s1' Hf Hi He)
             l l2 l4 l5).
    - eapply mapS_Forall2; [| exact M2].
      intros x t y t' Hf. exists t, t'. exact Hf.
    - eapply mapS_Forall2; [| exact M4].
      intros x t y t' Hf. cbv beta in Hf. bind_inv_as Hf n' Hn'.
      injection Hf as <- _. exact Hn'.
    - eapply mapS_Forall2; [| exact M5].
      intros x t y t' Hf. cbv beta in Hf. bind_inv_as Hf n' Hn'.
      injection Hf as <- _. exact Hn'. }
  split; [exact Hsec |]. split; [exact Hlen |]. split; [exact Hnotes |].
  split; [exact Kw6 |].
  intros k N. rewrite dict_get_set_other by exact N.
  rewrite (O5 k N), (O4 k N), (O2 k N). apply F0.
Qed.

Lemma Forall2_right {A B : Type} (R : A -> B -> Prop) (P : B -> Prop)
  (l : list A) (l' : list B) :
  Forall2 (fun x y => R x y /\ P y) l l' -> Forall2 R l l' /\ Forall P l'.
Proof.
  induction 1 as [| x y l l' (Hr & Hp) _ (IH1 & IH2)];
    split; constructor; assumption.
Qed.

(** X11.  When the repair sequence returns, the workflow carries its five
    top-level fields, its nodes are a list, and every node is a
    dictionary with id, position, parameters and typeVersion, a type
    tag that is a string (or none), a credentials entry if the registry
    says its type needs credentials, and the three error-policy fields
    if the registry recommends error handling for a type that is neither
    a trigger nor an annotation. *)
Theorem repair_postcondition :
  forall (raw w' : dict) (complexity : string) (s s' : supply),
    EnhancedWorkflowGenerator.validate_and_refine raw complexity s
    = Ok (w', s') ->
    has_all w' workflow_keys = true /\
    exists nodes,
      dict_get w' "nodes" = Some (VList nodes) /\
      Forall (fun n => repaired_node n = true) nodes.
Proof.
  intros raw w' complexity s s' H. apply repair_decomposition in H.
  destruct H as (l & l0 & notes & sections & _ & Hget & Hl0 & _ & _ & Hnotes
                 & Hkeys & _).
  split; [exact Hkeys |]. exists (l0 ++ notes). split; [exact Hget |].
  apply Forall_app. split.
  - apply Forall2_right in Hl0. exact (proj2 Hl0).
  - eapply Forall_impl; [| exact Hnotes]. intros n (_ & Hn). exact Hn.
Qed.

Lemma repair_postcondition_witness :
  exists w' s',
    EnhancedWorkflowGenerator.validate_and_refine bare_candidate "standard" ids
    = Ok (w', s') /\
    has_all w' workflow_keys = true.
Proof.
  destruct (EnhancedWorkflowGenerator.validate_and_refine bare_candidate
              "standard" ids) as [[w' s'] | e] eqn:E;
    [| vm_compute in E; discriminate E].
  exists w', s'. split; [reflexivity |].
  exact (proj1 (repair_postcondition _ _ _ _ _ E)).
Defined.

(** X12.  The repair sequence only fills in.  When it returns, the
    candidate's nodes were a list; the result holds one node for each of
    them, in the same order, followed by the annotation nodes it
    appended.  Each node is the node it was, with some of the fields id,
    position, parameters, typeVersion, credentials, onError, retryOnFail
    and maxTries added where they were missing: no field it had is
    changed or removed.  At the top level only name, connections, active
    and settings may be added, again only where missing. *)
Theorem repair_only_fills_in :
  forall (raw w' : dict) (complexity : string) (s s' : supply),
    EnhancedWorkflowGenerator.validate_and_refine raw complexity s
    = Ok (w', s') ->
    exists before after notes,
      QualityValidator.get_nodes raw = VList before /\
      dict_get w' "nodes" = Some (VList (after ++ notes)) /\
      Forall2 (node_fills repair_keys) before after /\
      Forall (fun n => is_sticky_node n = true) notes /\
      forall k, k <> "nodes" ->
                dict_get w' k = dict_get raw k
                \/ (In k workflow_keys /\ dict_get raw k = None).
Proof.
  intros raw w' complexity s s' H. apply repair_decomposition in H.
  destruct H as (l & l0 & notes & sections & Hraw & Hget & Hl0 & _ & _ & Hnotes
                 & _ & Hother).
  exists l, l0, notes. split; [exact Hraw |]. split; [exact Hget |].
  split; [apply Forall2_right in Hl0; exact (proj1 Hl0) |].
  split; [| exact Hother].
  eapply Forall_impl; [| exact Hnotes]. intros n (Hn & _). exact Hn.
Qed.

Lemma repair_only_fills_in_witness :
  exists w' s' before after notes,
    EnhancedWorkflowGenerator.validate_and_refine bare_candidate "standard" ids
    = Ok (w', s') /\
    QualityValidator.get_nodes bare_candidate = VList before /\
    dict_get w' "nodes" = Some (VList (after ++ notes)) /\
    Forall2 (node_fills repair_keys) before after.
Proof.
  destruct (EnhancedWorkflowGenerator.validate_and_refine bare_candidate
              "standard" ids) as [[w' s'] | e] eqn:E;
    [| vm_compute in E; discriminate E].
  destruct (repair_only_fills_in _ _ _ _ _ E)
    as (before & after & notes & H1 & H2 & H3 & _).
  exists w', s', before, after, notes. repeat split; assumption.
Defined.

(** X13.  When the repair sequence returns, the number of annotation
    nodes has grown by the smaller of two numbers: how many are missing
    to the target of the tier (5, and 8 for [complex]), and how many
    sections the pass identified, which is between 1 and 5.  The node
    list has grown by the same number.  So one repair adds at most five
    annotation nodes, none when the target is met, and at least one
    when it is not. *)
Theorem repair_annotation_count :
  forall (raw w' : dict) (complexity : string) (s s' : supply),
    EnhancedWorkflowGenerator.validate_and_refine raw complexity s
    = Ok (w', s') ->
    exists before after sections,
      QualityValidator.get_nodes raw = VList before /\
      dict_get w' "nodes" = Some (VList after) /\
      1 <= sections <= 5 /\
      let added :=
        Nat.min (EnhancedWorkflowGenerator.target_notes complexity
                 - sticky_count before) sections in
      sticky_count after = sticky_count before + added /\
      List.length after = List.length before + added.
Proof.
  intros raw w' complexity s s' H. apply repair_decomposition in H.
  destruct H as (l & l0 & notes & sections & Hraw & Hget & Hl0 & Hsec & Hlen
                 & Hnotes & _ & _).
  apply Forall2_right in Hl0. destruct Hl0 as (Hl0 & _).
  pose proof (sticky_count_fills _ _ _ type_not_repair_key Hl0) as Hcount.
  exists l, (l0 ++ notes), sections.
  split; [exact Hraw |]. split; [exact Hget |]. split; [exact Hsec |].
  cbv zeta. rewrite <- Hcount, <- Hlen. split.
  - apply sticky_count_notes. eapply Forall_impl; [| exact Hnotes].
    intros n (Hn & _). exact Hn.
  - rewrite length_app. f_equal. symmetry.
    exact (Forall2_length Hl0).
Qed.

Lemma repair_annotation_count_witness :
  exists w' s' after,
    EnhancedWorkflowGenerator.validate_and_refine bare_candidate "complex" ids
    = Ok (w', s') /\
    dict_get w' "nodes" = Some (VList after) /\
    sticky_count after < 8.
Proof.
  destruct (EnhancedWorkflowGenerator.validate_and_refine bare_candidate
              "complex" ids) as [[w' s'] | e] eqn:E;
    [| vm_compute in E; discriminate E].
  destruct (repair_annotation_count _ _ _ _ _ E)
    as (before & after & sections & H1 & H2 & H3 & H4 & _).
  exists w', s', after. split; [reflexivity |]. split; [exact H2 |].
  vm_compute in H1. injection H1 as <-. rewrite H4.
  change (sticky_count _) with 0. lia.
Defined.

(** ** The graph builder: what each step appends *)

Lemma grown_refl (b : WorkflowGenerator.build) (hi : nat) : grown_by 0 hi b b.
Proof.
  exists []. rewrite app_nil_r. split; [reflexivity |].
  split; [reflexivity | simpl; lia].
Qed.

(** Closes [grown_by] for nodes written as literals. *)
Ltac appended :=
  eexists; split; [reflexivity | split; [reflexivity | simpl; lia]].

Lemma step_trigger_nodes (requirements : dict) (s : supply) :
  exists nd,
    WorkflowGenerator.b_nodes (WorkflowGenerator.step_trigger requirements s)
    = [nd]
    /\ builder_node_ok nd = true.
Proof.
  unfold WorkflowGenerator.step_trigger, WorkflowGenerator.create_trigger_node.
  cbn [uuid4].
  destruct (eq_str _ "webhook"); [| destruct (eq_str _ "schedule");
                                    [| destruct (eq_str _ "email")]];
    cbn [uuid4]; eexists; split; reflexivity.
Qed.

Section StepNodes.

Variable requirements : dict.
Variables (b b' : WorkflowGenerator.build).

Lemma step_auth_nodes :
  WorkflowGenerator.step_auth requirements b = Ok b' -> grown_by 0 1 b b'.
Proof.
  unfold WorkflowGenerator.step_auth.
  destruct (WorkflowGenerator.flag requirements "needs_auth");
    [| intros [= <-]; apply grown_refl].
  unfold WorkflowGenerator.create_auth_node. cbn [uuid4]. intros H.
  bind_inv_as H cs Hcs. injection H as <-. appended.
Qed.

Lemma step_validation_nodes :
  WorkflowGenerator.step_validation requirements b = Ok b' -> grown_by 0 3 b b'.
Proof.
  unfold WorkflowGenerator.step_validation.
  destruct (WorkflowGenerator.flag requirements "needs_validation");
    [| intros [= <-]; apply grown_refl].
  unfold WorkflowGenerator.create_validation_flow. run_canned.
  intros H. bind_inv_as H cs Hcs. injection H as <-. appended.
Qed.

Lemma step_duplicate_check_nodes :
  WorkflowGenerator.step_duplicate_check requirements b = Ok b' ->
  grown_by 0 2 b b'.
Proof.
  unfold WorkflowGenerator.step_duplicate_check.
  destruct (WorkflowGenerator.flag requirements "needs_duplicate_check");
    [| intros [= <-]; apply grown_refl].
  unfold WorkflowGenerator.create_duplicate_check_flow. cbn [uuid4].
  destruct (WorkflowGenerator.database_of requirements) as [[database titled] | e];
    [| discriminate].
  run_canned.
  intros H. bind_inv_as H cs Hcs. injection H as <-.
  destruct database; appended.
Qed.

Lemma step_scoring_nodes :
  WorkflowGenerator.step_scoring requirements b = Ok b' -> grown_by 0 1 b b'.
Proof.
  unfold WorkflowGenerator.step_scoring.
  destruct (WorkflowGenerator.flag requirements "needs_scoring");
    [| intros [= <-]; apply grown_refl].
  unfold WorkflowGenerator.create_scoring_node. cbn [uuid4]. intros H.
  bind_inv_as H cs Hcs. injection H as <-. appended.
Qed.

Lemma step_branching_nodes (complexity : Z) :
  WorkflowGenerator.step_branching requirements complexity b = Ok b' ->
  grown_by 0 5 b b'.
Proof.
  unfold WorkflowGenerator.step_branching.
  destruct (WorkflowGenerator.flag requirements "has_branching"
            || Z.ltb 6 complexity);
    [| intros [= <-]; apply grown_refl].
  unfold WorkflowGenerator.create_branching_flow. run_canned.
  intros H. bind_inv_as H cs Hcs. injection H as <-. appended.
Qed.

Lemma step_action_nodes :
  WorkflowGenerator.step_action requirements b = Ok b' -> grown_by 1 1 b b'.
Proof.
  unfold WorkflowGenerator.step_action. intros H.
  bind_inv_as H created Hcreated.
  destruct created as [[[action_node action_conns] position] s1].
  bind_inv_as H cs Hcs. injection H as <-.
  unfold WorkflowGenerator.create_action_nodes in Hcreated.
  bind_inv_as Hcreated primary Hprimary. cbn [uuid4] in Hcreated.
  bind_inv_as Hcreated nd Hnd. injection Hcreated as <- <- <- <-.
  assert (Hok : builder_node_ok nd = true).
  { destruct (eq_str primary "email"); [injection Hnd as <-; reflexivity |].
    destruct (eq_str primary "slack"); [injection Hnd as <-; reflexivity |].
    destruct (eq_str primary "database"); [| injection Hnd as <-; reflexivity].
    destruct (WorkflowGenerator.database_of requirements) as [[database titled] | e];
      [| discriminate Hnd].
    cbn [bind] in Hnd. injection Hnd as <-. destruct database; reflexivity. }
  exists [nd]. split; [reflexivity |]. cbn [forallb]. rewrite Hok.
  split; [reflexivity | simpl; lia].
Qed.

Lemma step_logging_nodes (complexity : Z) :
  WorkflowGenerator.step_logging requirements complexity b = Ok b' ->
  grown_by 0 1 b b'.
Proof.
  unfold WorkflowGenerator.step_logging.
  destruct (WorkflowGenerator.flag requirements "needs_logging"
            || Z.ltb 5 complexity);
    [| intros [= <-]; apply grown_refl].
  unfold WorkflowGenerator.create_logging_node.
  destruct (WorkflowGenerator.database_of requirements) as [[database titled] | e];
    [| discriminate].
  cbn [uuid4 bind]. intros H.
  bind_inv_as H cs Hcs. injection H as <-.
  destruct database; appended.
Qed.

Lemma step_notification_nodes :
  WorkflowGenerator.step_notification requirements b = Ok b' ->
  grown_by 0 1 b b'.
Proof.
  unfold WorkflowGenerator.step_notification.
  destruct (WorkflowGenerator.flag requirements "needs_notification");
    [| intros [= <-]; apply grown_refl].
  unfold WorkflowGenerator.create_notification_nodes. intros H.
  bind_inv_as H created Hcreated.
  destruct created as [[[notif_nodes notif_conns] position] s1].
  bind_inv_as H nd0 Hfirst. bind_inv_as H cs Hcs. injection H as <-.
  bind_inv_as Hcreated slack Hslack. bind_inv_as Hcreated wanted Hwanted.
  destruct wanted; cbn [uuid4] in Hcreated; injection Hcreated as <- <- <- <-;
    [| discriminate Hfirst].
  appended.
Qed.

Lemma step_error_handling_nodes :
  WorkflowGenerator.step_error_handling requirements b = Ok b' ->
  grown_by 0 3 b b'.
Proof.
  unfold WorkflowGenerator.step_error_handling.
  destruct (WorkflowGenerator.flag requirements "needs_error_handling");
    [| intros [= <-]; apply grown_refl].
  intros H. bind_inv_as H created Hcreated.
  destruct created as [[error_nodes error_conns] s1]. injection H as <-.
  unfold WorkflowGenerator.create_error_workflow in Hcreated.
  run_canned in Hcreated.
  destruct (WorkflowGenerator.flag requirements "needs_error_alerts");
    run_canned in Hcreated; injection Hcreated as <- <- <-; appended.
Qed.

End StepNodes.

Lemma grown_by_trans (lo1 hi1 lo2 hi2 : nat) (b1 b2 b3 : WorkflowGenerator.build) :
  grown_by lo1 hi1 b1 b2 -> grown_by lo2 hi2 b2 b3 ->
  grown_by (lo1 + lo2) (hi1 + hi2) b1 b3.
Proof.
  intros (n1 & E1 & P1 & L1) (n2 & E2 & P2 & L2). exists (n1 ++ n2).
  split; [rewrite E2, E1, app_assoc; reflexivity |].
  split; [rewrite forallb_app, P1, P2; reflexivity |].
  rewrite length_app. lia.
Qed.

(** ** The graph builder: the graph it returns *)

(** Names and connections of a returned graph. *)
Lemma generate_names (requirements : dict) (conversation : option string)
  (s s' : supply) (w : WorkflowGenerator.workflow) :
  WorkflowGenerator.generate requirements conversation s = Ok (w, s') ->
  build_invariant pool10
    (WorkflowGenerator.mk_build (WorkflowGenerator.w_nodes w)
       (WorkflowGenerator.w_connections w) (0, 0)%Z
       (hd (WorkflowGenerator.mk_node "" "" "" 0 (0, 0)%Z None VNone None)
           (WorkflowGenerator.w_nodes w)) s').
Proof.
  intros H. unfold WorkflowGenerator.generate in H.
  bind_inv_as H complexity Hc.
  bind_inv_as H b2 H2. bind_inv_as H b3 H3. bind_inv_as H b4 H4.
  bind_inv_as H b5 H5. bind_inv_as H b6 H6. bind_inv_as H b7 H7.
  bind_inv_as H b8 H8. bind_inv_as H b9 H9. bind_inv_as H b10 H10.
  bind_inv_as H workflow_name Hname. injection H as <- <-.
  pose proof (step_trigger_invariant requirements s) as I1.
  pose proof (step_auth_invariant requirements _ _ _ I1
                (disjointb_sound trigger_names auth_names eq_refl) H2) as I2.
  pose proof (step_validation_invariant requirements _ _ _ I2
                (disjointb_sound pool2 validation_names eq_refl) H3) as I3.
  pose proof (step_duplicate_check_invariant requirements _ _ _ I3
                (disjointb_sound pool3 duplicate_names eq_refl) H4) as I4.
  pose proof (step_scoring_invariant requirements _ _ _ I4
                (disjointb_sound pool4 scoring_names eq_refl) H5) as I5.
  pose proof (step_branching_invariant requirements _ _ _ I5 complexity
                (disjointb_sound pool5 branching_names eq_refl) H6) as I6.
  pose proof (step_action_invariant requirements _ _ _ I6
                (disjointb_sound pool6 action_names eq_refl) H7) as I7.
  pose proof (step_logging_invariant requirements _ _ _ I7 complexity
                (disjointb_sound pool7 logging_names eq_refl) H8) as I8.
  pose proof (step_notification_invariant requirements _ _ _ I8
                (disjointb_sound pool8 notification_names eq_refl) H9) as I9.
  pose proof (step_error_handling_invariant requirements _ _ _ I9
                (disjointb_sound pool9 error_names eq_refl) H10) as I10.
  cbn [WorkflowGenerator.w_nodes WorkflowGenerator.w_connections].
  destruct I10 as [N P C L]. split; cbn [WorkflowGenerator.b_nodes
    WorkflowGenerator.b_connections WorkflowGenerator.b_last_node];
    try assumption.
  destruct (WorkflowGenerator.b_nodes b10) as [| n0 ns];
    [destruct L | left; reflexivity].
Qed.

Lemma calculate_complexity_bound (requirements : dict) (c : Z) :
  WorkflowGenerator.calculate_complexity requirements = Ok c -> (c <= 10)%Z.
Proof.
  unfold WorkflowGenerator.calculate_complexity. cbv zeta. intros H.
  bind_inv_as H c' Hc'. injection H as <-. lia.
Qed.

(** Nodes and bookkeeping of a returned graph. *)
Lemma generate_nodes (requirements : dict) (conversation : option string)
  (s s' : supply) (w : WorkflowGenerator.workflow) :
  WorkflowGenerator.generate requirements conversation s = Ok (w, s') ->
  forallb builder_node_ok (WorkflowGenerator.w_nodes w) = true /\
  2 <= List.length (WorkflowGenerator.w_nodes w) <= 19 /\
  WorkflowGenerator.nodeCount (WorkflowGenerator.w_meta w)
  = List.length (WorkflowGenerator.w_nodes w) /\
  (WorkflowGenerator.m_complexity (WorkflowGenerator.w_meta w) <= 10)%Z /\
  WorkflowGenerator.w_settings w = VDict [("executionOrder", VStr "v1")] /\
  WorkflowGenerator.w_active w = false.
Proof.
  intros H. unfold WorkflowGenerator.generate in H.
  bind_inv_as H complexity Hc.
  bind_inv_as H b2 H2. bind_inv_as H b3 H3. bind_inv_as H b4 H4.
  bind_inv_as H b5 H5. bind_inv_as H b6 H6. bind_inv_as H b7 H7.
  bind_inv_as H b8 H8. bind_inv_as H b9 H9. bind_inv_as H b10 H10.
  bind_inv_as H workflow_name Hname. injection H as <- <-.
  cbn [WorkflowGenerator.w_nodes WorkflowGenerator.w_meta
       WorkflowGenerator.nodeCount WorkflowGenerator.m_complexity
       WorkflowGenerator.w_settings WorkflowGenerator.w_active].
  apply step_auth_nodes in H2. apply step_validation_nodes in H3.
  apply step_duplicate_check_nodes in H4. apply step_scoring_nodes in H5.
  apply step_branching_nodes in H6. apply step_action_nodes in H7.
  apply step_logging_nodes in H8. apply step_notification_nodes in H9.
  apply step_error_handling_nodes in H10.
  pose proof (grown_by_trans _ _ _ _ _ _ _
                (grown_by_trans _ _ _ _ _ _ _
                   (grown_by_trans _ _ _ _ _ _ _
                      (grown_by_trans _ _ _ _ _ _ _
                         (grown_by_trans _ _ _ _ _ _ _
                            (grown_by_trans _ _ _ _ _ _ _
                               (grown_by_trans _ _ _ _ _ _ _
                                  (grown_by_trans _ _ _ _ _ _ _ H2 H3) H4) H5)
                            H6) H7) H8) H9) H10) as G.
  destruct G as (new & E & P & L). cbn in L.
  destruct (step_trigger_nodes requirements s) as (nd & E1 & P1).
  rewrite E1 in E. rewrite E. rewrite forallb_app, length_app, P.
  change (forallb builder_node_ok [nd]) with (builder_node_ok nd && true).
  rewrite P1. change (List.length [nd]) with 1.
  repeat split; try reflexivity; try lia.
  exact (calculate_complexity_bound _ _ Hc).
Qed.

(** *** The builder's graph under the structural validator *)

Lemma mapO_Forall2 {A B : Type} (f : A -> option B) (l : list A) :
  forallb (fun x => match f x with Some _ => true | None => false end) l = true ->
  exists ys, Routers.mapO f l = Some ys
             /\ Forall2 (fun x y => f x = Some y) l ys.
Proof.
  induction l as [| x l IH]; cbn [forallb Routers.mapO]; intros H.
  - exists []. split; [reflexivity | constructor].
  - apply andb_prop in H. destruct H as (Hx & Hl).
    destruct (f x) as [y |] eqn:E; [| discriminate Hx].
    destruct (IH Hl) as (ys & -> & F). exists (y :: ys).
    split; [reflexivity | constructor; assumption].
Qed.

Lemma Forall2_In_right {A B : Type} (R : A -> B -> Prop) (l : list A)
  (l' : list B) (y : B) :
  Forall2 R l l' -> In y l' -> exists x, In x l /\ R x y.
Proof.
  induction 1 as [| x y' l l' Hxy _ IH]; intros Hy; [destruct Hy |].
  destruct Hy as [<- | Hy].
  - exists x. split; [left; reflexivity | exact Hxy].
  - destruct (IH Hy) as (x' & Hx' & Hr). exists x'.
    split; [right; exact Hx' | exact Hr].
Qed.

Lemma node_model_fields (n : WorkflowGenerator.node)
  (m : ValidationService.WorkflowNode) :
  Routers.node_model n = Some m ->
  ValidationService.wn_name m = WorkflowGenerator.name n
  /\ ValidationService.wn_type m = WorkflowGenerator.type n
  /\ List.length (ValidationService.wn_position m) = 2.
Proof.
  unfold Routers.node_model.
  destruct (WorkflowGenerator.parameters n); try discriminate.
  destruct (WorkflowGenerator.credentials n) as [c |].
  - destruct (Routers.credentials_model c); [| discriminate].
    intros [= <-]. repeat split.
  - intros [= <-]. repeat split.
Qed.

Lemma assoc_In {A : Type} (l : list (string * A)) (k : string) (a : A) :
  assoc l k = Some a -> In (k, a) l.
Proof.
  induction l as [| [k' a'] l IH]; simpl; [discriminate |].
  destruct (String.eqb_spec k k') as [-> | N].
  - intros [= ->]. left. reflexivity.
  - intros H. right. exact (IH H).
Qed.

Lemma assoc_conn_data_model (d : WorkflowGenerator.conn_data) (k : string)
  (groups : list (list ValidationService.WorkflowConnection)) :
  assoc (Routers.conn_data_model d) k = Some groups ->
  exists g0, assoc d k = Some g0
             /\ groups = map (map Routers.connection_model) g0.
Proof.
  induction d as [| [k' g] d IH]; simpl; [discriminate |].
  destruct (String.eqb k k').
  - intros [= <-]. exists g. split; reflexivity.
  - exact IH.
Qed.

Lemma well_formed_is_valid (w : ValidationService.WorkflowJSON) :
  ValidationService.wf_nodes w <> [] ->
  (forall n, In n (ValidationService.wf_nodes w) -> node_well_shaped n) ->
  NoDup (node_names w) ->
  connections_resolved w ->
  exists r, ValidationService.validate_workflow w = Ok r
            /\ ValidationService.isValid r = true
            /\ ValidationService.errors r = [].
Proof.
  intros Hne Hshape Hnd Hres. unfold ValidationService.validate_workflow.
  rewrite validate_structure_findings, validate_nodes_findings,
    validate_connections_findings.
  destruct (generate_warnings_total w) as (ws & ->). cbn [bind].
  eexists. split; [reflexivity |].
  cbn [ValidationService.isValid ValidationService.errors].
  replace (if NodeSchemas.nonempty (ValidationService.wf_nodes w) then _ else _)
    with (@nil ValidationService.ValidationError)
    by (destruct (ValidationService.wf_nodes w); [congruence | reflexivity]).
  rewrite (proj2 (flat_map_nil _ _)).
  2:{ intros n Hn. destruct (Hshape n Hn) as (Hp & Ht).
      rewrite Hp, Ht. reflexivity. }
  apply connections_valid_iff_helper in Hres.
  rewrite validate_connections_findings in Hres. injection Hres as ->.
  apply unique_names_iff_helper in Hnd. rewrite Hnd. split; reflexivity.
Qed.

(** X14.  Every graph the builder returns is accepted along the path the
    routers take: it reads as a [WorkflowJSON], and [validate_workflow]
    returns for it with [isValid] true and no finding. *)
Theorem builder_graph_is_valid :
  forall (requirements : dict) (conversation : option string) (s s' : supply)
         (w : WorkflowGenerator.workflow),
    WorkflowGenerator.generate requirements conversation s = Ok (w, s') ->
    exists (model : ValidationService.WorkflowJSON)
           (r : ValidationService.ValidationResult),
      Routers.workflow_model w = Some model /\
      ValidationService.validate_workflow model = Ok r /\
      ValidationService.isValid r = true /\
      ValidationService.errors r = [].
Proof.
  intros requirements conversation s s' w H.
  destruct (generate_nodes _ _ _ _ _ H) as (Hok & Hlen & _ & _ & Hset & _).
  pose proof (generate_names _ _ _ _ _ H) as [Hnd _ Hclosed _].
  cbn [WorkflowGenerator.b_nodes WorkflowGenerator.b_connections] in *.
  assert (Hok' : forallb (fun x => match Routers.node_model x with
                                   | Some _ => true
                                   | None => false
                                   end) (WorkflowGenerator.w_nodes w) = true).
  { rewrite forallb_forall in *. intros x Hx. specialize (Hok x Hx).
    unfold builder_node_ok in Hok. apply andb_prop in Hok. exact (proj2 Hok). }
  destruct (mapO_Forall2 _ _ Hok') as (nodes & Hmap & F).
  unfold Routers.workflow_model. rewrite Hmap, Hset.
  eexists. 
  assert (Hnames : map ValidationService.wn_name nodes
                   = names (WorkflowGenerator.w_nodes w)).
  { clear - F. induction F as [| x y l l' Hxy _ IH]; [reflexivity |].
    cbn [map names]. destruct (node_model_fields _ _ Hxy) as (-> & _).
    f_equal. exact IH. }
  match goal with
  | |- exists r, Some ?m = Some ?m' /\ _ => 
      destruct (well_formed_is_valid m) as (r & Hr & Hv & He)
  end.
  - cbn [ValidationService.wf_nodes]. intros ->. inversion F as [E1 |].
    rewrite <- E1 in Hlen. simpl in Hlen. lia.
  - cbn [ValidationService.wf_nodes]. intros m Hm.
    destruct (Forall2_In_right _ _ _ _ F Hm) as (n & Hn & Hnm).
    destruct (node_model_fields _ _ Hnm) as (_ & Ht & Hp).
    split; [exact Hp |]. rewrite Ht.
    rewrite forallb_forall in Hok. specialize (Hok n Hn).
    unfold builder_node_ok in Hok. apply andb_prop in Hok. exact (proj1 Hok).
  - unfold node_names. cbn [ValidationService.wf_nodes]. rewrite Hnames.
    exact Hnd.
  - intros source outputs Hin. unfold node_names in *.
    cbn [ValidationService.wf_connections ValidationService.wf_nodes] in *.
    rewrite Hnames. apply in_map_iff in Hin.
    destruct Hin as ([k d] & [= <- <-] & Hkd). cbn [fst snd]. split.
    + apply Hclosed. unfold WorkflowGenerator.endpoints.
      apply in_flat_map. exists (k, d). split; [exact Hkd | left; reflexivity].
    + intros groups group c Hmain Hgroup Hc.
      apply assoc_conn_data_model in Hmain.
      destruct Hmain as (g0 & Hmain & ->).
      apply in_map_iff in Hgroup. destruct Hgroup as (g & <- & Hg).
      apply in_map_iff in Hc. destruct Hc as (c0 & <- & Hc0).
      cbn [Routers.connection_model ValidationService.wc_node].
      apply Hclosed. unfold WorkflowGenerator.endpoints.
      apply in_flat_map. exists (k, d). split; [exact Hkd |]. right.
      unfold WorkflowGenerator.targets_of. apply in_flat_map.
      exists ("main", g0). split; [apply assoc_In, Hmain |].
      cbn [snd]. apply in_flat_map. exists g. split; [exact Hg |].
      apply in_map, Hc0.
  - exists r. repeat split; assumption.
Qed.

Lemma builder_graph_is_valid_witness :
  exists w s' model r,
    WorkflowGenerator.generate full_requirements None ids = Ok (w, s') /\
    Routers.workflow_model w = Some model /\
    ValidationService.validate_workflow model = Ok r /\
    ValidationService.isValid r = true.
Proof.
  destruct (WorkflowGenerator.generate full_requirements None ids)
    as [[w s'] | e] eqn:E; [| vm_compute in E; discriminate E].
  destruct (builder_graph_is_valid _ _ _ _ _ E) as (model & r & H1 & H2 & H3 & _).
  exists w, s', model, r. repeat split; assumption.
Defined.

(** X15.  A graph the builder returns has between 2 and 19 nodes; its
    [meta] records that number as [nodeCount] and a [complexity] of at
    most 10, and the graph is inactive. *)
Theorem builder_node_count :
  forall (requirements : dict) (conversation : option string) (s s' : supply)
         (w : WorkflowGenerator.workflow),
    WorkflowGenerator.generate requirements conversation s = Ok (w, s') ->
    2 <= List.length (WorkflowGenerator.w_nodes w) <= 19 /\
    WorkflowGenerator.nodeCount (WorkflowGenerator.w_meta w)
    = List.length (WorkflowGenerator.w_nodes w) /\
    (WorkflowGenerator.m_complexity (WorkflowGenerator.w_meta w) <= 10)%Z /\
    WorkflowGenerator.w_active w = false.
Proof.
  intros requirements conversation s s' w H.
  destruct (generate_nodes _ _ _ _ _ H) as (_ & Hlen & Hcount & Hc & _ & Ha).
  repeat split; try assumption; lia.
Qed.

Lemma builder_node_count_witness :
  exists w s',
    WorkflowGenerator.generate no_requirements None ids = Ok (w, s') /\
    2 <= List.length (WorkflowGenerator.w_nodes w) <= 19.
Proof.
  destruct (WorkflowGenerator.generate no_requirements None ids)
    as [[w s'] | e] eqn:E; [| vm_compute in E; discriminate E].
  exists w, s'. split; [reflexivity |].
  exact (proj1 (builder_node_count _ _ _ _ _ E)).
Defined.

(** Both bounds are met: the least requirements give two nodes, the
    requirements that switch every step on give nineteen. *)
Example builder_node_count_bounds_met :
  (exists w s', WorkflowGenerator.generate no_requirements None ids = Ok (w, s')
                /\ List.length (WorkflowGenerator.w_nodes w) = 2) /\
  (exists w s', WorkflowGenerator.generate full_requirements None ids = Ok (w, s')
                /\ List.length (WorkflowGenerator.w_nodes w) = 19).
Proof.
  split; eexists; eexists; (split; [vm_compute; reflexivity | reflexivity]).
Qed.

(** X16.  When [needs_notification] is set, the builder returns only if
    [outputs] lists [slack] or the value of [needs_notification] is a
    string that contains [notification] in some letter case.  With any
    other value (the flag [True], say) and no [slack] among the outputs,
    [generate] raises. *)
Theorem builder_raises_on_unrecognised_notification :
  forall (requirements : dict) (conversation : option string) (s : supply),
    WorkflowGenerator.flag requirements "needs_notification" = true ->
    py_in "slack" (dict_get_default requirements "outputs" (VList []))
    <> Ok true ->
    (forall text,
       dict_get requirements "needs_notification" = Some (VStr text) ->
       contains "notification" (lower text) = false) ->
    exists e, WorkflowGenerator.generate requirements conversation s = Raise e.
Proof.
  intros requirements conversation s Hflag Hslack Htext.
  destruct (WorkflowGenerator.generate requirements conversation s)
    as [[w s'] | e] eqn:H; [exfalso | exists e; reflexivity].
  unfold WorkflowGenerator.generate in H.
  bind_inv_as H complexity Hc.
  bind_inv_as H b2 H2. bind_inv_as H b3 H3. bind_inv_as H b4 H4.
  bind_inv_as H b5 H5. bind_inv_as H b6 H6. bind_inv_as H b7 H7.
  bind_inv_as H b8 H8. bind_inv_as H b9 H9.
  clear - H9 Hflag Hslack Htext.
  unfold WorkflowGenerator.step_notification in H9. rewrite Hflag in H9.
  bind_inv_as H9 created Hcreated.
  destruct created as [[[notif_nodes notif_conns] position] s1].
  bind_inv_as H9 nd0 Hfirst.
  unfold WorkflowGenerator.create_notification_nodes in Hcreated.
  bind_inv_as Hcreated slack Hs.
  destruct slack; [exact (Hslack Hs) |].
  bind_inv_as Hcreated wanted Hwanted.
  bind_inv_as Hwanted l Hl. injection Hwanted as <-.
  unfold WorkflowGenerator.flag, WorkflowGenerator.req, dict_get_default in Hflag.
  unfold dict_get_default in Hl.
  destruct (dict_get requirements "needs_notification") as [v |] eqn:Ev;
    [| discriminate Hflag].
  destruct v as [| b | z | text | l0 | d]; try discriminate Hl.
  cbn [py_lower] in Hl. injection Hl as <-.
  rewrite (Htext text eq_refl) in Hcreated.
  injection Hcreated as <- _ _ _. discriminate Hfirst.
Qed.

Lemma builder_raises_on_unrecognised_notification_witness :
  exists e,
    WorkflowGenerator.generate notify_flag_requirements None ids = Raise e.
Proof.
  apply (builder_raises_on_unrecognised_notification
           notify_flag_requirements None ids).
  - reflexivity.
  - vm_compute. discriminate.
  - intros text E. vm_compute in E. discriminate E.
Defined.

(** A flag is not enough: the run stops with [AttributeError], the
    value [True] having no [lower]. *)
Example notification_flag_raises :
  WorkflowGenerator.generate notify_flag_requirements None ids
  = Raise AttributeError.
Proof. vm_compute. reflexivity. Qed.

(** ** The graph builder: connecting two nodes *)

Lemma assoc_set_same {A : Type} (l : list (string * A)) (k : string) (a : A) :
  assoc (assoc_set l k a) k = Some a.
Proof.
  induction l as [| [k' a'] l IH]; simpl.
  - rewrite String.eqb_refl. reflexivity.
  - destruct (String.eqb k k') eqn:E; simpl; rewrite E; [reflexivity | exact IH].
Qed.

Lemma assoc_set_other {A : Type} (l : list (string * A)) (k k' : string) (a : A) :
  k' <> k -> assoc (assoc_set l k a) k' = assoc l k'.
Proof.
  intros N. induction l as [| [k0 a0] l IH]; simpl.
  - destruct (String.eqb_spec k' k); [contradiction | reflexivity].
  - destruct (String.eqb_spec k k0) as [-> | N0]; simpl.
    + destruct (String.eqb_spec k' k0); [contradiction | reflexivity].
    + destruct (String.eqb k' k0); [reflexivity | exact IH].
Qed.

Lemma update_nth_length {A : Type} (f : A -> A) (l : list A) (i : nat) :
  List.length (WorkflowGenerator.update_nth i f l) = List.length l.
Proof.
  revert i. induction l as [| x l IH]; intros [| i]; simpl;
    try reflexivity. rewrite IH. reflexivity.
Qed.

Lemma update_nth_same {A : Type} (f : A -> A) (l : list A) (i : nat) (d : A) :
  i < List.length l ->
  nth i (WorkflowGenerator.update_nth i f l) d = f (nth i l d).
Proof.
  revert i. induction l as [| x l IH]; intros [| i] H; simpl in *;
    try lia; [reflexivity |].
  apply IH. lia.
Qed.

Lemma update_nth_other {A : Type} (f : A -> A) (l : list A) (i j : nat) (d : A) :
  j <> i -> nth j (WorkflowGenerator.update_nth i f l) d = nth j l d.
Proof.
  revert i j. induction l as [| x l IH]; intros [| i] [| j] H; simpl;
    try reflexivity; try lia.
  apply IH. lia.
Qed.

Lemma pad_outputs_length (l : list (list WorkflowGenerator.conn)) (i : nat) :
  List.length (WorkflowGenerator.pad_outputs l i)
  = Nat.max (List.length l) (S i).
Proof.
  unfold WorkflowGenerator.pad_outputs. rewrite length_app, repeat_length. lia.
Qed.

Lemma pad_outputs_nth (l : list (list WorkflowGenerator.conn)) (i j : nat) :
  nth j (WorkflowGenerator.pad_outputs l i) [] = nth j l [].
Proof.
  unfold WorkflowGenerator.pad_outputs.
  destruct (Nat.lt_ge_cases j (List.length l)) as [L | L].
  - apply app_nth1, L.
  - rewrite app_nth2 by exact L. rewrite (nth_overflow l) by exact L.
    destruct (Nat.lt_ge_cases (j - List.length l)
                (S i - List.length l)) as [L' | L'].
    + apply nth_repeat_lt, L'.
    + apply nth_overflow. rewrite repeat_length. exact L'.
Qed.

(** X17.  [_connect_nodes] and lookup.  When it returns, the entries of
    all other sources are as they were; the entry of the source has a
    [main] list long enough for the output index, in which the list at
    that index is the one that was there followed by the new target,
    and every other list, and every other kind of the entry, is as it
    was.  It raises only for a source whose entry has no [main], and
    then with [KeyError('main')]. *)
Theorem connect_nodes_lookup :
  forall (cs : WorkflowGenerator.connections)
         (from_node to_node : WorkflowGenerator.node) (output_index : nat),
    let source := WorkflowGenerator.name from_node in
    let target :=
      WorkflowGenerator.mk_conn (WorkflowGenerator.name to_node) "main" 0 in
    (forall cs',
       WorkflowGenerator.connect_nodes cs from_node to_node output_index
       = Ok cs' ->
       (forall k, k <> source -> assoc cs' k = assoc cs k) /\
       exists data main,
         assoc cs' source = Some data /\
         assoc data "main" = Some main /\
         List.length main
         = Nat.max (List.length (outputs_of cs source)) (S output_index) /\
         nth output_index main []
         = nth output_index (outputs_of cs source) [] ++ [target] /\
         (forall j, j <> output_index ->
                    nth j main [] = nth j (outputs_of cs source) []) /\
         (forall kind, kind <> "main" ->
                       assoc data kind = other_kinds cs source kind)) /\
    (forall e,
       WorkflowGenerator.connect_nodes cs from_node to_node output_index
       = Raise e <->
       e = KeyError "main" /\
       exists data, assoc cs source = Some data /\ assoc data "main" = None).
Proof.
  intros cs a b i source target.
  unfold WorkflowGenerator.connect_nodes. fold source. cbv zeta.
  unfold assoc_has, outputs_of, other_kinds, assoc_getitem.
  destruct (assoc cs source) as [data0 |] eqn:E0.
  - rewrite E0. cbn [bind].
    destruct (assoc data0 "main") as [main0 |] eqn:Em; cbn [bind].
    + split.
      * intros cs' [= <-]. split.
        -- intros k N. apply assoc_set_other, N.
        -- eexists. eexists. split; [apply assoc_set_same |].
           split; [apply assoc_set_same |].
           split; [rewrite update_nth_length; apply pad_outputs_length |].
           split.
           ++ rewrite update_nth_same
                by (rewrite pad_outputs_length; lia).
              rewrite pad_outputs_nth. reflexivity.
           ++ split.
              ** intros j N. rewrite update_nth_other by exact N.
                 apply pad_outputs_nth.
              ** intros kind N. apply assoc_set_other, N.
      * intros e. split; [discriminate |].
        intros (_ & data & [= <-] & Hd). congruence.
    + split; [discriminate |].
      intros e. split.
      * intros [= <-]. split; [reflexivity |]. exists data0.
        split; [reflexivity | exact Em].
      * intros (-> & _). reflexivity.
  - rewrite assoc_set_same. cbn [assoc String.eqb Ascii.eqb Bool.eqb bind].
    split.
    + intros cs' [= <-]. split.
      * intros k N. rewrite !assoc_set_other by exact N. reflexivity.
      * eexists. eexists. split; [apply assoc_set_same |].
        split; [reflexivity |].
        split; [rewrite update_nth_length; apply pad_outputs_length |].
        split.
        -- rewrite update_nth_same by (rewrite pad_outputs_length; lia).
           rewrite pad_outputs_nth. reflexivity.
        -- split.
           ++ intros j N. rewrite update_nth_other by exact N.
              apply pad_outputs_nth.
           ++ intros kind N. cbn [assoc].
              destruct (String.eqb_spec kind "main");
                [contradiction | reflexivity].
    + intros e. split; [discriminate |].
      intros (_ & data & Hd & _). discriminate Hd.
Qed.

Lemma connect_nodes_lookup_witness :
  exists cs' data main,
    WorkflowGenerator.connect_nodes [] (named "A") (named "B") 1 = Ok cs' /\
    assoc cs' "A" = Some data /\
    assoc data "main" = Some main /\
    nth 1 main [] = [WorkflowGenerator.mk_conn "B" "main" 0].
Proof.
  destruct (WorkflowGenerator.connect_nodes [] (named "A") (named "B") 1)
    as [cs' | e] eqn:E; [| vm_compute in E; discriminate E].
  destruct (proj1 (connect_nodes_lookup [] (named "A") (named "B") 1) cs' E)
    as (_ & data & main & H1 & H2 & _ & H4 & _).
  exists cs', data, main. repeat split; assumption.
Defined.

(** ** The graph builder: the name of the graph *)

Lemma anonymous_bind {A : Type} (m : result A)
  (k k' : A -> result (WorkflowGenerator.workflow * supply)) :
  (forall a, anonymous (k a) = anonymous (k' a)) ->
  anonymous (bind m k) = anonymous (bind m k').
Proof. intros H. destruct m as [a | e]; [exact (H a) | reflexivity]. Qed.

Lemma nameable_name (requirements : dict) :
  nameable requirements = true <->
  exists name,
    WorkflowGenerator.generate_workflow_name requirements None = Ok name.
Proof.
  unfold nameable, WorkflowGenerator.generate_workflow_name.
  destruct (WorkflowGenerator.first_item _) as [action | e]; cbn [bind].
  - destruct (dict_get_default requirements "trigger" (VStr "workflow"))
      as [| b | z | t | l | d];
      try (split; [discriminate | intros (name & H); discriminate H]).
    destruct action as [| b | z | a | l | d];
      try (split; [discriminate | intros (name & H); discriminate H]).
    split; [intros _; eexists; reflexivity | reflexivity].
  - destruct (dict_get_default requirements "trigger" (VStr "workflow"));
      (split; [discriminate | intros (name & H); discriminate H]).
Qed.

(** X18.  The conversation only names the graph.  When [trigger] (or
    its default) is a string and [outputs] (or its default) has a first
    item that is a string, the builder run without a conversation and
    the run with one end alike: the same graph apart from its name and
    the same identifiers drawn, or the same exception.  Otherwise the
    run without a conversation raises, whatever the run with one does;
    so it does for an empty list of outputs, which the action step
    accepts. *)
Theorem conversation_only_names :
  forall (requirements : dict) (request : string) (s : supply),
    (nameable requirements = true ->
     anonymous (WorkflowGenerator.generate requirements None s)
     = anonymous (WorkflowGenerator.generate requirements (Some request) s))
    /\ (nameable requirements = false ->
        exists e, WorkflowGenerator.generate requirements None s = Raise e)
    /\ (dict_get requirements "outputs" = Some (VList []) ->
        nameable requirements = false).
Proof.
  intros requirements request s. split; [| split].
  - intros Hn. apply nameable_name in Hn. destruct Hn as (name & Hn).
    unfold WorkflowGenerator.generate.
    do 10 (apply anonymous_bind; intros ?).
    rewrite Hn. reflexivity.
  - intros Hn.
    destruct (WorkflowGenerator.generate requirements None s)
      as [[w s'] | e] eqn:H; [exfalso | exists e; reflexivity].
    unfold WorkflowGenerator.generate in H.
    bind_inv_as H complexity Hc.
    bind_inv_as H b2 H2. bind_inv_as H b3 H3. bind_inv_as H b4 H4.
    bind_inv_as H b5 H5. bind_inv_as H b6 H6. bind_inv_as H b7 H7.
    bind_inv_as H b8 H8. bind_inv_as H b9 H9. bind_inv_as H b10 H10.
    bind_inv_as H workflow_name Hname.
    assert (Ht : nameable requirements = true)
      by (apply nameable_name; exists workflow_name; exact Hname).
    congruence.
  - intros Ho. unfold nameable, dict_get_default. rewrite Ho.
    destruct (dict_get requirements "trigger") as [v |]; [destruct v |];
      reflexivity.
Qed.

Lemma conversation_only_names_witness :
  nameable two_output_requirements = true
  /\ anonymous (WorkflowGenerator.generate two_output_requirements None ids)
     = anonymous (WorkflowGenerator.generate two_output_requirements
                    (Some "post every new order to the sales channel") ids)
  /\ nameable no_output_requirements = false
  /\ exists e,
       WorkflowGenerator.generate no_output_requirements None ids = Raise e.
Proof.
  split; [reflexivity |]. split.
  - apply (proj1 (conversation_only_names two_output_requirements
                    "post every new order to the sales channel" ids)).
    reflexivity.
  - split; [reflexivity |].
    apply (proj1 (proj2 (conversation_only_names no_output_requirements
                           "" ids))).
    reflexivity.
Defined.

(** The same empty list of outputs: refused without a conversation,
    accepted with one. *)
Example empty_outputs_need_a_conversation :
  WorkflowGenerator.generate no_output_requirements None ids = Raise IndexError
  /\ exists w s',
       WorkflowGenerator.generate no_output_requirements
         (Some "send a weekly report to the team by email") ids = Ok (w, s').
Proof.
  split; [vm_compute; reflexivity |].
  eexists. eexists. vm_compute. reflexivity.
Qed.

(** ** The refinement loop: the prompts it sends *)

Lemma prefix_append (p x : string) : String.prefix p (p +++ x) = true.
Proof.
  induction p as [| c p IH]; simpl.
  - destruct x; reflexivity.
  - destruct (ascii_dec c c) as [_ | N]; [exact IH | contradiction].
Qed.

Lemma startswith_refl (p : string) : startswith p p = true.
Proof.
  unfold startswith. induction p as [| c p IH]; simpl; [reflexivity |].
  destruct (ascii_dec c c) as [_ | N]; [exact IH | contradiction].
Qed.

Lemma append_assoc (a b c : string) : (a +++ b) +++ c = a +++ (b +++ c).
Proof. induction a as [| x a IH]; simpl; [reflexivity | rewrite IH; reflexivity]. Qed.

Lemma update_prompt_extends (prompt : string) (feedback : list string) :
  startswith (EnhancedWorkflowGenerator.update_prompt_with_feedback prompt feedback)
             prompt = true.
Proof.
  unfold EnhancedWorkflowGenerator.update_prompt_with_feedback, startswith.
  cbv zeta.
  rewrite ?append_assoc. apply prefix_append.
Qed.

Section LoopPrompts.

Variable generate_workflow : nat -> string -> option dict.
Variable complexity : string.

Lemma attempts_prompts :
  forall remaining attempt prompt best_workflow best_score s log o log',
    EnhancedWorkflowGenerator.attempts generate_workflow complexity
      remaining attempt prompt best_workflow best_score s log = Ok (o, log') ->
    exists ext,
      log' = log ++ ext /\
      each_extends prompt (prompts ext) /\
      ((remaining = 0 /\ ext = []) \/ hd_error (prompts ext) = Some prompt).
Proof.
  induction remaining as [| remaining IH];
    intros attempt prompt bw bs s log o log' H.
  - cbn [EnhancedWorkflowGenerator.attempts] in H. injection H as <- <-.
    exists []. rewrite app_nil_r. split; [reflexivity |].
    split; [exact I | left; split; reflexivity].
  - cbn [EnhancedWorkflowGenerator.attempts] in H.
    assert (Hnext :
              forall prompt' bw' bs' s1 log1,
                startswith prompt' prompt = true ->
                prompts log1 = [] ->
                EnhancedWorkflowGenerator.attempts generate_workflow complexity
                  remaining (S attempt) prompt' bw' bs' s1
                  ((log ++ [EnhancedWorkflowGenerator.Requested prompt]) ++ log1)
                = Ok (o, log') ->
                exists ext,
                  log' = log ++ ext /\
                  each_extends prompt (prompts ext) /\
                  ((S remaining = 0 /\ ext = [])
                   \/ hd_error (prompts ext) = Some prompt)).
    { intros prompt' bw' bs' s1 log1 Hp Hl1 H'. apply IH in H'.
      destruct H' as (ext & -> & Hchain & Hhd).
      exists (EnhancedWorkflowGenerator.Requested prompt :: log1 ++ ext).
      split; [rewrite <- !app_assoc; reflexivity |].
      change (prompts (EnhancedWorkflowGenerator.Requested prompt :: log1 ++ ext))
        with (prompt :: prompts (log1 ++ ext)).
      unfold prompts at 1 2. rewrite flat_map_app. fold (prompts log1).
      fold (prompts ext). rewrite Hl1. cbn [app].
      split; [| right; reflexivity].
      split; [apply startswith_refl |].
      destruct Hhd as [(_ & ->) | Hhd]; [exact I |].
      destruct (prompts ext) as [| q tl]; [exact I |].
      injection Hhd as ->. destruct Hchain as (_ & Hchain).
      split; [exact Hp | exact Hchain]. }
    pose proof (Hnext prompt bw bs s [] (startswith_refl prompt) eq_refl) as Hskip.
    rewrite app_nil_r in Hskip.
    destruct (generate_workflow attempt prompt) as [raw |]; [| exact (Hskip H)].
    destruct (negb (truthy (VDict raw))); [exact (Hskip H) |]. clear Hskip.
    bind_inv_as H refined Hrefine. destruct refined as [refined s'].
    bind_inv_as H q Hq. cbv zeta in H.
    destruct (QualityValidator.vr_valid q
              && Z.leb Config.min_quality_score (QualityValidator.vr_score q)).
    + injection H as <- <-.
      exists [ EnhancedWorkflowGenerator.Requested prompt;
               EnhancedWorkflowGenerator.Refined;
               EnhancedWorkflowGenerator.Scored (QualityValidator.vr_score q) ].
      split; [rewrite <- app_assoc; reflexivity |].
      split; [split; [apply startswith_refl | exact I] | right; reflexivity].
    + bind_inv_as H prompt' Hprompt.
      eapply (Hnext prompt' _ _ _
                [EnhancedWorkflowGenerator.Refined;
                 EnhancedWorkflowGenerator.Scored (QualityValidator.vr_score q)]);
        [| reflexivity | exact H].
      destruct (Nat.ltb attempt (EnhancedWorkflowGenerator.max_attempts - 1)).
      * bind_inv_as Hprompt fb Hfb. injection Hprompt as <-.
        apply update_prompt_extends.
      * injection Hprompt as <-. apply startswith_refl.
Qed.

End LoopPrompts.

(** X19.  Feedback accumulates.  In a run of [generate] that returns,
    the first request carries the prompt it was given, and the prompt
    of every later request begins with the prompt of the request before
    it: what was asked is never dropped or rewritten, only added to. *)
Theorem generate_prompts_accumulate :
  forall (generate_workflow : nat -> string -> option dict)
         (complexity prompt : string) (s : supply)
         (o : EnhancedWorkflowGenerator.outcome)
         (log : list EnhancedWorkflowGenerator.event),
    EnhancedWorkflowGenerator.generate generate_workflow complexity prompt s
    = Ok (o, log) ->
    hd_error (prompts log) = Some prompt /\
    each_extends prompt (prompts log).
Proof.
  intros gw complexity prompt s o log H.
  unfold EnhancedWorkflowGenerator.generate in H.
  apply attempts_prompts in H. destruct H as (ext & -> & Hchain & Hhd).
  change ([] ++ ext) with ext. split; [| exact Hchain].
  destruct Hhd as [(E & _) | Hhd]; [discriminate E | exact Hhd].
Qed.

Lemma generate_prompts_accumulate_witness :
  exists o log,
    EnhancedWorkflowGenerator.generate (constant_collaborator documented_workflow)
      "simple" "prompt" ids = Ok (o, log) /\
    List.length (prompts log) = 3 /\
    each_extends "prompt" (prompts log).
Proof.
  destruct (EnhancedWorkflowGenerator.generate
              (constant_collaborator documented_workflow) "simple" "prompt" ids)
    as [[o log] | e] eqn:E; [| vm_compute in E; discriminate E].
  exists o, log. split; [reflexivity |].
  split; [| exact (proj2 (generate_prompts_accumulate _ _ _ _ _ _ E))].
  vm_compute in E. injection E as _ <-. reflexivity.
Defined.

(** ** The structural validator: warnings *)

Lemma filter_nil {A : Type} (f : A -> bool) (l : list A) :
  filter f l = [] <-> forall x, In x l -> f x = false.
Proof.
  induction l as [| a l IH]; simpl.
  - split; [intros _ x [] | reflexivity].
  - destruct (f a) eqn:E; split.
    + discriminate.
    + intros H. rewrite (H a (or_introl eq_refl)) in E. discriminate E.
    + intros H x [<- | Hx]; [exact E | apply IH; assumption].
    + intros H. apply IH. intros x Hx. apply H. right. exact Hx.
Qed.

Lemma generate_warnings_value (w : ValidationService.WorkflowJSON) :
  ValidationService.generate_warnings w
  = Ok ((if NodeSchemas.nonempty
              (filter (fun n => negb (ValidationService.name_in (linked_names w) n))
                      (node_names w))
         then ["Disconnected nodes found: "
                 +++ join ", "
                       (filter (fun n =>
                                  negb (ValidationService.name_in (linked_names w) n))
                               (node_names w))
                 +++ ". " +++ "These nodes will not execute."]
         else [])
        ++ (if String.eqb (ValidationService.wf_name w) ""
               || String.eqb (ValidationService.wf_name w) "My Workflow"
            then ["Consider giving the workflow a more descriptive name"]
            else [])).
Proof.
  unfold ValidationService.generate_warnings.
  rewrite (foldM_app_findings
             (fun item =>
                fst item
                :: match assoc (snd item) "main" with
                   | Some groups =>
                       flat_map (fun g => map ValidationService.wc_node g) groups
                   | None => []
                   end)).
  - cbn [bind app]. fold (linked_names w). fold (node_names w).
    destruct (_ || _); [reflexivity | rewrite app_nil_r; reflexivity].
  - intros acc [source outputs]. cbv beta zeta.
    unfold ValidationService.has_key, ValidationService.getitem_outputs.
    cbn [fst snd].
    destruct (assoc outputs "main") as [groups |]; cbn [bind];
      rewrite <- ?app_assoc; reflexivity.
Qed.

(** X20.  [validate_workflow] returns without a warning exactly when
    some node has one of the four trigger types it knows, every node is
    linked (its name is a connection source or a target listed under
    [main]), and the workflow name is neither empty nor [My Workflow]. *)
Theorem no_warning_iff :
  forall (w : ValidationService.WorkflowJSON)
         (r : ValidationService.ValidationResult),
    ValidationService.validate_workflow w = Ok r ->
    (ValidationService.warnings r = []
     <->
     (exists n, In n (ValidationService.wf_nodes w)
                /\ In (ValidationService.wn_type n)
                      ValidationService.TRIGGER_NODE_TYPES)
     /\ (forall n, In n (ValidationService.wf_nodes w) ->
                   In (ValidationService.wn_name n) (linked_names w))
     /\ ValidationService.wf_name w <> ""
     /\ ValidationService.wf_name w <> "My Workflow").
Proof.
  intros w r H. unfold ValidationService.validate_workflow in H.
  bind_inv_as H e1 H1. bind_inv_as H e2 H2. bind_inv_as H e3 H3.
  bind_inv_as H w2 H4. injection H as <-.
  cbn [ValidationService.warnings].
  rewrite generate_warnings_value in H4. injection H4 as <-.
  unfold ValidationService.validate_trigger.
  split.
  - intros E. apply app_eq_nil in E. destruct E as (Et & E).
    apply app_eq_nil in E. destruct E as (Ed & En).
    split; [| split].
    + destruct (existsb _ (ValidationService.wf_nodes w)) eqn:Ex;
        [| discriminate Et].
      apply existsb_exists in Ex. destruct Ex as (n & Hn & Hty).
      exists n. split; [exact Hn | apply name_in_In, Hty].
    + intros n Hn.
      destruct (filter _ (node_names w)) as [| x l] eqn:Ef; [| discriminate Ed].
      rewrite filter_nil in Ef.
      specialize (Ef (ValidationService.wn_name n)
                     (in_map ValidationService.wn_name _ _ Hn)).
      apply negb_false_iff in Ef. apply name_in_In, Ef.
    + destruct (String.eqb_spec (ValidationService.wf_name w) "") as [E0 | N0];
        [discriminate En |].
      destruct (String.eqb_spec (ValidationService.wf_name w) "My Workflow")
        as [E1 | N1]; [discriminate En |].
      split; assumption.
  - intros ((n & Hn & Hty) & Hlinked & N0 & N1).
    assert (Ex : existsb (fun node =>
                            ValidationService.name_in
                              ValidationService.TRIGGER_NODE_TYPES
                              (ValidationService.wn_type node))
                         (ValidationService.wf_nodes w) = true).
    { apply existsb_exists. exists n. split; [exact Hn |].
      apply name_in_In, Hty. }
    rewrite Ex. cbn [negb app].
    assert (Ef : filter (fun n => negb (ValidationService.name_in (linked_names w) n))
                        (node_names w) = []).
    { apply filter_nil. intros x Hx. unfold node_names in Hx.
      apply in_map_iff in Hx. destruct Hx as (m & <- & Hm).
      apply negb_false_iff, name_in_In, Hlinked, Hm. }
    rewrite Ef. cbn [NodeSchemas.nonempty app].
    destruct (String.eqb_spec (ValidationService.wf_name w) "");
      [contradiction |].
    destruct (String.eqb_spec (ValidationService.wf_name w) "My Workflow");
      [contradiction | reflexivity].
Qed.

Lemma no_warning_iff_witness :
  exists r, ValidationService.validate_workflow two_node_workflow = Ok r
            /\ ValidationService.warnings r = [].
Proof.
  destruct (ValidationService.validate_workflow two_node_workflow)
    as [r | e] eqn:E; [| vm_compute in E; discriminate E].
  exists r. split; [reflexivity |].
  apply (proj2 (no_warning_iff two_node_workflow r E)).
  split; [| split; [| split; discriminate]].
  - eexists. split; [left; reflexivity | left; reflexivity].
  - intros n [<- | [<- | []]]; [left; reflexivity | right; left; reflexivity].
Defined.

(** ** The structural validator: every defect is reported *)

Lemma unique_names_loop_In (nodes : list ValidationService.WorkflowNode) :
  forall (seen : list string) (e : ValidationService.ValidationError),
    In e (ValidationService.unique_names_loop seen nodes) <->
    exists before n after,
      nodes = before ++ n :: after
      /\ In (ValidationService.wn_name n)
            (seen ++ map ValidationService.wn_name before)
      /\ e = duplicate_error n.
Proof.
  induction nodes as [| node tl IH]; intros seen e;
    cbn [ValidationService.unique_names_loop].
  - split; [intros [] |]. intros (before & n & after & E & _).
    destruct before; discriminate E.
  - rewrite in_app_iff, IH. split.
    + intros [H | (before & n & after & -> & Hin & ->)].
      * destruct (ValidationService.name_in seen (ValidationService.wn_name node))
          eqn:Eseen; [| destruct H].
        destruct H as [<- | []]. exists [], node, tl.
        split; [reflexivity |]. split; [| reflexivity].
        rewrite app_nil_r. apply name_in_In, Eseen.
      * exists (node :: before), n, after. split; [reflexivity |].
        split; [| reflexivity]. cbn [map]. cbn [app] in Hin.
        apply in_or_app. destruct Hin as [Hin | Hin].
        -- right. left. exact Hin.
        -- apply in_app_or in Hin. destruct Hin as [Hin | Hin];
             [left; exact Hin | right; right; exact Hin].
    + intros (before & n & after & E & Hin & ->).
      destruct before as [| b before]; cbn [app] in E; injection E as -> ->.
      * left. cbn [map] in Hin. rewrite app_nil_r in Hin.
        rewrite (proj2 (name_in_In _ _) Hin). left. reflexivity.
      * right. exists before, n, after. split; [reflexivity |].
        split; [| reflexivity]. cbn [map] in Hin. cbn [app].
        apply in_app_or in Hin. destruct Hin as [Hin | [Hin | Hin]].
        -- right. apply in_or_app. left. exact Hin.
        -- left. exact Hin.
        -- right. apply in_or_app. right. exact Hin.
Qed.

Lemma connection_findings_In (names : list string)
  (item : string * ValidationService.conn_data)
  (e : ValidationService.ValidationError) :
  In e (connection_findings names item) <->
  (~ In (fst item) names /\ e = source_error (fst item))
  \/ (In (fst item) names
      /\ exists groups group c,
           assoc (snd item) "main" = Some groups
           /\ In group groups /\ In c group
           /\ ~ In (ValidationService.wc_node c) names
           /\ e = target_error (fst item) c).
Proof.
  unfold connection_findings.
  destruct (ValidationService.name_in names (fst item)) eqn:Esrc; cbn [negb].
  - apply name_in_In in Esrc.
    destruct (assoc (snd item) "main") as [groups |].
    + rewrite in_flat_map. split.
      * intros (group & Hg & He). apply in_flat_map in He.
        destruct He as (c & Hc & He).
        destruct (ValidationService.name_in names (ValidationService.wc_node c))
          eqn:Et; cbn [negb] in He; [destruct He |].
        destruct He as [<- | []]. right. split; [exact Esrc |].
        exists groups, group, c. split; [reflexivity |].
        split; [exact Hg |]. split; [exact Hc |].
        split; [apply name_in_false, Et | reflexivity].
      * intros [(N & _) | (_ & groups' & group & c & [= <-] & Hg & Hc & Ht & ->)];
          [contradiction |].
        exists group. split; [exact Hg |]. apply in_flat_map.
        exists c. split; [exact Hc |].
        rewrite (proj2 (name_in_false _ _) Ht). left. reflexivity.
    + split; [intros [] |].
      intros [(N & _) | (_ & groups & group & c & E & _)];
        [contradiction | discriminate E].
  - apply name_in_false in Esrc. split.
    + intros [<- | []]. left. split; [exact Esrc | reflexivity].
    + intros [(_ & ->) | (Hin & _)]; [left; reflexivity | contradiction].
Qed.

(** C9.  [validate_workflow] never raises: for every workflow it returns
    a result, valid exactly when its list of errors is empty.  What is
    absent or malformed is reported in that result and nothing else is:
    the errors are exactly the findings of the workflow (no node, a
    position that is not a pair, a type tag outside the prefix, a
    connection source or a target under [main] that is no node, a
    repeated name), and the warnings are exactly those for a missing
    trigger, for nodes no connection links and for a missing name. *)
Theorem validate_workflow_never_raises :
  forall w : ValidationService.WorkflowJSON,
    exists r,
      ValidationService.validate_workflow w = Ok r /\
      ValidationService.isValid r
      = Nat.eqb (List.length (ValidationService.errors r)) 0 /\
      (forall e, In e (ValidationService.errors r) <-> finding w e) /\
      (forall m, In m (ValidationService.warnings r) <-> warning w m).
Proof.
  intros w. unfold ValidationService.validate_workflow.
  rewrite validate_structure_findings, validate_nodes_findings,
    validate_connections_findings, generate_warnings_value.
  cbn [bind]. eexists. split; [reflexivity |]. split; [reflexivity |].
  cbn [ValidationService.errors ValidationService.warnings]. split.
  - intros e. rewrite !in_app_iff. split.
    + intros [H | [H | [H | H]]].
      * destruct (ValidationService.wf_nodes w) eqn:En; [| destruct H].
        destruct H as [<- | []]. apply no_nodes, En.
      * apply in_flat_map in H. destruct H as (n & Hn & H).
        apply in_app_or in H. destruct H as [H | H].
        -- destruct (Nat.eqb_spec (List.length (ValidationService.wn_position n)) 2)
             as [E | N]; [destruct H |].
           destruct H as [<- | []]. apply bad_position; assumption.
        -- destruct (startswith (ValidationService.wn_type n) "n8n-nodes-base.")
             eqn:Et; [destruct H |].
           destruct H as [<- | []]. apply bad_type; assumption.
      * apply in_flat_map in H. destruct H as ([source outputs] & Hi & H).
        apply connection_findings_In in H. cbn [fst snd] in H.
        destruct H as [(N & ->) | (Hs & groups & group & c & Hm & Hg & Hc & Ht & ->)].
        -- eapply unknown_source; eassumption.
        -- eapply unknown_target; eassumption.
      * unfold ValidationService.validate_unique_names in H.
        apply unique_names_loop_In in H.
        destruct H as (before & n & after & E & Hin & ->).
        eapply duplicate_name; eassumption.
    + intros F. destruct F as [En | n Hn Hp | n Hn Ht | source outputs Hi Hs
                               | source outputs groups group c Hi Hs Hm Hg Hc Ht
                               | before n after E Hin].
      * left. rewrite En. left. reflexivity.
      * right. left. apply in_flat_map. exists n. split; [exact Hn |].
        apply in_or_app. left.
        destruct (Nat.eqb_spec (List.length (ValidationService.wn_position n)) 2);
          [contradiction | left; reflexivity].
      * right. left. apply in_flat_map. exists n. split; [exact Hn |].
        apply in_or_app. right. rewrite Ht. left. reflexivity.
      * right. right. left. apply in_flat_map. exists (source, outputs).
        split; [exact Hi |]. apply connection_findings_In. left.
        split; [exact Hs | reflexivity].
      * right. right. left. apply in_flat_map. exists (source, outputs).
        split; [exact Hi |]. apply connection_findings_In. right.
        split; [exact Hs |]. exists groups, group, c. repeat split; assumption.
      * right. right. right. unfold ValidationService.validate_unique_names.
        apply unique_names_loop_In. exists before, n, after.
        split; [exact E |]. split; [exact Hin | reflexivity].
  - intros m. unfold ValidationService.validate_trigger.
    fold (unlinked w). rewrite !in_app_iff. split.
    + intros [H | [H | H]].
      * destruct (existsb _ (ValidationService.wf_nodes w)) eqn:Ex;
          cbn [negb] in H; [destruct H |].
        destruct H as [<- | []]. apply no_trigger. intros n Hn Hty.
        assert (Ht : existsb (fun node =>
                                ValidationService.name_in
                                  ValidationService.TRIGGER_NODE_TYPES
                                  (ValidationService.wn_type node))
                             (ValidationService.wf_nodes w) = true).
        { apply existsb_exists. exists n. split; [exact Hn |].
          apply name_in_In, Hty. }
        congruence.
      * destruct (unlinked w) as [| x l] eqn:Eu; [destruct H |].
        cbn [NodeSchemas.nonempty] in H. destruct H as [<- | []].
        assert (Hx : In x (unlinked w)) by (rewrite Eu; left; reflexivity).
        unfold unlinked in Hx. apply filter_In in Hx. destruct Hx as (Hx & Hl).
        unfold node_names in Hx. apply in_map_iff in Hx.
        destruct Hx as (n & <- & Hn).
        replace ("Disconnected nodes found: "
                   +++ join ", " (ValidationService.wn_name n :: l) +++ ". "
                   +++ "These nodes will not execute.")
          with (disconnected_warning w)
          by (unfold disconnected_warning; rewrite Eu; reflexivity).
        apply (disconnected w n Hn). apply name_in_false.
        apply negb_true_iff, Hl.
      * destruct (String.eqb_spec (ValidationService.wf_name w) "") as [E0 | N0].
        -- destruct H as [<- | []]. apply unnamed_workflow. left. exact E0.
        -- destruct (String.eqb_spec (ValidationService.wf_name w) "My Workflow")
             as [E1 | N1]; [| destruct H].
           destruct H as [<- | []]. apply unnamed_workflow. right. exact E1.
    + intros W. destruct W as [Hnone | n Hn Hl | Hname].
      * left.
        destruct (existsb _ (ValidationService.wf_nodes w)) eqn:Ex;
          cbn [negb]; [| left; reflexivity].
        apply existsb_exists in Ex. destruct Ex as (n & Hn & Hty).
        exfalso. apply (Hnone n Hn). apply name_in_In, Hty.
      * right. left.
        assert (Hx : In (ValidationService.wn_name n) (unlinked w)).
        { unfold unlinked. apply filter_In. split.
          - unfold node_names. apply in_map, Hn.
          - apply negb_true_iff, name_in_false, Hl. }
        destruct (unlinked w) as [| x l] eqn:Eu; [destruct Hx |].
        cbn [NodeSchemas.nonempty]. left.
        unfold disconnected_warning. rewrite Eu. reflexivity.
      * right. right.
        destruct Hname as [-> | ->]; left; reflexivity.
Qed.

(** The defects of one workflow, each reported. *)
Example defects_are_reported :
  exists r,
    ValidationService.validate_workflow defective_workflow = Ok r /\
    ValidationService.isValid r = false /\
    ValidationService.errors r
    = [ position_error (ValidationService.mk_node "1" "A" "custom.thing" 1
                          [240%Z] [] None);
        type_format_error (ValidationService.mk_node "1" "A" "custom.thing" 1
                             [240%Z] [] None);
        source_error "Ghost";
        target_error "A" (ValidationService.mk_connection "Nowhere" "main" 0);
        duplicate_error (ValidationService.mk_node "2" "A" "n8n-nodes-base.set"
                           1 [460%Z; 300%Z] [] None) ] /\
    ValidationService.warnings r = [trigger_warning; name_warning].
Proof. eexists. repeat split; vm_compute; reflexivity. Qed.

(** ** The graph builder: merging connections *)

Lemma assoc_not_in {A : Type} (l : list (string * A)) (k : string) :
  ~ In k (keys l) -> assoc l k = None.
Proof.
  induction l as [| [k' a] l IH]; simpl; [reflexivity |].
  intros H. destruct (String.eqb_spec k k') as [-> | N].
  - exfalso. apply H. left. reflexivity.
  - apply IH. intros Hin. apply H. right. exact Hin.
Qed.

(** The loop shared by the two outer levels of [_merge_connections]. *)
Lemma merge_fold_lookup {A : Type} (combine : A -> A -> A)
  (source : list (string * A)) :
  NoDup (keys source) ->
  forall (target : list (string * A)) (k : string),
    assoc (fold_left (fun t item =>
                        match assoc t (fst item) with
                        | None => assoc_set t (fst item) (snd item)
                        | Some d => assoc_set t (fst item) (combine d (snd item))
                        end) source target) k
    = merged combine (assoc target k) (assoc source k).
Proof.
  induction source as [| [k0 a0] source IH]; intros Hnd target k;
    cbn [fold_left fst snd].
  - cbn [assoc]. unfold merged. destruct (assoc target k); reflexivity.
  - cbn [keys map fst] in Hnd. inversion Hnd as [| x l Hk0 Hnd']; subst.
    rewrite (IH Hnd'). cbn [assoc].
    destruct (String.eqb_spec k k0) as [-> | N].
    + rewrite (assoc_not_in source k0 Hk0).
      destruct (assoc target k0) as [d |]; rewrite assoc_set_same; reflexivity.
    + destruct (assoc target k0) as [d |];
        rewrite assoc_set_other by exact N; reflexivity.
Qed.

Lemma merge_lists_nth (conn_list : list (list WorkflowGenerator.conn)) :
  forall (target : list (list WorkflowGenerator.conn)) (i : nat),
    i <= List.length target ->
    List.length (WorkflowGenerator.merge_lists target i conn_list)
    = Nat.max (List.length target) (i + List.length conn_list)
    /\ forall j,
         nth j (WorkflowGenerator.merge_lists target i conn_list) []
         = nth j target []
           ++ (if Nat.leb i j then nth (j - i) conn_list [] else []).
Proof.
  induction conn_list as [| c tl IH]; intros target i Hi;
    cbn [WorkflowGenerator.merge_lists].
  - split; [cbn [List.length]; lia |]. intros j.
    destruct (Nat.leb i j); [destruct (j - i) |]; rewrite app_nil_r; reflexivity.
  - cbv zeta. destruct (Nat.leb_spec (List.length target) i) as [L | L].
    + destruct (IH (target ++ [c]) (S i)) as (Hlen & Hnth);
        [rewrite length_app; cbn [List.length]; lia |].
      split; [rewrite Hlen, length_app; cbn [List.length]; lia |].
      intros j. rewrite Hnth.
      destruct (Nat.leb_spec (S i) j) as [Lj | Lj].
      * rewrite app_nth2 by lia.
        replace (j - List.length target) with (S (j - S i)) by lia.
        cbn [nth]. rewrite (nth_overflow target) by lia.
        destruct (Nat.leb_spec i j) as [_ | F]; [| lia].
        replace (j - i) with (S (j - S i)) by lia.
        destruct (j - S i); reflexivity.
      * rewrite app_nil_r. destruct (Nat.leb_spec i j) as [Lj' | Lj'].
        -- assert (j = i) by lia. subst j.
           rewrite app_nth2 by lia.
           replace (i - List.length target) with 0 by lia.
           rewrite Nat.sub_diag. cbn [nth].
           rewrite (nth_overflow target) by lia. reflexivity.
        -- rewrite app_nth1 by lia. rewrite app_nil_r. reflexivity.
    + destruct (IH (WorkflowGenerator.update_nth i (fun l => l ++ c) target) (S i))
        as (Hlen & Hnth); [rewrite update_nth_length; lia |].
      split; [rewrite Hlen, update_nth_length; cbn [List.length]; lia |].
      intros j. rewrite Hnth.
      destruct (Nat.leb_spec (S i) j) as [Lj | Lj].
      * rewrite update_nth_other by lia.
        destruct (Nat.leb_spec i j) as [_ | F]; [| lia].
        replace (j - i) with (S (j - S i)) by lia. reflexivity.
      * rewrite app_nil_r. destruct (Nat.leb_spec i j) as [Lj' | Lj'].
        -- assert (j = i) by lia. subst j.
           rewrite update_nth_same by exact L.
           rewrite Nat.sub_diag. reflexivity.
        -- rewrite update_nth_other by lia. rewrite app_nil_r. reflexivity.
Qed.

(** X21.  [_merge_connections] is a merge by source, by connection kind
    and by output index.  A source of one side keeps its entry and a
    source of both sides gets the two entries merged; within an entry
    the same holds of the kinds; and two lists of outputs are merged
    index by index, the targets of the merged-in side after those
    already there.  (The keys of a dictionary are distinct.) *)
Theorem merge_connections_lookup :
  (forall (target source : WorkflowGenerator.connections) (k : string),
     NoDup (keys source) ->
     assoc (WorkflowGenerator.merge_connections target source) k
     = merged WorkflowGenerator.merge_data (assoc target k) (assoc source k))
  /\
  (forall (target source : WorkflowGenerator.conn_data) (kind : string),
     NoDup (keys source) ->
     assoc (WorkflowGenerator.merge_data target source) kind
     = merged (fun l l' => WorkflowGenerator.merge_lists l 0 l')
              (assoc target kind) (assoc source kind))
  /\
  (forall (target source : list (list WorkflowGenerator.conn)),
     List.length (WorkflowGenerator.merge_lists target 0 source)
     = Nat.max (List.length target) (List.length source)
     /\ forall i,
          nth i (WorkflowGenerator.merge_lists target 0 source) []
          = nth i target [] ++ nth i source []).
Proof.
  split; [| split].
  - intros target source k Hnd. unfold WorkflowGenerator.merge_connections.
    apply merge_fold_lookup, Hnd.
  - intros target source kind Hnd. unfold WorkflowGenerator.merge_data.
    apply (merge_fold_lookup
             (fun l l' => WorkflowGenerator.merge_lists l 0 l')), Hnd.
  - intros target source.
    destruct (merge_lists_nth source target 0 (Nat.le_0_l _)) as (Hlen & Hnth).
    split; [exact Hlen |]. intros i. rewrite Hnth, Nat.sub_0_r. reflexivity.
Qed.

Lemma merge_connections_lookup_witness :
  assoc (WorkflowGenerator.merge_connections
           [("A", [("main", [[WorkflowGenerator.mk_conn "B" "main" 0]])])]
           [("A", [("main", [[WorkflowGenerator.mk_conn "C" "main" 0]])])]) "A"
  = Some [("main", [[ WorkflowGenerator.mk_conn "B" "main" 0;
                      WorkflowGenerator.mk_conn "C" "main" 0 ]])].
Proof.
  rewrite (proj1 merge_connections_lookup).
  - reflexivity.
  - apply nodupb_sound. reflexivity.
Defined.

(** ** The graph builder: the identifiers of the nodes *)

Lemma draws_none (b : WorkflowGenerator.build) : draws 0 b b.
Proof.
  exists []. rewrite app_nil_r. split; [reflexivity |].
  split; [reflexivity | intros n; reflexivity].
Qed.

Ltac drawing m :=
  exists m; eexists; split;
  [reflexivity | split; [reflexivity | intros n; reflexivity]].

Lemma step_trigger_drawn (requirements : dict) (s : supply) :
  exists k, drawn s k (WorkflowGenerator.step_trigger requirements s).
Proof.
  unfold WorkflowGenerator.step_trigger, WorkflowGenerator.create_trigger_node.
  cbn [uuid4].
  destruct (eq_str _ "webhook"); [exists 2 | exists 1];
    [| destruct (eq_str _ "schedule"); [| destruct (eq_str _ "email")]];
    cbn [uuid4]; (split; [intros n; reflexivity |]); exists [0];
    (split; [reflexivity |]);
    (split; [repeat constructor; intros [] |]);
    intros j [<- | []]; lia.
Qed.

Section StepIds.

Variable requirements : dict.
Variables (b b' : WorkflowGenerator.build).

Lemma step_auth_draws :
  WorkflowGenerator.step_auth requirements b = Ok b' -> exists m, draws m b b'.
Proof.
  unfold WorkflowGenerator.step_auth.
  destruct (WorkflowGenerator.flag requirements "needs_auth");
    [| intros [= <-]; exists 0; apply draws_none].
  unfold WorkflowGenerator.create_auth_node. cbn [uuid4]. intros H.
  bind_inv_as H cs Hcs. injection H as <-. drawing 1.
Qed.

Lemma step_validation_draws :
  WorkflowGenerator.step_validation requirements b = Ok b' ->
  exists m, draws m b b'.
Proof.
  unfold WorkflowGenerator.step_validation.
  destruct (WorkflowGenerator.flag requirements "needs_validation");
    [| intros [= <-]; exists 0; apply draws_none].
  unfold WorkflowGenerator.create_validation_flow. run_canned.
  intros H. bind_inv_as H cs Hcs. injection H as <-. drawing 3.
Qed.

Lemma step_duplicate_check_draws :
  WorkflowGenerator.step_duplicate_check requirements b = Ok b' ->
  exists m, draws m b b'.
Proof.
  unfold WorkflowGenerator.step_duplicate_check.
  destruct (WorkflowGenerator.flag requirements "needs_duplicate_check");
    [| intros [= <-]; exists 0; apply draws_none].
  unfold WorkflowGenerator.create_duplicate_check_flow. cbn [uuid4].
  destruct (WorkflowGenerator.database_of requirements) as [[database titled] | e];
    [| discriminate].
  run_canned.
  intros H. bind_inv_as H cs Hcs. injection H as <-. drawing 2.
Qed.

Lemma step_scoring_draws :
  WorkflowGenerator.step_scoring requirements b = Ok b' ->
  exists m, draws m b b'.
Proof.
  unfold WorkflowGenerator.step_scoring.
  destruct (WorkflowGenerator.flag requirements "needs_scoring");
    [| intros [= <-]; exists 0; apply draws_none].
  unfold WorkflowGenerator.create_scoring_node. cbn [uuid4]. intros H.
  bind_inv_as H cs Hcs. injection H as <-. drawing 1.
Qed.

Lemma step_branching_draws (complexity : Z) :
  WorkflowGenerator.step_branching requirements complexity b = Ok b' ->
  exists m, draws m b b'.
Proof.
  unfold WorkflowGenerator.step_branching.
  destruct (WorkflowGenerator.flag requirements "has_branching"
            || Z.ltb 6 complexity);
    [| intros [= <-]; exists 0; apply draws_none].
  unfold WorkflowGenerator.create_branching_flow. run_canned.
  intros H. bind_inv_as H cs Hcs. injection H as <-. drawing 5.
Qed.

Lemma step_action_draws :
  WorkflowGenerator.step_action requirements b = Ok b' ->
  exists m, draws m b b'.
Proof.
  unfold WorkflowGenerator.step_action. intros H.
  bind_inv_as H created Hcreated.
  destruct created as [[[action_node action_conns] position] s1].
  bind_inv_as H cs Hcs. injection H as <-.
  unfold WorkflowGenerator.create_action_nodes in Hcreated.
  bind_inv_as Hcreated primary Hprimary. cbn [uuid4] in Hcreated.
  bind_inv_as Hcreated nd Hnd. injection Hcreated as <- <- <- <-.
  assert (Hid : WorkflowGenerator.id nd = WorkflowGenerator.b_supply b 0).
  { destruct (eq_str primary "email"); [injection Hnd as <-; reflexivity |].
    destruct (eq_str primary "slack"); [injection Hnd as <-; reflexivity |].
    destruct (eq_str primary "database"); [| injection Hnd as <-; reflexivity].
    destruct (WorkflowGenerator.database_of requirements) as [[database titled] | e];
      [| discriminate Hnd].
    cbn [bind] in Hnd. injection Hnd as <-. reflexivity. }
  exists 1, [nd]. split; [reflexivity |]. cbn [map seq]. rewrite Hid.
  split; [reflexivity | intros n; reflexivity].
Qed.

Lemma step_logging_draws (complexity : Z) :
  WorkflowGenerator.step_logging requirements complexity b = Ok b' ->
  exists m, draws m b b'.
Proof.
  unfold WorkflowGenerator.step_logging.
  destruct (WorkflowGenerator.flag requirements "needs_logging"
            || Z.ltb 5 complexity);
    [| intros [= <-]; exists 0; apply draws_none].
  unfold WorkflowGenerator.create_logging_node.
  destruct (WorkflowGenerator.database_of requirements) as [[database titled] | e];
    [| discriminate].
  cbn [uuid4 bind]. intros H.
  bind_inv_as H cs Hcs. injection H as <-. drawing 1.
Qed.

Lemma step_notification_draws :
  WorkflowGenerator.step_notification requirements b = Ok b' ->
  exists m, draws m b b'.
Proof.
  unfold WorkflowGenerator.step_notification.
  destruct (WorkflowGenerator.flag requirements "needs_notification");
    [| intros [= <-]; exists 0; apply draws_none].
  unfold WorkflowGenerator.create_notification_nodes. intros H.
  bind_inv_as H created Hcreated.
  destruct created as [[[notif_nodes notif_conns] position] s1].
  bind_inv_as H nd0 Hfirst. bind_inv_as H cs Hcs. injection H as <-.
  bind_inv_as Hcreated slack Hslack. bind_inv_as Hcreated wanted Hwanted.
  destruct wanted; cbn [uuid4] in Hcreated; injection Hcreated as <- <- <- <-;
    [| discriminate Hfirst].
  drawing 1.
Qed.

Lemma step_error_handling_draws :
  WorkflowGenerator.step_error_handling requirements b = Ok b' ->
  exists m, draws m b b'.
Proof.
  unfold WorkflowGenerator.step_error_handling.
  destruct (WorkflowGenerator.flag requirements "needs_error_handling");
    [| intros [= <-]; exists 0; apply draws_none].
  intros H. bind_inv_as H created Hcreated.
  destruct created as [[error_nodes error_conns] s1]. injection H as <-.
  unfold WorkflowGenerator.create_error_workflow in Hcreated.
  run_canned in Hcreated.
  destruct (WorkflowGenerator.flag requirements "needs_error_alerts");
    run_canned in Hcreated; injection Hcreated as <- <- <-;
    [drawing 3 | drawing 2].
Qed.

End StepIds.

Lemma map_seq_shift {A : Type} (f g : nat -> A) (k m : nat) :
  (forall n, f n = g (k + n)) -> map f (seq 0 m) = map g (seq k m).
Proof.
  intros H. revert k f H. induction m as [| m IH]; intros k f H; [reflexivity |].
  cbn [seq map]. rewrite H, Nat.add_0_r. f_equal.
  rewrite <- seq_shift, map_map. apply (IH (S k)).
  intros n. rewrite H. f_equal. lia.
Qed.

Lemma drawn_step (s : supply) (k : nat) (b b' : WorkflowGenerator.build) :
  drawn s k b -> (exists m, draws m b b') -> exists k', drawn s k' b'.
Proof.
  intros (Hs & js & Hids & Hnd & Hlt) (m & new & Hnodes & Hnew & Hs').
  exists (k + m). split.
  - intros n. rewrite Hs', Hs. f_equal. lia.
  - exists (js ++ seq k m). split; [| split].
    + rewrite Hnodes, !map_app, Hids, Hnew. f_equal.
      apply map_seq_shift, Hs.
    + apply NoDup_app; [exact Hnd | apply seq_NoDup |].
      intros j Hj Hj'. apply Hlt in Hj. apply in_seq in Hj'. lia.
    + intros j Hj. apply in_app_or in Hj. destruct Hj as [Hj | Hj].
      * apply Hlt in Hj. lia.
      * apply in_seq in Hj. lia.
Qed.

Lemma fresh_map_NoDup (s : supply) (js : list nat) :
  fresh s -> NoDup js -> NoDup (map s js).
Proof.
  intros Hs. induction 1 as [| j js Hj _ IH]; cbn [map]; constructor;
    [| exact IH].
  intros Hin. apply in_map_iff in Hin. destruct Hin as (j' & E & Hj').
  apply Hs in E. subst j'. exact (Hj Hj').
Qed.

(** X22.  If [uuid4] never returns the same identifier twice, the nodes
    of a graph the builder returns carry pairwise distinct ids. *)
Theorem builder_ids_distinct :
  forall (requirements : dict) (conversation : option string) (s s' : supply)
         (w : WorkflowGenerator.workflow),
    fresh s ->
    WorkflowGenerator.generate requirements conversation s = Ok (w, s') ->
    NoDup (map WorkflowGenerator.id (WorkflowGenerator.w_nodes w)).
Proof.
  intros requirements conversation s s' w Hfresh H.
  unfold WorkflowGenerator.generate in H.
  bind_inv_as H complexity Hc.
  bind_inv_as H b2 H2. bind_inv_as H b3 H3. bind_inv_as H b4 H4.
  bind_inv_as H b5 H5. bind_inv_as H b6 H6. bind_inv_as H b7 H7.
  bind_inv_as H b8 H8. bind_inv_as H b9 H9. bind_inv_as H b10 H10.
  bind_inv_as H workflow_name Hname. injection H as <- _.
  cbn [WorkflowGenerator.w_nodes].
  destruct (step_trigger_drawn requirements s) as (k1 & D1).
  destruct (drawn_step _ _ _ _ D1 (step_auth_draws _ _ _ H2)) as (k2 & D2).
  destruct (drawn_step _ _ _ _ D2 (step_validation_draws _ _ _ H3)) as (k3 & D3).
  destruct (drawn_step _ _ _ _ D3 (step_duplicate_check_draws _ _ _ H4))
    as (k4 & D4).
  destruct (drawn_step _ _ _ _ D4 (step_scoring_draws _ _ _ H5)) as (k5 & D5).
  destruct (drawn_step _ _ _ _ D5 (step_branching_draws _ _ _ _ H6)) as (k6 & D6).
  destruct (drawn_step _ _ _ _ D6 (step_action_draws _ _ _ H7)) as (k7 & D7).
  destruct (drawn_step _ _ _ _ D7 (step_logging_draws _ _ _ _ H8)) as (k8 & D8).
  destruct (drawn_step _ _ _ _ D8 (step_notification_draws _ _ _ H9)) as (k9 & D9).
  destruct (drawn_step _ _ _ _ D9 (step_error_handling_draws _ _ _ H10))
    as (k10 & _ & js & Hids & Hnd & _).
  rewrite Hids. apply fresh_map_NoDup; assumption.
Qed.

Lemma to_uint_nonnil (n : nat) : Nat.to_uint n <> Nil.
Proof.
  rewrite <- (DecimalNat.Unsigned.of_to n) at 1.
  rewrite DecimalNat.Unsigned.to_of. apply DecimalFacts.unorm_nonnil.
Qed.

(** The supply of the scenarios never repeats. *)
Lemma ids_fresh : fresh ids.
Proof.
  intros i j H. unfold ids in H. cbn [String.append] in H.
  injection H as H. unfold str_of_nat in H.
  apply (f_equal NilZero.uint_of_string) in H.
  rewrite !NilZero.usu in H by apply to_uint_nonnil.
  injection H as H. apply DecimalNat.Unsigned.to_uint_inj, H.
Qed.

Lemma builder_ids_distinct_witness :
  exists w s',
    WorkflowGenerator.generate full_requirements None ids = Ok (w, s') /\
    NoDup (map WorkflowGenerator.id (WorkflowGenerator.w_nodes w)).
Proof.
  destruct (WorkflowGenerator.generate full_requirements None ids)
    as [[w s'] | e] eqn:E; [| vm_compute in E; discriminate E].
  exists w, s'. split; [reflexivity |].
  exact (builder_ids_distinct _ _ _ _ _ ids_fresh E).
Defined.

(** ** The repair sequence: what it does not repair *)

Lemma fix_structure_list (raw w2 : dict) (s s2 : supply) (l : list value) :
  QualityValidator.get_nodes raw = VList l ->
  EnhancedWorkflowGenerator.fix_structure raw s = Ok (w2, s2) ->
  exists l2,
    QualityValidator.get_nodes w2 = VList l2
    /\ EnhancedWorkflowGenerator.mapS EnhancedWorkflowGenerator.fix_node l s
       = Ok (l2, s2).
Proof.
  intros Hl H. unfold EnhancedWorkflowGenerator.fix_structure in H.
  cbv zeta in H.
  match type of H with
  | EnhancedWorkflowGenerator.update_nodes _ ?w _ = _ => set (w0 := w) in H
  end.
  assert (N0 : dict_get w0 "nodes" = Some (VList l)).
  { subst w0. rewrite !setdefault_get_other by discriminate.
    rewrite setdefault_get_same.
    unfold dict_get_default. rewrite setdefault_get_other by discriminate.
    unfold QualityValidator.get_nodes, dict_get_default in Hl. rewrite Hl.
    reflexivity. }
  clearbody w0. unfold EnhancedWorkflowGenerator.update_nodes in H.
  rewrite N0 in H. cbn [EnhancedWorkflowGenerator.for_each_node] in H.
  bind_inv_as H p Hp. destruct p as [nodes' s1].
  bind_inv_as Hp q Hq. destruct q as [l2 s0]. injection Hp as <- <-.
  injection H as <- <-. exists l2. split; [| exact Hq].
  unfold QualityValidator.get_nodes, dict_get_default.
  rewrite dict_get_set_same. reflexivity.
Qed.

Lemma Forall2_In_left {A B : Type} (R : A -> B -> Prop) (l : list A)
  (l' : list B) (x : A) :
  Forall2 R l l' -> In x l -> exists y, In y l' /\ R x y.
Proof.
  induction 1 as [| x' y l l' Hxy _ IH]; intros Hx; [destruct Hx |].
  destruct Hx as [<- | Hx].
  - exists y. split; [left; reflexivity | exact Hxy].
  - destruct (IH Hx) as (y' & Hy' & Hr). exists y'.
    split; [right; exact Hy' | exact Hr].
Qed.

Lemma mapM_In {A B : Type} (f : A -> result B) (l : list A) (ys : list B)
  (x : A) :
  mapM f l = Ok ys -> In x l -> exists y, f x = Ok y.
Proof.
  revert ys. induction l as [| a l IH]; intros ys H Hx; [destruct Hx |].
  simpl in H. bind_inv_as H y Hy. bind_inv_as H rest Hrest.
  destruct Hx as [<- | Hx]; [exists y; exact Hy | exact (IH _ Hrest Hx)].
Qed.

(** [validate_node] on a node of a registered type that asks for
    parameters, whose parameters cannot be searched. *)
Lemma validate_node_unusable_parameters (d : dict) (t : string)
  (sch : NodeSchemas.schema) (v : value) :
  dict_get d "type" = Some (VStr t) ->
  assoc NodeSchemas.schemas t = Some sch ->
  NodeSchemas.required sch <> [] ->
  dict_get d "parameters" = Some v ->
  not_a_container v = true ->
  NodeSchemas.validate_node (VDict d) = Raise TypeError.
Proof.
  intros Ht Hs Hreq Hp Hv. unfold NodeSchemas.validate_node.
  cbn [py_get]. unfold dict_get_default. rewrite Ht, Hp. cbn [bind].
  change (NodeSchemas.schemas_get (VStr t))
    with (Ok (A:=option NodeSchemas.schema) (assoc NodeSchemas.schemas t)).
  rewrite Hs. cbn [bind].
  destruct (NodeSchemas.required sch) as [| r rs]; [congruence |].
  unfold NodeSchemas.missing_required. cbn [foldM].
  destruct v; try discriminate Hv; reflexivity.
Qed.

(** X23.  A candidate is not repaired when one of its nodes has a
    registered type that asks for parameters and a [parameters] entry
    that is [None], a boolean or a number.  The entry being there, the
    structural pass leaves it alone, and the parameter pass raises: the
    repair sequence does not return. *)
Theorem repair_raises_on_unusable_parameters :
  forall (raw : dict) (complexity : string) (s : supply)
         (l : list value) (d : dict) (t : string) (sch : NodeSchemas.schema)
         (v : value),
    QualityValidator.get_nodes raw = VList l ->
    In (VDict d) l ->
    dict_get d "type" = Some (VStr t) ->
    assoc NodeSchemas.schemas t = Some sch ->
    NodeSchemas.required sch <> [] ->
    dict_get d "parameters" = Some v ->
    not_a_container v = true ->
    exists e,
      EnhancedWorkflowGenerator.validate_and_refine raw complexity s = Raise e.
Proof.
  intros raw complexity s l d t sch v Hl Hd Ht Hs Hreq Hp Hv.
  destruct (EnhancedWorkflowGenerator.validate_and_refine raw complexity s)
    as [[w' s'] | e] eqn:H; [exfalso | exists e; reflexivity].
  unfold EnhancedWorkflowGenerator.validate_and_refine in H.
  bind_inv_as H p2 H2. destruct p2 as [w2 s2]. bind_inv_as H w3 H3.
  clear H.
  destruct (fix_structure_list _ _ _ _ _ Hl H2) as (l2 & Hl2 & M2).
  assert (F : Forall2 (fun a b => exists s1 s1',
                           EnhancedWorkflowGenerator.fix_node a s1 = Ok (b, s1'))
                      l l2).
  { eapply mapS_Forall2; [| exact M2].
    intros x s1 y s1' Hf. exists s1, s1'. exact Hf. }
  destruct (Forall2_In_left _ _ _ _ F Hd) as (n2 & Hn2 & s1 & s1' & Hfix).
  apply fix_node_dict in Hfix. destruct Hfix as (d2 & -> & Hfills & _).
  unfold EnhancedWorkflowGenerator.fix_parameters in H3. rewrite Hl2 in H3.
  cbn [py_iter bind] in H3. bind_inv_as H3 reports Hreports.
  destruct (mapM_In _ _ _ _ Hreports Hn2) as (r & Hr).
  rewrite (validate_node_unusable_parameters d2 t sch v) in Hr;
    try assumption; [discriminate Hr | |].
  - rewrite (fills_other _ _ _ "type" Hfills); [exact Ht |].
    unfold node_keys. simpl. intros [E | [E | [E | [E | []]]]]; discriminate E.
  - destruct (Hfills "parameters") as [E | (_ & E)];
      [rewrite E; exact Hp | rewrite Hp in E; discriminate E].
Qed.

Lemma repair_raises_on_unusable_parameters_witness :
  exists e,
    EnhancedWorkflowGenerator.validate_and_refine null_parameters_candidate
      "standard" ids = Raise e.
Proof.
  eapply (repair_raises_on_unusable_parameters null_parameters_candidate
            "standard" ids _ _ "n8n-nodes-base.openAi" _ VNone).
  - reflexivity.
  - left. reflexivity.
  - reflexivity.
  - reflexivity.
  - discriminate.
  - reflexivity.
  - reflexivity.
Defined.

(** The run of the loop that meets such a candidate ends there. *)
Example null_parameters_end_the_run :
  EnhancedWorkflowGenerator.generate
    (constant_collaborator null_parameters_candidate) "standard" "prompt" ids
  = Raise TypeError.
Proof. vm_compute. reflexivity. Qed.
